(** * BenbenPainterQT6: the selection transform and compositing engine

    A shallow embedding of [selection_tools.py] ([BaseSelectTool],
    [RectSelectTool], [EllipseSelectTool], [ImprovedPolygonSelectTool]),
    of [base_tool.py] ([BaseTool]) and of the parts of [controller.py]
    the selection tools call ([draw_on_active_layer], [save_to_history],
    the [status_updated] signal) or that work on the same layers and
    history ([undo], [redo], the layer operations), followed by the
    properties of the specification that concern them.

    Conventions of the embedding.
    - Python [float]s are idealised as exact rationals ([Q]); the C math
      library ([math.sqrt], [math.atan2], [math.degrees], and the sine and
      cosine behind [QTransform.rotate]) is a parameter ([Libm]): every
      theorem holds whatever these functions return.  Where rounding
      decides, as for the remainder that bounds the rotation angle, the
      arithmetic is given once more in binary64 ([Float64]).
    - Pointer positions reach the tools as [image_pos]; every handler starts
      with [x, y = int(image_pos.x()), int(image_pos.y())], so events carry
      the two integers.  Every [QPointF] the tools store afterwards is built
      from such integers, and is modelled with integer coordinates.
    - Qt's rasteriser (ellipse and polygon filling, smooth rescaling, blits
      under a rotation or a scale) is a parameter ([Raster]); blits under
      the identity transform are modelled exactly.
    - The canvas widget (repaint requests, cursor shape) is outside the
      model. *)

From Stdlib Require Import ZArith QArith Qround Qabs List Bool Lia Lqa.
From Stdlib Require String.
Import ListNotations.
Local Open Scope Z_scope.

(** ** Python values *)

Module Py.

(** [min(a, b)] and [max(a, b)] of Python: the first argument unless the
    second is strictly smaller (larger). *)
Definition Qltb (a b : Q) : bool := negb (Qle_bool b a).

Definition min (a b : Q) : Q := if Qltb b a then b else a.
Definition max (a b : Q) : Q := if Qltb a b then b else a.

(** [a % b] on numbers, for a positive [b]: the result has the sign of
    [b]. *)
Definition mod_ (a b : Q) : Q := (a - b * inject_Z (Qfloor (a / b)))%Q.

(** [int(q)]: truncation toward zero. *)
Definition int (q : Q) : Z := Z.quot (Qnum q) (Zpos (Qden q)).

(** [l[i]]: a negative index counts from the end; [None] stands for
    [IndexError]. *)
Definition getitem {A} (l : list A) (i : Z) : option A :=
  let n := Z.of_nat (length l) in
  if (0 <=? i) && (i <? n) then nth_error l (Z.to_nat i)
  else if (- n <=? i) && (i <? 0) then nth_error l (Z.to_nat (n + i))
  else None.

(** [deque(maxlen=n).append(x)]: the oldest entry (the head) is dropped
    once the deque is full. *)
Definition deque_append {A} (maxlen : nat) (l : list A) (x : A) : list A :=
  let l' := l ++ [x] in
  if Nat.ltb maxlen (length l') then tl l' else l'.

(** [deque.pop()]: the newest entry. *)
Definition deque_last {A} (l : list A) : option A :=
  nth_error l (pred (length l)).

End Py.

(** ** The C math library, as the tools use it *)

Class Libm : Type := {
  sqrt    : Q -> Q;        (* math.sqrt *)
  atan2   : Q -> Q -> Q;   (* math.atan2(y, x) *)
  degrees : Q -> Q;        (* math.degrees *)
  sin_deg : Q -> Q;        (* qSin(qDegreesToRadians(a)) in QTransform::rotate *)
  cos_deg : Q -> Q         (* qCos(qDegreesToRadians(a)) *)
}.

(** ** Qt value types *)

Module Qt.

Record QPoint := mkQPoint { pt_x : Z; pt_y : Z }.
Record QPointF := mkQPointF { ptf_x : Q; ptf_y : Q }.
Record QSize := mkQSize { sz_w : Z; sz_h : Z }.

Definition QPointF_of (p : QPoint) : QPointF :=
  mkQPointF (inject_Z (pt_x p)) (inject_Z (pt_y p)).

(** [QPoint.__bool__] and [QPointF.__bool__] of PyQt: [not isNull()]. *)
Definition point_bool (p : QPoint) : bool :=
  negb ((pt_x p =? 0) && (pt_y p =? 0)).

Definition QPoint_eqb (p q : QPoint) : bool :=
  (pt_x p =? pt_x q) && (pt_y p =? pt_y q).

(** [QRect] stores its two corners, both inclusive. *)
Record QRect := mkQRect { x1 : Z; y1 : Z; x2 : Z; y2 : Z }.

Definition QRect_xywh (x y w h : Z) : QRect :=
  mkQRect x y (x + w - 1) (y + h - 1).

Definition left (r : QRect) := x1 r.
Definition top (r : QRect) := y1 r.
Definition right (r : QRect) := x2 r.
Definition bottom (r : QRect) := y2 r.
Definition x (r : QRect) := x1 r.
Definition y (r : QRect) := y1 r.
Definition width (r : QRect) := x2 r - x1 r + 1.
Definition height (r : QRect) := y2 r - y1 r + 1.
Definition size (r : QRect) : QSize := mkQSize (width r) (height r).
Definition topLeft (r : QRect) : QPoint := mkQPoint (x1 r) (y1 r).

Definition setLeft (p : Z) (r : QRect) := mkQRect p (y1 r) (x2 r) (y2 r).
Definition setTop (p : Z) (r : QRect) := mkQRect (x1 r) p (x2 r) (y2 r).
Definition setRight (p : Z) (r : QRect) := mkQRect (x1 r) (y1 r) p (y2 r).
Definition setBottom (p : Z) (r : QRect) := mkQRect (x1 r) (y1 r) (x2 r) p.
Definition setWidth (w : Z) (r : QRect) :=
  mkQRect (x1 r) (y1 r) (x1 r + w - 1) (y2 r).
Definition setHeight (h : Z) (r : QRect) :=
  mkQRect (x1 r) (y1 r) (x2 r) (y1 r + h - 1).

Definition translate (dx dy : Z) (r : QRect) :=
  mkQRect (x1 r + dx) (y1 r + dy) (x2 r + dx) (y2 r + dy).

Definition adjusted (dx1 dy1 dx2 dy2 : Z) (r : QRect) :=
  mkQRect (x1 r + dx1) (y1 r + dy1) (x2 r + dx2) (y2 r + dy2).

(** [QRect::center]: the sums are halved by C++ integer division. *)
Definition center (r : QRect) : QPoint :=
  mkQPoint (Z.quot (x1 r + x2 r) 2) (Z.quot (y1 r + y2 r) 2).

Definition isValid (r : QRect) : bool := (x1 r <=? x2 r) && (y1 r <=? y2 r).

(** [QRect::normalized]: a negative extent swaps the two corners. *)
Definition normalized (r : QRect) : QRect :=
  let '(a1, a2) := if x2 r <? x1 r - 1 then (x2 r + 1, x1 r - 1)
                   else (x1 r, x2 r) in
  let '(b1, b2) := if y2 r <? y1 r - 1 then (y2 r + 1, y1 r - 1)
                   else (y1 r, y2 r) in
  mkQRect a1 b1 a2 b2.

(** [QRect::contains(x, y)] (not proper). *)
Definition contains (r : QRect) (px py : Z) : bool :=
  let '(l, rr) := if x2 r <? x1 r - 1 then (x2 r, x1 r) else (x1 r, x2 r) in
  let '(t, b) := if y2 r <? y1 r - 1 then (y2 r, y1 r) else (y1 r, y2 r) in
  negb ((px <? l) || (rr <? px)) && negb ((py <? t) || (b <? py)).

(** [QRect.__bool__] of PyQt: [isValid()]. *)
Definition rect_bool (r : QRect) : bool := isValid r.

(** *** Colours and images *)

Record QColor := mkQColor { red : Z; green : Z; blue : Z; alpha : Z }.

Definition transparent : QColor := mkQColor 0 0 0 0.
Definition white : QColor := mkQColor 255 255 255 255.

Definition QColor_eqb (c d : QColor) : bool :=
  (red c =? red d) && (green c =? green d) && (blue c =? blue d)
  && (alpha c =? alpha d).

(** A [Format_ARGB32] image: its size and its pixels.  Only the pixels
    within the size are meaningful. *)
Record QImage := mkQImage {
  img_w : Z;
  img_h : Z;
  pixel : Z -> Z -> QColor
}.

Definition img_size (i : QImage) : QSize := mkQSize (img_w i) (img_h i).

(** [QImage(size, Format_ARGB32)] followed by [fill(c)]. *)
Definition filled (s : QSize) (c : QColor) : QImage :=
  mkQImage (sz_w s) (sz_h s) (fun _ _ => c).

Definition QSize_eqb (s t : QSize) : bool :=
  (sz_w s =? sz_w t) && (sz_h s =? sz_h t).

(** [QImage.scaled(size, IgnoreAspectRatio, SmoothTransformation)] hands
    back the image itself when the size is its own; otherwise the pixels
    come from the rasteriser. *)
Definition scaled (resample : QImage -> QSize -> Z -> Z -> QColor)
    (i : QImage) (s : QSize) : QImage :=
  if QSize_eqb s (img_size i) then i
  else mkQImage (sz_w s) (sz_h s) (resample i s).

Definition in_image (i : QImage) (px py : Z) : bool :=
  (0 <=? px) && (px <? img_w i) && (0 <=? py) && (py <? img_h i).

(** *** Affine transforms *)

Local Open Scope Q_scope.

Record QTransform := mkQTransform {
  m11 : Q; m12 : Q; m21 : Q; m22 : Q; m31 : Q; m32 : Q
}.

Definition QTransform_id : QTransform := mkQTransform 1 0 0 1 0 0.

(** [QTransform::translate], [scale] and [rotate] multiply on the left:
    the operation named last is applied to a point first. *)
Definition tr_translate (tx ty : Q) (t : QTransform) : QTransform :=
  mkQTransform (m11 t) (m12 t) (m21 t) (m22 t)
    (m31 t + tx * m11 t + ty * m21 t) (m32 t + ty * m22 t + tx * m12 t).

Definition tr_scale (sx sy : Q) (t : QTransform) : QTransform :=
  mkQTransform (m11 t * sx) (m12 t * sx) (m21 t * sy) (m22 t * sy)
    (m31 t) (m32 t).

(** Degrees, clockwise on the screen; the right angles are exact. *)
Definition tr_rotate {L : Libm} (a : Q) (t : QTransform) : QTransform :=
  if Qeq_bool a 0 then t
  else
    let '(sina, cosa) :=
      if Qeq_bool a 90 || Qeq_bool a (-270) then (1, 0)
      else if Qeq_bool a 270 || Qeq_bool a (-90) then (-(1), 0)
      else if Qeq_bool a 180 then (0, -(1))
      else (sin_deg a, cos_deg a) in
    mkQTransform (cosa * m11 t + sina * m21 t) (cosa * m12 t + sina * m22 t)
      (- sina * m11 t + cosa * m21 t) (- sina * m12 t + cosa * m22 t)
      (m31 t) (m32 t).

Definition tr_map (t : QTransform) (p : QPointF) : QPointF :=
  mkQPointF (m11 t * ptf_x p + m21 t * ptf_y p + m31 t)
            (m12 t * ptf_x p + m22 t * ptf_y p + m32 t).

Definition tr_isIdentity (t : QTransform) : bool :=
  Qeq_bool (m11 t) 1 && Qeq_bool (m12 t) 0 && Qeq_bool (m21 t) 0
  && Qeq_bool (m22 t) 1 && Qeq_bool (m31 t) 0 && Qeq_bool (m32 t) 0.

(** *** Polygons *)

(** [qFuzzyCompare] on two [qreal]s. *)
Definition qFuzzyCompare (a b : Q) : bool :=
  Qle_bool (Qabs (a - b) * 1000000000000)
           (if Qle_bool (Qabs a) (Qabs b) then Qabs a else Qabs b).

Definition qFuzzyIsNull (a : Q) : bool := Qle_bool (Qabs a) (1 # 1000000000000).

(** [operator==] on [QPointF]. *)
Definition QPointF_eqb (p q : QPointF) : bool :=
  let cmp a b :=
    if Qeq_bool a 0 || Qeq_bool b 0 then qFuzzyIsNull (a - b)
    else qFuzzyCompare a b in
  cmp (ptf_x p) (ptf_x q) && cmp (ptf_y p) (ptf_y q).

(** [QPolygonF(QRectF(r))]: the four corners of the rectangle's extent and
    the first corner again. *)
Definition polygon_of_rect (r : QRect) : list QPointF :=
  let l := inject_Z (x1 r) in
  let t := inject_Z (y1 r) in
  let rr := inject_Z (x1 r + width r)%Z in
  let b := inject_Z (y1 r + height r)%Z in
  [mkQPointF l t; mkQPointF rr t; mkQPointF rr b; mkQPointF l b; mkQPointF l t].

(** [qt_polygon_isect_line]: the contribution of one edge to the winding
    number of [pos]. *)
Definition isect_line (p1 p2 pos : QPointF) : Z :=
  if qFuzzyCompare (ptf_y p1) (ptf_y p2) then 0%Z
  else
    let '(a, b, dir) :=
      if Py.Qltb (ptf_y p2) (ptf_y p1) then (p2, p1, (-1)%Z)
      else (p1, p2, 1%Z) in
    if Qle_bool (ptf_y a) (ptf_y pos) && Py.Qltb (ptf_y pos) (ptf_y b) then
      let xi := ptf_x a + ((ptf_x b - ptf_x a) / (ptf_y b - ptf_y a))
                          * (ptf_y pos - ptf_y a) in
      if Qle_bool xi (ptf_x pos) then dir else 0%Z
    else 0%Z.

Fixpoint winding_from (last : QPointF) (rest : list QPointF) (pos : QPointF)
    : Z * QPointF :=
  match rest with
  | [] => (0%Z, last)
  | e :: rest' =>
      let '(w, final) := winding_from e rest' pos in
      ((isect_line last e pos + w)%Z, final)
  end.

(** [QPolygonF::containsPoint(pt, Qt::OddEvenFill)]. *)
Definition containsPoint (poly : list QPointF) (pt : QPointF) : bool :=
  match poly with
  | [] => false
  | first :: rest =>
      let '(w, last) := winding_from first rest pt in
      let w := if QPointF_eqb last first then w
               else (w + isect_line last first pt)%Z in
      negb (Z.rem w 2 =? 0)%Z
  end.

Local Close Scope Q_scope.

(** *** Painting *)

Inductive CompositionMode :=
| CompositionMode_SourceOver
| CompositionMode_DestinationIn
| CompositionMode_DestinationOut.

Definition div255 (v : Z) : Z := (v + 127) / 255.

Definition with_alpha (c : QColor) (a : Z) : QColor :=
  if a =? 0 then transparent else mkQColor (red c) (green c) (blue c) a.

(** One pixel of source composed onto one pixel of destination.  The
    arithmetic is exact where the coverages are 0 or 255. *)
Definition compose (m : CompositionMode) (src dst : QColor) : QColor :=
  match m with
  | CompositionMode_DestinationIn =>
      with_alpha dst (div255 (alpha dst * alpha src))
  | CompositionMode_DestinationOut =>
      with_alpha dst (div255 (alpha dst * (255 - alpha src)))
  | CompositionMode_SourceOver =>
      let rest := div255 (alpha dst * (255 - alpha src)) in
      let a := alpha src + rest in
      if a =? 0 then transparent
      else
        let ch (s d : Z) := (s * alpha src + d * rest) / a in
        mkQColor (ch (red src) (red dst)) (ch (green src) (green dst))
                 (ch (blue src) (blue dst)) a
  end.

(** What Qt's rasteriser decides. *)
Class Raster : Type := {
  (* pixels filled by drawEllipse(mask.rect()) with a brush and no pen *)
  ellipse_fill : QSize -> Z -> Z -> bool;
  (* pixels filled by drawPolygon(QPolygonF(points)) *)
  polygon_fill : list QPoint -> Z -> Z -> bool;
  (* pixels of an image rescaled to another size *)
  resample : QImage -> QSize -> Z -> Z -> QColor;
  (* the source pixel that drawImage(pos, image) lays on a target pixel
     under a world transform other than the identity; None off the image *)
  warp : QTransform -> QPoint -> QImage -> Z -> Z -> option QColor
}.

(** The state of a [QPainter] open on an image. *)
Record QPainter := mkQPainter {
  device : QImage;
  mode : CompositionMode;
  world : QTransform;
  saved : list (CompositionMode * QTransform)
}.

Definition begin (i : QImage) : QPainter :=
  mkQPainter i CompositionMode_SourceOver QTransform_id [].

Definition setCompositionMode (m : CompositionMode) (p : QPainter) :=
  mkQPainter (device p) m (world p) (saved p).

Definition set_world (t : QTransform) (p : QPainter) :=
  mkQPainter (device p) (mode p) t (saved p).

Definition save (p : QPainter) :=
  mkQPainter (device p) (mode p) (world p) ((mode p, world p) :: saved p).

Definition restore (p : QPainter) :=
  match saved p with
  | [] => p
  | (m, t) :: rest => mkQPainter (device p) m t rest
  end.

Definition p_translate (tx ty : Q) (p : QPainter) :=
  set_world (tr_translate tx ty (world p)) p.
Definition p_rotate {L : Libm} (a : Q) (p : QPainter) :=
  set_world (tr_rotate a (world p)) p.
Definition p_scale (sx sy : Q) (p : QPainter) :=
  set_world (tr_scale sx sy (world p)) p.

(** The source pixel [drawImage(pos, image)] lays on the target pixel
    [(px, py)], if any. *)
Definition source_at {R : Raster} (t : QTransform) (pos : QPoint)
    (i : QImage) (px py : Z) : option QColor :=
  if tr_isIdentity t then
    if in_image i (px - pt_x pos) (py - pt_y pos)
    then Some (pixel i (px - pt_x pos) (py - pt_y pos)) else None
  else warp t pos i px py.

(** [painter.drawImage(pos, image)]. *)
Definition drawImage {R : Raster} (pos : QPoint) (i : QImage) (p : QPainter)
    : QPainter :=
  let d := device p in
  let d' := mkQImage (img_w d) (img_h d) (fun px py =>
              match source_at (world p) pos i px py with
              | Some s => compose (mode p) s (pixel d px py)
              | None => pixel d px py
              end) in
  mkQPainter d' (mode p) (world p) (saved p).

(** [painter.drawImage(target, image, source)] for a target and a source
    rectangle of one size, under the identity transform: the part of the
    source rectangle that lies on the image is copied. *)
Definition drawImage_rect (target : QRect) (i : QImage) (source : QRect)
    (p : QPainter) : QPainter :=
  let d := device p in
  let d' := mkQImage (img_w d) (img_h d) (fun px py =>
              let sx := px - x1 target + x1 source in
              let sy := py - y1 target + y1 source in
              if contains target px py && contains source sx sy
                 && in_image i sx sy
              then compose (mode p) (pixel i sx sy) (pixel d px py)
              else pixel d px py) in
  mkQPainter d' (mode p) (world p) (saved p).


End Qt.

Import Qt.

(** ** The controller ([controller.py]) *)

(** A layer: the dict built by [create_layer]. *)
Record Layer := mkLayer {
  name : String.string;
  image : QImage;
  visible : bool;
  opacity : Z;
  locked : bool
}.

Definition set_image (i : QImage) (l : Layer) : Layer :=
  mkLayer (name l) i (visible l) (opacity l) (locked l).

(** The state of the image adjustments, saved and restored with the
    layers: the original images and the values, by layer index. *)
Record Adjustments := mkAdjustments {
  original_images : list (Z * QImage);
  adjustment_values : list (String.string * Z);
  current_adjustment_type : option String.string
}.

(** An entry of the undo or redo stack. *)
Record Snapshot := mkSnapshot {
  snap_layers : list Layer;
  snap_active : Z;
  snap_adjustments : Adjustments
}.

(** What [temp_pixmap] shows.  The drawing of the dashed outline, of the
    handles and of the hint is not modelled, only which preview it is. *)
Inductive Overlay :=
| Overlay_outline (p q : QPoint)       (* BaseSelectTool._update_preview *)
| Overlay_polygon (n : nat)            (* ImprovedPolygonSelectTool._update_preview *)
| Overlay_floating (r : option QRect). (* _update_selection_preview *)

(** The messages the modelled code hands to [status_updated.emit]. *)
Inductive Status :=
| Status_selection_ready (w h : Z)   (* "选区就绪: {w}x{h} | ..." *)
| Status_selection_cancelled         (* "选区已取消" *)
| Status_operation_cancelled         (* "操作已取消" *)
| Status_layer_locked                (* "图层已锁定，无法绘制" *)
| Status_polygon_first_point         (* "多边形创建中: 已放置第1个点 - ..." *)
| Status_polygon_point (n : nat)     (* "多边形创建中: 已放置第{n}个点 - ..." *)
| Status_polygon_needs_3_to_finish   (* "多边形至少需要3个点才能完成" *)
| Status_polygon_needs_3             (* "多边形至少需要3个点" *)
| Status_polygon_creation_cancelled. (* "多边形创建已取消" *)

Definition MAX_HISTORY : nat := 20.

(** The fields of [PaintController] the selection tools read or write. *)
Record Controller := mkController {
  layers : list Layer;
  active_layer_index : Z;
  current_image : option QImage;  (* the composite shown on the canvas *)
  temp_pixmap : option Overlay;
  undo_stack : list Snapshot;  (* deque(maxlen=MAX_HISTORY), newest last *)
  redo_stack : list Snapshot;
  is_recording : bool;
  is_modified : bool;
  current_operation_saved : bool;  (* _current_operation_saved *)
  pending_update : bool;  (* _pending_update, set by schedule_update *)
  adjustments : Adjustments;
  status_log : list Status  (* what status_updated emitted, oldest first *)
}.

Definition set_layers (v : list Layer) (s : Controller) : Controller :=
  mkController v (active_layer_index s) (current_image s) (temp_pixmap s)
    (undo_stack s) (redo_stack s) (is_recording s) (is_modified s)
    (current_operation_saved s) (pending_update s) (adjustments s)
    (status_log s).
Definition set_temp_pixmap (v : option Overlay) (s : Controller) : Controller :=
  mkController (layers s) (active_layer_index s) (current_image s) v
    (undo_stack s) (redo_stack s) (is_recording s) (is_modified s)
    (current_operation_saved s) (pending_update s) (adjustments s)
    (status_log s).
Definition set_undo_stack (v : list Snapshot) (s : Controller) : Controller :=
  mkController (layers s) (active_layer_index s) (current_image s)
    (temp_pixmap s) v (redo_stack s) (is_recording s) (is_modified s)
    (current_operation_saved s) (pending_update s) (adjustments s)
    (status_log s).
Definition set_redo_stack (v : list Snapshot) (s : Controller) : Controller :=
  mkController (layers s) (active_layer_index s) (current_image s)
    (temp_pixmap s) (undo_stack s) v (is_recording s) (is_modified s)
    (current_operation_saved s) (pending_update s) (adjustments s)
    (status_log s).
Definition set_is_modified (v : bool) (s : Controller) : Controller :=
  mkController (layers s) (active_layer_index s) (current_image s)
    (temp_pixmap s) (undo_stack s) (redo_stack s) (is_recording s) v
    (current_operation_saved s) (pending_update s) (adjustments s)
    (status_log s).
Definition set_current_operation_saved (v : bool) (s : Controller) : Controller :=
  mkController (layers s) (active_layer_index s) (current_image s)
    (temp_pixmap s) (undo_stack s) (redo_stack s) (is_recording s)
    (is_modified s) v (pending_update s) (adjustments s) (status_log s).
Definition set_pending_update (v : bool) (s : Controller) : Controller :=
  mkController (layers s) (active_layer_index s) (current_image s)
    (temp_pixmap s) (undo_stack s) (redo_stack s) (is_recording s)
    (is_modified s) (current_operation_saved s) v (adjustments s)
    (status_log s).
Definition set_status_log (v : list Status) (s : Controller) : Controller :=
  mkController (layers s) (active_layer_index s) (current_image s)
    (temp_pixmap s) (undo_stack s) (redo_stack s) (is_recording s)
    (is_modified s) (current_operation_saved s) (pending_update s)
    (adjustments s) v.

(** [self.status_updated.emit(msg)]. *)
Definition emit (msg : Status) (c : Controller) : Controller :=
  set_status_log (status_log c ++ [msg]) c.

(** [PaintController.save_to_history]: a snapshot of every layer goes on
    the undo stack and the redo stack is emptied. *)
Definition save_to_history (c : Controller) : Controller :=
  if negb (is_recording c) || match layers c with [] => true | _ => false end
  then c
  else
    let state := layers c in
    let c := set_undo_stack
               (Py.deque_append MAX_HISTORY (undo_stack c)
                  (mkSnapshot state (active_layer_index c) (adjustments c)))
               c in
    set_redo_stack [] c.

(** [layers[i] = layer] for an index within the list. *)
Fixpoint list_set {A} (l : list A) (n : nat) (v : A) : list A :=
  match l, n with
  | [], _ => []
  | _ :: r, O => v :: r
  | a :: r, S n' => a :: list_set r n' v
  end.

(** [PaintController.draw_on_active_layer(painter_func, save_history)],
    with [is_batch_start] and [is_batch_end] at their default [False]. *)
Definition draw_on_active_layer (painter_func : QPainter -> QPainter)
    (save_history : bool) (c : Controller) : Controller :=
  let i := active_layer_index c in
  if (i <? 0) || (Z.of_nat (length (layers c)) <=? i) then c
  else
    match nth_error (layers c) (Z.to_nat i) with
    | None => c
    | Some active_layer =>
        if locked active_layer then emit Status_layer_locked c
        else
          let c :=
            if save_history && negb (current_operation_saved c)
            then set_current_operation_saved true (save_to_history c)
            else c in
          let temp_image := image active_layer in
          let painter := painter_func (begin temp_image) in
          let c := set_layers
                     (list_set (layers c) (Z.to_nat i)
                        (set_image (device painter) active_layer)) c in
          let c := set_pending_update true c in
          set_is_modified true c
    end.

(** ** The selection tools ([base_tool.py], [selection_tools.py]) *)

(** The three classes registered by [ToolManager]. *)
Inductive Variant := RectSelectTool | EllipseSelectTool | ImprovedPolygonSelectTool.

(** The keys of [resize_handles]: 'tl', 'tr', 'bl', 'br', 't', 'b', 'l', 'r'. *)
Inductive Handle :=
| h_tl | h_tr | h_bl | h_br | h_t | h_b | h_l | h_r.

(** [tool_state['mouse_button']]: 'left' or 'right'. *)
Inductive MouseButton := left_button | right_button.

(** The fields of a selection tool ([BaseTool.__init__],
    [BaseSelectTool.__init__], [ImprovedPolygonSelectTool.__init__]). *)
Record Tool := mkTool {
  variant : Variant;  (* the class of the tool: which methods are overridden *)
  start_pos : option QPoint;  (* BaseTool *)
  end_pos : option QPoint;
  drawing : bool;
  draw_batch_started : bool;
  mouse_button : option MouseButton;  (* tool_state['mouse_button'] *)
  is_ctrl_pressed : bool;  (* tool_state['is_ctrl_pressed'] *)
  is_shift_pressed : bool;  (* tool_state['is_shift_pressed'] *)
  is_right_button_during_drag : bool;  (* tool_state[...] *)
  selection_rect : option QRect;  (* BaseSelectTool: the selection, untransformed *)
  is_floating : bool;
  selected_content : option QImage;  (* the captured pixels, with alpha *)
  selection_mask : option QImage;
  is_moving : bool;
  is_scaling : bool;
  is_rotating : bool;
  is_resizing : bool;
  resize_handle : option Handle;
  last_mouse_pos : option QPoint;
  original_scale : Q;
  original_angle : Q;
  scale_factor : Q;
  rotation_angle : Q;
  scale_handle_rect : option QRect;
  rotate_handle_rect : option QRect;
  transformed_corners : list QPointF;
  rotate_handle_pos : option QPointF;
  resize_handles : list (Handle * QRect);  (* a dict, in insertion order *)
  destroy_on_other_action : bool;
  points : list QPoint;  (* ImprovedPolygonSelectTool *)
  original_points : list QPoint;  (* relative to the selection rectangle *)
  temp_point : option QPoint;
  is_creating : bool;
  has_first_click : bool
}.

Definition set_start_pos (v : option QPoint) (s : Tool) : Tool :=
  mkTool (variant s) v (end_pos s) (drawing s) (draw_batch_started s)
    (mouse_button s) (is_ctrl_pressed s) (is_shift_pressed s)
    (is_right_button_during_drag s) (selection_rect s) (is_floating s)
    (selected_content s) (selection_mask s) (is_moving s) (is_scaling s)
    (is_rotating s) (is_resizing s) (resize_handle s) (last_mouse_pos s)
    (original_scale s) (original_angle s) (scale_factor s)
    (rotation_angle s) (scale_handle_rect s) (rotate_handle_rect s)
    (transformed_corners s) (rotate_handle_pos s) (resize_handles s)
    (destroy_on_other_action s) (points s) (original_points s)
    (temp_point s) (is_creating s) (has_first_click s).
Definition set_end_pos (v : option QPoint) (s : Tool) : Tool :=
  mkTool (variant s) (start_pos s) v (drawing s) (draw_batch_started s)
    (mouse_button s) (is_ctrl_pressed s) (is_shift_pressed s)
    (is_right_button_during_drag s) (selection_rect s) (is_floating s)
    (selected_content s) (selection_mask s) (is_moving s) (is_scaling s)
    (is_rotating s) (is_resizing s) (resize_handle s) (last_mouse_pos s)
    (original_scale s) (original_angle s) (scale_factor s)
    (rotation_angle s) (scale_handle_rect s) (rotate_handle_rect s)
    (transformed_corners s) (rotate_handle_pos s) (resize_handles s)
    (destroy_on_other_action s) (points s) (original_points s)
    (temp_point s) (is_creating s) (has_first_click s).
Definition set_drawing (v : bool) (s : Tool) : Tool :=
  mkTool (variant s) (start_pos s) (end_pos s) v (draw_batch_started s)
    (mouse_button s) (is_ctrl_pressed s) (is_shift_pressed s)
    (is_right_button_during_drag s) (selection_rect s) (is_floating s)
    (selected_content s) (selection_mask s) (is_moving s) (is_scaling s)
    (is_rotating s) (is_resizing s) (resize_handle s) (last_mouse_pos s)
    (original_scale s) (original_angle s) (scale_factor s)
    (rotation_angle s) (scale_handle_rect s) (rotate_handle_rect s)
    (transformed_corners s) (rotate_handle_pos s) (resize_handles s)
    (destroy_on_other_action s) (points s) (original_points s)
    (temp_point s) (is_creating s) (has_first_click s).
Definition set_draw_batch_started (v : bool) (s : Tool) : Tool :=
  mkTool (variant s) (start_pos s) (end_pos s) (drawing s) v
    (mouse_button s) (is_ctrl_pressed s) (is_shift_pressed s)
    (is_right_button_during_drag s) (selection_rect s) (is_floating s)
    (selected_content s) (selection_mask s) (is_moving s) (is_scaling s)
    (is_rotating s) (is_resizing s) (resize_handle s) (last_mouse_pos s)
    (original_scale s) (original_angle s) (scale_factor s)
    (rotation_angle s) (scale_handle_rect s) (rotate_handle_rect s)
    (transformed_corners s) (rotate_handle_pos s) (resize_handles s)
    (destroy_on_other_action s) (points s) (original_points s)
    (temp_point s) (is_creating s) (has_first_click s).
Definition set_mouse_button (v : option MouseButton) (s : Tool) : Tool :=
  mkTool (variant s) (start_pos s) (end_pos s) (drawing s)
    (draw_batch_started s) v (is_ctrl_pressed s) (is_shift_pressed s)
    (is_right_button_during_drag s) (selection_rect s) (is_floating s)
    (selected_content s) (selection_mask s) (is_moving s) (is_scaling s)
    (is_rotating s) (is_resizing s) (resize_handle s) (last_mouse_pos s)
    (original_scale s) (original_angle s) (scale_factor s)
    (rotation_angle s) (scale_handle_rect s) (rotate_handle_rect s)
    (transformed_corners s) (rotate_handle_pos s) (resize_handles s)
    (destroy_on_other_action s) (points s) (original_points s)
    (temp_point s) (is_creating s) (has_first_click s).
Definition set_is_ctrl_pressed (v : bool) (s : Tool) : Tool :=
  mkTool (variant s) (start_pos s) (end_pos s) (drawing s)
    (draw_batch_started s) (mouse_button s) v (is_shift_pressed s)
    (is_right_button_during_drag s) (selection_rect s) (is_floating s)
    (selected_content s) (selection_mask s) (is_moving s) (is_scaling s)
    (is_rotating s) (is_resizing s) (resize_handle s) (last_mouse_pos s)
    (original_scale s) (original_angle s) (scale_factor s)
    (rotation_angle s) (scale_handle_rect s) (rotate_handle_rect s)
    (transformed_corners s) (rotate_handle_pos s) (resize_handles s)
    (destroy_on_other_action s) (points s) (original_points s)
    (temp_point s) (is_creating s) (has_first_click s).
Definition set_is_shift_pressed (v : bool) (s : Tool) : Tool :=
  mkTool (variant s) (start_pos s) (end_pos s) (drawing s)
    (draw_batch_started s) (mouse_button s) (is_ctrl_pressed s) v
    (is_right_button_during_drag s) (selection_rect s) (is_floating s)
    (selected_content s) (selection_mask s) (is_moving s) (is_scaling s)
    (is_rotating s) (is_resizing s) (resize_handle s) (last_mouse_pos s)
    (original_scale s) (original_angle s) (scale_factor s)
    (rotation_angle s) (scale_handle_rect s) (rotate_handle_rect s)
    (transformed_corners s) (rotate_handle_pos s) (resize_handles s)
    (destroy_on_other_action s) (points s) (original_points s)
    (temp_point s) (is_creating s) (has_first_click s).
Definition set_is_right_button_during_drag (v : bool) (s : Tool) : Tool :=
  mkTool (variant s) (start_pos s) (end_pos s) (drawing s)
    (draw_batch_started s) (mouse_button s) (is_ctrl_pressed s)
    (is_shift_pressed s) v (selection_rect s) (is_floating s)
    (selected_content s) (selection_mask s) (is_moving s) (is_scaling s)
    (is_rotating s) (is_resizing s) (resize_handle s) (last_mouse_pos s)
    (original_scale s) (original_angle s) (scale_factor s)
    (rotation_angle s) (scale_handle_rect s) (rotate_handle_rect s)
    (transformed_corners s) (rotate_handle_pos s) (resize_handles s)
    (destroy_on_other_action s) (points s) (original_points s)
    (temp_point s) (is_creating s) (has_first_click s).
Definition set_selection_rect (v : option QRect) (s : Tool) : Tool :=
  mkTool (variant s) (start_pos s) (end_pos s) (drawing s)
    (draw_batch_started s) (mouse_button s) (is_ctrl_pressed s)
    (is_shift_pressed s) (is_right_button_during_drag s) v (is_floating s)
    (selected_content s) (selection_mask s) (is_moving s) (is_scaling s)
    (is_rotating s) (is_resizing s) (resize_handle s) (last_mouse_pos s)
    (original_scale s) (original_angle s) (scale_factor s)
    (rotation_angle s) (scale_handle_rect s) (rotate_handle_rect s)
    (transformed_corners s) (rotate_handle_pos s) (resize_handles s)
    (destroy_on_other_action s) (points s) (original_points s)
    (temp_point s) (is_creating s) (has_first_click s).
Definition set_is_floating (v : bool) (s : Tool) : Tool :=
  mkTool (variant s) (start_pos s) (end_pos s) (drawing s)
    (draw_batch_started s) (mouse_button s) (is_ctrl_pressed s)
    (is_shift_pressed s) (is_right_button_during_drag s)
    (selection_rect s) v (selected_content s) (selection_mask s)
    (is_moving s) (is_scaling s) (is_rotating s) (is_resizing s)
    (resize_handle s) (last_mouse_pos s) (original_scale s)
    (original_angle s) (scale_factor s) (rotation_angle s)
    (scale_handle_rect s) (rotate_handle_rect s) (transformed_corners s)
    (rotate_handle_pos s) (resize_handles s) (destroy_on_other_action s)
    (points s) (original_points s) (temp_point s) (is_creating s)
    (has_first_click s).
Definition set_selected_content (v : option QImage) (s : Tool) : Tool :=
  mkTool (variant s) (start_pos s) (end_pos s) (drawing s)
    (draw_batch_started s) (mouse_button s) (is_ctrl_pressed s)
    (is_shift_pressed s) (is_right_button_during_drag s) (selection_rect s)
    (is_floating s) v (selection_mask s) (is_moving s) (is_scaling s)
    (is_rotating s) (is_resizing s) (resize_handle s) (last_mouse_pos s)
    (original_scale s) (original_angle s) (scale_factor s)
    (rotation_angle s) (scale_handle_rect s) (rotate_handle_rect s)
    (transformed_corners s) (rotate_handle_pos s) (resize_handles s)
    (destroy_on_other_action s) (points s) (original_points s)
    (temp_point s) (is_creating s) (has_first_click s).
Definition set_selection_mask (v : option QImage) (s : Tool) : Tool :=
  mkTool (variant s) (start_pos s) (end_pos s) (drawing s)
    (draw_batch_started s) (mouse_button s) (is_ctrl_pressed s)
    (is_shift_pressed s) (is_right_button_during_drag s) (selection_rect s)
    (is_floating s) (selected_content s) v (is_moving s) (is_scaling s)
    (is_rotating s) (is_resizing s) (resize_handle s) (last_mouse_pos s)
    (original_scale s) (original_angle s) (scale_factor s)
    (rotation_angle s) (scale_handle_rect s) (rotate_handle_rect s)
    (transformed_corners s) (rotate_handle_pos s) (resize_handles s)
    (destroy_on_other_action s) (points s) (original_points s)
    (temp_point s) (is_creating s) (has_first_click s).
Definition set_is_moving (v : bool) (s : Tool) : Tool :=
  mkTool (variant s) (start_pos s) (end_pos s) (drawing s)
    (draw_batch_started s) (mouse_button s) (is_ctrl_pressed s)
    (is_shift_pressed s) (is_right_button_during_drag s) (selection_rect s)
    (is_floating s) (selected_content s) (selection_mask s) v (is_scaling s)
    (is_rotating s) (is_resizing s) (resize_handle s) (last_mouse_pos s)
    (original_scale s) (original_angle s) (scale_factor s)
    (rotation_angle s) (scale_handle_rect s) (rotate_handle_rect s)
    (transformed_corners s) (rotate_handle_pos s) (resize_handles s)
    (destroy_on_other_action s) (points s) (original_points s)
    (temp_point s) (is_creating s) (has_first_click s).
Definition set_is_scaling (v : bool) (s : Tool) : Tool :=
  mkTool (variant s) (start_pos s) (end_pos s) (drawing s)
    (draw_batch_started s) (mouse_button s) (is_ctrl_pressed s)
    (is_shift_pressed s) (is_right_button_during_drag s) (selection_rect s)
    (is_floating s) (selected_content s) (selection_mask s) (is_moving s) v
    (is_rotating s) (is_resizing s) (resize_handle s) (last_mouse_pos s)
    (original_scale s) (original_angle s) (scale_factor s)
    (rotation_angle s) (scale_handle_rect s) (rotate_handle_rect s)
    (transformed_corners s) (rotate_handle_pos s) (resize_handles s)
    (destroy_on_other_action s) (points s) (original_points s)
    (temp_point s) (is_creating s) (has_first_click s).
Definition set_is_rotating (v : bool) (s : Tool) : Tool :=
  mkTool (variant s) (start_pos s) (end_pos s) (drawing s)
    (draw_batch_started s) (mouse_button s) (is_ctrl_pressed s)
    (is_shift_pressed s) (is_right_button_during_drag s) (selection_rect s)
    (is_floating s) (selected_content s) (selection_mask s) (is_moving s)
    (is_scaling s) v (is_resizing s) (resize_handle s) (last_mouse_pos s)
    (original_scale s) (original_angle s) (scale_factor s)
    (rotation_angle s) (scale_handle_rect s) (rotate_handle_rect s)
    (transformed_corners s) (rotate_handle_pos s) (resize_handles s)
    (destroy_on_other_action s) (points s) (original_points s)
    (temp_point s) (is_creating s) (has_first_click s).
Definition set_is_resizing (v : bool) (s : Tool) : Tool :=
  mkTool (variant s) (start_pos s) (end_pos s) (drawing s)
    (draw_batch_started s) (mouse_button s) (is_ctrl_pressed s)
    (is_shift_pressed s) (is_right_button_during_drag s) (selection_rect s)
    (is_floating s) (selected_content s) (selection_mask s) (is_moving s)
    (is_scaling s) (is_rotating s) v (resize_handle s) (last_mouse_pos s)
    (original_scale s) (original_angle s) (scale_factor s)
    (rotation_angle s) (scale_handle_rect s) (rotate_handle_rect s)
    (transformed_corners s) (rotate_handle_pos s) (resize_handles s)
    (destroy_on_other_action s) (points s) (original_points s)
    (temp_point s) (is_creating s) (has_first_click s).
Definition set_resize_handle (v : option Handle) (s : Tool) : Tool :=
  mkTool (variant s) (start_pos s) (end_pos s) (drawing s)
    (draw_batch_started s) (mouse_button s) (is_ctrl_pressed s)
    (is_shift_pressed s) (is_right_button_during_drag s) (selection_rect s)
    (is_floating s) (selected_content s) (selection_mask s) (is_moving s)
    (is_scaling s) (is_rotating s) (is_resizing s) v (last_mouse_pos s)
    (original_scale s) (original_angle s) (scale_factor s)
    (rotation_angle s) (scale_handle_rect s) (rotate_handle_rect s)
    (transformed_corners s) (rotate_handle_pos s) (resize_handles s)
    (destroy_on_other_action s) (points s) (original_points s)
    (temp_point s) (is_creating s) (has_first_click s).
Definition set_last_mouse_pos (v : option QPoint) (s : Tool) : Tool :=
  mkTool (variant s) (start_pos s) (end_pos s) (drawing s)
    (draw_batch_started s) (mouse_button s) (is_ctrl_pressed s)
    (is_shift_pressed s) (is_right_button_during_drag s) (selection_rect s)
    (is_floating s) (selected_content s) (selection_mask s) (is_moving s)
    (is_scaling s) (is_rotating s) (is_resizing s) (resize_handle s) v
    (original_scale s) (original_angle s) (scale_factor s)
    (rotation_angle s) (scale_handle_rect s) (rotate_handle_rect s)
    (transformed_corners s) (rotate_handle_pos s) (resize_handles s)
    (destroy_on_other_action s) (points s) (original_points s)
    (temp_point s) (is_creating s) (has_first_click s).
Definition set_original_scale (v : Q) (s : Tool) : Tool :=
  mkTool (variant s) (start_pos s) (end_pos s) (drawing s)
    (draw_batch_started s) (mouse_button s) (is_ctrl_pressed s)
    (is_shift_pressed s) (is_right_button_during_drag s) (selection_rect s)
    (is_floating s) (selected_content s) (selection_mask s) (is_moving s)
    (is_scaling s) (is_rotating s) (is_resizing s) (resize_handle s)
    (last_mouse_pos s) v (original_angle s) (scale_factor s)
    (rotation_angle s) (scale_handle_rect s) (rotate_handle_rect s)
    (transformed_corners s) (rotate_handle_pos s) (resize_handles s)
    (destroy_on_other_action s) (points s) (original_points s)
    (temp_point s) (is_creating s) (has_first_click s).
Definition set_original_angle (v : Q) (s : Tool) : Tool :=
  mkTool (variant s) (start_pos s) (end_pos s) (drawing s)
    (draw_batch_started s) (mouse_button s) (is_ctrl_pressed s)
    (is_shift_pressed s) (is_right_button_during_drag s) (selection_rect s)
    (is_floating s) (selected_content s) (selection_mask s) (is_moving s)
    (is_scaling s) (is_rotating s) (is_resizing s) (resize_handle s)
    (last_mouse_pos s) (original_scale s) v (scale_factor s)
    (rotation_angle s) (scale_handle_rect s) (rotate_handle_rect s)
    (transformed_corners s) (rotate_handle_pos s) (resize_handles s)
    (destroy_on_other_action s) (points s) (original_points s)
    (temp_point s) (is_creating s) (has_first_click s).
Definition set_scale_factor (v : Q) (s : Tool) : Tool :=
  mkTool (variant s) (start_pos s) (end_pos s) (drawing s)
    (draw_batch_started s) (mouse_button s) (is_ctrl_pressed s)
    (is_shift_pressed s) (is_right_button_during_drag s) (selection_rect s)
    (is_floating s) (selected_content s) (selection_mask s) (is_moving s)
    (is_scaling s) (is_rotating s) (is_resizing s) (resize_handle s)
    (last_mouse_pos s) (original_scale s) (original_angle s) v
    (rotation_angle s) (scale_handle_rect s) (rotate_handle_rect s)
    (transformed_corners s) (rotate_handle_pos s) (resize_handles s)
    (destroy_on_other_action s) (points s) (original_points s)
    (temp_point s) (is_creating s) (has_first_click s).
Definition set_rotation_angle (v : Q) (s : Tool) : Tool :=
  mkTool (variant s) (start_pos s) (end_pos s) (drawing s)
    (draw_batch_started s) (mouse_button s) (is_ctrl_pressed s)
    (is_shift_pressed s) (is_right_button_during_drag s) (selection_rect s)
    (is_floating s) (selected_content s) (selection_mask s) (is_moving s)
    (is_scaling s) (is_rotating s) (is_resizing s) (resize_handle s)
    (last_mouse_pos s) (original_scale s) (original_angle s)
    (scale_factor s) v (scale_handle_rect s) (rotate_handle_rect s)
    (transformed_corners s) (rotate_handle_pos s) (resize_handles s)
    (destroy_on_other_action s) (points s) (original_points s)
    (temp_point s) (is_creating s) (has_first_click s).
Definition set_scale_handle_rect (v : option QRect) (s : Tool) : Tool :=
  mkTool (variant s) (start_pos s) (end_pos s) (drawing s)
    (draw_batch_started s) (mouse_button s) (is_ctrl_pressed s)
    (is_shift_pressed s) (is_right_button_during_drag s) (selection_rect s)
    (is_floating s) (selected_content s) (selection_mask s) (is_moving s)
    (is_scaling s) (is_rotating s) (is_resizing s) (resize_handle s)
    (last_mouse_pos s) (original_scale s) (original_angle s)
    (scale_factor s) (rotation_angle s) v (rotate_handle_rect s)
    (transformed_corners s) (rotate_handle_pos s) (resize_handles s)
    (destroy_on_other_action s) (points s) (original_points s)
    (temp_point s) (is_creating s) (has_first_click s).
Definition set_rotate_handle_rect (v : option QRect) (s : Tool) : Tool :=
  mkTool (variant s) (start_pos s) (end_pos s) (drawing s)
    (draw_batch_started s) (mouse_button s) (is_ctrl_pressed s)
    (is_shift_pressed s) (is_right_button_during_drag s) (selection_rect s)
    (is_floating s) (selected_content s) (selection_mask s) (is_moving s)
    (is_scaling s) (is_rotating s) (is_resizing s) (resize_handle s)
    (last_mouse_pos s) (original_scale s) (original_angle s)
    (scale_factor s) (rotation_angle s) (scale_handle_rect s) v
    (transformed_corners s) (rotate_handle_pos s) (resize_handles s)
    (destroy_on_other_action s) (points s) (original_points s)
    (temp_point s) (is_creating s) (has_first_click s).
Definition set_transformed_corners (v : list QPointF) (s : Tool) : Tool :=
  mkTool (variant s) (start_pos s) (end_pos s) (drawing s)
    (draw_batch_started s) (mouse_button s) (is_ctrl_pressed s)
    (is_shift_pressed s) (is_right_button_during_drag s) (selection_rect s)
    (is_floating s) (selected_content s) (selection_mask s) (is_moving s)
    (is_scaling s) (is_rotating s) (is_resizing s) (resize_handle s)
    (last_mouse_pos s) (original_scale s) (original_angle s)
    (scale_factor s) (rotation_angle s) (scale_handle_rect s)
    (rotate_handle_rect s) v (rotate_handle_pos s) (resize_handles s)
    (destroy_on_other_action s) (points s) (original_points s)
    (temp_point s) (is_creating s) (has_first_click s).
Definition set_rotate_handle_pos (v : option QPointF) (s : Tool) : Tool :=
  mkTool (variant s) (start_pos s) (end_pos s) (drawing s)
    (draw_batch_started s) (mouse_button s) (is_ctrl_pressed s)
    (is_shift_pressed s) (is_right_button_during_drag s) (selection_rect s)
    (is_floating s) (selected_content s) (selection_mask s) (is_moving s)
    (is_scaling s) (is_rotating s) (is_resizing s) (resize_handle s)
    (last_mouse_pos s) (original_scale s) (original_angle s)
    (scale_factor s) (rotation_angle s) (scale_handle_rect s)
    (rotate_handle_rect s) (transformed_corners s) v (resize_handles s)
    (destroy_on_other_action s) (points s) (original_points s)
    (temp_point s) (is_creating s) (has_first_click s).
Definition set_resize_handles (v : list (Handle * QRect)) (s : Tool) : Tool :=
  mkTool (variant s) (start_pos s) (end_pos s) (drawing s)
    (draw_batch_started s) (mouse_button s) (is_ctrl_pressed s)
    (is_shift_pressed s) (is_right_button_during_drag s) (selection_rect s)
    (is_floating s) (selected_content s) (selection_mask s) (is_moving s)
    (is_scaling s) (is_rotating s) (is_resizing s) (resize_handle s)
    (last_mouse_pos s) (original_scale s) (original_angle s)
    (scale_factor s) (rotation_angle s) (scale_handle_rect s)
    (rotate_handle_rect s) (transformed_corners s) (rotate_handle_pos s) v
    (destroy_on_other_action s) (points s) (original_points s)
    (temp_point s) (is_creating s) (has_first_click s).
Definition set_destroy_on_other_action (v : bool) (s : Tool) : Tool :=
  mkTool (variant s) (start_pos s) (end_pos s) (drawing s)
    (draw_batch_started s) (mouse_button s) (is_ctrl_pressed s)
    (is_shift_pressed s) (is_right_button_during_drag s) (selection_rect s)
    (is_floating s) (selected_content s) (selection_mask s) (is_moving s)
    (is_scaling s) (is_rotating s) (is_resizing s) (resize_handle s)
    (last_mouse_pos s) (original_scale s) (original_angle s)
    (scale_factor s) (rotation_angle s) (scale_handle_rect s)
    (rotate_handle_rect s) (transformed_corners s) (rotate_handle_pos s)
    (resize_handles s) v (points s) (original_points s) (temp_point s)
    (is_creating s) (has_first_click s).
Definition set_points (v : list QPoint) (s : Tool) : Tool :=
  mkTool (variant s) (start_pos s) (end_pos s) (drawing s)
    (draw_batch_started s) (mouse_button s) (is_ctrl_pressed s)
    (is_shift_pressed s) (is_right_button_during_drag s) (selection_rect s)
    (is_floating s) (selected_content s) (selection_mask s) (is_moving s)
    (is_scaling s) (is_rotating s) (is_resizing s) (resize_handle s)
    (last_mouse_pos s) (original_scale s) (original_angle s)
    (scale_factor s) (rotation_angle s) (scale_handle_rect s)
    (rotate_handle_rect s) (transformed_corners s) (rotate_handle_pos s)
    (resize_handles s) (destroy_on_other_action s) v (original_points s)
    (temp_point s) (is_creating s) (has_first_click s).
Definition set_original_points (v : list QPoint) (s : Tool) : Tool :=
  mkTool (variant s) (start_pos s) (end_pos s) (drawing s)
    (draw_batch_started s) (mouse_button s) (is_ctrl_pressed s)
    (is_shift_pressed s) (is_right_button_during_drag s) (selection_rect s)
    (is_floating s) (selected_content s) (selection_mask s) (is_moving s)
    (is_scaling s) (is_rotating s) (is_resizing s) (resize_handle s)
    (last_mouse_pos s) (original_scale s) (original_angle s)
    (scale_factor s) (rotation_angle s) (scale_handle_rect s)
    (rotate_handle_rect s) (transformed_corners s) (rotate_handle_pos s)
    (resize_handles s) (destroy_on_other_action s) (points s) v
    (temp_point s) (is_creating s) (has_first_click s).
Definition set_temp_point (v : option QPoint) (s : Tool) : Tool :=
  mkTool (variant s) (start_pos s) (end_pos s) (drawing s)
    (draw_batch_started s) (mouse_button s) (is_ctrl_pressed s)
    (is_shift_pressed s) (is_right_button_during_drag s) (selection_rect s)
    (is_floating s) (selected_content s) (selection_mask s) (is_moving s)
    (is_scaling s) (is_rotating s) (is_resizing s) (resize_handle s)
    (last_mouse_pos s) (original_scale s) (original_angle s)
    (scale_factor s) (rotation_angle s) (scale_handle_rect s)
    (rotate_handle_rect s) (transformed_corners s) (rotate_handle_pos s)
    (resize_handles s) (destroy_on_other_action s) (points s)
    (original_points s) v (is_creating s) (has_first_click s).
Definition set_is_creating (v : bool) (s : Tool) : Tool :=
  mkTool (variant s) (start_pos s) (end_pos s) (drawing s)
    (draw_batch_started s) (mouse_button s) (is_ctrl_pressed s)
    (is_shift_pressed s) (is_right_button_during_drag s) (selection_rect s)
    (is_floating s) (selected_content s) (selection_mask s) (is_moving s)
    (is_scaling s) (is_rotating s) (is_resizing s) (resize_handle s)
    (last_mouse_pos s) (original_scale s) (original_angle s)
    (scale_factor s) (rotation_angle s) (scale_handle_rect s)
    (rotate_handle_rect s) (transformed_corners s) (rotate_handle_pos s)
    (resize_handles s) (destroy_on_other_action s) (points s)
    (original_points s) (temp_point s) v (has_first_click s).
Definition set_has_first_click (v : bool) (s : Tool) : Tool :=
  mkTool (variant s) (start_pos s) (end_pos s) (drawing s)
    (draw_batch_started s) (mouse_button s) (is_ctrl_pressed s)
    (is_shift_pressed s) (is_right_button_during_drag s) (selection_rect s)
    (is_floating s) (selected_content s) (selection_mask s) (is_moving s)
    (is_scaling s) (is_rotating s) (is_resizing s) (resize_handle s)
    (last_mouse_pos s) (original_scale s) (original_angle s)
    (scale_factor s) (rotation_angle s) (scale_handle_rect s)
    (rotate_handle_rect s) (transformed_corners s) (rotate_handle_pos s)
    (resize_handles s) (destroy_on_other_action s) (points s)
    (original_points s) (temp_point s) (is_creating s) v.

(** The tool as [__init__] leaves it. *)
Definition new_tool (v : Variant) : Tool :=
  mkTool v None None false false None false false false
    None false None None false false false false None None 1 0 1 0
    None None [] None [] true [] [] None false false.

Definition handle_size : Z := 12.
Definition hot_size : Z := handle_size * 2.

(** The tool and the controller it holds a reference to. *)
Record World := mkWorld { ctl : Controller; tool : Tool }.

Definition T (f : Tool -> Tool) (w : World) : World := mkWorld (ctl w) (f (tool w)).
Definition C (f : Controller -> Controller) (w : World) : World :=
  mkWorld (f (ctl w)) (tool w).

(** A handler returns, or raises [IndexError] part of the way. *)
Inductive Result :=
| Ok (w : World)
| Raised (w : World).

Definition world_of (r : Result) : World :=
  match r with Ok w => w | Raised w => w end.

Definition bind (r : Result) (k : World -> Result) : Result :=
  match r with Ok w => k w | Raised w => Raised w end.

Notation "'do' w <- r ; k" := (bind r (fun w => k))
  (at level 10, w name, r at level 99, k at level 200).

(** *** Events *)

Inductive QtButton := LeftButton | RightButton | MiddleButton | NoButton.

(** A [QMouseEvent]: [button()], [buttons()] and [modifiers()]. *)
Record MouseEvent := mkMouseEvent {
  button : QtButton;
  buttons_left : bool;
  buttons_right : bool;
  mod_ctrl : bool;
  mod_shift : bool
}.

(** The keys [key_press] tells apart, and the others by their code. *)
Inductive Key :=
| Key_Escape | Key_Enter | Key_Return
| Key_Shift | Key_Control | Key_Alt | Key_Meta
| Key_CapsLock | Key_NumLock | Key_ScrollLock
| Key_Left | Key_Right | Key_Up | Key_Down
| Key_PageUp | Key_PageDown | Key_Home | Key_End
| Key_other (code : Z).

Inductive Event :=
| mouse_press_event (ev : MouseEvent) (x y : Z)
| mouse_move_event (ev : MouseEvent) (x y : Z)
| mouse_release_event (ev : MouseEvent) (x y : Z)
| key_press_event (k : Key)
| tool_changed_event
| other_operation_event
| menu_action_event
| toolbar_button_click_event
| set_auto_destroy_event (enabled : bool).

Section Tools.

Context {L : Libm} {R : Raster}.

(** *** BaseTool *)

Definition BaseTool_mouse_press (ev : MouseEvent) (t : Tool) : Tool :=
  let t :=
    match button ev with
    | LeftButton =>
        set_is_right_button_during_drag false
          (set_mouse_button (Some left_button) t)
    | RightButton =>
        set_is_right_button_during_drag true
          (set_mouse_button (Some right_button) t)
    | _ => t
    end in
  let t := set_is_ctrl_pressed (mod_ctrl ev) t in
  let t := set_is_shift_pressed (mod_shift ev) t in
  set_draw_batch_started false t.

Definition BaseTool_mouse_move (ev : MouseEvent) (t : Tool) : Tool :=
  let t :=
    if buttons_right ev then
      set_mouse_button (Some right_button)
        (set_is_right_button_during_drag true t)
    else if buttons_left ev then
      set_mouse_button (Some left_button)
        (set_is_right_button_during_drag false t)
    else t in
  let t := set_is_ctrl_pressed (mod_ctrl ev) t in
  set_is_shift_pressed (mod_shift ev) t.

Definition BaseTool_mouse_release (ev : MouseEvent) (t : Tool) : Tool :=
  let t :=
    match button ev with
    | LeftButton => set_mouse_button (Some left_button) t
    | RightButton => set_mouse_button (Some right_button) t
    | _ => t
    end in
  set_is_right_button_during_drag false t.

Definition reset_states (t : Tool) : Tool :=
  let t := set_mouse_button None t in
  let t := set_is_ctrl_pressed false t in
  let t := set_is_shift_pressed false t in
  let t := set_is_right_button_during_drag false t in
  set_draw_batch_started false t.

Definition BaseTool_cancel (w : World) : World :=
  let w := T (set_drawing false) w in
  let w := T reset_states w in
  let w := C (set_temp_pixmap None) w in
  C (emit Status_operation_cancelled) w.

(** *** BaseSelectTool: leaving the floating state *)

(** [hasattr(self, 'points')]: only the polygon tool has the two lists. *)
Definition has_points (t : Tool) : bool :=
  match variant t with ImprovedPolygonSelectTool => true | _ => false end.

Definition _cancel_selection (w : World) : World :=
  let w := T (set_is_floating false) w in
  let w := T (set_selection_rect None) w in
  let w := T (set_selected_content None) w in
  let w := T (set_selection_mask None) w in
  let w := T (set_scale_factor 1) w in
  let w := T (set_rotation_angle 0) w in
  let w := C (set_temp_pixmap None) w in
  let w := if has_points (tool w)
           then T (set_original_points []) (T (set_points []) w) else w in
  C (emit Status_selection_cancelled) w.

Definition BaseSelectTool_cancel (w : World) : World :=
  _cancel_selection (BaseTool_cancel w).

Definition ImprovedPolygonSelectTool_cancel (w : World) : World :=
  if is_creating (tool w) then
    let w := T (set_is_creating false) w in
    let w := T (set_has_first_click false) w in
    let w := T (set_points []) w in
    let w := T (set_original_points []) w in
    let w := C (set_temp_pixmap None) w in
    C (emit Status_polygon_creation_cancelled) w
  else BaseSelectTool_cancel w.

(** [self.cancel()]. *)
Definition cancel (w : World) : World :=
  match variant (tool w) with
  | ImprovedPolygonSelectTool => ImprovedPolygonSelectTool_cancel w
  | _ => BaseSelectTool_cancel w
  end.

(** *** Truth values of the optional fields *)

Definition pos_bool (p : option QPoint) : bool :=
  match p with Some q => point_bool q | None => false end.

Definition selection_rect_bool (t : Tool) : bool :=
  match selection_rect t with Some r => rect_bool r | None => false end.

(** *** The transform and the handles *)

(** [translate(c); rotate(angle); scale(s, s); translate(-c)], as
    [_update_handles], [_is_point_in_selection], [_draw_transformed_content]
    and [_commit_selection] all build it. *)
Definition about_center (c : QPoint) (angle s : Q) (t : QTransform)
    : QTransform :=
  let cx := inject_Z (pt_x c) in
  let cy := inject_Z (pt_y c) in
  let t := tr_translate cx cy t in
  let t := tr_rotate angle t in
  let t := tr_scale s s t in
  tr_translate (- cx) (- cy) t.

Definition handle_rect (p : QPointF) (side : Z) : QRect :=
  QRect_xywh (Py.int (ptf_x p - inject_Z side / 2))
             (Py.int (ptf_y p - inject_Z side / 2)) side side.

Definition midpoint (p q : QPointF) : QPointF :=
  mkQPointF ((ptf_x p + ptf_x q) / 2) ((ptf_y p + ptf_y q) / 2).

Definition _update_resize_handles (t : Tool) : Tool :=
  match transformed_corners t with
  | [tl; tr; bl; br] =>
      let t_mid := midpoint tl tr in
      let b_mid := midpoint bl br in
      let l_mid := midpoint tl bl in
      let r_mid := midpoint tr br in
      set_resize_handles
        [ (h_tl, handle_rect tl handle_size);
          (h_tr, handle_rect tr handle_size);
          (h_bl, handle_rect bl handle_size);
          (h_br, handle_rect br handle_size);
          (h_t, handle_rect t_mid handle_size);
          (h_b, handle_rect b_mid handle_size);
          (h_l, handle_rect l_mid handle_size);
          (h_r, handle_rect r_mid handle_size) ] t
  | _ => t
  end.

Definition _update_handles (t : Tool) : Tool :=
  match selection_rect t with
  | None => t
  | Some rect =>
      if negb (rect_bool rect) then t
      else
        let center := Qt.center rect in
        let transform :=
          about_center center (rotation_angle t) (scale_factor t)
            QTransform_id in
        let corner (px py : Z) := mkQPointF (inject_Z px) (inject_Z py) in
        let tl := tr_map transform (corner (Qt.left rect) (Qt.top rect)) in
        let tr := tr_map transform (corner (Qt.right rect) (Qt.top rect)) in
        let bl := tr_map transform (corner (Qt.left rect) (Qt.bottom rect)) in
        let br := tr_map transform (corner (Qt.right rect) (Qt.bottom rect)) in
        let t := set_transformed_corners [tl; tr; bl; br] t in
        let t := set_scale_handle_rect (Some (handle_rect br hot_size)) t in
        let offset := (20 * scale_factor t)%Q in
        let dx := (ptf_x tr - inject_Z (pt_x center))%Q in
        let dy := (ptf_y tr - inject_Z (pt_y center))%Q in
        let length := sqrt (dx * dx + dy * dy)%Q in
        let rotate_pos :=
          if Py.Qltb 0 length
          then mkQPointF (ptf_x tr + (dx / length) * offset)%Q
                         (ptf_y tr + (dy / length) * offset)%Q
          else mkQPointF (ptf_x tr + offset)%Q (ptf_y tr - offset)%Q in
        let t := set_rotate_handle_rect
                   (Some (handle_rect rotate_pos hot_size)) t in
        let t := set_rotate_handle_pos (Some rotate_pos) t in
        _update_resize_handles t
  end.

Fixpoint first_handle_at (hs : list (Handle * QRect)) (px py : Z)
    : option Handle :=
  match hs with
  | [] => None
  | (h, rect) :: rest =>
      if Qt.contains (adjusted (-10) (-10) 10 10 rect) px py then Some h
      else first_handle_at rest px py
  end.

Definition _get_resize_handle_at (t : Tool) (px py : Z) : option Handle :=
  first_handle_at (resize_handles t) px py.

Definition BaseSelectTool_is_point_in_selection (t : Tool) (px py : Z)
    : bool :=
  match selection_rect t with
  | None => false
  | Some rect =>
      if negb (rect_bool rect) then false
      else
        let transform :=
          about_center (Qt.center rect) (rotation_angle t) (scale_factor t)
            QTransform_id in
        let polygon := polygon_of_rect rect in
        containsPoint (map (tr_map transform) polygon)
          (mkQPointF (inject_Z px) (inject_Z py))
  end.

(** The override of the polygon tool.  With points but no rectangle the
    source would fail on [None.center()]; the two are set and cleared
    together. *)
Definition ImprovedPolygonSelectTool_is_point_in_selection (t : Tool)
    (px py : Z) : bool :=
  match original_points t, selection_rect t with
  | [], _ => false
  | _, None => false
  | pts, Some rect =>
      let transform :=
        about_center (Qt.center rect) (rotation_angle t) (scale_factor t)
          QTransform_id in
      let poly :=
        map (fun p => mkQPointF (inject_Z (pt_x p + Qt.x rect))
                                (inject_Z (pt_y p + Qt.y rect))) pts in
      containsPoint (map (tr_map transform) poly)
        (mkQPointF (inject_Z px) (inject_Z py))
  end.

Definition _is_point_in_selection (t : Tool) (px py : Z) : bool :=
  match variant t with
  | ImprovedPolygonSelectTool =>
      ImprovedPolygonSelectTool_is_point_in_selection t px py
  | _ => BaseSelectTool_is_point_in_selection t px py
  end.

(** *** Previews *)

(** [BaseSelectTool._update_preview]: the outline being dragged. *)
Definition BaseSelectTool_update_preview (w : World) : World :=
  match current_image (ctl w), start_pos (tool w), end_pos (tool w) with
  | Some _, Some p, Some q =>
      if point_bool p && point_bool q
      then C (set_temp_pixmap (Some (Overlay_outline p q))) w
      else w
  | _, _, _ => w
  end.

Definition ImprovedPolygonSelectTool_update_preview (w : World) : World :=
  match current_image (ctl w) with
  | Some _ =>
      C (set_temp_pixmap
           (Some (Overlay_polygon (List.length (points (tool w)))))) w
  | None => w
  end.

Definition _update_preview (w : World) : World :=
  match variant (tool w) with
  | ImprovedPolygonSelectTool => ImprovedPolygonSelectTool_update_preview w
  | _ => BaseSelectTool_update_preview w
  end.

(** [_draw_selection_frame], for what it leaves in the tool: the handles
    are recomputed when there is a rectangle. *)
Definition _draw_selection_frame (t : Tool) : Tool :=
  if selection_rect_bool t then _update_handles t else t.

Definition BaseSelectTool_update_selection_preview (w : World) : World :=
  match current_image (ctl w) with
  | None => w
  | Some _ =>
      if negb (is_floating (tool w)) then w
      else
        let w := T _draw_selection_frame w in
        C (set_temp_pixmap
             (Some (Overlay_floating (selection_rect (tool w))))) w
  end.

Definition ImprovedPolygonSelectTool_update_selection_preview (w : World)
    : World :=
  match current_image (ctl w) with
  | None => w
  | Some _ =>
      if negb (is_floating (tool w)) && is_creating (tool w)
      then _update_preview w
      else BaseSelectTool_update_selection_preview w
  end.

Definition _update_selection_preview (w : World) : World :=
  match variant (tool w) with
  | ImprovedPolygonSelectTool =>
      ImprovedPolygonSelectTool_update_selection_preview w
  | _ => BaseSelectTool_update_selection_preview w
  end.

(** *** Capture *)

Definition mask_of (s : QSize) (covered : Z -> Z -> bool) : QImage :=
  mkQImage (sz_w s) (sz_h s)
    (fun px py => if covered px py then white else transparent).

(** [_create_selection_mask], of the class of the tool. *)
Definition _create_selection_mask (t : Tool) : option QImage :=
  match selection_rect t with
  | None => None
  | Some rect =>
      if negb (rect_bool rect) then None
      else
        match variant t with
        | RectSelectTool =>
            Some (mask_of (Qt.size rect) (fun _ _ => true))
        | EllipseSelectTool =>
            Some (mask_of (Qt.size rect) (ellipse_fill (Qt.size rect)))
        | ImprovedPolygonSelectTool =>
            match original_points t with
            | [] => None
            | pts => Some (mask_of (Qt.size rect) (polygon_fill pts))
            end
        end
  end.

(** The pixels of the layer under the rectangle, with the mask as their
    alpha. *)
Definition captured (layer_image mask : QImage) (rect : QRect) : QImage :=
  let content := filled (Qt.size rect) transparent in
  let painter := begin content in
  let source_rect := QRect_xywh 0 0 (Qt.width rect) (Qt.height rect) in
  let painter := drawImage_rect source_rect layer_image rect painter in
  let painter := setCompositionMode CompositionMode_DestinationIn painter in
  let painter := drawImage (mkQPoint 0 0) mask painter in
  device painter.

Definition _capture_selection (w : World) : Result :=
  match selection_rect (tool w) with
  | None => Ok w
  | Some rect =>
      if negb (rect_bool rect) then Ok w
      else
        match layers (ctl w) with
        | [] => Ok w
        | _ =>
            match Py.getitem (layers (ctl w)) (active_layer_index (ctl w)) with
            | None => Raised w
            | Some active_layer =>
                let layer_image := image active_layer in
                let mask := _create_selection_mask (tool w) in
                let w := T (set_selection_mask mask) w in
                match mask with
                | None => Ok w
                | Some m =>
                    Ok (T (set_selected_content
                             (Some (captured layer_image m rect))) w)
                end
            end
        end
  end.

(** *** Finishing an outline *)

Definition BaseSelectTool_finalize_selection (w : World) : Result :=
  match start_pos (tool w), end_pos (tool w) with
  | Some s, Some e =>
      if negb (point_bool s && point_bool e) then Ok w
      else
        let x1 := Z.min (pt_x s) (pt_x e) in
        let y1 := Z.min (pt_y s) (pt_y e) in
        let x2 := Z.max (pt_x s) (pt_x e) in
        let y2 := Z.max (pt_y s) (pt_y e) in
        if (1 <? x2 - x1) && (1 <? y2 - y1) then
          let rect := QRect_xywh x1 y1 (x2 - x1) (y2 - y1) in
          let w := T (set_selection_rect (Some rect)) w in
          let w := T (set_is_floating true) w in
          let w := T (set_scale_factor 1) w in
          let w := T (set_rotation_angle 0) w in
          do w <- _capture_selection w;
          let w := _update_selection_preview w in
          Ok (C (emit (Status_selection_ready (Qt.width rect)
                                               (Qt.height rect))) w)
        else Ok (cancel w)
  | _, _ => Ok w
  end.

Definition min_of (f : QPoint -> Z) (p : QPoint) (ps : list QPoint) : Z :=
  fold_left (fun m q => Z.min m (f q)) ps (f p).
Definition max_of (f : QPoint -> Z) (p : QPoint) (ps : list QPoint) : Z :=
  fold_left (fun m q => Z.max m (f q)) ps (f p).

Definition ImprovedPolygonSelectTool_finalize_selection (w : World)
    : Result :=
  match points (tool w) with
  | p :: ((_ :: _ :: _) as ps) =>
      let min_x := min_of pt_x p ps in
      let min_y := min_of pt_y p ps in
      let max_x := max_of pt_x p ps in
      let max_y := max_of pt_y p ps in
      let rect := QRect_xywh min_x min_y (max_x - min_x) (max_y - min_y) in
      let w := T (set_selection_rect (Some rect)) w in
      let w := T (set_original_points
                    (map (fun q => mkQPoint (pt_x q - Qt.x rect)
                                            (pt_y q - Qt.y rect))
                         (p :: ps))) w in
      let w := T (set_is_floating true) w in
      let w := T (set_is_creating false) w in
      let w := T (set_has_first_click false) w in
      let w := T (set_scale_factor 1) w in
      let w := T (set_rotation_angle 0) w in
      do w <- _capture_selection w;
      Ok (_update_selection_preview w)
  | _ =>
      let w := C (emit Status_polygon_needs_3) w in
      Ok (cancel w)
  end.

Definition _finalize_selection (w : World) : Result :=
  match variant (tool w) with
  | ImprovedPolygonSelectTool => ImprovedPolygonSelectTool_finalize_selection w
  | _ => BaseSelectTool_finalize_selection w
  end.

(** *** The gestures *)

Definition _start_new_selection (px py : Z) (w : World) : World :=
  let w := T (set_start_pos (Some (mkQPoint px py))) w in
  let w := T (set_end_pos (start_pos (tool w))) w in
  let w := T (set_drawing true) w in
  _update_preview w.

Definition _apply_square_constraint (t : Tool) : Tool :=
  match start_pos t, end_pos t with
  | Some s, Some e =>
      if negb (point_bool s && point_bool e) then t
      else
        let dx := pt_x e - pt_x s in
        let dy := pt_y e - pt_y s in
        let size := Z.max (Z.abs dx) (Z.abs dy) in
        let end_x := pt_x s + (if 0 <=? dx then size else - size) in
        let end_y := pt_y s + (if 0 <=? dy then size else - size) in
        set_end_pos (Some (mkQPoint end_x end_y)) t
  | _, _ => t
  end.

Definition _move_selection (dx dy : Z) (t : Tool) : Tool :=
  match selection_rect t with
  | Some rect =>
      if rect_bool rect
      then set_selection_rect (Some (Qt.translate dx dy rect)) t else t
  | None => t
  end.

Definition _resize_selection (dx dy : Z) (t : Tool) : Tool :=
  match selection_rect t, resize_handle t with
  | Some rect, Some h =>
      if negb (rect_bool rect) then t
      else
        let rect :=
          match h with
          | h_tl => setTop (Qt.top rect + dy) (setLeft (Qt.left rect + dx) rect)
          | h_tr => setTop (Qt.top rect + dy) (setRight (Qt.right rect + dx) rect)
          | h_bl =>
              setBottom (Qt.bottom rect + dy) (setLeft (Qt.left rect + dx) rect)
          | h_br =>
              setBottom (Qt.bottom rect + dy)
                (setRight (Qt.right rect + dx) rect)
          | h_t => setTop (Qt.top rect + dy) rect
          | h_b => setBottom (Qt.bottom rect + dy) rect
          | h_l => setLeft (Qt.left rect + dx) rect
          | h_r => setRight (Qt.right rect + dx) rect
          end in
        let rect := normalized rect in
        let rect := setWidth (Z.max 1 (Qt.width rect)) rect in
        let rect := setHeight (Z.max 1 (Qt.height rect)) rect in
        set_selection_rect (Some rect) t
  | _, _ => t
  end.

(** The distance of [(px, py)] to the centre: [math.sqrt(dx ** 2 + dy ** 2)]. *)
Definition distance (c : QPoint) (px py : Z) : Q :=
  sqrt (inject_Z ((px - pt_x c) ^ 2 + (py - pt_y c) ^ 2)).

(** [_handle_scaling(x, y)]; [last] is [self.last_mouse_pos]. *)
Definition _handle_scaling (px py : Z) (last : QPoint) (w : World) : World :=
  match selection_rect (tool w) with
  | None => w
  | Some rect =>
      if negb (rect_bool rect) then w
      else
        let center := Qt.center rect in
        let dist := distance center px py in
        let original_dist := distance center (pt_x last) (pt_y last) in
        if Py.Qltb 0 original_dist then
          let scale_delta := (dist / original_dist)%Q in
          let w := T (set_scale_factor
                        (original_scale (tool w) * scale_delta)%Q) w in
          let w := T (set_scale_factor
                        (Py.max (1 # 10)
                           (Py.min (scale_factor (tool w)) 10))) w in
          _update_selection_preview w
        else w
  end.

(** [math.degrees(math.atan2(dy, dx))]. *)
Definition angle_of (c : QPoint) (px py : Z) : Q :=
  degrees (atan2 (inject_Z (py - pt_y c)) (inject_Z (px - pt_x c))).

Definition _handle_rotation (px py : Z) (last : QPoint) (w : World) : World :=
  match selection_rect (tool w) with
  | None => w
  | Some rect =>
      if negb (rect_bool rect) then w
      else
        let center := Qt.center rect in
        let angle1 := angle_of center (pt_x last) (pt_y last) in
        let angle2 := angle_of center px py in
        let angle_diff := (angle2 - angle1)%Q in
        let w := T (set_rotation_angle
                      (Py.mod_ (original_angle (tool w) + angle_diff) 360)) w in
        _update_selection_preview w
  end.

(** *** Commit *)

Definition p_about_center (c : QPoint) (angle s : Q) (p : QPainter) : QPainter :=
  let p := p_translate (inject_Z (pt_x c)) (inject_Z (pt_y c)) p in
  let p := p_rotate angle p in
  let p := p_scale s s p in
  p_translate (- inject_Z (pt_x c)) (- inject_Z (pt_y c)) p.

(** The closure [draw_transformed_selection] of [_commit_selection]:
    first the mask clears, then the content is painted. *)
Definition draw_transformed_selection (t : Tool) (rect : QRect)
    (content : QImage) (painter : QPainter) : QPainter :=
  let painter :=
    match selection_mask t with
    | Some mask =>
        let mask_image := scaled resample mask (Qt.size rect) in
        let painter := save painter in
        let painter :=
          setCompositionMode CompositionMode_DestinationOut painter in
        let painter :=
          p_about_center (Qt.center rect) (rotation_angle t) (scale_factor t)
            painter in
        let painter := drawImage (topLeft rect) mask_image painter in
        restore painter
    | None => painter
    end in
  let painter := setCompositionMode CompositionMode_SourceOver painter in
  let painter := save painter in
  let painter :=
    p_about_center (Qt.center rect) (rotation_angle t) (scale_factor t)
      painter in
  let scaled_content := scaled resample content (Qt.size rect) in
  let painter := drawImage (topLeft rect) scaled_content painter in
  restore painter.

Definition _commit_selection (w : World) : World :=
  match selection_rect (tool w), selected_content (tool w) with
  | Some rect, Some content =>
      if negb (is_floating (tool w)) || negb (rect_bool rect) then w
      else
        let w := C save_to_history w in
        let w := C (draw_on_active_layer
                      (draw_transformed_selection (tool w) rect content)
                      false) w in
        _cancel_selection w
  | _, _ => w
  end.

(** *** The handlers of BaseSelectTool *)

Definition hit (r : option QRect) (px py : Z) : bool :=
  match r with
  | Some rect => rect_bool rect && Qt.contains rect px py
  | None => false
  end.

Definition BaseSelectTool_mouse_press (ev : MouseEvent) (px py : Z)
    (w : World) : World :=
  let w := T (BaseTool_mouse_press ev) w in
  if is_floating (tool w) then
    if hit (scale_handle_rect (tool w)) px py then
      let w := T (set_is_scaling true) w in
      let w := T (set_last_mouse_pos (Some (mkQPoint px py))) w in
      T (set_original_scale (scale_factor (tool w))) w
    else if hit (rotate_handle_rect (tool w)) px py then
      let w := T (set_is_rotating true) w in
      let w := T (set_last_mouse_pos (Some (mkQPoint px py))) w in
      T (set_original_angle (rotation_angle (tool w))) w
    else
      let w := T (set_resize_handle
                    (_get_resize_handle_at (tool w) px py)) w in
      match resize_handle (tool w) with
      | Some _ =>
          let w := T (set_is_resizing true) w in
          T (set_last_mouse_pos (Some (mkQPoint px py))) w
      | None =>
          if _is_point_in_selection (tool w) px py then
            let w := T (set_is_moving true) w in
            T (set_last_mouse_pos (Some (mkQPoint px py))) w
          else _commit_selection w
      end
  else
    match button ev with
    | LeftButton => _start_new_selection px py w
    | _ => w
    end.

Definition BaseSelectTool_mouse_move (ev : MouseEvent) (px py : Z)
    (w : World) : World :=
  let w := T (BaseTool_mouse_move ev) w in
  let t := tool w in
  let last := last_mouse_pos t in
  let delta (f : QPoint -> Z) (v : Z) :=
    match last with Some p => v - f p | None => 0 end in
  if is_moving t && pos_bool last then
    let dx := delta pt_x px in
    let dy := delta pt_y py in
    let w := T (_move_selection dx dy) w in
    let w := T (set_last_mouse_pos (Some (mkQPoint px py))) w in
    _update_selection_preview w
  else if is_resizing t
          && match resize_handle t with Some _ => true | None => false end
          && pos_bool last then
    let dx := delta pt_x px in
    let dy := delta pt_y py in
    let w := T (_resize_selection dx dy) w in
    let w := T (set_last_mouse_pos (Some (mkQPoint px py))) w in
    _update_selection_preview w
  else if is_scaling t && pos_bool last then
    match last with Some p => _handle_scaling px py p w | None => w end
  else if is_rotating t && pos_bool last then
    match last with Some p => _handle_rotation px py p w | None => w end
  else if drawing t then
    let w := T (set_end_pos (Some (mkQPoint px py))) w in
    let w := if is_shift_pressed (tool w)
             then T _apply_square_constraint w else w in
    _update_preview w
  else w.

Definition BaseSelectTool_mouse_release (ev : MouseEvent) (px py : Z)
    (w : World) : Result :=
  let w := T (BaseTool_mouse_release ev) w in
  let t := tool w in
  if is_moving t || is_scaling t || is_rotating t || is_resizing t then
    let w := T (set_is_moving false) w in
    let w := T (set_is_scaling false) w in
    let w := T (set_is_rotating false) w in
    let w := T (set_is_resizing false) w in
    let w := T (set_resize_handle None) w in
    let w := T (set_last_mouse_pos None) w in
    Ok (_update_selection_preview w)
  else if drawing t then
    let w := T (set_drawing false) w in
    _finalize_selection w
  else Ok w.

(** The keys that leave a floating selection alone. *)
Definition non_operation_key (k : Key) : bool :=
  match k with
  | Key_Shift | Key_Control | Key_Alt | Key_Meta
  | Key_CapsLock | Key_NumLock | Key_ScrollLock
  | Key_Left | Key_Right | Key_Up | Key_Down
  | Key_PageUp | Key_PageDown | Key_Home | Key_End => true
  | _ => false
  end.

(** [key_press]; the flag it returns (whether the key was handled) is left
    out. *)
Definition BaseSelectTool_key_press (k : Key) (w : World) : World :=
  match k with
  | Key_Escape => cancel w
  | Key_Enter | Key_Return =>
      if is_floating (tool w) then _commit_selection w else w
  | _ =>
      if is_floating (tool w) && destroy_on_other_action (tool w)
         && negb (non_operation_key k)
      then _cancel_selection w
      else w
  end.

Definition destroy_if_floating (w : World) : World :=
  if is_floating (tool w) && destroy_on_other_action (tool w)
  then _cancel_selection w else w.

Definition BaseSelectTool_on_tool_changed := destroy_if_floating.
Definition BaseSelectTool_on_other_operation := destroy_if_floating.
Definition BaseSelectTool_on_menu_action := destroy_if_floating.
Definition BaseSelectTool_on_toolbar_button_click := destroy_if_floating.

Definition set_auto_destroy (enabled : bool) (w : World) : World :=
  T (set_destroy_on_other_action enabled) w.

(** *** The handlers of ImprovedPolygonSelectTool *)

Definition ImprovedPolygonSelectTool_mouse_press (ev : MouseEvent)
    (px py : Z) (w : World) : Result :=
  let t := tool w in
  if is_floating t then
    let in_selection := _is_point_in_selection t px py in
    let on_scale := hit (scale_handle_rect t) px py in
    let on_rotate := hit (rotate_handle_rect t) px py in
    let on_resize :=
      match _get_resize_handle_at t px py with
      | Some _ => true
      | None => false
      end in
    if negb (in_selection || on_scale || on_rotate || on_resize)
    then Ok (_commit_selection w)
    else Ok (BaseSelectTool_mouse_press ev px py w)
  else
    match button ev with
    | LeftButton =>
        if negb (has_first_click t) then
          let w := T (set_has_first_click true) w in
          let w := T (set_is_creating true) w in
          let w := T (set_points [mkQPoint px py]) w in
          let w := _update_preview w in
          Ok (C (emit Status_polygon_first_point) w)
        else
          let w := T (set_points (points t ++ [mkQPoint px py])) w in
          let w := T (set_temp_point None) w in
          let w := _update_preview w in
          Ok (C (emit (Status_polygon_point
                         (List.length (points (tool w))))) w)
    | RightButton =>
        if is_creating t && (3 <=? List.length (points t))%nat
        then _finalize_selection w
        else if negb (is_creating t) then Ok (cancel w)
        else Ok w
    | _ => Ok w
    end.

Definition ImprovedPolygonSelectTool_mouse_move (ev : MouseEvent)
    (px py : Z) (w : World) : World :=
  let t := tool w in
  if is_floating t then BaseSelectTool_mouse_move ev px py w
  else if is_creating t && has_first_click t then
    let fresh :=
      match temp_point t with
      | Some p => negb (point_bool p) || negb (QPoint_eqb p (mkQPoint px py))
      | None => true
      end in
    if fresh then
      let w := T (set_temp_point (Some (mkQPoint px py))) w in
      _update_preview w
    else w
  else w.

Definition ImprovedPolygonSelectTool_mouse_release (ev : MouseEvent)
    (px py : Z) (w : World) : Result :=
  if negb (is_floating (tool w)) then Ok w
  else BaseSelectTool_mouse_release ev px py w.

Definition ImprovedPolygonSelectTool_key_press (k : Key) (w : World)
    : Result :=
  let t := tool w in
  match k with
  | Key_Escape =>
      if is_creating t then Ok (cancel w)
      else Ok (BaseSelectTool_key_press k w)
  | Key_Enter | Key_Return =>
      if is_floating t then Ok (_commit_selection w)
      else if is_creating t && (3 <=? List.length (points t))%nat
      then _finalize_selection w
      else if is_creating t && (List.length (points t) <? 3)%nat
      then Ok (C (emit Status_polygon_needs_3_to_finish) w)
      else Ok (BaseSelectTool_key_press k w)
  | _ => Ok (BaseSelectTool_key_press k w)
  end.

Definition ImprovedPolygonSelectTool_on_other_operation (w : World)
    : World :=
  if is_creating (tool w) then cancel w else destroy_if_floating w.

Definition ImprovedPolygonSelectTool_on_tool_changed :=
  ImprovedPolygonSelectTool_on_other_operation.

(** *** The tool, as the controller drives it *)

Definition is_polygon (w : World) : bool :=
  match variant (tool w) with ImprovedPolygonSelectTool => true | _ => false end.

Definition mouse_press (ev : MouseEvent) (px py : Z) (w : World) : Result :=
  if is_polygon w then ImprovedPolygonSelectTool_mouse_press ev px py w
  else Ok (BaseSelectTool_mouse_press ev px py w).

Definition mouse_move (ev : MouseEvent) (px py : Z) (w : World) : Result :=
  if is_polygon w then Ok (ImprovedPolygonSelectTool_mouse_move ev px py w)
  else Ok (BaseSelectTool_mouse_move ev px py w).

Definition mouse_release (ev : MouseEvent) (px py : Z) (w : World) : Result :=
  if is_polygon w then ImprovedPolygonSelectTool_mouse_release ev px py w
  else BaseSelectTool_mouse_release ev px py w.

Definition key_press (k : Key) (w : World) : Result :=
  if is_polygon w then ImprovedPolygonSelectTool_key_press k w
  else Ok (BaseSelectTool_key_press k w).

Definition on_other_operation (w : World) : World :=
  if is_polygon w then ImprovedPolygonSelectTool_on_other_operation w
  else destroy_if_floating w.

Definition step (e : Event) (w : World) : Result :=
  match e with
  | mouse_press_event ev px py => mouse_press ev px py w
  | mouse_move_event ev px py => mouse_move ev px py w
  | mouse_release_event ev px py => mouse_release ev px py w
  | key_press_event k => key_press k w
  | tool_changed_event => Ok (on_other_operation w)
  | other_operation_event => Ok (on_other_operation w)
  | menu_action_event => Ok (on_other_operation w)
  | toolbar_button_click_event => Ok (on_other_operation w)
  | set_auto_destroy_event b => Ok (set_auto_destroy b w)
  end.

(** The events in turn, up to the first that raises. *)
Fixpoint run (es : list Event) (w : World) : Result :=
  match es with
  | [] => Ok w
  | e :: es' => do w' <- step e w; run es' w'
  end.

End Tools.

(** ** Instances for evaluation

    The theorems below hold for every [Libm] and every [Raster].  The
    scenarios are evaluated with rational stand-ins: square roots to six
    decimals, and a rasteriser that samples at pixel centres. *)

Module Probe.

Local Open Scope Q_scope.

Definition sqrt_q (q : Q) : Q :=
  inject_Z (Z.sqrt (Qfloor (q * 1000000000000))) / 1000000.

Definition pi_q : Q := 355 # 113.

(** The arc tangent on [[-1, 1]], to a few thousandths. *)
Definition atan_unit (z : Q) : Q :=
  z * (pi_q / 4 + (273 # 1000) * (1 - Qabs z)).

Definition atan2_q (y x : Q) : Q :=
  if Qeq_bool x 0 && Qeq_bool y 0 then 0
  else if Qle_bool (Qabs y) (Qabs x) then
    let a := atan_unit (y / x) in
    if Qle_bool 0 x then a
    else if Qle_bool 0 y then a + pi_q else a - pi_q
  else
    let a := atan_unit (x / y) in
    if Qle_bool 0 y then pi_q / 2 - a else - (pi_q / 2) - a.

(** Bhaskara's rational sine, in degrees. *)
Definition sin_deg_q (a : Q) : Q :=
  let r := Py.mod_ a 360 in
  let half (d : Q) := 4 * d * (180 - d) / (40500 - d * (180 - d)) in
  if Qle_bool r 180 then half r else - half (r - 180).

#[export] Instance libm : Libm := {|
  sqrt := sqrt_q;
  atan2 := atan2_q;
  degrees := fun r => r * 180 / pi_q;
  sin_deg := sin_deg_q;
  cos_deg := fun a => sin_deg_q (a + 90)
|}.

Definition centre (p : Z) : Q := inject_Z p + (1 # 2).

Definition in_ellipse (s : QSize) (px py : Z) : bool :=
  let w := inject_Z (sz_w s) in
  let h := inject_Z (sz_h s) in
  let u := (2 * centre px - w) * h in
  let v := (2 * centre py - h) * w in
  Qle_bool (u * u + v * v) (w * w * h * h).

Definition nearest (i : QImage) (s : QSize) (px py : Z) : QColor :=
  pixel i (Qfloor (centre px * inject_Z (img_w i) / inject_Z (sz_w s)))
          (Qfloor (centre py * inject_Z (img_h i) / inject_Z (sz_h s))).

(** The pixel of the image whose transformed place covers the centre of
    the target pixel. *)
Definition inverse_sample (t : QTransform) (pos : QPoint) (i : QImage)
    (px py : Z) : option QColor :=
  let det := m11 t * m22 t - m12 t * m21 t in
  if Qeq_bool det 0 then None
  else
    let u := centre px - m31 t in
    let v := centre py - m32 t in
    let sx := Qfloor ((m22 t * u - m21 t * v) / det) in
    let sy := Qfloor ((m11 t * v - m12 t * u) / det) in
    let ix := (sx - pt_x pos)%Z in
    let iy := (sy - pt_y pos)%Z in
    if in_image i ix iy then Some (pixel i ix iy) else None.

#[export] Instance raster : Raster := {|
  ellipse_fill := in_ellipse;
  polygon_fill := fun pts px py =>
    containsPoint (map QPointF_of pts) (mkQPointF (centre px) (centre py));
  resample := nearest;
  warp := inverse_sample
|}.

End Probe.

(** * Properties *)

Arguments tr_map : simpl never.
Arguments about_center : simpl never.
Arguments handle_rect : simpl never.
Arguments midpoint : simpl never.
Arguments containsPoint : simpl never.
Arguments polygon_of_rect : simpl never.
Arguments Qt.contains : simpl never.
Arguments Qt.center : simpl never.
Arguments Qt.translate : simpl never.
Arguments Qt.normalized : simpl never.
Arguments Qt.rect_bool : simpl never.
Arguments Qt.point_bool : simpl never.
Arguments Qt.QRect_xywh : simpl never.
Arguments Qt.scaled : simpl never.
Arguments Py.int : simpl never.
Arguments Py.Qltb : simpl never.
Arguments Py.max : simpl never.
Arguments Py.min : simpl never.
Arguments Py.mod_ : simpl never.
Arguments Py.getitem : simpl never.
Arguments Py.deque_append : simpl never.
Arguments Qplus : simpl never.
Arguments Qminus : simpl never.
Arguments Qmult : simpl never.
Arguments Qdiv : simpl never.
Arguments Qopp : simpl never.
Arguments inject_Z : simpl never.

Ltac break_match :=
  match goal with
  | |- context [match ?x with _ => _ end] =>
      lazymatch x with
      | context [match _ with _ => _ end] => fail
      | _ => destruct x eqn:?
      end
  end.

Ltac break_all := repeat (break_match; cbn in * ).

(** ** Arithmetic of the clamp and of the normalisation *)

Lemma Qltb_true (a b : Q) : Py.Qltb a b = true <-> (a < b)%Q.
Proof.
  unfold Py.Qltb. rewrite negb_true_iff. split; intro H.
  - apply Qnot_le_lt. intro H1. apply Qle_bool_iff in H1. congruence.
  - destruct (Qle_bool b a) eqn:E; auto. apply Qle_bool_iff in E.
    exfalso. eapply Qlt_not_le; eauto.
Qed.

Lemma Qltb_false (a b : Q) : Py.Qltb a b = false <-> (b <= a)%Q.
Proof.
  unfold Py.Qltb. rewrite negb_false_iff. apply Qle_bool_iff.
Qed.

(** [max(0.1, min(q, 10.0))] lies in [[0.1, 10.0]], whatever [q]. *)
Lemma clamp_bounds (q : Q) :
  (1 # 10 <= Py.max (1 # 10) (Py.min q 10) <= 10)%Q.
Proof.
  unfold Py.max, Py.min.
  destruct (Py.Qltb 10 q) eqn:E1.
  - destruct (Py.Qltb (1 # 10) 10) eqn:E2.
    + split; [ discriminate | apply Qle_refl ].
    + split; [ apply Qle_refl | discriminate ].
  - apply Qltb_false in E1.
    destruct (Py.Qltb (1 # 10) q) eqn:E2.
    + apply Qltb_true in E2.
      split; [ apply Qlt_le_weak; exact E2 | exact E1 ].
    + split; [ apply Qle_refl | discriminate ].
Qed.

(** [a % 360] lies in [[0, 360)]. *)
Lemma mod_360_bounds (a : Q) : (0 <= Py.mod_ a 360 < 360)%Q.
Proof.
  unfold Py.mod_.
  pose proof (Qfloor_le (a / 360)) as H1.
  pose proof (Qlt_floor (a / 360)) as H2.
  rewrite inject_Z_plus in H2.
  set (f := inject_Z (Qfloor (a / 360))) in *.
  assert (Ha : (a == 360 * (a / 360))%Q) by field.
  split.
  - assert (360 * f <= 360 * (a / 360))%Q
      by (apply Qmult_le_l; [ reflexivity | exact H1 ]).
    lra.
  - assert (360 * (a / 360) < 360 * (f + inject_Z 1))%Q
      by (apply Qmult_lt_l; [ reflexivity | exact H2 ]).
    change (inject_Z 1) with 1%Q in *. lra.
Qed.

(** ** What the previews and the bookkeeping of BaseTool may change

    [_update_selection_preview] and [_update_preview] write the overlay and
    the handles; the handlers of [BaseTool] write the five entries of
    [tool_state] and [draw_batch_started].  The lemmas below give each of
    them as setters of these fields alone. *)

(** The five fields [_update_handles] writes. *)
Definition set_handles (a : list QPointF) (b c : option QRect)
    (d : option QPointF) (e : list (Handle * QRect)) (t : Tool) : Tool :=
  set_resize_handles e
    (set_rotate_handle_pos d
       (set_rotate_handle_rect c
          (set_scale_handle_rect b (set_transformed_corners a t)))).

(** The five fields the handlers of [BaseTool] write. *)
Definition set_tool_state (a : option MouseButton) (b c d e : bool) (t : Tool)
    : Tool :=
  set_draw_batch_started e
    (set_is_right_button_during_drag d
       (set_is_shift_pressed c (set_is_ctrl_pressed b (set_mouse_button a t)))).

Ltac records :=
  cbv beta iota delta [
    set_layers set_temp_pixmap set_undo_stack
    set_redo_stack set_is_modified set_current_operation_saved
    set_pending_update set_status_log set_start_pos set_end_pos set_drawing
    set_draw_batch_started set_mouse_button set_is_ctrl_pressed
    set_is_shift_pressed set_is_right_button_during_drag set_selection_rect
    set_is_floating set_selected_content set_selection_mask set_is_moving
    set_is_scaling set_is_rotating set_is_resizing set_resize_handle
    set_last_mouse_pos set_original_scale set_original_angle
    set_scale_factor set_rotation_angle set_scale_handle_rect
    set_rotate_handle_rect set_transformed_corners set_rotate_handle_pos
    set_resize_handles set_destroy_on_other_action set_points
    set_original_points set_temp_point set_is_creating set_has_first_click
    set_auto_destroy variant start_pos end_pos drawing draw_batch_started
    mouse_button is_ctrl_pressed is_shift_pressed
    is_right_button_during_drag selection_rect is_floating selected_content
    selection_mask is_moving is_scaling is_rotating is_resizing
    resize_handle last_mouse_pos original_scale original_angle scale_factor
    rotation_angle scale_handle_rect rotate_handle_rect transformed_corners
    rotate_handle_pos resize_handles destroy_on_other_action points
    original_points temp_point is_creating has_first_click layers
    active_layer_index current_image temp_pixmap undo_stack redo_stack
    is_recording is_modified current_operation_saved pending_update
    adjustments status_log T C tool ctl set_handles set_tool_state emit ].

Ltac records_in H :=
  cbv beta iota delta [
    set_layers set_temp_pixmap set_undo_stack
    set_redo_stack set_is_modified set_current_operation_saved
    set_pending_update set_status_log set_start_pos set_end_pos set_drawing
    set_draw_batch_started set_mouse_button set_is_ctrl_pressed
    set_is_shift_pressed set_is_right_button_during_drag set_selection_rect
    set_is_floating set_selected_content set_selection_mask set_is_moving
    set_is_scaling set_is_rotating set_is_resizing set_resize_handle
    set_last_mouse_pos set_original_scale set_original_angle
    set_scale_factor set_rotation_angle set_scale_handle_rect
    set_rotate_handle_rect set_transformed_corners set_rotate_handle_pos
    set_resize_handles set_destroy_on_other_action set_points
    set_original_points set_temp_point set_is_creating set_has_first_click
    set_auto_destroy variant start_pos end_pos drawing draw_batch_started
    mouse_button is_ctrl_pressed is_shift_pressed
    is_right_button_during_drag selection_rect is_floating selected_content
    selection_mask is_moving is_scaling is_rotating is_resizing
    resize_handle last_mouse_pos original_scale original_angle scale_factor
    rotation_angle scale_handle_rect rotate_handle_rect transformed_corners
    rotate_handle_pos resize_handles destroy_on_other_action points
    original_points temp_point is_creating has_first_click layers
    active_layer_index current_image temp_pixmap undo_stack redo_stack
    is_recording is_modified current_operation_saved pending_update
    adjustments status_log T C tool ctl set_handles set_tool_state emit
    ] in H.

(** Setters and projections applied to explicit records, computed. *)
Section Shapes.
Context {L : Libm} {R : Raster}.

Lemma set_handles_same t :
  set_handles (transformed_corners t) (scale_handle_rect t)
    (rotate_handle_rect t) (rotate_handle_pos t) (resize_handles t) t = t.
Proof. destruct t; reflexivity. Qed.

Lemma update_handles_shape t :
  exists a b c d e, _update_handles t = set_handles a b c d e t.
Proof.
  unfold _update_handles, _update_resize_handles.
  destruct t; records; break_all; do 5 eexists; records; reflexivity.
Qed.

Lemma BaseTool_mouse_press_shape ev t :
  exists a b c d e, BaseTool_mouse_press ev t = set_tool_state a b c d e t.
Proof.
  unfold BaseTool_mouse_press. destruct t; records; break_all;
    do 5 eexists; records; reflexivity.
Qed.

Lemma BaseTool_mouse_move_shape ev t :
  exists a b c d e, BaseTool_mouse_move ev t = set_tool_state a b c d e t.
Proof.
  unfold BaseTool_mouse_move. destruct t; records; break_all;
    do 5 eexists; records; reflexivity.
Qed.

Lemma BaseTool_mouse_release_shape ev t :
  exists a b c d e, BaseTool_mouse_release ev t = set_tool_state a b c d e t.
Proof.
  unfold BaseTool_mouse_release. destruct t; records; break_all;
    do 5 eexists; records; reflexivity.
Qed.

Lemma update_preview_shape w :
  exists p, _update_preview w = C (set_temp_pixmap p) w.
Proof.
  unfold _update_preview, ImprovedPolygonSelectTool_update_preview,
    BaseSelectTool_update_preview.
  destruct w as [c t]; destruct c; records; break_all; eexists; records;
    reflexivity.
Qed.

Lemma identity_shape w :
  w = C (set_temp_pixmap (temp_pixmap (ctl w)))
        (T (set_handles (transformed_corners (tool w))
              (scale_handle_rect (tool w)) (rotate_handle_rect (tool w))
              (rotate_handle_pos (tool w)) (resize_handles (tool w))) w).
Proof. destruct w as [c t]; destruct c; destruct t; reflexivity. Qed.

Lemma draw_selection_frame_shape t :
  exists a b c d e, _draw_selection_frame t = set_handles a b c d e t.
Proof.
  unfold _draw_selection_frame. destruct (selection_rect_bool t).
  - apply update_handles_shape.
  - do 5 eexists. symmetry. apply set_handles_same.
Qed.

Lemma BaseSelectTool_update_selection_preview_shape w :
  exists p a b c d e,
    BaseSelectTool_update_selection_preview w
    = C (set_temp_pixmap p) (T (set_handles a b c d e) w).
Proof.
  unfold BaseSelectTool_update_selection_preview.
  destruct (current_image (ctl w)); [ | do 6 eexists; apply identity_shape ].
  destruct (is_floating (tool w)); [ | do 6 eexists; apply identity_shape ].
  destruct (draw_selection_frame_shape (tool w)) as (a & b & c & d & e & H).
  cbn [negb]. unfold T at 1 2. rewrite H. do 6 eexists. reflexivity.
Qed.

Lemma update_selection_preview_shape w :
  exists p a b c d e,
    _update_selection_preview w
    = C (set_temp_pixmap p) (T (set_handles a b c d e) w).
Proof.
  unfold _update_selection_preview,
    ImprovedPolygonSelectTool_update_selection_preview.
  destruct (variant (tool w));
    try apply BaseSelectTool_update_selection_preview_shape.
  destruct (current_image (ctl w)); [ | do 6 eexists; apply identity_shape ].
  destruct (negb (is_floating (tool w)) && is_creating (tool w)).
  - destruct (update_preview_shape w) as (p & ->).
    exists p. do 5 eexists.
    rewrite (identity_shape w) at 1.
    destruct w as [c t]; destruct c; destruct t; reflexivity.
  - apply BaseSelectTool_update_selection_preview_shape.
Qed.

End Shapes.

(** ** Invariants of the tool *)

(** The invariants, on the values of the fields they read: the scale
    [s], the angle [a], the class [v], [is_floating], [drawing], the
    rectangle [r], the content [c] and the mask [m]. *)
Definition transform_vals (s a : Q) : Prop :=
  ((1 # 10 <= s)%Q /\ (s <= 10)%Q) /\ ((0 <= a)%Q /\ (a < 360)%Q).

Definition wf_vals (v : Variant) (f d : bool) (r : option QRect)
    (c m : option QImage) : Prop :=
  (if f then d = false else r = None /\ c = None /\ m = None)
  /\ match v with
     | ImprovedPolygonSelectTool => d = false
     | _ => True
     end.

Definition fits_vals (r : option QRect) (m : option QImage) : Prop :=
  match r, m with
  | Some rect, Some mask => img_size mask = Qt.size rect
  | _, _ => True
  end.

(** The scale stays in [[0.1, 10]] and the angle in [[0, 360)]. *)
Definition transform_inv (t : Tool) : Prop :=
  transform_vals (scale_factor t) (rotation_angle t).

(** Outside the floating state there is no rectangle, content or mask;
    within it no outline is being dragged; the polygon tool never drags
    one. *)
Definition tool_wf (t : Tool) : Prop :=
  wf_vals (variant t) (is_floating t) (drawing t) (selection_rect t)
    (selected_content t) (selection_mask t).

(** The stored mask has the size of the selection rectangle. *)
Definition mask_fits (t : Tool) : Prop :=
  fits_vals (selection_rect t) (selection_mask t).

Definition tool_inv (t : Tool) : Prop := transform_inv t /\ tool_wf t.

(** The fields the invariants read. *)
Definition core (t : Tool) :=
  (variant t, (is_floating t, drawing t),
   (selection_rect t, selected_content t, selection_mask t),
   (scale_factor t, rotation_angle t)).

(** The document: what a cancelled selection must leave alone. *)
Definition doc (c : Controller) :=
  (layers c, undo_stack c, redo_stack c, is_modified c).

(** From the core of a tool, its fields one by one. *)
Lemma core_fields (t : Tool) v f d r c m s a :
  core t = (v, (f, d), (r, c, m), (s, a)) ->
  variant t = v /\ is_floating t = f /\ drawing t = d
  /\ selection_rect t = r /\ selected_content t = c /\ selection_mask t = m
  /\ scale_factor t = s /\ rotation_angle t = a.
Proof.
  unfold core. intro H. injection H as -> -> -> -> -> -> -> ->.
  repeat split.
Qed.

Ltac use_core Hc :=
  apply core_fields in Hc;
  destruct Hc as (?Ev & ?Ef & ?Ed & ?Er & ?Ec & ?Em & ?Es & ?Ea).

Lemma core_inv (t t' : Tool) : core t' = core t -> tool_inv t -> tool_inv t'.
Proof.
  intro H. use_core H. unfold tool_inv, transform_inv, tool_wf.
  rewrite Ev, Ef, Ed, Er, Ec, Em, Es, Ea. trivial.
Qed.

Lemma core_fits (t t' : Tool) : core t' = core t -> mask_fits t -> mask_fits t'.
Proof.
  intro H. use_core H. unfold mask_fits. rewrite Er, Em. trivial.
Qed.

(** [w'] comes from [w] by a step that keeps the invariant of the tool,
    keeps the fit of the mask when [fit] holds, and leaves the document
    alone when [quiet] holds. *)
Definition step_ok (fit quiet : Prop) (w w' : World) : Prop :=
  (tool_inv (tool w) ->
   tool_inv (tool w')
   /\ (fit -> mask_fits (tool w) -> mask_fits (tool w')))
  /\ (quiet -> doc (ctl w') = doc (ctl w)).

(** [w'] differs from [w] in nothing the invariants or the document
    read. *)
Definition same (w w' : World) : Prop :=
  core (tool w') = core (tool w) /\ doc (ctl w') = doc (ctl w).

Lemma step_ok_trans (fit quiet : Prop) (w w1 w2 : World) :
  step_ok fit quiet w w1 -> step_ok fit quiet w1 w2 -> step_ok fit quiet w w2.
Proof.
  unfold step_ok. intros [H1 D1] [H2 D2]. split.
  - intro H. destruct (H1 H) as [Ha Hb]. destruct (H2 Ha) as [Hc Hd].
    split; auto.
  - intro q. rewrite (D2 q). auto.
Qed.

Lemma step_ok_weaken (fit quiet quiet' : Prop) (w w' : World) :
  step_ok fit quiet' w w' -> (quiet -> quiet') -> step_ok fit quiet w w'.
Proof. unfold step_ok. intros [H D] Hq. split; auto. Qed.

Lemma step_ok_fit_weaken (fit fit' quiet : Prop) (w w' : World) :
  step_ok fit' quiet w w' -> (fit -> fit') -> step_ok fit quiet w w'.
Proof.
  unfold step_ok. intros [H D] Hf. split; [ | exact D ].
  intro Hi. destruct (H Hi) as [H1 H2]. split; auto.
Qed.

Lemma same_ok (fit quiet : Prop) (w w' : World) :
  same w w' -> step_ok fit quiet w w'.
Proof.
  intros [Hc Hd]. split; [ | auto ].
  intro H. split; [ eapply core_inv | intros _; eapply core_fits ]; eauto.
Qed.

(** A step known by the core it leaves. *)
Lemma ok_of_core (fit quiet : Prop) (w w' : World) v f d r c m s a :
  core (tool w') = (v, (f, d), (r, c, m), (s, a)) ->
  (tool_inv (tool w) ->
   (transform_vals s a /\ wf_vals v f d r c m)
   /\ (fit -> mask_fits (tool w) -> fits_vals r m)) ->
  (quiet -> doc (ctl w') = doc (ctl w)) ->
  step_ok fit quiet w w'.
Proof.
  intros Hc H D. use_core Hc. split; [ | exact D ].
  unfold tool_inv, transform_inv, tool_wf, mask_fits in *.
  rewrite Ev, Ef, Ed, Er, Ec, Em, Es, Ea. exact H.
Qed.

Lemma same_refl (w : World) : same w w.
Proof. split; reflexivity. Qed.

Lemma same_trans (w w1 w2 : World) : same w w1 -> same w1 w2 -> same w w2.
Proof. unfold same. intros [A B] [C D]. split; congruence. Qed.

Lemma same_T (f : Tool -> Tool) (w : World) :
  (forall t, core (f t) = core t) -> same w (T f w).
Proof. intro H. split; [ apply H | reflexivity ]. Qed.

Lemma same_C (f : Controller -> Controller) (w : World) :
  (forall c, doc (f c) = doc c) -> same w (C f w).
Proof. intro H. split; [ reflexivity | apply H ]. Qed.

Section Sameness.
Context {L : Libm} {R : Raster}.

Lemma same_update_preview w : same w (_update_preview w).
Proof.
  destruct (update_preview_shape w) as (p & ->).
  apply same_C. reflexivity.
Qed.

Lemma same_update_selection_preview w : same w (_update_selection_preview w).
Proof.
  destruct (update_selection_preview_shape w) as (p & a & b & c & d & e & ->).
  eapply same_trans; [ apply same_T | apply same_C ]; reflexivity.
Qed.

Lemma same_BaseTool_mouse_press ev w : same w (T (BaseTool_mouse_press ev) w).
Proof.
  apply same_T. intro t.
  destruct (BaseTool_mouse_press_shape ev t) as (a & b & c & d & e & ->).
  reflexivity.
Qed.

Lemma same_BaseTool_mouse_move ev w : same w (T (BaseTool_mouse_move ev) w).
Proof.
  apply same_T. intro t.
  destruct (BaseTool_mouse_move_shape ev t) as (a & b & c & d & e & ->).
  reflexivity.
Qed.

Lemma same_BaseTool_mouse_release ev w :
  same w (T (BaseTool_mouse_release ev) w).
Proof.
  apply same_T. intro t.
  destruct (BaseTool_mouse_release_shape ev t) as (a & b & c & d & e & ->).
  reflexivity.
Qed.

Lemma same_apply_square_constraint w : same w (T _apply_square_constraint w).
Proof.
  apply same_T. intro t. unfold _apply_square_constraint.
  destruct (start_pos t), (end_pos t); try reflexivity.
  destruct (negb _); reflexivity.
Qed.

End Sameness.

(** Peeling the setters, the previews and the bookkeeping off a world. *)
Ltac peel :=
  lazymatch goal with
  | |- same ?w ?w => apply same_refl
  | |- same _ (_update_selection_preview _) =>
      eapply same_trans; [ | apply same_update_selection_preview ]
  | |- same _ (_update_preview _) =>
      eapply same_trans; [ | apply same_update_preview ]
  | |- same _ (T (BaseTool_mouse_press _) _) =>
      eapply same_trans; [ | apply same_BaseTool_mouse_press ]
  | |- same _ (T (BaseTool_mouse_move _) _) =>
      eapply same_trans; [ | apply same_BaseTool_mouse_move ]
  | |- same _ (T (BaseTool_mouse_release _) _) =>
      eapply same_trans; [ | apply same_BaseTool_mouse_release ]
  | |- same _ (T _apply_square_constraint _) =>
      eapply same_trans; [ | apply same_apply_square_constraint ]
  | |- same _ (T _ _) =>
      eapply same_trans; [ | apply same_T; intro; reflexivity ]
  | |- same _ (C _ _) =>
      eapply same_trans; [ | apply same_C; intro; reflexivity ]
  end.

Ltac sames := repeat peel; try apply same_refl.

(** The core of a world built by the handlers, computed. *)
Ltac core_tac :=
  unfold core, doc; records; reflexivity.

(** The invariants of an explicit tool, on its fields. *)
Ltac inv_vals :=
  unfold tool_inv, transform_inv, tool_wf, mask_fits, transform_vals,
    wf_vals, fits_vals;
  records.

Section Steps.
Context {L : Libm} {R : Raster}.

Lemma core_cancel_selection w :
  core (tool (_cancel_selection w))
  = (variant (tool w), (false, drawing (tool w)), (None, None, None),
     (1%Q, 0%Q)).
Proof.
  destruct w as [c t]. unfold _cancel_selection. cbv zeta.
  destruct (has_points _); unfold core; records; reflexivity.
Qed.

Lemma doc_cancel_selection w :
  doc (ctl (_cancel_selection w)) = doc (ctl w).
Proof.
  destruct w as [c t]. unfold _cancel_selection. cbv zeta.
  destruct (has_points _); unfold doc; records; reflexivity.
Qed.

Lemma ok_cancel_selection fit quiet w :
  step_ok fit quiet w (_cancel_selection w).
Proof.
  eapply ok_of_core;
    [ apply core_cancel_selection | | intros _; apply doc_cancel_selection ].
  unfold tool_inv, tool_wf, transform_vals, wf_vals, fits_vals.
  intros [_ [_ Hp]]. repeat split; trivial; discriminate.
Qed.

(** [BaseTool.cancel] ends a drag. *)
Lemma ok_BaseTool_cancel fit quiet w : step_ok fit quiet w (BaseTool_cancel w).
Proof.
  destruct w as [c t]; destruct t.
  eapply ok_of_core;
    [ unfold BaseTool_cancel, reset_states; core_tac
    | | intros _; unfold BaseTool_cancel; core_tac ].
  inv_vals. intros [Ht [Hw Hp]]. repeat split; try tauto.
  - destruct is_floating0; tauto.
  - destruct variant0; trivial.
Qed.

Lemma ok_cancel fit quiet w : step_ok fit quiet w (cancel w).
Proof.
  unfold cancel, ImprovedPolygonSelectTool_cancel, BaseSelectTool_cancel.
  destruct (variant (tool w)) eqn:Hv;
    try (eapply step_ok_trans;
         [ apply ok_BaseTool_cancel | apply ok_cancel_selection ]).
  destruct (is_creating (tool w));
    [ | eapply step_ok_trans;
        [ apply ok_BaseTool_cancel | apply ok_cancel_selection ] ].
  cbv zeta. apply same_ok. sames.
Qed.

Lemma size_translate (dx dy : Z) (r : QRect) :
  Qt.size (Qt.translate dx dy r) = Qt.size r.
Proof.
  unfold Qt.size, Qt.width, Qt.height, Qt.translate. cbn. f_equal; lia.
Qed.

(** A move keeps the size of the rectangle. *)
Lemma ok_move_selection fit quiet dx dy w :
  step_ok fit quiet w (T (_move_selection dx dy) w).
Proof.
  destruct w as [c t]; destruct t. unfold T, _move_selection. records.
  destruct selection_rect0 as [rect|]; [ | apply same_ok, same_refl ].
  destruct (rect_bool rect); [ | apply same_ok, same_refl ].
  eapply ok_of_core; [ core_tac | | intros _; core_tac ].
  inv_vals. rewrite size_translate. intros [Ht [Hw Hp]].
  repeat split; try tauto.
  destruct is_floating0; [ tauto | ].
  destruct Hw as (Hr & _). discriminate Hr.
Qed.

(** A resize writes the rectangle and nothing else: the mask stays. *)
Lemma ok_resize_selection quiet dx dy w :
  step_ok False quiet w (T (_resize_selection dx dy) w).
Proof.
  destruct w as [c t]; destruct t. unfold T, _resize_selection. records.
  destruct selection_rect0 as [rect|]; [ | apply same_ok, same_refl ].
  destruct resize_handle0 as [h|]; [ | apply same_ok, same_refl ].
  destruct (negb (rect_bool rect)); [ apply same_ok, same_refl | ].
  eapply ok_of_core; [ core_tac | | intros _; core_tac ].
  inv_vals. intros [Ht [Hw Hp]].
  repeat split; try tauto.
  destruct is_floating0; [ tauto | ].
  destruct Hw as (Hr & _). discriminate Hr.
Qed.

Lemma ok_handle_scaling fit quiet px py last w :
  step_ok fit quiet w (_handle_scaling px py last w).
Proof.
  unfold _handle_scaling.
  destruct (selection_rect (tool w)) as [rect|]; [ | apply same_ok, same_refl ].
  destruct (negb (rect_bool rect)); [ apply same_ok, same_refl | ].
  cbv zeta. destruct (Py.Qltb _ _); [ | apply same_ok, same_refl ].
  eapply step_ok_trans;
    [ | apply same_ok, same_update_selection_preview ].
  destruct w as [c t]; destruct t.
  eapply ok_of_core; [ core_tac | | intros _; core_tac ].
  inv_vals. intros [[Hs Ha] Hw]. repeat split; try tauto;
    apply clamp_bounds.
Qed.

Lemma ok_handle_rotation fit quiet px py last w :
  step_ok fit quiet w (_handle_rotation px py last w).
Proof.
  unfold _handle_rotation.
  destruct (selection_rect (tool w)) as [rect|]; [ | apply same_ok, same_refl ].
  destruct (negb (rect_bool rect)); [ apply same_ok, same_refl | ].
  cbv zeta.
  eapply step_ok_trans;
    [ | apply same_ok, same_update_selection_preview ].
  destruct w as [c t]; destruct t.
  eapply ok_of_core; [ core_tac | | intros _; core_tac ].
  inv_vals. intros [[Hs Ha] Hw]. repeat split; try tauto;
    apply mod_360_bounds.
Qed.

(** A drag starts outside the floating state, on a rectangle or ellipse
    tool. *)
Lemma ok_start_new_selection fit quiet px py w :
  is_floating (tool w) = false -> is_polygon w = false ->
  step_ok fit quiet w (_start_new_selection px py w).
Proof.
  unfold _start_new_selection, is_polygon. cbv zeta. intros Hf Hv.
  eapply step_ok_trans; [ | apply same_ok, same_update_preview ].
  destruct w as [c t]; destruct t. records_in Hf. records_in Hv. subst.
  eapply ok_of_core; [ core_tac | | intros _; core_tac ].
  inv_vals. intros [Ht [Hw Hp]]. repeat split; try tauto.
  destruct variant0; trivial; discriminate.
Qed.

End Steps.
(** ** Capture, finishing an outline, commit *)

(** [w'] has the document of [w]. *)
Definition dsame (w w' : World) : Prop := doc (ctl w') = doc (ctl w).

Lemma dsame_refl w : dsame w w.
Proof. reflexivity. Qed.

Lemma dsame_trans w w1 w2 : dsame w w1 -> dsame w1 w2 -> dsame w w2.
Proof. unfold dsame. congruence. Qed.

Lemma dsame_T f w : dsame w (T f w).
Proof. reflexivity. Qed.

Lemma same_dsame w w' : same w w' -> dsame w w'.
Proof. intros [_ H]. exact H. Qed.

Lemma ok_dsame fit w w' : step_ok fit True w w' -> dsame w w'.
Proof. intros [_ H]. exact (H I). Qed.

(** The invariant may be used to show that it is kept. *)
Lemma step_ok_split (fit quiet : Prop) (w w' : World) :
  (tool_inv (tool w) -> step_ok fit quiet w w') -> dsame w w' ->
  step_ok fit quiet w w'.
Proof.
  intros H D. split; [ | intros _; exact D ].
  intro Hi. destruct (H Hi) as [H1 _]. exact (H1 Hi).
Qed.

(** A step that writes the controller alone. *)
Lemma ok_C_loud (fit : Prop) f w : step_ok fit False w (C f w).
Proof.
  split; [ | intros [] ].
  intro H. split; [ exact H | intros _ Hm; exact Hm ].
Qed.

Lemma size_xywh (px py w h : Z) :
  Qt.size (QRect_xywh px py w h) = mkQSize w h.
Proof.
  unfold Qt.size, Qt.width, Qt.height, QRect_xywh. cbn. f_equal; lia.
Qed.

Section Finish.
Context {L : Libm} {R : Raster}.

Lemma create_mask_size t m r :
  _create_selection_mask t = Some m -> selection_rect t = Some r ->
  img_size m = Qt.size r.
Proof.
  unfold _create_selection_mask. intros H E. rewrite E in H.
  destruct (rect_bool r), (variant t), (original_points t); cbn in H;
    try discriminate; injection H as <-; reflexivity.
Qed.

(** [_capture_selection] writes the mask and the content, or nothing; a
    mask it writes has the size of the rectangle. *)
Lemma capture_core w :
  exists c' m',
    core (tool (world_of (_capture_selection w)))
    = (variant (tool w), (is_floating (tool w), drawing (tool w)),
       (selection_rect (tool w), c', m'),
       (scale_factor (tool w), rotation_angle (tool w)))
    /\ (is_floating (tool w) = false -> selection_rect (tool w) = None ->
        c' = selected_content (tool w) /\ m' = selection_mask (tool w))
    /\ (c' = None -> selected_content (tool w) = None \/ m' = None)
    /\ (fits_vals (selection_rect (tool w)) (selection_mask (tool w)) ->
        fits_vals (selection_rect (tool w)) m')
    /\ (selection_mask (tool w) = None ->
        fits_vals (selection_rect (tool w)) m').
Proof.
  pose proof (create_mask_size (tool w)) as Hm.
  assert (Hkeep : forall rect, selection_rect (tool w) = Some rect ->
    exists c' m',
      core (tool w)
      = (variant (tool w), (is_floating (tool w), drawing (tool w)),
         (Some rect, c', m'),
         (scale_factor (tool w), rotation_angle (tool w)))
      /\ (is_floating (tool w) = false -> Some rect = None ->
          c' = selected_content (tool w) /\ m' = selection_mask (tool w))
      /\ (c' = None -> selected_content (tool w) = None \/ m' = None)
      /\ (fits_vals (Some rect) (selection_mask (tool w)) ->
          fits_vals (Some rect) m')
      /\ (selection_mask (tool w) = None -> fits_vals (Some rect) m')).
  { intros rect Er. exists (selected_content (tool w)), (selection_mask (tool w)).
    unfold core. rewrite Er. repeat split; auto.
    intro H. rewrite H. exact I. }
  unfold _capture_selection.
  destruct (selection_rect (tool w)) as [rect|] eqn:Er;
    [ | cbn [world_of]; do 2 eexists; unfold core; rewrite Er;
        repeat split; auto ].
  specialize (Hkeep rect eq_refl).
  destruct (negb (rect_bool rect)); [ exact Hkeep | ].
  destruct (layers (ctl w)); [ exact Hkeep | ].
  destruct (Py.getitem _ _) as [active_layer|]; [ | exact Hkeep ].
  clear Hkeep. cbv zeta.
  destruct (_create_selection_mask (tool w)) as [m|] eqn:Em;
    cbn [world_of]; destruct w as [c t]; destruct t;
    records_in Er; subst; do 2 eexists;
    (split; [ core_tac | ]); unfold fits_vals;
    repeat split; auto; try discriminate.
Qed.

Lemma dsame_capture w : dsame w (world_of (_capture_selection w)).
Proof.
  unfold _capture_selection, dsame.
  repeat match goal with
         | |- context [match ?x with _ => _ end] =>
             lazymatch x with
             | context [match _ with _ => _ end] => fail
             | _ => destruct x
             end
         end; reflexivity.
Qed.

Lemma ok_capture fit quiet w :
  step_ok fit quiet w (world_of (_capture_selection w)).
Proof.
  destruct (capture_core w) as (c' & m' & Hc & Hnf & _ & Hfit & _).
  eapply ok_of_core; [ exact Hc | | intros _; apply dsame_capture ].
  unfold tool_inv, transform_inv, tool_wf, mask_fits, wf_vals.
  intros [Ht [Hw Hp]].
  split; [ split; [ exact Ht | split; [ | exact Hp ] ] | intros _; exact Hfit ].
  destruct (is_floating (tool w)); [ exact Hw | ].
  destruct Hw as (Hr & Hc0 & Hm0).
  destruct (Hnf eq_refl Hr) as [-> ->]. auto.
Qed.

Lemma ok_set_drawing_false fit quiet w :
  step_ok fit quiet w (T (set_drawing false) w).
Proof.
  destruct w as [c t]; destruct t.
  eapply ok_of_core; [ core_tac | | intros _; core_tac ].
  inv_vals. intros [Ht [Hw Hp]]. repeat split; try tauto.
  - destruct is_floating0; tauto.
  - destruct variant0; trivial.
Qed.

(** The rectangle of a finished outline starts a floating selection. *)
Lemma ok_float fit quiet rect w :
  is_floating (tool w) = false -> drawing (tool w) = false ->
  step_ok fit quiet w
    (T (set_rotation_angle 0)
       (T (set_scale_factor 1)
          (T (set_is_floating true) (T (set_selection_rect (Some rect)) w)))).
Proof.
  intros Hf Hd. destruct w as [c t]; destruct t.
  records_in Hf. records_in Hd. subst.
  eapply ok_of_core; [ core_tac | | intros _; core_tac ].
  inv_vals. intros [Ht [(Hr & Hc & Hm) Hp]]. subst.
  repeat split; try tauto; try discriminate.
Qed.

Lemma ok_float_polygon fit quiet rect pts w :
  is_floating (tool w) = false -> drawing (tool w) = false ->
  step_ok fit quiet w
    (T (set_rotation_angle 0)
       (T (set_scale_factor 1)
          (T (set_has_first_click false)
             (T (set_is_creating false)
                (T (set_is_floating true)
                   (T (set_original_points pts)
                      (T (set_selection_rect (Some rect)) w))))))).
Proof.
  intros Hf Hd. destruct w as [c t]; destruct t.
  records_in Hf. records_in Hd. subst.
  eapply ok_of_core; [ core_tac | | intros _; core_tac ].
  inv_vals. intros [Ht [(Hr & Hc & Hm) Hp]]. subst.
  repeat split; try tauto; try discriminate.
Qed.

(** The result of [_capture_selection] and what follows it. *)
Ltac after_capture fit quiet :=
  match goal with
  | |- context [_capture_selection ?X] =>
      let Hcap := fresh "Hcap" in
      pose proof (ok_capture fit quiet X) as Hcap;
      destruct (_capture_selection X); cbn [bind world_of] in *
  end.

Lemma is_floating_set_drawing b w :
  is_floating (tool (T (set_drawing b) w)) = is_floating (tool w).
Proof. destruct w as [c t]; destruct t; reflexivity. Qed.

Lemma drawing_set_drawing b w : drawing (tool (T (set_drawing b) w)) = b.
Proof. destruct w as [c t]; destruct t; reflexivity. Qed.

Lemma ok_BaseSelectTool_finalize fit quiet w :
  is_floating (tool w) = false ->
  step_ok fit quiet w
    (world_of (BaseSelectTool_finalize_selection (T (set_drawing false) w))).
Proof.
  intro Hf. unfold BaseSelectTool_finalize_selection.
  destruct (start_pos _) as [s|];
    [ | cbn [world_of]; apply ok_set_drawing_false ].
  destruct (end_pos _) as [e|];
    [ | cbn [world_of]; apply ok_set_drawing_false ].
  destruct (negb _); [ cbn [world_of]; apply ok_set_drawing_false | ].
  cbv zeta. destruct (_ && _).
  - after_capture fit quiet.
    + eapply step_ok_trans; [ | apply same_ok; sames ].
      eapply step_ok_trans; [ | exact Hcap ].
      eapply step_ok_trans; [ apply ok_set_drawing_false | ].
      apply ok_float;
        [ rewrite is_floating_set_drawing; exact Hf
        | apply drawing_set_drawing ].
    + eapply step_ok_trans; [ | exact Hcap ].
      eapply step_ok_trans; [ apply ok_set_drawing_false | ].
      apply ok_float;
        [ rewrite is_floating_set_drawing; exact Hf
        | apply drawing_set_drawing ].
  - cbn [world_of].
    eapply step_ok_trans; [ apply ok_set_drawing_false | apply ok_cancel ].
Qed.

Lemma ok_polygon_finalize fit quiet w :
  is_floating (tool w) = false -> drawing (tool w) = false ->
  step_ok fit quiet w
    (world_of (ImprovedPolygonSelectTool_finalize_selection w)).
Proof.
  intros Hf Hd. unfold ImprovedPolygonSelectTool_finalize_selection.
  destruct (points (tool w)) as [|p [|p1 [|p2 ps]]]; cbv zeta;
    try (cbn [world_of];
         eapply step_ok_trans; [ | apply ok_cancel ]; apply same_ok; sames).
  after_capture fit quiet.
  - eapply step_ok_trans; [ | apply same_ok; sames ].
    eapply step_ok_trans; [ | exact Hcap ].
    apply ok_float_polygon; assumption.
  - eapply step_ok_trans; [ | exact Hcap ].
    apply ok_float_polygon; assumption.
Qed.

(** Finishing an outline never writes the document. *)
Lemma dsame_BaseSelectTool_finalize w :
  dsame w (world_of (BaseSelectTool_finalize_selection w)).
Proof.
  unfold BaseSelectTool_finalize_selection.
  destruct (start_pos _) as [s|]; [ | apply dsame_refl ].
  destruct (end_pos _) as [e|]; [ | apply dsame_refl ].
  destruct (negb _); [ apply dsame_refl | ].
  cbv zeta. destruct (_ && _).
  - match goal with
    | |- context [_capture_selection ?X] =>
        pose proof (dsame_capture X) as Hcap;
        destruct (_capture_selection X); cbn [bind world_of] in *
    end.
    + eapply dsame_trans; [ | apply same_dsame; sames ].
      eapply dsame_trans; [ | exact Hcap ]. reflexivity.
    + eapply dsame_trans; [ | exact Hcap ]. reflexivity.
  - cbn [world_of]. eapply ok_dsame with (fit := True). apply ok_cancel.
Qed.

Lemma dsame_polygon_finalize w :
  dsame w (world_of (ImprovedPolygonSelectTool_finalize_selection w)).
Proof.
  unfold ImprovedPolygonSelectTool_finalize_selection.
  destruct (points (tool w)) as [|p [|p1 [|p2 ps]]]; cbv zeta;
    try (cbn [world_of];
         eapply dsame_trans;
           [ | eapply ok_dsame with (fit := True); apply ok_cancel ];
         apply same_dsame; sames).
  match goal with
  | |- context [_capture_selection ?X] =>
      pose proof (dsame_capture X) as Hcap;
      destruct (_capture_selection X); cbn [bind world_of] in *
  end.
  - eapply dsame_trans; [ | apply same_dsame; sames ].
    eapply dsame_trans; [ | exact Hcap ]. reflexivity.
  - eapply dsame_trans; [ | exact Hcap ]. reflexivity.
Qed.

Lemma dsame_finalize w : dsame w (world_of (_finalize_selection w)).
Proof.
  unfold _finalize_selection.
  destruct (variant (tool w));
    auto using dsame_BaseSelectTool_finalize, dsame_polygon_finalize.
Qed.

(** A drag that ends: the outline becomes a selection, or is dropped. *)
Lemma ok_release_finalize fit quiet w :
  drawing (tool w) = true ->
  step_ok fit quiet w
    (world_of (_finalize_selection (T (set_drawing false) w))).
Proof.
  intro Hd. apply step_ok_split.
  - intros [_ [Hw Hp]]. unfold wf_vals in *. rewrite Hd in *.
    unfold _finalize_selection.
    replace (variant (tool (T (set_drawing false) w)))
      with (variant (tool w))
      by (destruct w as [c t]; destruct t; reflexivity).
    destruct (is_floating (tool w)) eqn:Hf; [ discriminate Hw | ].
    destruct (variant (tool w)); try discriminate Hp;
      apply ok_BaseSelectTool_finalize; exact Hf.
  - eapply dsame_trans; [ apply dsame_T | apply dsame_finalize ].
Qed.

(** [_commit_selection] writes the layer and the history, then leaves the
    floating state. *)
Lemma ok_commit_selection fit w : step_ok fit False w (_commit_selection w).
Proof.
  unfold _commit_selection.
  destruct (selection_rect (tool w)) as [rect|];
    [ | apply same_ok, same_refl ].
  destruct (selected_content (tool w)) as [content|];
    [ | apply same_ok, same_refl ].
  destruct (_ || _); [ apply same_ok, same_refl | ].
  cbv zeta.
  eapply step_ok_trans; [ | apply ok_cancel_selection ].
  eapply step_ok_trans; apply ok_C_loud.
Qed.

End Finish.
(** ** The handlers *)

(** The tests of [mouse_press] on a floating selection all fail: the press
    reaches [_commit_selection]. *)
Definition press_commits {L : Libm} (t : Tool) (px py : Z) : bool :=
  is_floating t
  && negb (hit (scale_handle_rect t) px py)
  && negb (hit (rotate_handle_rect t) px py)
  && match _get_resize_handle_at t px py with None => true | Some _ => false end
  && negb (_is_point_in_selection t px py).

(** Enter on a floating selection reaches [_commit_selection] too. *)
Definition key_commits (k : Key) (t : Tool) : bool :=
  match k with
  | Key_Enter | Key_Return => is_floating t
  | _ => false
  end.

(** The events that reach [_commit_selection]. *)
Definition commits {L : Libm} (e : Event) (w : World) : bool :=
  match e with
  | mouse_press_event _ px py => press_commits (tool w) px py
  | key_press_event k => key_commits k (tool w)
  | _ => false
  end.

(** A pointer move of a resize gesture. *)
Definition resize_drag (e : Event) (w : World) : bool :=
  match e with
  | mouse_move_event _ _ _ => is_resizing (tool w)
  | _ => false
  end.

Lemma tool_T f w : tool (T f w) = f (tool w).
Proof. reflexivity. Qed.

Lemma resize_handle_set X t : resize_handle (set_resize_handle X t) = X.
Proof. destruct t; reflexivity. Qed.

Section Handlers.
Context {L : Libm} {R : Raster}.

(** The bookkeeping of [BaseTool.mouse_press] changes none of the tests
    of the press. *)
Lemma press_conds ev t px py :
  let t' := BaseTool_mouse_press ev t in
  variant t' = variant t
  /\ is_floating t' = is_floating t
  /\ hit (scale_handle_rect t') px py = hit (scale_handle_rect t) px py
  /\ hit (rotate_handle_rect t') px py = hit (rotate_handle_rect t) px py
  /\ _get_resize_handle_at t' px py = _get_resize_handle_at t px py
  /\ (forall X,
        _is_point_in_selection (set_resize_handle X t') px py
        = _is_point_in_selection t px py).
Proof.
  cbv zeta.
  destruct (BaseTool_mouse_press_shape ev t) as (a & b & c & d & e & ->).
  destruct t; repeat split; reflexivity.
Qed.

Lemma is_resizing_mouse_move ev t :
  is_resizing (BaseTool_mouse_move ev t) = is_resizing t.
Proof.
  destruct (BaseTool_mouse_move_shape ev t) as (a & b & c & d & e & ->).
  destruct t; reflexivity.
Qed.

Lemma ok_BaseSelectTool_mouse_press fit ev px py w :
  (is_polygon w = true -> is_floating (tool w) = true) ->
  step_ok fit (press_commits (tool w) px py = false) w
    (BaseSelectTool_mouse_press ev px py w).
Proof.
  intro Hpoly. unfold BaseSelectTool_mouse_press. cbv zeta.
  destruct (press_conds ev (tool w) px py) as (Cv & Cf & Cs & Cr & Ch & Cp).
  rewrite !tool_T, resize_handle_set, Cf, Cs, Cr, Ch, Cp.
  unfold press_commits.
  destruct (is_floating (tool w)) eqn:Hf.
  - destruct (hit (scale_handle_rect (tool w)) px py);
      [ apply same_ok; sames | ].
    destruct (hit (rotate_handle_rect (tool w)) px py);
      [ apply same_ok; sames | ].
    destruct (_get_resize_handle_at (tool w) px py);
      [ apply same_ok; sames | ].
    destruct (_is_point_in_selection (tool w) px py);
      [ apply same_ok; sames | ].
    eapply step_ok_trans;
      [ | eapply step_ok_weaken;
            [ apply ok_commit_selection | intro Hq; discriminate Hq ] ].
    apply same_ok; sames.
  - assert (Hp : is_polygon w = false).
    { destruct (is_polygon w); [ | reflexivity ].
      specialize (Hpoly eq_refl). discriminate Hpoly. }
    destruct (button ev); try solve [ apply same_ok; sames ].
    eapply step_ok_trans; [ | apply ok_start_new_selection ].
    + apply same_ok; sames.
    + rewrite tool_T. exact Cf.
    + unfold is_polygon in *. rewrite tool_T, Cv. exact Hp.
Qed.

Lemma ok_BaseSelectTool_mouse_move quiet ev px py w :
  step_ok (is_resizing (tool w) = false) quiet w
    (BaseSelectTool_mouse_move ev px py w).
Proof.
  unfold BaseSelectTool_mouse_move. cbv zeta.
  rewrite !tool_T, is_resizing_mouse_move.
  destruct (is_moving _ && pos_bool _).
  { eapply step_ok_trans; [ | apply same_ok; sames ].
    eapply step_ok_trans; [ | apply ok_move_selection ].
    apply same_ok; sames. }
  destruct (is_resizing (tool w)) eqn:Hr; cbn [andb].
  - destruct (_ && pos_bool _).
    { eapply step_ok_fit_weaken with (fit' := False);
        [ | intro Hq; discriminate Hq ].
      eapply step_ok_trans; [ | apply same_ok; sames ].
      eapply step_ok_trans; [ | apply ok_resize_selection ].
      apply same_ok; sames. }
    destruct (is_scaling _ && pos_bool _).
    { destruct (last_mouse_pos _); [ | apply same_ok; sames ].
      eapply step_ok_trans; [ | apply ok_handle_scaling ].
      apply same_ok; sames. }
    destruct (is_rotating _ && pos_bool _).
    { destruct (last_mouse_pos _); [ | apply same_ok; sames ].
      eapply step_ok_trans; [ | apply ok_handle_rotation ].
      apply same_ok; sames. }
    destruct (drawing _); [ | apply same_ok; sames ].
    destruct (is_shift_pressed _); apply same_ok; sames.
  - destruct (is_scaling _ && pos_bool _).
    { destruct (last_mouse_pos _); [ | apply same_ok; sames ].
      eapply step_ok_trans; [ | apply ok_handle_scaling ].
      apply same_ok; sames. }
    destruct (is_rotating _ && pos_bool _).
    { destruct (last_mouse_pos _); [ | apply same_ok; sames ].
      eapply step_ok_trans; [ | apply ok_handle_rotation ].
      apply same_ok; sames. }
    destruct (drawing _); [ | apply same_ok; sames ].
    destruct (is_shift_pressed _); apply same_ok; sames.
Qed.

Lemma ok_BaseSelectTool_mouse_release fit quiet ev px py w :
  step_ok fit quiet w (world_of (BaseSelectTool_mouse_release ev px py w)).
Proof.
  unfold BaseSelectTool_mouse_release. cbv zeta.
  destruct (_ || _ || _ || _);
    [ cbn [world_of]; apply same_ok; sames | ].
  destruct (drawing _) eqn:Hd; [ | cbn [world_of]; apply same_ok; sames ].
  eapply step_ok_trans; [ | apply ok_release_finalize; exact Hd ].
  apply same_ok; sames.
Qed.

Lemma ok_commit_key fit w :
  step_ok fit (is_floating (tool w) = false) w
    (if is_floating (tool w) then _commit_selection w else w).
Proof.
  destruct (is_floating (tool w)); [ | apply same_ok, same_refl ].
  eapply step_ok_weaken;
    [ apply ok_commit_selection | intro Hq; discriminate Hq ].
Qed.

Lemma ok_BaseSelectTool_key_press fit k w :
  step_ok fit (key_commits k (tool w) = false) w
    (BaseSelectTool_key_press k w).
Proof.
  destruct k; unfold BaseSelectTool_key_press, key_commits;
    try apply ok_cancel;
    try apply ok_commit_key;
    (destruct (_ && _ && _);
     [ apply ok_cancel_selection | apply same_ok, same_refl ]).
Qed.

Lemma ok_destroy_if_floating fit quiet w :
  step_ok fit quiet w (destroy_if_floating w).
Proof.
  unfold destroy_if_floating.
  destruct (_ && _); [ apply ok_cancel_selection | apply same_ok, same_refl ].
Qed.

Lemma polygon_variant w :
  is_polygon w = true -> variant (tool w) = ImprovedPolygonSelectTool.
Proof. unfold is_polygon. destruct (variant (tool w)); congruence. Qed.

(** The polygon tool closes its outline outside the floating state. *)
Lemma ok_polygon_close fit quiet w :
  is_polygon w = true -> is_floating (tool w) = false ->
  step_ok fit quiet w (world_of (_finalize_selection w)).
Proof.
  intros Hp Hf. unfold _finalize_selection.
  rewrite (polygon_variant w Hp).
  apply step_ok_split; [ | apply dsame_polygon_finalize ].
  intros [_ [_ Hd]]. rewrite (polygon_variant w Hp) in Hd.
  apply ok_polygon_finalize; assumption.
Qed.

Lemma ok_polygon_mouse_press fit ev px py w :
  is_polygon w = true ->
  step_ok fit (press_commits (tool w) px py = false) w
    (world_of (ImprovedPolygonSelectTool_mouse_press ev px py w)).
Proof.
  intro Hp. unfold ImprovedPolygonSelectTool_mouse_press. cbv zeta.
  destruct (is_floating (tool w)) eqn:Hf.
  - destruct (negb _) eqn:Hc; cbn [world_of].
    + eapply step_ok_weaken; [ apply ok_commit_selection | ].
      unfold press_commits. rewrite Hf.
      apply negb_true_iff in Hc.
      apply orb_false_iff in Hc. destruct Hc as [Hc H4].
      apply orb_false_iff in Hc. destruct Hc as [Hc H3].
      apply orb_false_iff in Hc. destruct Hc as [H1 H2].
      rewrite H1, H2, H3.
      destruct (_get_resize_handle_at (tool w) px py);
        [ discriminate H4 | ].
      intro Hq; discriminate Hq.
    + apply ok_BaseSelectTool_mouse_press. intros _. exact Hf.
  - destruct (button ev); cbn [world_of];
      try solve [ apply same_ok; sames ].
    + destruct (negb _); cbn [world_of]; apply same_ok; sames.
    + destruct (_ && _); [ apply ok_polygon_close; assumption | ].
      destruct (negb _); cbn [world_of];
        [ apply ok_cancel | apply same_ok, same_refl ].
Qed.

Lemma ok_polygon_mouse_move quiet ev px py w :
  step_ok (is_resizing (tool w) = false) quiet w
    (ImprovedPolygonSelectTool_mouse_move ev px py w).
Proof.
  unfold ImprovedPolygonSelectTool_mouse_move. cbv zeta.
  destruct (is_floating (tool w));
    [ apply ok_BaseSelectTool_mouse_move | ].
  destruct (_ && _); [ | apply same_ok, same_refl ].
  destruct (match temp_point (tool w) with Some _ => _ | None => _ end);
    apply same_ok; sames.
Qed.

Lemma ok_polygon_mouse_release fit quiet ev px py w :
  step_ok fit quiet w
    (world_of (ImprovedPolygonSelectTool_mouse_release ev px py w)).
Proof.
  unfold ImprovedPolygonSelectTool_mouse_release.
  destruct (negb _);
    [ apply same_ok, same_refl | apply ok_BaseSelectTool_mouse_release ].
Qed.

Lemma ok_polygon_key_press fit k w :
  is_polygon w = true ->
  step_ok fit (key_commits k (tool w) = false) w
    (world_of (ImprovedPolygonSelectTool_key_press k w)).
Proof.
  intro Hp. unfold ImprovedPolygonSelectTool_key_press. cbv zeta.
  assert (Henter :
    forall k', key_commits k' (tool w) = is_floating (tool w) ->
    step_ok fit (key_commits k' (tool w) = false) w
      (world_of
         (if is_floating (tool w) then Ok (_commit_selection w)
          else if is_creating (tool w)
                  && (3 <=? List.length (points (tool w)))%nat
          then _finalize_selection w
          else if is_creating (tool w)
                  && (List.length (points (tool w)) <? 3)%nat
          then Ok (C (emit Status_polygon_needs_3_to_finish) w)
          else Ok (BaseSelectTool_key_press k' w)))).
  { intros k' Hk.
    destruct (is_floating (tool w)) eqn:Hf.
    - cbn [world_of]. eapply step_ok_weaken;
        [ apply ok_commit_selection
        | intro Hq; rewrite Hk in Hq; discriminate Hq ].
    - destruct (_ && _); [ apply ok_polygon_close; assumption | ].
      destruct (_ && _); cbn [world_of]; [ apply same_ok; sames | ].
      apply ok_BaseSelectTool_key_press. }
  destruct k; try (apply Henter; reflexivity);
    try (cbn [world_of]; apply ok_BaseSelectTool_key_press).
  destruct (is_creating (tool w)); cbn [world_of];
    [ apply ok_cancel | apply ok_BaseSelectTool_key_press ].
Qed.

Lemma ok_polygon_on_other_operation fit quiet w :
  step_ok fit quiet w (ImprovedPolygonSelectTool_on_other_operation w).
Proof.
  unfold ImprovedPolygonSelectTool_on_other_operation.
  destruct (is_creating (tool w));
    [ apply ok_cancel | apply ok_destroy_if_floating ].
Qed.

Lemma ok_on_other_operation fit quiet w :
  step_ok fit quiet w (on_other_operation w).
Proof.
  unfold on_other_operation.
  destruct (is_polygon w);
    [ apply ok_polygon_on_other_operation | apply ok_destroy_if_floating ].
Qed.

(** Every event keeps the invariant of the tool; it keeps the fit of the
    mask unless it drags a resize handle, and the document unless it
    commits. *)
Lemma ok_step e w :
  step_ok (resize_drag e w = false) (commits e w = false) w
    (world_of (step e w)).
Proof.
  destruct e; unfold step, resize_drag, commits; cbn [world_of];
    try apply ok_on_other_operation.
  - unfold mouse_press. destruct (is_polygon w) eqn:Hp.
    + apply ok_polygon_mouse_press; exact Hp.
    + cbn [world_of]. apply ok_BaseSelectTool_mouse_press.
      intro H; congruence.
  - unfold mouse_move. destruct (is_polygon w); cbn [world_of].
    + apply ok_polygon_mouse_move.
    + apply ok_BaseSelectTool_mouse_move.
  - unfold mouse_release. destruct (is_polygon w).
    + apply ok_polygon_mouse_release.
    + apply ok_BaseSelectTool_mouse_release.
  - unfold key_press. destruct (is_polygon w) eqn:Hp.
    + apply ok_polygon_key_press; exact Hp.
    + cbn [world_of]. apply ok_BaseSelectTool_key_press.
  - unfold set_auto_destroy. apply same_ok; sames.
Qed.

End Handlers.
(** ** Runs *)

Section Runs.
Context {L : Libm} {R : Raster}.

(** [p] holds of every event of the run, in the state it arrives in. *)
Fixpoint all_steps (p : Event -> World -> bool) (es : list Event) (w : World)
    : bool :=
  match es with
  | [] => true
  | e :: es' =>
      p e w
      && match step e w with
         | Ok w' => all_steps p es' w'
         | Raised _ => true
         end
  end.

(** No event of the run reaches [_commit_selection]. *)
Definition commit_free : list Event -> World -> bool :=
  all_steps (fun e w => negb (commits e w)).

(** No event of the run drags a resize handle. *)
Definition resize_free : list Event -> World -> bool :=
  all_steps (fun e w => negb (resize_drag e w)).

(** The ways out of a floating selection that do not commit it. *)
Definition cancellation (e : Event) : bool :=
  match e with
  | key_press_event Key_Escape | key_press_event (Key_other _)
  | tool_changed_event | other_operation_event
  | menu_action_event | toolbar_button_click_event => true
  | _ => false
  end.

(** From the document of a controller, its fields one by one. *)
Lemma doc_fields (c c' : Controller) :
  doc c' = doc c ->
  layers c' = layers c /\ undo_stack c' = undo_stack c
  /\ redo_stack c' = redo_stack c /\ is_modified c' = is_modified c.
Proof. unfold doc. intro H. injection H as -> -> -> ->. repeat split. Qed.

Lemma new_tool_inv v : tool_inv (new_tool v).
Proof.
  unfold tool_inv, transform_inv, tool_wf, transform_vals, wf_vals, new_tool.
  cbn. repeat split; try discriminate. destruct v; trivial.
Qed.

Lemma run_cons e es w : run (e :: es) w = bind (step e w) (run es).
Proof. reflexivity. Qed.

Lemma run_app es1 es2 w : run (es1 ++ es2) w = bind (run es1 w) (run es2).
Proof.
  revert w. induction es1 as [|e es1 IH]; intro w; [ reflexivity | ].
  cbn [app]. rewrite !run_cons. destruct (step e w); cbn [bind]; auto.
Qed.

Lemma run_inv es w :
  tool_inv (tool w) -> tool_inv (tool (world_of (run es w))).
Proof.
  revert w. induction es as [|e es IH]; intros w Hi; [ exact Hi | ].
  rewrite run_cons.
  pose proof (proj1 (ok_step e w) Hi) as [Hi' _].
  destruct (step e w); cbn [bind world_of] in *; auto.
Qed.

Lemma run_fits es w :
  tool_inv (tool w) -> mask_fits (tool w) -> resize_free es w = true ->
  mask_fits (tool (world_of (run es w))).
Proof.
  revert w. induction es as [|e es IH]; intros w Hi Hm Hf; [ exact Hm | ].
  rewrite run_cons. unfold resize_free in Hf. cbn [all_steps] in Hf.
  apply andb_true_iff in Hf. destruct Hf as [He Hf].
  apply negb_true_iff in He.
  pose proof (proj1 (ok_step e w) Hi) as [Hi' Hm'].
  specialize (Hm' He Hm).
  destruct (step e w); cbn [bind world_of] in *; auto.
Qed.

Lemma run_quiet es w :
  commit_free es w = true -> doc (ctl (world_of (run es w))) = doc (ctl w).
Proof.
  revert w. induction es as [|e es IH]; intros w Hf; [ reflexivity | ].
  rewrite run_cons. unfold commit_free in Hf. cbn [all_steps] in Hf.
  apply andb_true_iff in Hf. destruct Hf as [He Hf].
  apply negb_true_iff in He.
  pose proof (proj2 (ok_step e w) He) as Hd.
  destruct (step e w); cbn [bind world_of] in *; [ | exact Hd ].
  rewrite (IH _ Hf). exact Hd.
Qed.

Lemma all_steps_app p es e w :
  all_steps p es w = true ->
  p e (world_of (run es w)) = true ->
  all_steps p (es ++ [e]) w = true.
Proof.
  revert w. induction es as [|e' es IH]; intros w Ha Hp.
  - cbn in *. rewrite Hp. destruct (step e w); reflexivity.
  - cbn [app all_steps] in *. apply andb_true_iff in Ha.
    destruct Ha as [H1 H2]. rewrite H1. cbn [andb].
    rewrite run_cons in Hp.
    destruct (step e' w); cbn [bind world_of] in *; auto.
Qed.

Lemma cancellation_commits e w : cancellation e = true -> commits e w = false.
Proof.
  destruct e; try discriminate; try reflexivity.
  destruct k; try discriminate; reflexivity.
Qed.

(** What finishing an outline leaves of the transform. *)
Lemma capture_transform w :
  is_floating (tool (world_of (_capture_selection w))) = is_floating (tool w)
  /\ scale_factor (tool (world_of (_capture_selection w)))
     = scale_factor (tool w)
  /\ rotation_angle (tool (world_of (_capture_selection w)))
     = rotation_angle (tool w).
Proof.
  destruct (capture_core w) as (c' & m' & Hc & _).
  use_core Hc. auto.
Qed.

Lemma same_transform w w' :
  same w w' ->
  is_floating (tool w') = is_floating (tool w)
  /\ scale_factor (tool w') = scale_factor (tool w)
  /\ rotation_angle (tool w') = rotation_angle (tool w).
Proof.
  intros [Hc _]. unfold core in Hc.
  injection Hc as _ Hf _ _ _ _ Hs Ha. auto.
Qed.

Lemma cancel_selection_floating w :
  is_floating (tool (_cancel_selection w)) = false.
Proof.
  pose proof (core_cancel_selection w) as Hc. use_core Hc. assumption.
Qed.

Lemma cancel_floating w :
  is_floating (tool w) = false -> is_floating (tool (cancel w)) = false.
Proof.
  intro Hf. unfold cancel, ImprovedPolygonSelectTool_cancel,
    BaseSelectTool_cancel.
  destruct (variant (tool w)); try apply cancel_selection_floating.
  destruct (is_creating (tool w)); [ | apply cancel_selection_floating ].
  cbv zeta. rewrite <- Hf.
  destruct w as [c t]; destruct t; reflexivity.
Qed.

Lemma finalize_resets w :
  is_floating (tool w) = false ->
  is_floating (tool (world_of (_finalize_selection w))) = true ->
  scale_factor (tool (world_of (_finalize_selection w))) = 1%Q
  /\ rotation_angle (tool (world_of (_finalize_selection w))) = 0%Q.
Proof.
  intro Hf.
  unfold _finalize_selection, BaseSelectTool_finalize_selection,
    ImprovedPolygonSelectTool_finalize_selection.
  destruct (variant (tool w)).
  1, 2:
    destruct (start_pos _) as [s|]; [ | cbn [world_of]; congruence ];
    destruct (end_pos _) as [e|]; [ | cbn [world_of]; congruence ];
    destruct (negb _); [ cbn [world_of]; congruence | ];
    cbv zeta; destruct (_ && _);
      [ | cbn [world_of]; rewrite (cancel_floating w Hf); discriminate ];
    intros _;
    match goal with
    | |- context [_capture_selection ?X] =>
        destruct (capture_transform X) as (_ & Hs & Ha);
        destruct (_capture_selection X) as [w5|w5];
        cbn [bind world_of] in *
    end;
    match goal with
    | |- scale_factor (tool ?W) = _ /\ _ =>
        assert (Hsame : same w5 W) by sames;
        destruct (same_transform _ _ Hsame) as (_ & Es & Ea)
    end;
    (split;
     [ transitivity (scale_factor (tool w5)); [ exact Es | ]
     | transitivity (rotation_angle (tool w5)); [ exact Ea | ] ]);
    rewrite ?Hs, ?Ha; destruct w as [c t]; destruct t; reflexivity.
  destruct (points (tool w)) as [|p [|p1 [|p2 ps]]]; cbv zeta;
    try (cbn [world_of];
         rewrite (cancel_floating (C (emit Status_polygon_needs_3) w) Hf);
         discriminate).
  intros _.
  match goal with
  | |- context [_capture_selection ?X] =>
      destruct (capture_transform X) as (_ & Hs & Ha);
      destruct (_capture_selection X) as [w5|w5];
      cbn [bind world_of] in *
  end.
  - destruct (same_transform _ _ (same_update_selection_preview w5))
      as (_ & -> & ->).
    rewrite Hs, Ha; destruct w as [c t]; destruct t; split; reflexivity.
  - rewrite Hs, Ha; destruct w as [c t]; destruct t; split; reflexivity.
Qed.

End Runs.
(** ** Scenarios

    A 100 x 100 layer of opaque red, and the gestures of the claims,
    evaluated with the instances of [Probe]. *)

Definition opaque_red : QColor := mkQColor 255 0 0 255.

Definition red_image : QImage := filled (mkQSize 100 100) opaque_red.

Definition red_layer (is_locked : bool) : Layer :=
  mkLayer String.EmptyString red_image true 100 is_locked.

Definition no_adjustments : Adjustments := mkAdjustments [] [] None.

(** A controller with the layers [ls], the first one active and shown,
    recording its history, and [redo] waiting to be redone. *)
Definition controller_of (ls : list Layer) (redo : list Snapshot)
    : Controller :=
  mkController ls 0 (option_map image (head ls)) None [] redo true false
    false false no_adjustments [].

Definition left_press (px py : Z) : Event :=
  mouse_press_event (mkMouseEvent LeftButton true false false false) px py.
Definition right_press (px py : Z) : Event :=
  mouse_press_event (mkMouseEvent RightButton false true false false) px py.
Definition left_drag (px py : Z) : Event :=
  mouse_move_event (mkMouseEvent NoButton true false false false) px py.
Definition left_release (px py : Z) : Event :=
  mouse_release_event (mkMouseEvent LeftButton false false false false) px py.

(** A drag from [(x1, y1)] to [(x2, y2)]. *)
Definition drag (px1 py1 px2 py2 : Z) : list Event :=
  [left_press px1 py1; left_drag px2 py2; left_release px2 py2].

Definition start_world (v : Variant) (c : Controller) : World :=
  mkWorld c (new_tool v).

(** The rectangle (20,20)-(60,60) selected on the red layer. *)
Definition selected (ls : list Layer) (redo : list Snapshot) : World :=
  world_of (run (L := Probe.libm) (R := Probe.raster) (drag 20 20 60 60)
              (start_world RectSelectTool (controller_of ls redo))).

(** The right handle of the selection dragged 10 pixels to the right. *)
Definition resized : World :=
  world_of (run (L := Probe.libm) (R := Probe.raster) (drag 59 40 69 40)
              (selected [red_layer false] [])).

(** The selection moved by (+30,+10), then committed by Enter. *)
Definition moved : World :=
  world_of (run (L := Probe.libm) (R := Probe.raster) (drag 40 40 70 50)
              (selected [red_layer false] [])).

Definition committed : World :=
  world_of (run (L := Probe.libm) (R := Probe.raster)
              [key_press_event Key_Enter] moved).

(** The selection is moved by (+10,+5), scaled by a drag of the scale
    handle and resized by a drag of the right handle. *)
Definition move_and_scale : list Event :=
  drag 20 20 60 60 ++ drag 40 40 50 45 ++ drag 70 65 72 67.

Definition transform_gestures : list Event :=
  move_and_scale ++ drag 72 45 80 45.

(** [p] holds of every pixel of [i] within [rect]. *)
Definition all_pixels (p : QColor -> bool) (i : QImage) (rect : QRect) : bool :=
  forallb
    (fun dy =>
       forallb
         (fun dx =>
            p (pixel i (Qt.left rect + Z.of_nat dx)
                       (Qt.top rect + Z.of_nat dy)))
         (seq 0 (Z.to_nat (Qt.width rect))))
    (seq 0 (Z.to_nat (Qt.height rect))).


(** * The claims *)

(** ** The rotation angle in binary64 arithmetic

    The tools above compute on rationals, where the remainder [Py.mod_]
    is exact and an angle stays below 360.  Here is the angle of
    [_handle_rotation] once more, in the arithmetic the program runs:
    Python's floats are binary64 numbers, [math.degrees] multiplies by
    the constant [180 / pi], and [%] on floats is the remainder of C's
    [fmod], to which the divisor is added when the signs differ; that
    sum is rounded.  [atan2] is the C library's and is taken as given. *)

From Stdlib Require PrimFloat FloatOps SpecFloat Uint63.

Module Float64.
Import PrimFloat FloatOps SpecFloat.
#[local] Open Scope float_scope.

(** The float of an integer of small magnitude, exactly. *)
Definition of_Z (z : Z) : float :=
  match z with
  | Z0 => 0
  | Zpos _ => of_uint63 (Uint63.of_Z z)
  | Zneg _ => - of_uint63 (Uint63.of_Z (- z))
  end.

Definition is_zero (x : float) : bool := x =? 0.

(** C's [fmod]: the remainder of the quotient rounded towards zero, with
    the sign of [x]; it is exact. *)
Definition fmod (x y : float) : float :=
  match Prim2SF x, Prim2SF y with
  | S754_nan, _ | _, S754_nan | S754_infinity _, _ | _, S754_zero _ => nan
  | S754_zero _, _ | _, S754_infinity _ => x
  | S754_finite sx mx ex, S754_finite _ my ey =>
      let e := Z.min ex ey in
      let r := ((Zpos mx * 2 ^ (ex - e)) mod (Zpos my * 2 ^ (ey - e)))%Z in
      let v := Z.ldexp (of_Z r) e in
      if sx then - v else v
  end.

(** Python's [x % y] on floats ([float_rem] of floatobject.c); [None]
    stands for ZeroDivisionError. *)
Definition mod_ (x y : float) : option float :=
  if is_zero y then None
  else
    let m := fmod x y in
    if negb (is_zero m) then
      if negb (Bool.eqb (y <? 0) (m <? 0)) then Some (m + y) else Some m
    else Some (if y <? 0 then - 0 else 0).

Definition pi : float := 0x1.921fb54442d18p+1.

(** [math.degrees]. *)
Definition degrees (x : float) : float := x * (180 / pi).

(** [_handle_rotation(x, y)] on a valid rectangle: the angle it stores
    in [rotation_angle]. *)
Definition _handle_rotation (atan2 : float -> float -> float)
    (rect : QRect) (last_mouse_pos : QPoint) (original_angle : float)
    (x y : Z) : option float :=
  let center := Qt.center rect in
  let dx1 := of_Z (pt_x last_mouse_pos) - of_Z (pt_x center) in
  let dy1 := of_Z (pt_y last_mouse_pos) - of_Z (pt_y center) in
  let dx2 := of_Z (x - pt_x center) in
  let dy2 := of_Z (y - pt_y center) in
  let angle1 := degrees (atan2 dy1 dx1) in
  let angle2 := degrees (atan2 dy2 dx2) in
  let angle_diff := angle2 - angle1 in
  mod_ (original_angle + angle_diff) 360.

(** The power of two [2^e]. *)
Definition two_pow (e : Z) : float := Z.ldexp 1 e.

(** What the C library's [atan2] returns at four arguments. *)
Definition atan2_m32_34 : float := - 0x1.829d0b5c0352bp-1.
Definition atan2_39_m39 : float := 0x1.2d97c7f3321d2p+1.
Definition atan2_34_m32 : float := 0x1.29b71d79223d7p+1.
Definition atan2_m32_32 : float := - 0x1.921fb54442d18p-1.

(** An [atan2] that is the C library's at these four arguments. *)
Definition atan2_at_four (y x : float) : float :=
  if (y =? -32) && (x =? 34) then atan2_m32_34
  else if (y =? 39) && (x =? -39) then atan2_39_m39
  else if (y =? 34) && (x =? -32) then atan2_34_m32
  else if (y =? -32) && (x =? 32) then atan2_m32_32
  else nan.

End Float64.

(** C2, for what the code does: a rectangle (20,20)-(60,60) is rotated
    twice by its handle, first by a press at (73,7) and a move to (0,78),
    then by a press at (7,73) and a move to (71,7).  The first gesture
    leaves an angle [a1]; in the second the sum of [a1] and the
    difference of the two angles is the negative number -2^-45, and its
    remainder by 360 is 360 itself: the angle is not below 360. *)
Theorem C2_rotation_reaches_360
    (atan2 : PrimFloat.float -> PrimFloat.float -> PrimFloat.float) :
  atan2 (Float64.of_Z (-32)) (Float64.of_Z 34) = Float64.atan2_m32_34 ->
  atan2 (Float64.of_Z 39) (Float64.of_Z (-39)) = Float64.atan2_39_m39 ->
  atan2 (Float64.of_Z 34) (Float64.of_Z (-32)) = Float64.atan2_34_m32 ->
  atan2 (Float64.of_Z (-32)) (Float64.of_Z 32) = Float64.atan2_m32_32 ->
  exists a1,
    Float64._handle_rotation atan2 (QRect_xywh 20 20 40 40) (mkQPoint 73 7)
      (Float64.of_Z 0) 0 78 = Some a1
    /\ PrimFloat.add a1
         (PrimFloat.sub
            (Float64.degrees (atan2 (Float64.of_Z (-32)) (Float64.of_Z 32)))
            (Float64.degrees (atan2 (Float64.of_Z 34) (Float64.of_Z (-32)))))
       = PrimFloat.opp (Float64.two_pow (-45))
    /\ Float64._handle_rotation atan2 (QRect_xywh 20 20 40 40) (mkQPoint 7 73)
         a1 71 7 = Some (Float64.of_Z 360).
Proof.
  intros H1 H2 H3 H4.
  assert (E1 : Float64._handle_rotation atan2 (QRect_xywh 20 20 40 40)
                 (mkQPoint 73 7) (Float64.of_Z 0) 0 78
               = Float64.mod_
                   (PrimFloat.add (Float64.of_Z 0)
                      (PrimFloat.sub
                         (Float64.degrees
                            (atan2 (Float64.of_Z 39) (Float64.of_Z (-39))))
                         (Float64.degrees
                            (atan2 (Float64.of_Z (-32)) (Float64.of_Z 34)))))
                   (Float64.of_Z 360)) by reflexivity.
  assert (E2 : forall a,
            Float64._handle_rotation atan2 (QRect_xywh 20 20 40 40)
              (mkQPoint 7 73) a 71 7
            = Float64.mod_
                (PrimFloat.add a
                   (PrimFloat.sub
                      (Float64.degrees
                         (atan2 (Float64.of_Z (-32)) (Float64.of_Z 32)))
                      (Float64.degrees
                         (atan2 (Float64.of_Z 34) (Float64.of_Z (-32))))))
                (Float64.of_Z 360)) by reflexivity.
  rewrite E1. rewrite H1, H2.
  eexists. split; [ vm_compute; reflexivity | ].
  rewrite E2. rewrite H3, H4.
  split; vm_compute; reflexivity.
Qed.

Lemma C2_rotation_reaches_360_witness :
  Float64.atan2_at_four (Float64.of_Z (-32)) (Float64.of_Z 34)
  = Float64.atan2_m32_34
  /\ Float64.atan2_at_four (Float64.of_Z 39) (Float64.of_Z (-39))
     = Float64.atan2_39_m39
  /\ Float64.atan2_at_four (Float64.of_Z 34) (Float64.of_Z (-32))
     = Float64.atan2_34_m32
  /\ Float64.atan2_at_four (Float64.of_Z (-32)) (Float64.of_Z 32)
     = Float64.atan2_m32_32
  /\ (exists a1,
        Float64._handle_rotation Float64.atan2_at_four
          (QRect_xywh 20 20 40 40) (mkQPoint 73 7) (Float64.of_Z 0) 0 78
        = Some a1
        /\ PrimFloat.add a1
             (PrimFloat.sub
                (Float64.degrees
                   (Float64.atan2_at_four (Float64.of_Z (-32))
                      (Float64.of_Z 32)))
                (Float64.degrees
                   (Float64.atan2_at_four (Float64.of_Z 34)
                      (Float64.of_Z (-32)))))
           = PrimFloat.opp (Float64.two_pow (-45))
        /\ Float64._handle_rotation Float64.atan2_at_four
             (QRect_xywh 20 20 40 40) (mkQPoint 7 73) a1 71 7
           = Some (Float64.of_Z 360)).
Proof.
  assert (H1 : Float64.atan2_at_four (Float64.of_Z (-32)) (Float64.of_Z 34)
               = Float64.atan2_m32_34) by (vm_compute; reflexivity).
  assert (H2 : Float64.atan2_at_four (Float64.of_Z 39) (Float64.of_Z (-39))
               = Float64.atan2_39_m39) by (vm_compute; reflexivity).
  assert (H3 : Float64.atan2_at_four (Float64.of_Z 34) (Float64.of_Z (-32))
               = Float64.atan2_34_m32) by (vm_compute; reflexivity).
  assert (H4 : Float64.atan2_at_four (Float64.of_Z (-32)) (Float64.of_Z 32)
               = Float64.atan2_m32_32) by (vm_compute; reflexivity).
  do 4 (split; [ assumption | ]).
  exact (C2_rotation_reaches_360 Float64.atan2_at_four H1 H2 H3 H4).
Defined.

(** C3: after any events none of which commits, a cancellation (Escape,
    another key, a change of tool, another operation) leaves the layers,
    the undo stack, the redo stack and the modified flag as they were
    before the first of them. *)
Theorem C3_cancel_leaves_no_trace {L : Libm} {R : Raster}
    (w : World) (es : list Event) (e : Event) :
  commit_free es w = true -> cancellation e = true ->
  let w' := world_of (run (es ++ [e]) w) in
  layers (ctl w') = layers (ctl w)
  /\ undo_stack (ctl w') = undo_stack (ctl w)
  /\ redo_stack (ctl w') = redo_stack (ctl w)
  /\ is_modified (ctl w') = is_modified (ctl w).
Proof.
  intros Hf He. cbv zeta.
  assert (Hq : commit_free (es ++ [e]) w = true).
  { apply all_steps_app; [ exact Hf | ].
    rewrite cancellation_commits by exact He. reflexivity. }
  exact (doc_fields _ _ (run_quiet _ _ Hq)).
Qed.

Lemma C3_cancel_leaves_no_trace_witness :
  commit_free (L := Probe.libm) (R := Probe.raster) transform_gestures
    (start_world RectSelectTool (controller_of [red_layer false] [])) = true
  /\ cancellation (key_press_event Key_Escape) = true
  /\ (let w' :=
        world_of (run (L := Probe.libm) (R := Probe.raster)
                    (transform_gestures ++ [key_press_event Key_Escape])
                    (start_world RectSelectTool
                       (controller_of [red_layer false] []))) in
      layers (ctl w')
      = layers (ctl (start_world RectSelectTool
                       (controller_of [red_layer false] [])))
      /\ undo_stack (ctl w')
         = undo_stack (ctl (start_world RectSelectTool
                              (controller_of [red_layer false] [])))
      /\ redo_stack (ctl w')
         = redo_stack (ctl (start_world RectSelectTool
                              (controller_of [red_layer false] [])))
      /\ is_modified (ctl w')
         = is_modified (ctl (start_world RectSelectTool
                               (controller_of [red_layer false] [])))).
Proof.
  assert (H1 : commit_free (L := Probe.libm) (R := Probe.raster)
                 transform_gestures
                 (start_world RectSelectTool
                    (controller_of [red_layer false] [])) = true)
    by (vm_compute; reflexivity).
  assert (H2 : cancellation (key_press_event Key_Escape) = true)
    by reflexivity.
  split; [ exact H1 | split; [ exact H2 | ] ].
  exact (C3_cancel_leaves_no_trace (L := Probe.libm) (R := Probe.raster)
           (start_world RectSelectTool (controller_of [red_layer false] []))
           transform_gestures (key_press_event Key_Escape) H1 H2).
Defined.

(** C5, as amended: from a new tool, after every sequence of events none
    of which drags a resize handle, a stored mask has the width and the
    height of the selection rectangle. *)
Theorem C5_mask_fits_unless_resized {L : Libm} {R : Raster}
    (v : Variant) (c : Controller) (es : list Event) :
  resize_free es (start_world v c) = true ->
  forall rect mask,
    selection_rect (tool (world_of (run es (start_world v c)))) = Some rect ->
    selection_mask (tool (world_of (run es (start_world v c)))) = Some mask ->
    img_w mask = Qt.width rect /\ img_h mask = Qt.height rect.
Proof.
  intros Hf rect mask Hr Hm.
  assert (H : mask_fits (tool (world_of (run es (start_world v c))))).
  { apply run_fits; [ apply new_tool_inv | exact I | exact Hf ]. }
  unfold mask_fits, fits_vals in H. rewrite Hr, Hm in H.
  unfold img_size, Qt.size in H. injection H as H1 H2. auto.
Qed.

Lemma C5_mask_fits_unless_resized_witness :
  resize_free (L := Probe.libm) (R := Probe.raster) move_and_scale
    (start_world RectSelectTool (controller_of [red_layer false] [])) = true
  /\ (forall rect mask,
        selection_rect
          (tool (world_of (run (L := Probe.libm) (R := Probe.raster)
                             move_and_scale
                             (start_world RectSelectTool
                                (controller_of [red_layer false] [])))))
        = Some rect ->
        selection_mask
          (tool (world_of (run (L := Probe.libm) (R := Probe.raster)
                             move_and_scale
                             (start_world RectSelectTool
                                (controller_of [red_layer false] [])))))
        = Some mask ->
        img_w mask = Qt.width rect /\ img_h mask = Qt.height rect).
Proof.
  assert (H1 : resize_free (L := Probe.libm) (R := Probe.raster)
                 move_and_scale
                 (start_world RectSelectTool
                    (controller_of [red_layer false] [])) = true)
    by (vm_compute; reflexivity).
  split; [ exact H1 | ].
  exact (C5_mask_fits_unless_resized (L := Probe.libm) (R := Probe.raster)
           RectSelectTool (controller_of [red_layer false] [])
           move_and_scale H1).
Defined.

(** C5 fails as stated: after the right handle of the 40 x 40 selection
    is dragged 10 pixels, the rectangle is 50 x 40 and the mask still
    40 x 40. *)
Lemma C5_counterexample :
  option_map Qt.size (selection_rect (tool resized)) = Some (mkQSize 50 40)
  /\ option_map img_size (selection_mask (tool resized))
     = Some (mkQSize 40 40).
Proof. vm_compute. split; reflexivity. Qed.
(** ** A press on a floating selection *)

(** The four gesture flags. *)
Definition modes (t : Tool) : bool * bool * bool * bool :=
  (is_scaling t, is_rotating t, is_resizing t, is_moving t).

(** [_commit_selection] has something to commit. *)
Definition committable (t : Tool) : bool :=
  selection_rect_bool t
  && match selected_content t with Some _ => true | None => false end.

Section Press.
Context {L : Libm} {R : Raster}.


(** The bookkeeping of a press leaves the selection as it is. *)
Lemma press_keeps ev X w :
  let w' := T (set_resize_handle X) (T (BaseTool_mouse_press ev) w) in
  is_floating (tool w') = is_floating (tool w)
  /\ committable (tool w') = committable (tool w)
  /\ modes (tool w') = modes (tool w).
Proof.
  cbv zeta. rewrite !tool_T.
  destruct (BaseTool_mouse_press_shape ev (tool w)) as (a & b & c & d & e & ->).
  destruct w as [c0 t]; destruct t; repeat split; reflexivity.
Qed.




End Press.

(** A rectangle dragged on a controller without layers, and a press far
    from it. *)
Definition selected_without_layer : World := selected [] [].


(** ** Keys *)

(** The keys that leave a floating selection floating, or commit it: the
    fifteen of [non_operation_keys], and Escape, Enter and Return, which
    [key_press] handles first. *)
Definition spared_key (k : Key) : bool :=
  non_operation_key k
  || match k with
     | Key_Escape | Key_Enter | Key_Return => true
     | _ => false
     end.

(** C7, as amended: while a selection floats and
    [destroy_on_other_action] is set (as it is until [set_auto_destroy]
    clears it), every key outside Shift, Control, Alt, Meta, CapsLock,
    NumLock, ScrollLock, the arrows, Home, End, PageUp, PageDown, Escape,
    Enter and Return cancels the selection: nothing floats afterwards, the
    rectangle, the content and the mask are gone, and the layers and the
    history are as before. *)
Theorem C7_other_key_cancels {L : Libm} {R : Raster} (k : Key) (w : World) :
  is_floating (tool w) = true ->
  destroy_on_other_action (tool w) = true ->
  spared_key k = false ->
  let w' := world_of (key_press k w) in
  is_floating (tool w') = false
  /\ selection_rect (tool w') = None
  /\ selected_content (tool w') = None
  /\ selection_mask (tool w') = None
  /\ layers (ctl w') = layers (ctl w)
  /\ undo_stack (ctl w') = undo_stack (ctl w).
Proof.
  intros Hf Hd Hk. cbv zeta.
  assert (Hw : world_of (key_press k w) = _cancel_selection w).
  { destruct k; try discriminate Hk.
    unfold key_press, ImprovedPolygonSelectTool_key_press,
      BaseSelectTool_key_press.
    cbv zeta. rewrite Hf, Hd. cbn [andb negb non_operation_key].
    destruct (is_polygon w); reflexivity. }
  rewrite Hw.
  pose proof (core_cancel_selection w) as Hc. use_core Hc.
  destruct (doc_fields _ _ (doc_cancel_selection w)) as (H1 & H2 & _).
  split; [ exact Ef | ]. split; [ exact Er | ]. split; [ exact Ec | ].
  split; [ exact Em | ]. split; [ exact H1 | exact H2 ].
Qed.

Lemma C7_other_key_cancels_witness :
  is_floating (tool (selected [red_layer false] [])) = true
  /\ destroy_on_other_action (tool (selected [red_layer false] [])) = true
  /\ spared_key (Key_other 65) = false
  /\ (let w' :=
        world_of (key_press (L := Probe.libm) (R := Probe.raster)
                    (Key_other 65) (selected [red_layer false] [])) in
      is_floating (tool w') = false
      /\ selection_rect (tool w') = None
      /\ selected_content (tool w') = None
      /\ selection_mask (tool w') = None
      /\ layers (ctl w') = layers (ctl (selected [red_layer false] []))
      /\ undo_stack (ctl w')
         = undo_stack (ctl (selected [red_layer false] []))).
Proof.
  assert (H1 : is_floating (tool (selected [red_layer false] [])) = true)
    by (vm_compute; reflexivity).
  assert (H2 : destroy_on_other_action (tool (selected [red_layer false] []))
               = true)
    by (vm_compute; reflexivity).
  assert (H3 : spared_key (Key_other 65) = false) by reflexivity.
  split; [ exact H1 | split; [ exact H2 | split; [ exact H3 | ] ] ].
  exact (C7_other_key_cancels (L := Probe.libm) (R := Probe.raster)
           (Key_other 65) (selected [red_layer false] []) H1 H2 H3).
Defined.

(** C7 fails as stated: CapsLock is none of the keys the claim lists, and
    the selection floats on after it. *)
Lemma C7_counterexample :
  is_floating (tool (selected [red_layer false] [])) = true
  /\ destroy_on_other_action (tool (selected [red_layer false] [])) = true
  /\ is_floating
       (tool (world_of (key_press (L := Probe.libm) (R := Probe.raster)
                          Key_CapsLock (selected [red_layer false] []))))
     = true.
Proof. vm_compute. repeat split; reflexivity. Qed.
(** ** Outlines that are dropped or rejected *)

Section Outlines.
Context {L : Libm} {R : Raster}.

Lemma BaseTool_cancel_core w :
  core (tool (BaseTool_cancel w))
  = (variant (tool w), (is_floating (tool w), false),
     (selection_rect (tool w), selected_content (tool w),
      selection_mask (tool w)),
     (scale_factor (tool w), rotation_angle (tool w))).
Proof.
  destruct w as [c t]; destruct t.
  unfold BaseTool_cancel, reset_states. core_tac.
Qed.

(** [BaseSelectTool.cancel] leaves an idle tool. *)
Lemma BaseSelectTool_cancel_idle w :
  let t' := tool (BaseSelectTool_cancel w) in
  is_floating t' = false /\ drawing t' = false
  /\ selection_rect t' = None /\ selected_content t' = None
  /\ selection_mask t' = None.
Proof.
  cbv zeta. unfold BaseSelectTool_cancel.
  pose proof (core_cancel_selection (BaseTool_cancel w)) as Hc. use_core Hc.
  pose proof (BaseTool_cancel_core w) as Hb. use_core Hb.
  repeat split; congruence.
Qed.

Lemma release_keeps ev w :
  let w' := T (set_drawing false) (T (BaseTool_mouse_release ev) w) in
  variant (tool w') = variant (tool w)
  /\ start_pos (tool w') = start_pos (tool w)
  /\ end_pos (tool w') = end_pos (tool w)
  /\ modes (tool (T (BaseTool_mouse_release ev) w)) = modes (tool w)
  /\ drawing (tool (T (BaseTool_mouse_release ev) w)) = drawing (tool w)
  /\ core (tool w')
     = (variant (tool w), (is_floating (tool w), false),
        (selection_rect (tool w), selected_content (tool w),
         selection_mask (tool w)),
        (scale_factor (tool w), rotation_angle (tool w))).
Proof.
  cbv zeta. rewrite !tool_T.
  destruct (BaseTool_mouse_release_shape ev (tool w))
    as (a & b & c & d & e & ->).
  destruct w as [c0 t]; destruct t; repeat split; reflexivity.
Qed.

End Outlines.

(** C8: a drag of the rectangle or ellipse tool that ends less than 2
    pixels wide or high leaves nothing floating: on release the tool is
    idle, without rectangle, content or mask, and the layers and the
    history are as before. *)
Theorem C8_small_outline_is_dropped {L : Libm} {R : Raster}
    (ev : MouseEvent) (px py : Z) (w : World) (s e : QPoint) :
  is_polygon w = false ->
  is_floating (tool w) = false ->
  selection_rect (tool w) = None ->
  selected_content (tool w) = None ->
  selection_mask (tool w) = None ->
  drawing (tool w) = true ->
  modes (tool w) = (false, false, false, false) ->
  start_pos (tool w) = Some s -> end_pos (tool w) = Some e ->
  Z.abs (pt_x e - pt_x s) < 2 \/ Z.abs (pt_y e - pt_y s) < 2 ->
  let w' := world_of (mouse_release ev px py w) in
  is_floating (tool w') = false /\ drawing (tool w') = false
  /\ selection_rect (tool w') = None /\ selected_content (tool w') = None
  /\ selection_mask (tool w') = None
  /\ layers (ctl w') = layers (ctl w)
  /\ undo_stack (ctl w') = undo_stack (ctl w).
Proof.
  intros Hp Hf Hr Hc Hm Hd Hmo Hs He Hsmall. cbv zeta.
  assert (Hdoc : dsame w (world_of (mouse_release ev px py w))).
  { unfold mouse_release. rewrite Hp.
    apply (ok_dsame True), ok_BaseSelectTool_mouse_release. }
  destruct (doc_fields _ _ Hdoc) as (D1 & D2 & _).
  assert (Htool :
    is_floating (tool (world_of (mouse_release ev px py w))) = false
    /\ drawing (tool (world_of (mouse_release ev px py w))) = false
    /\ selection_rect (tool (world_of (mouse_release ev px py w))) = None
    /\ selected_content (tool (world_of (mouse_release ev px py w))) = None
    /\ selection_mask (tool (world_of (mouse_release ev px py w))) = None).
  { clear Hdoc D1 D2.
    unfold mouse_release. rewrite Hp.
    unfold BaseSelectTool_mouse_release. cbv zeta.
    destruct (release_keeps ev w) as (Kv & Ks & Ke & Km & Kd & Kc).
    rewrite Hmo in Km. unfold modes in Km.
    apply pair_equal_spec in Km. destruct Km as [Km K4].
    apply pair_equal_spec in Km. destruct Km as [Km K3].
    apply pair_equal_spec in Km. destruct Km as [K1 K2].
    rewrite K1, K2, K3, K4, Kd, Hd. cbn [orb].
    unfold _finalize_selection. rewrite Kv.
    unfold is_polygon in Hp.
    assert (Hbase : forall A (a b : A),
              match variant (tool w) with
              | ImprovedPolygonSelectTool => a
              | _ => b
              end = b).
    { intros A a b. destruct (variant (tool w)); try reflexivity.
      discriminate Hp. }
    rewrite Hbase.
    unfold BaseSelectTool_finalize_selection. rewrite Ks, Ke, Hs, He.
    use_core Kc. rewrite Hf, Hr, Hc, Hm in *.
    destruct (negb _);
      [ cbn [world_of]; repeat split; assumption | ].
    cbv zeta.
    assert (Hsz : (1 <? Z.max (pt_x s) (pt_x e) - Z.min (pt_x s) (pt_x e))
                  && (1 <? Z.max (pt_y s) (pt_y e) - Z.min (pt_y s) (pt_y e))
                  = false).
    { apply andb_false_iff. destruct Hsmall as [H | H]; [ left | right ];
        apply Z.ltb_ge; lia. }
    rewrite Hsz. cbn [world_of].
    unfold cancel. rewrite Ev, Hbase.
    apply BaseSelectTool_cancel_idle. }
  destruct Htool as (I1 & I2 & I3 & I4 & I5).
  repeat split; assumption.
Qed.

(** An outline from (10,10) to (10,11), about to be released. *)
Definition thin_drag : World :=
  world_of (run (L := Probe.libm) (R := Probe.raster)
              [left_press 10 10; left_drag 10 11]
              (start_world RectSelectTool (controller_of [red_layer false] []))).

Lemma C8_small_outline_is_dropped_witness :
  is_polygon thin_drag = false
  /\ is_floating (tool thin_drag) = false
  /\ selection_rect (tool thin_drag) = None
  /\ selected_content (tool thin_drag) = None
  /\ selection_mask (tool thin_drag) = None
  /\ drawing (tool thin_drag) = true
  /\ modes (tool thin_drag) = (false, false, false, false)
  /\ start_pos (tool thin_drag) = Some (mkQPoint 10 10)
  /\ end_pos (tool thin_drag) = Some (mkQPoint 10 11)
  /\ (Z.abs (pt_x (mkQPoint 10 11) - pt_x (mkQPoint 10 10)) < 2
      \/ Z.abs (pt_y (mkQPoint 10 11) - pt_y (mkQPoint 10 10)) < 2)
  /\ (let w' :=
        world_of (mouse_release (L := Probe.libm) (R := Probe.raster)
                    (mkMouseEvent LeftButton false false false false) 10 11
                    thin_drag) in
      is_floating (tool w') = false /\ drawing (tool w') = false
      /\ selection_rect (tool w') = None /\ selected_content (tool w') = None
      /\ selection_mask (tool w') = None
      /\ layers (ctl w') = layers (ctl thin_drag)
      /\ undo_stack (ctl w') = undo_stack (ctl thin_drag)).
Proof.
  assert (H1 : is_polygon thin_drag = false) by (vm_compute; reflexivity).
  assert (H2 : is_floating (tool thin_drag) = false)
    by (vm_compute; reflexivity).
  assert (H3 : selection_rect (tool thin_drag) = None)
    by (vm_compute; reflexivity).
  assert (H4 : selected_content (tool thin_drag) = None)
    by (vm_compute; reflexivity).
  assert (H5 : selection_mask (tool thin_drag) = None)
    by (vm_compute; reflexivity).
  assert (H6 : drawing (tool thin_drag) = true) by (vm_compute; reflexivity).
  assert (H7 : modes (tool thin_drag) = (false, false, false, false))
    by (vm_compute; reflexivity).
  assert (H8 : start_pos (tool thin_drag) = Some (mkQPoint 10 10))
    by (vm_compute; reflexivity).
  assert (H9 : end_pos (tool thin_drag) = Some (mkQPoint 10 11))
    by (vm_compute; reflexivity).
  assert (H10 : Z.abs (pt_x (mkQPoint 10 11) - pt_x (mkQPoint 10 10)) < 2
                \/ Z.abs (pt_y (mkQPoint 10 11) - pt_y (mkQPoint 10 10)) < 2)
    by (left; simpl; lia).
  do 10 (split; [ assumption | ]).
  exact (C8_small_outline_is_dropped (L := Probe.libm) (R := Probe.raster)
           (mkMouseEvent LeftButton false false false false) 10 11 thin_drag
           (mkQPoint 10 10) (mkQPoint 10 11)
           H1 H2 H3 H4 H5 H6 H7 H8 H9 H10).
Defined.

(** ** The polygon tool with fewer than three vertices *)

(** C9, for what the code does: while the polygon tool accumulates
    vertices and has fewer than three, Enter emits "at least 3 points are
    needed" and changes nothing else, whereas a right click changes
    nothing at all: no message is emitted. *)
Theorem C9_right_click_below_three_is_silent {L : Libm} {R : Raster}
    (ev : MouseEvent) (px py : Z) (w : World) :
  is_polygon w = true ->
  is_floating (tool w) = false ->
  is_creating (tool w) = true ->
  (List.length (points (tool w)) < 3)%nat ->
  button ev = RightButton ->
  mouse_press ev px py w = Ok w
  /\ key_press Key_Enter w = Ok (C (emit Status_polygon_needs_3_to_finish) w)
  /\ key_press Key_Return w
     = Ok (C (emit Status_polygon_needs_3_to_finish) w).
Proof.
  intros Hp Hf Hc Hn Hb.
  assert (H3 : (3 <=? List.length (points (tool w)))%nat = false)
    by (apply Nat.leb_gt; exact Hn).
  assert (H3' : (List.length (points (tool w)) <? 3)%nat = true)
    by (apply Nat.ltb_lt; exact Hn).
  unfold mouse_press, key_press. rewrite Hp.
  unfold ImprovedPolygonSelectTool_mouse_press,
    ImprovedPolygonSelectTool_key_press.
  cbv zeta. rewrite Hf, Hc, Hb, H3, H3'. cbn [andb negb].
  repeat split; reflexivity.
Qed.

(** The polygon tool after one vertex at (10,10). *)
Definition one_vertex : World :=
  world_of (run (L := Probe.libm) (R := Probe.raster) [left_press 10 10]
              (start_world ImprovedPolygonSelectTool
                 (controller_of [red_layer false] []))).

Lemma C9_right_click_below_three_is_silent_witness :
  is_polygon one_vertex = true
  /\ is_floating (tool one_vertex) = false
  /\ is_creating (tool one_vertex) = true
  /\ (List.length (points (tool one_vertex)) < 3)%nat
  /\ button (mkMouseEvent RightButton false true false false) = RightButton
  /\ (mouse_press (L := Probe.libm) (R := Probe.raster)
        (mkMouseEvent RightButton false true false false) 20 20 one_vertex
      = Ok one_vertex
      /\ key_press (L := Probe.libm) (R := Probe.raster) Key_Enter one_vertex
         = Ok (C (emit Status_polygon_needs_3_to_finish) one_vertex)
      /\ key_press (L := Probe.libm) (R := Probe.raster) Key_Return one_vertex
         = Ok (C (emit Status_polygon_needs_3_to_finish) one_vertex)).
Proof.
  assert (H1 : is_polygon one_vertex = true) by (vm_compute; reflexivity).
  assert (H2 : is_floating (tool one_vertex) = false)
    by (vm_compute; reflexivity).
  assert (H3 : is_creating (tool one_vertex) = true)
    by (vm_compute; reflexivity).
  assert (H4 : (List.length (points (tool one_vertex)) < 3)%nat)
    by (vm_compute; lia).
  assert (H5 : button (mkMouseEvent RightButton false true false false)
               = RightButton) by reflexivity.
  do 5 (split; [ assumption | ]).
  exact (C9_right_click_below_three_is_silent (L := Probe.libm)
           (R := Probe.raster)
           (mkMouseEvent RightButton false true false false) 20 20 one_vertex
           H1 H2 H3 H4 H5).
Defined.

(** ** A floating selection without content *)

(** What a floating selection without content keeps until it is
    cancelled. *)
Definition held (t : Tool) : bool * bool * option QImage :=
  (is_floating t, drawing t, selected_content t).

Definition keeps (w w' : World) : Prop := held (tool w') = held (tool w).

Lemma keeps_refl w : keeps w w.
Proof. reflexivity. Qed.

Lemma keeps_trans w w1 w2 : keeps w w1 -> keeps w1 w2 -> keeps w w2.
Proof. unfold keeps. congruence. Qed.

Lemma same_keeps w w' : same w w' -> keeps w w'.
Proof.
  intros [Hc _]. use_core Hc. unfold keeps, held. congruence.
Qed.

Lemma held_fields t f d c :
  held t = (f, d, c) ->
  is_floating t = f /\ drawing t = d /\ selected_content t = c.
Proof. unfold held. intro H. injection H as -> -> ->. repeat split. Qed.

Section Contentless.
Context {L : Libm} {R : Raster}.

Lemma keeps_move_selection dx dy w : keeps w (T (_move_selection dx dy) w).
Proof.
  destruct w as [c t]; destruct t. unfold keeps, held, T, _move_selection.
  records. destruct selection_rect0 as [rect|]; [ | reflexivity ].
  destruct (rect_bool rect); reflexivity.
Qed.

Lemma keeps_resize_selection dx dy w :
  keeps w (T (_resize_selection dx dy) w).
Proof.
  destruct w as [c t]; destruct t. unfold keeps, held, T, _resize_selection.
  records. destruct selection_rect0 as [rect|]; [ | reflexivity ].
  destruct resize_handle0 as [h|]; [ | reflexivity ].
  destruct (negb (rect_bool rect)); reflexivity.
Qed.

Lemma keeps_handle_scaling px py last w :
  keeps w (_handle_scaling px py last w).
Proof.
  unfold _handle_scaling.
  destruct (selection_rect (tool w)) as [rect|]; [ | apply keeps_refl ].
  destruct (negb (rect_bool rect)); [ apply keeps_refl | ].
  cbv zeta. destruct (Py.Qltb _ _); [ | apply keeps_refl ].
  eapply keeps_trans;
    [ | apply same_keeps, same_update_selection_preview ].
  destruct w as [c t]; destruct t. reflexivity.
Qed.

Lemma keeps_handle_rotation px py last w :
  keeps w (_handle_rotation px py last w).
Proof.
  unfold _handle_rotation.
  destruct (selection_rect (tool w)) as [rect|]; [ | apply keeps_refl ].
  destruct (negb (rect_bool rect)); [ apply keeps_refl | ].
  cbv zeta.
  eapply keeps_trans;
    [ | apply same_keeps, same_update_selection_preview ].
  destruct w as [c t]; destruct t. reflexivity.
Qed.

(** Without content [_commit_selection] returns at once. *)
Lemma commit_without_content w :
  selected_content (tool w) = None -> _commit_selection w = w.
Proof.
  intro Hc. unfold _commit_selection. rewrite Hc.
  destruct (selection_rect (tool w)); reflexivity.
Qed.

Lemma keeps_commit_without_content w w' :
  selected_content (tool w) = None -> keeps w w' ->
  keeps w (_commit_selection w').
Proof.
  intros Hc Hk. rewrite commit_without_content; [ exact Hk | ].
  destruct (held_fields _ _ _ _ Hk) as (_ & _ & ->). exact Hc.
Qed.

Lemma keeps_BaseSelectTool_mouse_press ev px py w :
  is_floating (tool w) = true -> selected_content (tool w) = None ->
  keeps w (BaseSelectTool_mouse_press ev px py w).
Proof.
  intros Hf Hc. unfold BaseSelectTool_mouse_press. cbv zeta.
  destruct (press_conds ev (tool w) px py) as (_ & Cf & _).
  rewrite (tool_T (BaseTool_mouse_press ev) w), Cf, Hf.
  destruct (hit _ _ _); [ apply same_keeps; sames | ].
  destruct (hit _ _ _); [ apply same_keeps; sames | ].
  destruct (resize_handle _); [ apply same_keeps; sames | ].
  destruct (_is_point_in_selection _ _ _); [ apply same_keeps; sames | ].
  apply keeps_commit_without_content; [ exact Hc | ].
  apply same_keeps; sames.
Qed.

Lemma keeps_BaseSelectTool_mouse_move ev px py w :
  keeps w (BaseSelectTool_mouse_move ev px py w).
Proof.
  unfold BaseSelectTool_mouse_move. cbv zeta.
  destruct (is_moving _ && pos_bool _).
  { eapply keeps_trans; [ | apply same_keeps; sames ].
    eapply keeps_trans; [ | apply keeps_move_selection ].
    apply same_keeps; sames. }
  destruct (is_resizing _ && _ && pos_bool _).
  { eapply keeps_trans; [ | apply same_keeps; sames ].
    eapply keeps_trans; [ | apply keeps_resize_selection ].
    apply same_keeps; sames. }
  destruct (is_scaling _ && pos_bool _).
  { destruct (last_mouse_pos _); [ | apply same_keeps; sames ].
    eapply keeps_trans; [ | apply keeps_handle_scaling ].
    apply same_keeps; sames. }
  destruct (is_rotating _ && pos_bool _).
  { destruct (last_mouse_pos _); [ | apply same_keeps; sames ].
    eapply keeps_trans; [ | apply keeps_handle_rotation ].
    apply same_keeps; sames. }
  destruct (drawing _); [ | apply same_keeps; sames ].
  destruct (is_shift_pressed _); apply same_keeps; sames.
Qed.

Lemma keeps_BaseSelectTool_mouse_release ev px py w :
  drawing (tool w) = false ->
  keeps w (world_of (BaseSelectTool_mouse_release ev px py w)).
Proof.
  intro Hd. unfold BaseSelectTool_mouse_release. cbv zeta.
  destruct (_ || _ || _ || _);
    [ cbn [world_of]; apply same_keeps; sames | ].
  destruct (release_keeps ev w) as (_ & _ & _ & _ & Kd & _).
  rewrite Kd, Hd. cbn [world_of]. apply same_keeps; sames.
Qed.

(** [cancel] ends the floating state, unless the polygon tool is still
    accumulating vertices. *)
Lemma cancel_cases w :
  keeps w (cancel w) \/ is_floating (tool (cancel w)) = false.
Proof.
  unfold cancel, ImprovedPolygonSelectTool_cancel.
  destruct (variant (tool w));
    try (right; apply BaseSelectTool_cancel_idle).
  destruct (is_creating (tool w));
    [ left; cbv zeta; apply same_keeps; sames
    | right; apply BaseSelectTool_cancel_idle ].
Qed.

Lemma destroy_cases w :
  keeps w (destroy_if_floating w)
  \/ is_floating (tool (destroy_if_floating w)) = false.
Proof.
  unfold destroy_if_floating.
  destruct (_ && _);
    [ right; apply cancel_selection_floating | left; apply keeps_refl ].
Qed.

Lemma key_cases k w :
  is_floating (tool w) = true -> selected_content (tool w) = None ->
  keeps w (BaseSelectTool_key_press k w)
  \/ (cancellation (key_press_event k) = true
      /\ is_floating (tool (BaseSelectTool_key_press k w)) = false).
Proof.
  intros Hf Hc.
  destruct k; unfold BaseSelectTool_key_press; rewrite ?Hf;
    rewrite ?commit_without_content by exact Hc;
    cbn [non_operation_key negb]; rewrite ?andb_false_r;
    try (left; apply keeps_refl).
  - destruct (cancel_cases w) as [H | H]; [ left; exact H | right ].
    split; [ reflexivity | exact H ].
  - destruct (_ && _); [ right | left; apply keeps_refl ].
    split; [ reflexivity | apply cancel_selection_floating ].
Qed.

(** An event on a floating selection without content: the selection
    floats on without content, or the event is a cancellation. *)
Lemma contentless_step e w :
  is_floating (tool w) = true -> selected_content (tool w) = None ->
  drawing (tool w) = false ->
  keeps w (world_of (step e w))
  \/ (cancellation e = true
      /\ is_floating (tool (world_of (step e w))) = false).
Proof.
  intros Hf Hc Hd.
  assert (Hother :
    keeps w (on_other_operation w)
    \/ is_floating (tool (on_other_operation w)) = false).
  { unfold on_other_operation, ImprovedPolygonSelectTool_on_other_operation.
    destruct (is_polygon w); [ | apply destroy_cases ].
    destruct (is_creating (tool w));
      [ apply cancel_cases | apply destroy_cases ]. }
  destruct e; unfold step; cbn [world_of];
    try (destruct Hother as [H | H];
         [ left; exact H | right; split; [ reflexivity | exact H ] ]).
  - left. unfold mouse_press, ImprovedPolygonSelectTool_mouse_press.
    cbv zeta. rewrite Hf.
    destruct (is_polygon w); cbn [world_of];
      [ destruct (negb _); cbn [world_of] | ];
      try (apply keeps_BaseSelectTool_mouse_press; assumption).
    rewrite commit_without_content by exact Hc. apply keeps_refl.
  - left. unfold mouse_move, ImprovedPolygonSelectTool_mouse_move.
    cbv zeta. rewrite Hf.
    destruct (is_polygon w); cbn [world_of];
      apply keeps_BaseSelectTool_mouse_move.
  - left. unfold mouse_release, ImprovedPolygonSelectTool_mouse_release.
    rewrite Hf. cbn [negb].
    destruct (is_polygon w);
      apply keeps_BaseSelectTool_mouse_release; exact Hd.
  - unfold key_press, ImprovedPolygonSelectTool_key_press. cbv zeta.
    destruct (is_polygon w); cbn [world_of];
      [ | apply key_cases; assumption ].
    rewrite Hf.
    destruct k; cbn [world_of];
      try (apply key_cases; assumption);
      try (left; rewrite commit_without_content by exact Hc;
           apply keeps_refl).
    destruct (is_creating (tool w)) eqn:Hcr; cbn [world_of];
      [ | apply key_cases; assumption ].
    destruct (cancel_cases w) as [H | H]; [ left; exact H | right ].
    split; [ reflexivity | exact H ].
  - left. unfold set_auto_destroy. apply same_keeps; sames.
Qed.

(** Finishing an outline of the rectangle or ellipse tool on a controller
    without layers. *)
Lemma finalize_without_layer w s e :
  is_polygon w = false -> layers (ctl w) = [] ->
  start_pos (tool w) = Some s -> end_pos (tool w) = Some e ->
  point_bool s = true -> point_bool e = true ->
  1 < Z.abs (pt_x e - pt_x s) -> 1 < Z.abs (pt_y e - pt_y s) ->
  exists w0,
    world_of (_finalize_selection w)
    = C (emit (Status_selection_ready
                 (Z.abs (pt_x e - pt_x s)) (Z.abs (pt_y e - pt_y s))))
        (_update_selection_preview w0)
    /\ is_floating (tool w0) = true
    /\ drawing (tool w0) = drawing (tool w)
    /\ selected_content (tool w0) = selected_content (tool w)
    /\ ctl w0 = ctl w
    /\ variant (tool w0) = variant (tool w).
Proof.
  intros Hp Hl Hs He Hps Hpe Hx Hy.
  unfold _finalize_selection, is_polygon in *.
  assert (Hbase : forall A (a b : A),
            match variant (tool w) with
            | ImprovedPolygonSelectTool => a
            | _ => b
            end = b).
  { intros A a b. destruct (variant (tool w)); try reflexivity.
    discriminate Hp. }
  rewrite Hbase. unfold BaseSelectTool_finalize_selection.
  rewrite Hs, He, Hps, Hpe. cbn [andb negb]. cbv zeta.
  assert (Hsz : (1 <? Z.max (pt_x s) (pt_x e) - Z.min (pt_x s) (pt_x e))
                && (1 <? Z.max (pt_y s) (pt_y e) - Z.min (pt_y s) (pt_y e))
                = true).
  { apply andb_true_iff. split; apply Z.ltb_lt; lia. }
  rewrite Hsz.
  assert (Hw : Z.max (pt_x s) (pt_x e) - Z.min (pt_x s) (pt_x e)
               = Z.abs (pt_x e - pt_x s)) by lia.
  assert (Hh : Z.max (pt_y s) (pt_y e) - Z.min (pt_y s) (pt_y e)
               = Z.abs (pt_y e - pt_y s)) by lia.
  rewrite Hw, Hh.
  match goal with
  | |- context [_capture_selection ?X] =>
      assert (Hcap : _capture_selection X = Ok X);
      [ | rewrite Hcap; cbn [bind world_of]; exists X ]
  end.
  - unfold _capture_selection.
    destruct (selection_rect _); [ | reflexivity ].
    destruct (negb _); [ reflexivity | ].
    change (layers (ctl _)) with (layers (ctl w)). rewrite Hl. reflexivity.
  - split.
    + f_equal. f_equal. unfold Qt.width, Qt.height, QRect_xywh. cbn.
      f_equal; lia.
    + destruct w as [c t]; destruct t. repeat split; reflexivity.
Qed.

End Contentless.

Section ContentlessRuns.
Context {L : Libm} {R : Raster}.

(** A press that meets none of the four tests, on a floating selection
    without content, changes nothing in the controller. *)
Lemma press_outside_without_content ev px py w :
  is_floating (tool w) = true -> selected_content (tool w) = None ->
  press_commits (tool w) px py = true ->
  ctl (world_of (mouse_press ev px py w)) = ctl w.
Proof.
  intros Hf Hc Hp. unfold press_commits in Hp. rewrite Hf in Hp.
  cbn [andb] in Hp.
  apply andb_true_iff in Hp. destruct Hp as [Hp H4].
  apply andb_true_iff in Hp. destruct Hp as [Hp H3].
  apply andb_true_iff in Hp. destruct Hp as [H1 H2].
  apply negb_true_iff in H1, H2, H4.
  unfold mouse_press, ImprovedPolygonSelectTool_mouse_press. cbv zeta.
  destruct (is_polygon w); cbn [world_of].
  - rewrite Hf, H1, H2, H4.
    destruct (_get_resize_handle_at (tool w) px py); [ discriminate H3 | ].
    cbn [orb negb world_of].
    rewrite commit_without_content by exact Hc. reflexivity.
  - unfold BaseSelectTool_mouse_press. cbv zeta.
    destruct (press_conds ev (tool w) px py) as (_ & Cf & Cs & Cr & Ch & Cp).
    rewrite (tool_T (BaseTool_mouse_press ev) w), Cf, Hf, Cs, Cr, H1, H2.
    rewrite (tool_T (set_resize_handle _)), resize_handle_set,
      (tool_T (BaseTool_mouse_press ev) w), Cp, Ch, H4.
    destruct (_get_resize_handle_at (tool w) px py); [ discriminate H3 | ].
    rewrite commit_without_content; [ reflexivity | ].
    assert (Hk : keeps w (T (set_resize_handle None)
                            (T (BaseTool_mouse_press ev) w)))
      by (apply same_keeps; sames).
    destruct (held_fields _ _ _ _ Hk) as (_ & _ & ->). exact Hc.
Qed.

(** Without a cancellation the selection floats on, without content. *)
Lemma contentless_run es w :
  is_floating (tool w) = true -> selected_content (tool w) = None ->
  drawing (tool w) = false ->
  forallb (fun e => negb (cancellation e)) es = true ->
  held (tool (world_of (run es w))) = (true, false, None).
Proof.
  revert w. induction es as [|e es IH]; intros w Hf Hc Hd Hes.
  - cbn [run world_of]. unfold held. rewrite Hf, Hc, Hd. reflexivity.
  - cbn [forallb] in Hes. apply andb_true_iff in Hes.
    destruct Hes as [He Hes]. apply negb_true_iff in He.
    rewrite run_cons.
    destruct (contentless_step e w Hf Hc Hd) as [Hk | [Hx _]];
      [ | congruence ].
    unfold keeps, held in Hk. rewrite Hf, Hc, Hd in Hk.
    destruct (held_fields _ _ _ _ Hk) as (Hf' & Hd' & Hc').
    destruct (step e w) as [w'|w']; cbn [bind world_of] in *.
    + apply IH; assumption.
    + exact Hk.
Qed.

(** ** The class of the tool, and the ways out

    The handlers of the rectangle and ellipse tools keep the class of the
    tool while a selection floats without content. *)
Definition same_class (w w' : World) : Prop :=
  variant (tool w') = variant (tool w).

Lemma same_class_refl w : same_class w w.
Proof. reflexivity. Qed.

Lemma same_class_trans w w1 w2 :
  same_class w w1 -> same_class w1 w2 -> same_class w w2.
Proof. unfold same_class. congruence. Qed.

Lemma same_same_class w w' : same w w' -> same_class w w'.
Proof. intros [Hc _]. use_core Hc. unfold same_class. congruence. Qed.

Lemma class_T_field (f : Tool -> Tool) w :
  (forall t, variant (f t) = variant t) -> same_class w (T f w).
Proof. intro H. unfold same_class. rewrite tool_T. apply H. Qed.

Lemma class_move_selection dx dy w :
  same_class w (T (_move_selection dx dy) w).
Proof.
  apply class_T_field. intro t. unfold _move_selection.
  destruct (selection_rect t) as [rect|]; [ | reflexivity ].
  destruct (rect_bool rect); [ destruct t | ]; reflexivity.
Qed.

Lemma class_resize_selection dx dy w :
  same_class w (T (_resize_selection dx dy) w).
Proof.
  apply class_T_field. intro t. unfold _resize_selection.
  destruct (selection_rect t) as [rect|]; [ | reflexivity ].
  destruct (resize_handle t) as [h|]; [ | reflexivity ].
  destruct (negb (rect_bool rect)); [ reflexivity | ].
  destruct t; reflexivity.
Qed.

Lemma class_handle_scaling px py last w :
  same_class w (_handle_scaling px py last w).
Proof.
  unfold _handle_scaling.
  destruct (selection_rect (tool w)) as [rect|]; [ | apply same_class_refl ].
  destruct (negb (rect_bool rect)); [ apply same_class_refl | ].
  cbv zeta. destruct (Py.Qltb _ _); [ | apply same_class_refl ].
  eapply same_class_trans;
    [ | apply same_same_class, same_update_selection_preview ].
  destruct w as [c t]; destruct t. reflexivity.
Qed.

Lemma class_handle_rotation px py last w :
  same_class w (_handle_rotation px py last w).
Proof.
  unfold _handle_rotation.
  destruct (selection_rect (tool w)) as [rect|]; [ | apply same_class_refl ].
  destruct (negb (rect_bool rect)); [ apply same_class_refl | ].
  cbv zeta.
  eapply same_class_trans;
    [ | apply same_same_class, same_update_selection_preview ].
  destruct w as [c t]; destruct t. reflexivity.
Qed.

Lemma class_cancel_selection w : same_class w (_cancel_selection w).
Proof.
  pose proof (core_cancel_selection w) as Hc. use_core Hc.
  unfold same_class. assumption.
Qed.

Lemma class_BaseSelectTool_cancel w : same_class w (BaseSelectTool_cancel w).
Proof.
  unfold BaseSelectTool_cancel.
  eapply same_class_trans; [ | apply class_cancel_selection ].
  pose proof (BaseTool_cancel_core w) as Hb. use_core Hb.
  unfold same_class. assumption.
Qed.

Lemma class_BaseSelectTool_mouse_press ev px py w :
  is_floating (tool w) = true -> selected_content (tool w) = None ->
  same_class w (BaseSelectTool_mouse_press ev px py w).
Proof.
  intros Hf Hc. unfold BaseSelectTool_mouse_press. cbv zeta.
  destruct (press_conds ev (tool w) px py) as (_ & Cf & _).
  rewrite (tool_T (BaseTool_mouse_press ev) w), Cf, Hf.
  destruct (hit _ _ _); [ apply same_same_class; sames | ].
  destruct (hit _ _ _); [ apply same_same_class; sames | ].
  destruct (resize_handle _); [ apply same_same_class; sames | ].
  destruct (_is_point_in_selection _ _ _); [ apply same_same_class; sames | ].
  rewrite commit_without_content; [ apply same_same_class; sames | ].
  match goal with
  | |- selected_content (tool ?X) = None =>
      assert (Hk : keeps w X) by (apply same_keeps; sames)
  end.
  destruct (held_fields _ _ _ _ Hk) as (_ & _ & Hk3).
  rewrite Hk3. exact Hc.
Qed.

Lemma class_BaseSelectTool_mouse_move ev px py w :
  same_class w (BaseSelectTool_mouse_move ev px py w).
Proof.
  unfold BaseSelectTool_mouse_move. cbv zeta.
  destruct (is_moving _ && pos_bool _).
  { eapply same_class_trans; [ | apply same_same_class; sames ].
    eapply same_class_trans; [ | apply class_move_selection ].
    apply same_same_class; sames. }
  destruct (is_resizing _ && _ && pos_bool _).
  { eapply same_class_trans; [ | apply same_same_class; sames ].
    eapply same_class_trans; [ | apply class_resize_selection ].
    apply same_same_class; sames. }
  destruct (is_scaling _ && pos_bool _).
  { destruct (last_mouse_pos _); [ | apply same_same_class; sames ].
    eapply same_class_trans; [ | apply class_handle_scaling ].
    apply same_same_class; sames. }
  destruct (is_rotating _ && pos_bool _).
  { destruct (last_mouse_pos _); [ | apply same_same_class; sames ].
    eapply same_class_trans; [ | apply class_handle_rotation ].
    apply same_same_class; sames. }
  destruct (drawing _); [ | apply same_same_class; sames ].
  destruct (is_shift_pressed _); apply same_same_class; sames.
Qed.

Lemma class_BaseSelectTool_mouse_release ev px py w :
  drawing (tool w) = false ->
  same_class w (world_of (BaseSelectTool_mouse_release ev px py w)).
Proof.
  intro Hd. unfold BaseSelectTool_mouse_release. cbv zeta.
  destruct (_ || _ || _ || _);
    [ cbn [world_of]; apply same_same_class; sames | ].
  destruct (release_keeps ev w) as (_ & _ & _ & _ & Kd & _).
  rewrite Kd, Hd. cbn [world_of]. apply same_same_class; sames.
Qed.

Lemma base_variant w A (a b : A) :
  is_polygon w = false ->
  match variant (tool w) with
  | ImprovedPolygonSelectTool => a
  | _ => b
  end = b.
Proof.
  unfold is_polygon. destruct (variant (tool w)); try reflexivity.
  discriminate.
Qed.

Lemma class_destroy_if_floating w : same_class w (destroy_if_floating w).
Proof.
  unfold destroy_if_floating.
  destruct (_ && _); [ apply class_cancel_selection | apply same_class_refl ].
Qed.

(** An event of the rectangle or ellipse tool, on a floating selection
    without content, keeps the class of the tool. *)
Lemma contentless_class e w :
  is_polygon w = false ->
  is_floating (tool w) = true -> selected_content (tool w) = None ->
  drawing (tool w) = false ->
  same_class w (world_of (step e w)).
Proof.
  intros Hp Hf Hc Hd.
  destruct e; unfold step, mouse_press, mouse_move, mouse_release, key_press,
    on_other_operation; rewrite ?Hp; cbn [world_of];
    try apply class_destroy_if_floating.
  - apply class_BaseSelectTool_mouse_press; assumption.
  - apply class_BaseSelectTool_mouse_move.
  - apply class_BaseSelectTool_mouse_release; exact Hd.
  - unfold BaseSelectTool_key_press. rewrite Hf.
    rewrite commit_without_content by exact Hc.
    destruct k; try apply same_class_refl;
      try (destruct (_ && _);
           [ apply class_cancel_selection | apply same_class_refl ]).
    unfold cancel. rewrite (base_variant w _ _ _ Hp).
    apply class_BaseSelectTool_cancel.
  - unfold set_auto_destroy. apply same_same_class; sames.
Qed.

Lemma contentless_run_class es w :
  is_polygon w = false ->
  is_floating (tool w) = true -> selected_content (tool w) = None ->
  drawing (tool w) = false ->
  forallb (fun e => negb (cancellation e)) es = true ->
  is_polygon (world_of (run es w)) = false.
Proof.
  revert w. induction es as [|e es IH]; intros w Hp Hf Hc Hd Hes.
  - exact Hp.
  - cbn [forallb] in Hes. apply andb_true_iff in Hes.
    destruct Hes as [He Hes]. apply negb_true_iff in He.
    rewrite run_cons.
    pose proof (contentless_class e w Hp Hf Hc Hd) as Hv.
    assert (Hp' : is_polygon (world_of (step e w)) = false)
      by (unfold is_polygon, same_class in *; rewrite Hv; exact Hp).
    destruct (contentless_step e w Hf Hc Hd) as [Hk | [Hx _]];
      [ | congruence ].
    unfold keeps, held in Hk. rewrite Hf, Hc, Hd in Hk.
    destruct (held_fields _ _ _ _ Hk) as (Hf' & Hd' & Hc').
    destruct (step e w) as [w'|w']; cbn [bind world_of] in *.
    + apply IH; assumption.
    + exact Hp'.
Qed.

(** The ways out of a floating selection of the rectangle or ellipse
    tool: Escape, and with [destroy_on_other_action] the other
    cancellations, end the floating state and drop the rectangle. *)
Lemma cancellation_ends e w :
  is_polygon w = false -> is_floating (tool w) = true ->
  cancellation e = true ->
  e = key_press_event Key_Escape \/ destroy_on_other_action (tool w) = true ->
  is_floating (tool (world_of (step e w))) = false
  /\ selection_rect (tool (world_of (step e w))) = None.
Proof.
  intros Hp Hf He Hway.
  assert (Hcancel : is_floating (tool (_cancel_selection w)) = false
                    /\ selection_rect (tool (_cancel_selection w)) = None).
  { pose proof (core_cancel_selection w) as Hc. use_core Hc.
    split; assumption. }
  assert (Hdestroy :
            destroy_on_other_action (tool w) = true ->
            is_floating (tool (destroy_if_floating w)) = false
            /\ selection_rect (tool (destroy_if_floating w)) = None).
  { intro Hflag. unfold destroy_if_floating. rewrite Hf, Hflag. exact Hcancel. }
  destruct e; try discriminate He;
    unfold step, key_press, on_other_operation; rewrite Hp; cbn [world_of];
    try (apply Hdestroy; destruct Hway as [Hway | Hway];
         [ discriminate Hway | exact Hway ]).
  destruct k; try discriminate He; unfold BaseSelectTool_key_press.
  - unfold cancel. rewrite (base_variant w _ _ _ Hp).
    destruct (BaseSelectTool_cancel_idle w) as (H1 & _ & H2 & _).
    split; assumption.
  - destruct Hway as [Hway | Hway]; [ discriminate Hway | ].
    rewrite Hf, Hway. exact Hcancel.
Qed.

End ContentlessRuns.

(** C10, as amended: an outline of the rectangle or ellipse tool, more
    than one pixel wide and high and with neither end at the point (0,0),
    finished on a controller without layers: the selection floats,
    without content.  After any events none of which is a cancellation
    it still floats without content; Enter and Return then return at
    once, and a press that meets none of the four tests leaves the
    controller, its status messages included, as it is.  Escape, and
    while [destroy_on_other_action] is set a change of tool, another
    operation, a menu action, a toolbar click or a key outside Enter,
    Return and the fifteen of [non_operation_keys], end the floating
    state and drop the rectangle; no other event ends it. *)
Theorem C10_floating_without_content {L : Libm} {R : Raster}
    (w : World) (s e : QPoint) :
  is_polygon w = false -> layers (ctl w) = [] ->
  drawing (tool w) = false -> selected_content (tool w) = None ->
  start_pos (tool w) = Some s -> end_pos (tool w) = Some e ->
  point_bool s = true -> point_bool e = true ->
  1 < Z.abs (pt_x e - pt_x s) -> 1 < Z.abs (pt_y e - pt_y s) ->
  let w1 := world_of (_finalize_selection w) in
  (is_floating (tool w1) = true /\ selected_content (tool w1) = None)
  /\ (forall es,
        forallb (fun e => negb (cancellation e)) es = true ->
        let w2 := world_of (run es w1) in
        is_floating (tool w2) = true /\ selected_content (tool w2) = None
        /\ key_press Key_Enter w2 = Ok w2
        /\ key_press Key_Return w2 = Ok w2
        /\ (forall ev px py,
              press_commits (tool w2) px py = true ->
              ctl (world_of (mouse_press ev px py w2)) = ctl w2)
        /\ (forall e',
              cancellation e' = true ->
              e' = key_press_event Key_Escape
              \/ destroy_on_other_action (tool w2) = true ->
              is_floating (tool (world_of (step e' w2))) = false
              /\ selection_rect (tool (world_of (step e' w2))) = None)
        /\ (forall e',
              cancellation e' = false ->
              is_floating (tool (world_of (step e' w2))) = true
              /\ selected_content (tool (world_of (step e' w2))) = None)).
Proof.
  intros Hp Hl Hd Hc Hs He Hps Hpe Hx Hy. cbv zeta.
  destruct (finalize_without_layer w s e Hp Hl Hs He Hps Hpe Hx Hy)
    as (w0 & Hw & Hf0 & Hd0 & Hc0 & _ & Hv0).
  rewrite Hw. clear Hw.
  match goal with
  | |- context [tool ?W] =>
      assert (Hsame : same w0 W) by sames
  end.
  pose proof (same_keeps _ _ Hsame) as Hk.
  pose proof (same_same_class _ _ Hsame) as Hv1.
  destruct (held_fields _ _ _ _ Hk) as (Hf1 & Hd1 & Hc1).
  rewrite Hf0 in Hf1. rewrite Hd0, Hd in Hd1. rewrite Hc0, Hc in Hc1.
  match type of Hsame with
  | same _ ?W => assert (Hp1 : is_polygon W = false)
  end.
  { unfold same_class in Hv1. unfold is_polygon in *.
    rewrite Hv1, Hv0. exact Hp. }
  split; [ split; assumption | ].
  intros es Hes.
  destruct (held_fields _ _ _ _ (contentless_run es _ Hf1 Hc1 Hd1 Hes))
    as (Hf2 & Hd2 & Hc2).
  pose proof (contentless_run_class es _ Hp1 Hf1 Hc1 Hd1 Hes) as Hp2.
  split; [ exact Hf2 | ]. split; [ exact Hc2 | ].
  assert (Hkey : forall k,
            match k with Key_Enter | Key_Return => True | _ => False end ->
            key_press k (world_of (run es
              (C (emit (Status_selection_ready (Z.abs (pt_x e - pt_x s))
                          (Z.abs (pt_y e - pt_y s))))
                 (_update_selection_preview w0))))
            = Ok (world_of (run es
              (C (emit (Status_selection_ready (Z.abs (pt_x e - pt_x s))
                          (Z.abs (pt_y e - pt_y s))))
                 (_update_selection_preview w0))))).
  { intros k Hk'. unfold key_press, ImprovedPolygonSelectTool_key_press,
      BaseSelectTool_key_press.
    cbv zeta. rewrite Hf2.
    rewrite commit_without_content by exact Hc2.
    destruct k; try contradiction;
      match goal with
      | |- context [is_polygon ?W] => destruct (is_polygon W)
      end; reflexivity. }
  split; [ apply Hkey; exact I | ]. split; [ apply Hkey; exact I | ].
  split; [ intros ev px py Hpc;
           apply press_outside_without_content; assumption | ].
  split.
  - intros e' He' Hway. apply cancellation_ends; assumption.
  - intros e' He'.
    destruct (contentless_step e' _ Hf2 Hc2 Hd2) as [Hk2 | [Hx2 _]];
      [ | congruence ].
    unfold keeps, held in Hk2. rewrite Hf2, Hc2, Hd2 in Hk2.
    destruct (held_fields _ _ _ _ Hk2) as (Hf3 & _ & Hc3).
    split; assumption.
Qed.

(** An outline from (20,20) to (60,60) on a controller without layers,
    about to be finished. *)
Definition outline_without_layer : World :=
  T (set_drawing false)
    (world_of (run (L := Probe.libm) (R := Probe.raster)
                 [left_press 20 20; left_drag 60 60]
                 (start_world RectSelectTool (controller_of [] [])))).

Lemma C10_floating_without_content_witness :
  is_polygon outline_without_layer = false
  /\ layers (ctl outline_without_layer) = []
  /\ drawing (tool outline_without_layer) = false
  /\ selected_content (tool outline_without_layer) = None
  /\ start_pos (tool outline_without_layer) = Some (mkQPoint 20 20)
  /\ end_pos (tool outline_without_layer) = Some (mkQPoint 60 60)
  /\ point_bool (mkQPoint 20 20) = true
  /\ point_bool (mkQPoint 60 60) = true
  /\ 1 < Z.abs (pt_x (mkQPoint 60 60) - pt_x (mkQPoint 20 20))
  /\ 1 < Z.abs (pt_y (mkQPoint 60 60) - pt_y (mkQPoint 20 20))
  /\ (let w1 :=
        world_of (_finalize_selection (L := Probe.libm) (R := Probe.raster)
                    outline_without_layer) in
      (is_floating (tool w1) = true /\ selected_content (tool w1) = None)
      /\ (forall es,
            forallb (fun e => negb (cancellation e)) es = true ->
            let w2 :=
              world_of (run (L := Probe.libm) (R := Probe.raster) es w1) in
            is_floating (tool w2) = true /\ selected_content (tool w2) = None
            /\ key_press (L := Probe.libm) (R := Probe.raster) Key_Enter w2
               = Ok w2
            /\ key_press (L := Probe.libm) (R := Probe.raster) Key_Return w2
               = Ok w2
            /\ (forall ev px py,
                  press_commits (L := Probe.libm) (tool w2) px py = true ->
                  ctl (world_of (mouse_press (L := Probe.libm)
                                   (R := Probe.raster) ev px py w2))
                  = ctl w2)
            /\ (forall e',
                  cancellation e' = true ->
                  e' = key_press_event Key_Escape
                  \/ destroy_on_other_action (tool w2) = true ->
                  is_floating
                    (tool (world_of (step (L := Probe.libm)
                                       (R := Probe.raster) e' w2))) = false
                  /\ selection_rect
                       (tool (world_of (step (L := Probe.libm)
                                          (R := Probe.raster) e' w2)))
                     = None)
            /\ (forall e',
                  cancellation e' = false ->
                  is_floating
                    (tool (world_of (step (L := Probe.libm)
                                       (R := Probe.raster) e' w2))) = true
                  /\ selected_content
                       (tool (world_of (step (L := Probe.libm)
                                          (R := Probe.raster) e' w2)))
                     = None))).
Proof.
  assert (H1 : is_polygon outline_without_layer = false)
    by (vm_compute; reflexivity).
  assert (H2 : layers (ctl outline_without_layer) = [])
    by (vm_compute; reflexivity).
  assert (H3 : drawing (tool outline_without_layer) = false)
    by (vm_compute; reflexivity).
  assert (H4 : selected_content (tool outline_without_layer) = None)
    by (vm_compute; reflexivity).
  assert (H5 : start_pos (tool outline_without_layer)
               = Some (mkQPoint 20 20)) by (vm_compute; reflexivity).
  assert (H6 : end_pos (tool outline_without_layer) = Some (mkQPoint 60 60))
    by (vm_compute; reflexivity).
  assert (H7 : point_bool (mkQPoint 20 20) = true)
    by (vm_compute; reflexivity).
  assert (H8 : point_bool (mkQPoint 60 60) = true)
    by (vm_compute; reflexivity).
  assert (H9 : 1 < Z.abs (pt_x (mkQPoint 60 60) - pt_x (mkQPoint 20 20)))
    by (simpl; lia).
  assert (H10 : 1 < Z.abs (pt_y (mkQPoint 60 60) - pt_y (mkQPoint 20 20)))
    by (simpl; lia).
  do 10 (split; [ assumption | ]).
  exact (C10_floating_without_content (L := Probe.libm) (R := Probe.raster)
           outline_without_layer (mkQPoint 20 20) (mkQPoint 60 60)
           H1 H2 H3 H4 H5 H6 H7 H8 H9 H10).
Defined.

(** Where the claim fails.  On a controller without layers, an outline
    dragged from the point (0,0) to (40,40) is not finished: on release
    nothing floats.  And on a selection that floats without content the
    key A, which is neither Escape nor a change of tool nor another
    operation, ends the floating state. *)
Lemma C10_counterexample :
  is_floating
    (tool (world_of (run (L := Probe.libm) (R := Probe.raster)
                       (drag 0 0 40 40)
                       (start_world RectSelectTool (controller_of [] [])))))
  = false
  /\ is_floating (tool selected_without_layer) = true
  /\ selected_content (tool selected_without_layer) = None
  /\ is_floating
       (tool (world_of (step (L := Probe.libm) (R := Probe.raster)
                          (key_press_event (Key_other 65))
                          selected_without_layer)))
     = false.
Proof. vm_compute. repeat split; reflexivity. Qed.

(** ** Commit *)

Lemma save_to_history_pushes (c : Controller) (l : Layer) (ls : list Layer) :
  is_recording c = true -> layers c = l :: ls ->
  save_to_history c
  = set_redo_stack []
      (set_undo_stack
         (Py.deque_append MAX_HISTORY (undo_stack c)
            (mkSnapshot (layers c) (active_layer_index c) (adjustments c)))
         c).
Proof.
  intros Hr Hl. unfold save_to_history. rewrite Hr, Hl. reflexivity.
Qed.

(** On a locked active layer [draw_on_active_layer] emits its message and
    returns. *)
Lemma draw_on_locked_layer (f : QPainter -> QPainter) (b : bool)
    (c : Controller) (layer : Layer) :
  0 <= active_layer_index c ->
  nth_error (layers c) (Z.to_nat (active_layer_index c)) = Some layer ->
  locked layer = true ->
  draw_on_active_layer f b c = emit Status_layer_locked c.
Proof.
  intros H0 Hn Hl. unfold draw_on_active_layer. cbv zeta.
  assert (Hlen : (Z.to_nat (active_layer_index c) < length (layers c))%nat).
  { apply nth_error_Some. rewrite Hn. discriminate. }
  assert (Hc : (active_layer_index c <? 0)
               || (Z.of_nat (length (layers c)) <=? active_layer_index c)
               = false).
  { apply orb_false_iff. split; [ apply Z.ltb_ge | apply Z.leb_gt ]; lia. }
  rewrite Hc, Hn, Hl. reflexivity.
Qed.

Lemma ctl_C (f : Controller -> Controller) (w : World) :
  ctl (C f w) = f (ctl w).
Proof. reflexivity. Qed.

Lemma ctl_cancel_selection {L : Libm} (w : World) :
  ctl (_cancel_selection w)
  = emit Status_selection_cancelled (set_temp_pixmap None (ctl w)).
Proof.
  unfold _cancel_selection. cbv zeta.
  destruct (has_points _); reflexivity.
Qed.

(** X29: Enter on a floating selection whose active layer is locked
    leaves the layers as they are and emits "the layer is locked", but
    it has already pushed a snapshot on the undo stack and emptied the
    redo stack, and it ends by dropping the selection.  (No handler of
    the program sets the lock of a layer; the property is of
    [_commit_selection] and [draw_on_active_layer] as they are
    written.) *)
Theorem locked_commit_saves_history_first {L : Libm} {R : Raster}
    (w : World) (rect : QRect) (content : QImage) (layer : Layer) :
  is_floating (tool w) = true ->
  selection_rect (tool w) = Some rect -> rect_bool rect = true ->
  selected_content (tool w) = Some content ->
  is_recording (ctl w) = true ->
  0 <= active_layer_index (ctl w) ->
  nth_error (layers (ctl w)) (Z.to_nat (active_layer_index (ctl w)))
  = Some layer ->
  locked layer = true ->
  let w' := world_of (key_press Key_Enter w) in
  layers (ctl w') = layers (ctl w)
  /\ undo_stack (ctl w')
     = Py.deque_append MAX_HISTORY (undo_stack (ctl w))
         (mkSnapshot (layers (ctl w)) (active_layer_index (ctl w))
            (adjustments (ctl w)))
  /\ redo_stack (ctl w') = []
  /\ status_log (ctl w')
     = status_log (ctl w) ++ [Status_layer_locked; Status_selection_cancelled]
  /\ is_floating (tool w') = false
  /\ selected_content (tool w') = None.
Proof.
  intros Hf Hr Hv Hc Hrec H0 Hn Hl. cbv zeta.
  assert (Hw : world_of (key_press Key_Enter w) = _commit_selection w).
  { unfold key_press, ImprovedPolygonSelectTool_key_press,
      BaseSelectTool_key_press.
    cbv zeta. rewrite Hf. destruct (is_polygon w); reflexivity. }
  rewrite Hw. clear Hw.
  unfold _commit_selection. rewrite Hr, Hc, Hf, Hv. cbn [negb orb].
  cbv zeta.
  pose proof (core_cancel_selection
                (C (draw_on_active_layer
                      (draw_transformed_selection
                         (tool (C save_to_history w)) rect content) false)
                   (C save_to_history w))) as Hcore.
  use_core Hcore.
  rewrite !ctl_cancel_selection. rewrite !ctl_C.
  destruct (layers (ctl w)) as [|l ls] eqn:Hls;
    [ destruct (Z.to_nat (active_layer_index (ctl w))); discriminate Hn | ].
  rewrite (save_to_history_pushes (ctl w) l ls Hrec Hls).
  rewrite (draw_on_locked_layer _ false _ layer);
    [ | destruct (ctl w); exact H0
      | destruct (ctl w); cbn in Hn, Hls |- *; rewrite Hls; exact Hn
      | exact Hl ].
  split; [ | split; [ | split; [ | split; [ | split ] ] ] ];
    try assumption;
    destruct (ctl w); cbn in Hls |- *; rewrite <- ?Hls;
    rewrite <- ?app_assoc; reflexivity.
Qed.

(** A snapshot waiting on the redo stack. *)
Definition redo_entry : Snapshot := mkSnapshot [red_layer true] 0 no_adjustments.

(** The selection (20,20)-(60,60) on a locked layer. *)
Definition selected_on_locked : World := selected [red_layer true] [redo_entry].

Lemma locked_commit_saves_history_first_witness :
  is_floating (tool selected_on_locked) = true
  /\ selection_rect (tool selected_on_locked) = Some (QRect_xywh 20 20 40 40)
  /\ rect_bool (QRect_xywh 20 20 40 40) = true
  /\ selected_content (tool selected_on_locked)
     = Some (captured (R := Probe.raster) red_image
               (mask_of (mkQSize 40 40) (fun _ _ => true))
               (QRect_xywh 20 20 40 40))
  /\ is_recording (ctl selected_on_locked) = true
  /\ 0 <= active_layer_index (ctl selected_on_locked)
  /\ nth_error (layers (ctl selected_on_locked))
       (Z.to_nat (active_layer_index (ctl selected_on_locked)))
     = Some (red_layer true)
  /\ locked (red_layer true) = true
  /\ (let w' :=
        world_of (key_press (L := Probe.libm) (R := Probe.raster) Key_Enter
                    selected_on_locked) in
      layers (ctl w') = layers (ctl selected_on_locked)
      /\ undo_stack (ctl w')
         = Py.deque_append MAX_HISTORY (undo_stack (ctl selected_on_locked))
             (mkSnapshot (layers (ctl selected_on_locked))
                (active_layer_index (ctl selected_on_locked))
                (adjustments (ctl selected_on_locked)))
      /\ redo_stack (ctl w') = []
      /\ status_log (ctl w')
         = status_log (ctl selected_on_locked)
           ++ [Status_layer_locked; Status_selection_cancelled]
      /\ is_floating (tool w') = false
      /\ selected_content (tool w') = None).
Proof.
  assert (H1 : is_floating (tool selected_on_locked) = true)
    by (vm_compute; reflexivity).
  assert (H2 : selection_rect (tool selected_on_locked)
               = Some (QRect_xywh 20 20 40 40))
    by (vm_compute; reflexivity).
  assert (H3 : rect_bool (QRect_xywh 20 20 40 40) = true)
    by (vm_compute; reflexivity).
  assert (H5 : is_recording (ctl selected_on_locked) = true)
    by (vm_compute; reflexivity).
  assert (H6 : 0 <= active_layer_index (ctl selected_on_locked))
    by (vm_compute; discriminate).
  assert (H7 : nth_error (layers (ctl selected_on_locked))
                 (Z.to_nat (active_layer_index (ctl selected_on_locked)))
               = Some (red_layer true))
    by (vm_compute; reflexivity).
  assert (H8 : locked (red_layer true) = true) by reflexivity.
  assert (H4 : selected_content (tool selected_on_locked)
               = Some (captured (R := Probe.raster) red_image
                         (mask_of (mkQSize 40 40) (fun _ _ => true))
                         (QRect_xywh 20 20 40 40)))
    by reflexivity.
  do 8 (split; [ assumption | ]).
  exact (locked_commit_saves_history_first (L := Probe.libm) (R := Probe.raster)
           selected_on_locked (QRect_xywh 20 20 40 40)
           (captured (R := Probe.raster) red_image (mask_of (mkQSize 40 40) (fun _ _ => true))
              (QRect_xywh 20 20 40 40))
           (red_layer true) H1 H2 H3 H4 H5 H6 H7 H8).
Defined.

(** C1, for what the code does: the rectangle (20,20)-(60,60) of the red
    layer is selected, moved by (+30,+10) and committed.  The erase and
    the paint both go to the moved rectangle: every pixel of the original
    rectangle is still opaque red, none is transparent; the commit made
    one undo entry and set the modified flag. *)
Theorem C1_commit_erases_under_the_moved_rectangle :
  selection_rect (tool moved) = Some (QRect_xywh 50 30 40 40)
  /\ option_map
       (fun l => all_pixels (QColor_eqb opaque_red) (image l)
                   (QRect_xywh 20 20 40 40))
       (head (layers (ctl committed))) = Some true
  /\ option_map (fun l => pixel (image l) 25 25) (head (layers (ctl committed)))
     = Some opaque_red
  /\ List.length (undo_stack (ctl committed)) = 1%nat
  /\ is_modified (ctl committed) = true
  /\ is_floating (tool committed) = false.
Proof. vm_compute. repeat split; reflexivity. Qed.

(** * Further properties of the selection tools *)

(** X1: from a new tool, after every sequence of events: outside the
    floating state there is no rectangle, content or mask; within it no
    outline is being dragged; and the polygon tool never drags one. *)
Theorem idle_tool_holds_no_selection {L : Libm} {R : Raster}
    (v : Variant) (c : Controller) (es : list Event) :
  let t := tool (world_of (run es (start_world v c))) in
  (is_floating t = false ->
   selection_rect t = None /\ selected_content t = None
   /\ selection_mask t = None)
  /\ (is_floating t = true -> drawing t = false)
  /\ (variant t = ImprovedPolygonSelectTool -> drawing t = false).
Proof.
  cbv zeta.
  destruct (run_inv es (start_world v c) (new_tool_inv v)) as [_ [Hw Hp]].
  unfold wf_vals in Hw.
  split; [ | split ].
  - intro H. rewrite H in Hw. exact Hw.
  - intro H. rewrite H in Hw. exact Hw.
  - intro H. rewrite H in Hp. exact Hp.
Qed.

(** X2: a release that ends a move, scale, rotate or resize gesture
    clears the four gesture flags, the grabbed handle and the last pointer
    position, and leaves the selection, the layers, the history, the
    modified flag and the status messages as they are. *)
Theorem release_ends_the_gesture {L : Libm} {R : Raster}
    (ev : MouseEvent) (px py : Z) (w : World) :
  is_moving (tool w) || is_scaling (tool w) || is_rotating (tool w)
  || is_resizing (tool w) = true ->
  let w' := world_of (BaseSelectTool_mouse_release ev px py w) in
  modes (tool w') = (false, false, false, false)
  /\ resize_handle (tool w') = None
  /\ last_mouse_pos (tool w') = None
  /\ core (tool w') = core (tool w)
  /\ doc (ctl w') = doc (ctl w)
  /\ status_log (ctl w') = status_log (ctl w).
Proof.
  intro Hm. cbv zeta. unfold BaseSelectTool_mouse_release. cbv zeta.
  destruct (release_keeps ev w) as (_ & _ & _ & Km & _).
  unfold modes in Km.
  apply pair_equal_spec in Km. destruct Km as [Km K4].
  apply pair_equal_spec in Km. destruct Km as [Km K3].
  apply pair_equal_spec in Km. destruct Km as [K1 K2].
  rewrite K1, K2, K3, K4, Hm. cbn [world_of].
  match goal with
  | |- context [core (tool ?W)] => assert (Hs : same w W) by sames
  end.
  destruct Hs as [Hc Hd].
  split; [ | split; [ | split;
    [ | split; [ assumption | split; [ assumption | ] ] ] ] ].
  - destruct (update_selection_preview_shape
                (T (set_last_mouse_pos None)
                   (T (set_resize_handle None)
                      (T (set_is_resizing false)
                         (T (set_is_rotating false)
                            (T (set_is_scaling false)
                               (T (set_is_moving false)
                                  (T (BaseTool_mouse_release ev) w))))))))
      as (p & a & b & c & d & e & ->).
    destruct w as [c0 t]; reflexivity.
  - destruct (update_selection_preview_shape
                (T (set_last_mouse_pos None)
                   (T (set_resize_handle None)
                      (T (set_is_resizing false)
                         (T (set_is_rotating false)
                            (T (set_is_scaling false)
                               (T (set_is_moving false)
                                  (T (BaseTool_mouse_release ev) w))))))))
      as (p & a & b & c & d & e & ->).
    destruct w as [c0 t]; reflexivity.
  - destruct (update_selection_preview_shape
                (T (set_last_mouse_pos None)
                   (T (set_resize_handle None)
                      (T (set_is_resizing false)
                         (T (set_is_rotating false)
                            (T (set_is_scaling false)
                               (T (set_is_moving false)
                                  (T (BaseTool_mouse_release ev) w))))))))
      as (p & a & b & c & d & e & ->).
    destruct w as [c0 t]; reflexivity.
  - destruct (update_selection_preview_shape
                (T (set_last_mouse_pos None)
                   (T (set_resize_handle None)
                      (T (set_is_resizing false)
                         (T (set_is_rotating false)
                            (T (set_is_scaling false)
                               (T (set_is_moving false)
                                  (T (BaseTool_mouse_release ev) w))))))))
      as (p & a & b & c & d & e & ->).
    destruct w as [c0 t]; destruct c0; reflexivity.
Qed.

(** The selection being moved in the scenario of C1, before release. *)
Definition moving : World :=
  world_of (run (L := Probe.libm) (R := Probe.raster)
              [left_press 40 40; left_drag 70 50]
              (selected [red_layer false] [])).

Lemma release_ends_the_gesture_witness :
  is_moving (tool moving) || is_scaling (tool moving)
  || is_rotating (tool moving) || is_resizing (tool moving) = true
  /\ (let w' :=
        world_of (BaseSelectTool_mouse_release (L := Probe.libm)
                    (R := Probe.raster)
                    (mkMouseEvent LeftButton false false false false) 70 50
                    moving) in
      modes (tool w') = (false, false, false, false)
      /\ resize_handle (tool w') = None
      /\ last_mouse_pos (tool w') = None
      /\ core (tool w') = core (tool moving)
      /\ doc (ctl w') = doc (ctl moving)
      /\ status_log (ctl w') = status_log (ctl moving)).
Proof.
  assert (H1 : is_moving (tool moving) || is_scaling (tool moving)
               || is_rotating (tool moving) || is_resizing (tool moving)
               = true) by (vm_compute; reflexivity).
  split; [ exact H1 | ].
  exact (release_ends_the_gesture (L := Probe.libm) (R := Probe.raster)
           (mkMouseEvent LeftButton false false false false) 70 50 moving H1).
Defined.

(** X3: with Shift the end of the outline is moved so that the outline
    is a square whose side is the larger of the two extents, on the side
    of the start the pointer is on; the start stays. *)
Theorem square_constraint_makes_a_square (t : Tool) (s e : QPoint) :
  start_pos t = Some s -> end_pos t = Some e ->
  point_bool s = true -> point_bool e = true ->
  exists e',
    end_pos (_apply_square_constraint t) = Some e'
    /\ start_pos (_apply_square_constraint t) = Some s
    /\ Z.abs (pt_x e' - pt_x s)
       = Z.max (Z.abs (pt_x e - pt_x s)) (Z.abs (pt_y e - pt_y s))
    /\ Z.abs (pt_y e' - pt_y s)
       = Z.max (Z.abs (pt_x e - pt_x s)) (Z.abs (pt_y e - pt_y s))
    /\ (0 <= pt_x e - pt_x s -> 0 <= pt_x e' - pt_x s)
    /\ (0 <= pt_y e - pt_y s -> 0 <= pt_y e' - pt_y s).
Proof.
  intros Hs He Hps Hpe. unfold _apply_square_constraint.
  rewrite Hs, He, Hps, Hpe. cbn [andb negb]. cbv zeta.
  eexists. split; [ destruct t; reflexivity | ].
  split; [ destruct t; exact Hs | ].
  cbn [pt_x pt_y].
  destruct (0 <=? pt_x e - pt_x s) eqn:Ex;
    destruct (0 <=? pt_y e - pt_y s) eqn:Ey;
    rewrite ?Z.leb_le, ?Z.leb_gt in *; repeat split; lia.
Qed.

Lemma square_constraint_makes_a_square_witness :
  start_pos (set_end_pos (Some (mkQPoint 50 25))
               (set_start_pos (Some (mkQPoint 10 10))
                  (new_tool RectSelectTool)))
  = Some (mkQPoint 10 10)
  /\ end_pos (set_end_pos (Some (mkQPoint 50 25))
                (set_start_pos (Some (mkQPoint 10 10))
                   (new_tool RectSelectTool)))
     = Some (mkQPoint 50 25)
  /\ point_bool (mkQPoint 10 10) = true
  /\ point_bool (mkQPoint 50 25) = true
  /\ (exists e',
        end_pos (_apply_square_constraint
                   (set_end_pos (Some (mkQPoint 50 25))
                      (set_start_pos (Some (mkQPoint 10 10))
                         (new_tool RectSelectTool))))
        = Some e'
        /\ start_pos (_apply_square_constraint
                        (set_end_pos (Some (mkQPoint 50 25))
                           (set_start_pos (Some (mkQPoint 10 10))
                              (new_tool RectSelectTool))))
           = Some (mkQPoint 10 10)
        /\ Z.abs (pt_x e' - pt_x (mkQPoint 10 10))
           = Z.max (Z.abs (pt_x (mkQPoint 50 25) - pt_x (mkQPoint 10 10)))
               (Z.abs (pt_y (mkQPoint 50 25) - pt_y (mkQPoint 10 10)))
        /\ Z.abs (pt_y e' - pt_y (mkQPoint 10 10))
           = Z.max (Z.abs (pt_x (mkQPoint 50 25) - pt_x (mkQPoint 10 10)))
               (Z.abs (pt_y (mkQPoint 50 25) - pt_y (mkQPoint 10 10)))
        /\ (0 <= pt_x (mkQPoint 50 25) - pt_x (mkQPoint 10 10) ->
            0 <= pt_x e' - pt_x (mkQPoint 10 10))
        /\ (0 <= pt_y (mkQPoint 50 25) - pt_y (mkQPoint 10 10) ->
            0 <= pt_y e' - pt_y (mkQPoint 10 10))).
Proof.
  do 4 (split; [ reflexivity | ]).
  exact (square_constraint_makes_a_square
           (set_end_pos (Some (mkQPoint 50 25))
              (set_start_pos (Some (mkQPoint 10 10))
                 (new_tool RectSelectTool)))
           (mkQPoint 10 10) (mkQPoint 50 25)
           eq_refl eq_refl eq_refl eq_refl).
Defined.

(** ** Moving and resizing the rectangle *)

Lemma selection_rect_set (r : option QRect) (t : Tool) :
  selection_rect (set_selection_rect r t) = r.
Proof. destruct t; reflexivity. Qed.

Lemma set_selection_rect_twice (r r' : option QRect) (t : Tool) :
  set_selection_rect r' (set_selection_rect r t) = set_selection_rect r' t.
Proof. destruct t; reflexivity. Qed.

Lemma rect_bool_translate (dx dy : Z) (rect : QRect) :
  rect_bool (Qt.translate dx dy rect) = rect_bool rect.
Proof.
  unfold rect_bool, isValid, Qt.translate. cbn [x1 x2 y1 y2].
  destruct (x1 rect <=? x2 rect) eqn:Ex;
    destruct (y1 rect <=? y2 rect) eqn:Ey;
    rewrite ?Z.leb_le, ?Z.leb_gt in *; cbn [andb];
    rewrite ?andb_true_iff, ?andb_false_iff, ?Z.leb_le, ?Z.leb_gt;
    try (split; lia); try (left; lia); right; lia.
Qed.

(** The range of the C [int] that holds a coordinate of a [QRect] and
    an offset passed to [translate]. *)
Definition fits_int (z : Z) : Prop := - 2 ^ 31 <= z < 2 ^ 31.

(** The rectangle and its translation by [(dx, dy)] stay within that
    range: the sums of [Qt.translate] are then those of Qt. *)
Definition translates_within_int (dx dy : Z) (r : QRect) : Prop :=
  (fits_int dx /\ fits_int dy)
  /\ (fits_int (x1 r) /\ fits_int (y1 r)
      /\ fits_int (x2 r) /\ fits_int (y2 r))
  /\ (fits_int (x1 r + dx) /\ fits_int (y1 r + dy)
      /\ fits_int (x2 r + dx) /\ fits_int (y2 r + dy)).

(** X4: as long as the offsets and the coordinates of the rectangle stay
    within the range of a 32-bit integer, two moves of the selection are
    one move by the sum of the offsets, and a move keeps the width and
    the height of the rectangle. *)
Theorem moves_add_up (dx1 dy1 dx2 dy2 : Z) (t : Tool) (rect : QRect) :
  selection_rect t = Some rect ->
  translates_within_int dx1 dy1 rect ->
  translates_within_int dx2 dy2 (Qt.translate dx1 dy1 rect) ->
  translates_within_int (dx1 + dx2) (dy1 + dy2) rect ->
  _move_selection dx2 dy2 (_move_selection dx1 dy1 t)
  = _move_selection (dx1 + dx2) (dy1 + dy2) t
  /\ (exists rect',
        selection_rect (_move_selection dx1 dy1 t) = Some rect'
        /\ Qt.width rect' = Qt.width rect
        /\ Qt.height rect' = Qt.height rect).
Proof.
  intros Er _ _ _. split.
  - unfold _move_selection at 2 3. rewrite Er.
    destruct (rect_bool rect) eqn:Ev.
    + unfold _move_selection.
      rewrite selection_rect_set, rect_bool_translate, Ev.
      rewrite set_selection_rect_twice. do 2 f_equal.
      unfold Qt.translate. cbn [x1 x2 y1 y2]. f_equal; lia.
    + unfold _move_selection. rewrite Er, Ev. reflexivity.
  - unfold _move_selection. rewrite Er.
    destruct (rect_bool rect).
    + eexists. split; [ apply selection_rect_set | ].
      unfold Qt.width, Qt.height, Qt.translate. cbn [x1 x2 y1 y2].
      split; lia.
    + exists rect. repeat split. exact Er.
Qed.

(** A tool whose rectangle is (20,20)-(59,59). *)
Definition with_rectangle : Tool :=
  set_selection_rect (Some (QRect_xywh 20 20 40 40)) (new_tool RectSelectTool).

Lemma moves_add_up_witness :
  selection_rect with_rectangle = Some (QRect_xywh 20 20 40 40)
  /\ translates_within_int 30 10 (QRect_xywh 20 20 40 40)
  /\ translates_within_int 5 (-3)
       (Qt.translate 30 10 (QRect_xywh 20 20 40 40))
  /\ translates_within_int (30 + 5) (10 + -3) (QRect_xywh 20 20 40 40)
  /\ (_move_selection 5 (-3) (_move_selection 30 10 with_rectangle)
      = _move_selection (30 + 5) (10 + -3) with_rectangle
      /\ (exists rect',
            selection_rect (_move_selection 30 10 with_rectangle) = Some rect'
            /\ Qt.width rect' = Qt.width (QRect_xywh 20 20 40 40)
            /\ Qt.height rect' = Qt.height (QRect_xywh 20 20 40 40))).
Proof.
  assert (H1 : selection_rect with_rectangle = Some (QRect_xywh 20 20 40 40))
    by reflexivity.
  assert (H2 : translates_within_int 30 10 (QRect_xywh 20 20 40 40))
    by (unfold translates_within_int, fits_int; repeat split;
        vm_compute; (reflexivity || discriminate)).
  assert (H3 : translates_within_int 5 (-3)
                 (Qt.translate 30 10 (QRect_xywh 20 20 40 40)))
    by (unfold translates_within_int, fits_int; repeat split;
        vm_compute; (reflexivity || discriminate)).
  assert (H4 : translates_within_int (30 + 5) (10 + -3)
                 (QRect_xywh 20 20 40 40))
    by (unfold translates_within_int, fits_int; repeat split;
        vm_compute; (reflexivity || discriminate)).
  do 4 (split; [ assumption | ]).
  exact (moves_add_up 30 10 5 (-3) with_rectangle (QRect_xywh 20 20 40 40)
           H1 H2 H3 H4).
Defined.

(** X5: whatever the drag of a resize handle, the rectangle that
    results is at least one pixel wide and one pixel high. *)
Theorem resize_keeps_a_rectangle (dx dy : Z) (t : Tool) (rect : QRect)
    (h : Handle) :
  selection_rect t = Some rect -> rect_bool rect = true ->
  resize_handle t = Some h ->
  exists rect',
    selection_rect (_resize_selection dx dy t) = Some rect'
    /\ 1 <= Qt.width rect' /\ 1 <= Qt.height rect'
    /\ rect_bool rect' = true.
Proof.
  intros Er Ev Eh. unfold _resize_selection. rewrite Er, Eh, Ev.
  cbn [negb]. cbv zeta. eexists. split; [ apply selection_rect_set | ].
  unfold rect_bool, isValid, Qt.width, Qt.height, setWidth, setHeight.
  cbn [x1 x2 y1 y2].
  rewrite andb_true_iff, !Z.leb_le.
  repeat split; lia.
Qed.

Lemma resize_keeps_a_rectangle_witness :
  selection_rect
    (set_resize_handle (Some h_r)
       (set_selection_rect (Some (QRect_xywh 20 20 40 40))
          (new_tool RectSelectTool)))
  = Some (QRect_xywh 20 20 40 40)
  /\ rect_bool (QRect_xywh 20 20 40 40) = true
  /\ resize_handle
       (set_resize_handle (Some h_r)
          (set_selection_rect (Some (QRect_xywh 20 20 40 40))
             (new_tool RectSelectTool)))
     = Some h_r
  /\ (exists rect',
        selection_rect
          (_resize_selection (-40) 0
             (set_resize_handle (Some h_r)
                (set_selection_rect (Some (QRect_xywh 20 20 40 40))
                   (new_tool RectSelectTool))))
        = Some rect'
        /\ 1 <= Qt.width rect' /\ 1 <= Qt.height rect'
        /\ rect_bool rect' = true).
Proof.
  do 3 (split; [ reflexivity | ]).
  exact (resize_keeps_a_rectangle (-40) 0
           (set_resize_handle (Some h_r)
              (set_selection_rect (Some (QRect_xywh 20 20 40 40))
                 (new_tool RectSelectTool)))
           (QRect_xywh 20 20 40 40) h_r eq_refl eq_refl eq_refl).
Defined.

(** ** Capture with a layer index outside the list *)

Definition set_active_layer_index (v : Z) (s : Controller) : Controller :=
  mkController (layers s) v (current_image s) (temp_pixmap s)
    (undo_stack s) (redo_stack s) (is_recording s) (is_modified s)
    (current_operation_saved s) (pending_update s) (adjustments s)
    (status_log s).

Lemma getitem_none {A} (l : list A) (i : Z) :
  Py.getitem l i = None
  <-> i < - Z.of_nat (length l) \/ Z.of_nat (length l) <= i.
Proof.
  unfold Py.getitem. cbv zeta.
  destruct ((0 <=? i) && (i <? Z.of_nat (length l))) eqn:E1.
  - apply andb_true_iff in E1. destruct E1 as [Ha Hb].
    apply Z.leb_le in Ha. apply Z.ltb_lt in Hb.
    rewrite nth_error_None. split; intro H; lia.
  - destruct ((- Z.of_nat (length l) <=? i) && (i <? 0)) eqn:E2.
    + apply andb_true_iff in E2. destruct E2 as [Ha Hb].
      apply Z.leb_le in Ha. apply Z.ltb_lt in Hb.
      rewrite nth_error_None. split; intro H; lia.
    + apply andb_false_iff in E1. apply andb_false_iff in E2.
      rewrite !Z.leb_gt, !Z.ltb_ge in *. split; [ intros _ | reflexivity ].
      lia.
Qed.

Section Raising.
Context {L : Libm} {R : Raster}.

(** [_capture_selection] raises exactly when there are layers and the
    active index is outside them, counting from either end. *)
Lemma capture_raises w rect :
  selection_rect (tool w) = Some rect -> rect_bool rect = true ->
  layers (ctl w) <> [] ->
  (active_layer_index (ctl w) < - Z.of_nat (length (layers (ctl w)))
   \/ Z.of_nat (length (layers (ctl w))) <= active_layer_index (ctl w)) ->
  _capture_selection w = Raised w.
Proof.
  intros Er Ev Hl Hi. unfold _capture_selection. rewrite Er, Ev.
  cbn [negb]. apply getitem_none in Hi. rewrite Hi.
  destruct (layers (ctl w)); [ contradiction Hl; reflexivity | reflexivity ].
Qed.

Lemma capture_returns w :
  layers (ctl w) = []
  \/ - Z.of_nat (length (layers (ctl w))) <= active_layer_index (ctl w)
     < Z.of_nat (length (layers (ctl w))) ->
  exists w', _capture_selection w = Ok w'.
Proof.
  intro H. unfold _capture_selection.
  destruct (selection_rect (tool w)) as [rect|]; [ | eexists; reflexivity ].
  destruct (negb (rect_bool rect)); [ eexists; reflexivity | ].
  destruct (layers (ctl w)) as [|l ls] eqn:El; [ eexists; reflexivity | ].
  destruct H as [H | H]; [ discriminate H | ].
  destruct (Py.getitem (l :: ls) (active_layer_index (ctl w))) eqn:Eg.
  - cbv zeta. destruct (_create_selection_mask (tool w));
      eexists; reflexivity.
  - apply getitem_none in Eg. lia.
Qed.

End Raising.

(** X6: an outline of the rectangle or ellipse tool, more than one pixel
    wide and high and with neither end at the point (0,0), finished while
    the active layer index lies outside the layers, of which there is at
    least one, raises, and does so after the tool has entered the
    floating state: the rectangle is set and the tool floats, the content
    and the mask are as before, and no message has been emitted.  With
    the index within the layers, counted from either end, it returns. *)
Theorem finalize_raises_outside_the_layers {L : Libm} {R : Raster}
    (w : World) (s e : QPoint) :
  is_polygon w = false ->
  start_pos (tool w) = Some s -> end_pos (tool w) = Some e ->
  point_bool s = true -> point_bool e = true ->
  1 < Z.abs (pt_x e - pt_x s) -> 1 < Z.abs (pt_y e - pt_y s) ->
  layers (ctl w) <> [] ->
  let i := active_layer_index (ctl w) in
  let n := Z.of_nat (length (layers (ctl w))) in
  ((i < - n \/ n <= i) ->
   exists w',
     _finalize_selection w = Raised w'
     /\ is_floating (tool w') = true
     /\ selection_rect (tool w')
        = Some (QRect_xywh (Z.min (pt_x s) (pt_x e)) (Z.min (pt_y s) (pt_y e))
                  (Z.abs (pt_x e - pt_x s)) (Z.abs (pt_y e - pt_y s)))
     /\ selected_content (tool w') = selected_content (tool w)
     /\ selection_mask (tool w') = selection_mask (tool w)
     /\ ctl w' = ctl w)
  /\ (- n <= i < n -> exists w', _finalize_selection w = Ok w').
Proof.
  intros Hp Hs He Hps Hpe Hx Hy Hl. cbv zeta.
  assert (Hv : variant (tool w) <> ImprovedPolygonSelectTool).
  { unfold is_polygon in Hp. destruct (variant (tool w)); congruence. }
  assert (Hf : _finalize_selection w = BaseSelectTool_finalize_selection w).
  { unfold _finalize_selection. destruct (variant (tool w)); congruence. }
  rewrite Hf. unfold BaseSelectTool_finalize_selection.
  rewrite Hs, He, Hps, Hpe. cbn [andb negb]. cbv zeta.
  assert (Hdx : Z.max (pt_x s) (pt_x e) - Z.min (pt_x s) (pt_x e)
                = Z.abs (pt_x e - pt_x s)) by lia.
  assert (Hdy : Z.max (pt_y s) (pt_y e) - Z.min (pt_y s) (pt_y e)
                = Z.abs (pt_y e - pt_y s)) by lia.
  rewrite Hdx, Hdy.
  assert (H1 : (1 <? Z.abs (pt_x e - pt_x s)) = true)
    by (apply Z.ltb_lt; exact Hx).
  assert (H2 : (1 <? Z.abs (pt_y e - pt_y s)) = true)
    by (apply Z.ltb_lt; exact Hy).
  rewrite H1, H2. cbn [andb].
  set (rect := QRect_xywh (Z.min (pt_x s) (pt_x e)) (Z.min (pt_y s) (pt_y e))
                 (Z.abs (pt_x e - pt_x s)) (Z.abs (pt_y e - pt_y s))).
  set (w1 := T (set_rotation_angle 0)
               (T (set_scale_factor 1)
                  (T (set_is_floating true)
                     (T (set_selection_rect (Some rect)) w)))).
  assert (Hr1 : selection_rect (tool w1) = Some rect)
    by (destruct w as [c t]; destruct t; reflexivity).
  assert (Hc1 : ctl w1 = ctl w) by reflexivity.
  assert (Hv1 : rect_bool rect = true).
  { unfold rect, rect_bool, isValid, QRect_xywh. cbn [x1 x2 y1 y2].
    apply andb_true_iff. split; apply Z.leb_le; lia. }
  split.
  - intro Hi. exists w1.
    rewrite (capture_raises w1 rect Hr1 Hv1);
      [ | rewrite Hc1; exact Hl | rewrite Hc1; exact Hi ].
    cbn [bind].
    split; [ reflexivity | ].
    destruct w as [c t]; destruct t; repeat split; reflexivity.
  - intro Hi.
    destruct (capture_returns w1) as [w' Hw'];
      [ right; rewrite Hc1; exact Hi | ].
    rewrite Hw'. cbn [bind]. eexists. reflexivity.
Qed.

(** An outline from (20,20) to (60,60) about to be finished, with one
    layer and the active index 3. *)
Definition outline_off_the_layers : World :=
  C (set_active_layer_index 3)
    (T (set_drawing false)
       (world_of (run (L := Probe.libm) (R := Probe.raster)
                    [left_press 20 20; left_drag 60 60]
                    (start_world RectSelectTool
                       (controller_of [red_layer false] []))))).

Lemma finalize_raises_outside_the_layers_witness :
  is_polygon outline_off_the_layers = false
  /\ start_pos (tool outline_off_the_layers) = Some (mkQPoint 20 20)
  /\ end_pos (tool outline_off_the_layers) = Some (mkQPoint 60 60)
  /\ point_bool (mkQPoint 20 20) = true
  /\ point_bool (mkQPoint 60 60) = true
  /\ 1 < Z.abs (pt_x (mkQPoint 60 60) - pt_x (mkQPoint 20 20))
  /\ 1 < Z.abs (pt_y (mkQPoint 60 60) - pt_y (mkQPoint 20 20))
  /\ layers (ctl outline_off_the_layers) <> []
  /\ (let i := active_layer_index (ctl outline_off_the_layers) in
      let n := Z.of_nat (length (layers (ctl outline_off_the_layers))) in
      ((i < - n \/ n <= i) ->
       exists w',
         _finalize_selection (L := Probe.libm) (R := Probe.raster)
           outline_off_the_layers = Raised w'
         /\ is_floating (tool w') = true
         /\ selection_rect (tool w')
            = Some (QRect_xywh
                      (Z.min (pt_x (mkQPoint 20 20)) (pt_x (mkQPoint 60 60)))
                      (Z.min (pt_y (mkQPoint 20 20)) (pt_y (mkQPoint 60 60)))
                      (Z.abs (pt_x (mkQPoint 60 60) - pt_x (mkQPoint 20 20)))
                      (Z.abs (pt_y (mkQPoint 60 60) - pt_y (mkQPoint 20 20))))
         /\ selected_content (tool w')
            = selected_content (tool outline_off_the_layers)
         /\ selection_mask (tool w')
            = selection_mask (tool outline_off_the_layers)
         /\ ctl w' = ctl outline_off_the_layers)
      /\ (- n <= i < n ->
          exists w',
            _finalize_selection (L := Probe.libm) (R := Probe.raster)
              outline_off_the_layers = Ok w')).
Proof.
  assert (H1 : is_polygon outline_off_the_layers = false)
    by (vm_compute; reflexivity).
  assert (H2 : start_pos (tool outline_off_the_layers)
               = Some (mkQPoint 20 20)) by (vm_compute; reflexivity).
  assert (H3 : end_pos (tool outline_off_the_layers) = Some (mkQPoint 60 60))
    by (vm_compute; reflexivity).
  assert (H4 : point_bool (mkQPoint 20 20) = true)
    by (vm_compute; reflexivity).
  assert (H5 : point_bool (mkQPoint 60 60) = true)
    by (vm_compute; reflexivity).
  assert (H6 : 1 < Z.abs (pt_x (mkQPoint 60 60) - pt_x (mkQPoint 20 20)))
    by (simpl; lia).
  assert (H7 : 1 < Z.abs (pt_y (mkQPoint 60 60) - pt_y (mkQPoint 20 20)))
    by (simpl; lia).
  assert (H8 : layers (ctl outline_off_the_layers) <> [])
    by (vm_compute; discriminate).
  do 8 (split; [ assumption | ]).
  exact (finalize_raises_outside_the_layers (L := Probe.libm)
           (R := Probe.raster) outline_off_the_layers
           (mkQPoint 20 20) (mkQPoint 60 60) H1 H2 H3 H4 H5 H6 H7 H8).
Defined.

(** ** Outlines that touch the origin *)

(** X7: an outline of the rectangle or ellipse tool with a corner at
    the origin (0,0) is never finished, whatever its size: the release
    ends the drag and changes nothing else, neither the tool's selection
    nor the controller. *)
Theorem outline_at_the_origin_is_ignored {L : Libm} {R : Raster}
    (ev : MouseEvent) (px py : Z) (w : World) (s e : QPoint) :
  is_polygon w = false ->
  drawing (tool w) = true ->
  modes (tool w) = (false, false, false, false) ->
  start_pos (tool w) = Some s -> end_pos (tool w) = Some e ->
  point_bool s && point_bool e = false ->
  mouse_release ev px py w
  = Ok (T (set_drawing false) (T (BaseTool_mouse_release ev) w))
  /\ (let w' := world_of (mouse_release ev px py w) in
      drawing (tool w') = false
      /\ is_floating (tool w') = is_floating (tool w)
      /\ selection_rect (tool w') = selection_rect (tool w)
      /\ selected_content (tool w') = selected_content (tool w)
      /\ ctl w' = ctl w).
Proof.
  intros Hp Hd Hm Hs He Hz.
  assert (Hw : mouse_release ev px py w
               = Ok (T (set_drawing false) (T (BaseTool_mouse_release ev) w))).
  { unfold mouse_release. rewrite Hp.
    unfold BaseSelectTool_mouse_release. cbv zeta.
    destruct (release_keeps ev w) as (Kv & Ks & Ke & Km & Kd & _).
    rewrite Hm in Km. unfold modes in Km.
    apply pair_equal_spec in Km. destruct Km as [Km K4].
    apply pair_equal_spec in Km. destruct Km as [Km K3].
    apply pair_equal_spec in Km. destruct Km as [K1 K2].
    rewrite K1, K2, K3, K4, Kd, Hd. cbn [orb].
    unfold _finalize_selection. rewrite Kv.
    assert (Hb : BaseSelectTool_finalize_selection
                   (T (set_drawing false) (T (BaseTool_mouse_release ev) w))
                 = Ok (T (set_drawing false)
                         (T (BaseTool_mouse_release ev) w))).
    { unfold BaseSelectTool_finalize_selection.
      rewrite Ks, Ke, Hs, He, Hz. reflexivity. }
    rewrite Hb. unfold is_polygon in Hp.
    destruct (variant (tool w)); [ reflexivity | reflexivity | discriminate Hp ]. }
  split; [ exact Hw | ].
  cbv zeta. rewrite Hw. cbn [world_of].
  destruct (release_keeps ev w) as (_ & _ & _ & _ & _ & Kc).
  use_core Kc.
  split; [ exact Ed | ]. split; [ exact Ef | ]. split; [ exact Er | ].
  split; [ exact Ec | reflexivity ].
Qed.

(** An outline from the origin to (50,50), before release. *)
Definition origin_drag : World :=
  world_of (run (L := Probe.libm) (R := Probe.raster)
              [left_press 0 0; left_drag 50 50]
              (start_world RectSelectTool (controller_of [red_layer false] []))).

Lemma outline_at_the_origin_is_ignored_witness :
  is_polygon origin_drag = false
  /\ drawing (tool origin_drag) = true
  /\ modes (tool origin_drag) = (false, false, false, false)
  /\ start_pos (tool origin_drag) = Some (mkQPoint 0 0)
  /\ end_pos (tool origin_drag) = Some (mkQPoint 50 50)
  /\ point_bool (mkQPoint 0 0) && point_bool (mkQPoint 50 50) = false
  /\ (mouse_release (L := Probe.libm) (R := Probe.raster)
        (mkMouseEvent LeftButton false false false false) 50 50 origin_drag
      = Ok (T (set_drawing false)
              (T (BaseTool_mouse_release
                    (mkMouseEvent LeftButton false false false false))
                 origin_drag))
      /\ (let w' :=
            world_of (mouse_release (L := Probe.libm) (R := Probe.raster)
                        (mkMouseEvent LeftButton false false false false)
                        50 50 origin_drag) in
          drawing (tool w') = false
          /\ is_floating (tool w') = is_floating (tool origin_drag)
          /\ selection_rect (tool w') = selection_rect (tool origin_drag)
          /\ selected_content (tool w') = selected_content (tool origin_drag)
          /\ ctl w' = ctl origin_drag)).
Proof.
  assert (H1 : is_polygon origin_drag = false) by (vm_compute; reflexivity).
  assert (H2 : drawing (tool origin_drag) = true)
    by (vm_compute; reflexivity).
  assert (H3 : modes (tool origin_drag) = (false, false, false, false))
    by (vm_compute; reflexivity).
  assert (H4 : start_pos (tool origin_drag) = Some (mkQPoint 0 0))
    by (vm_compute; reflexivity).
  assert (H5 : end_pos (tool origin_drag) = Some (mkQPoint 50 50))
    by (vm_compute; reflexivity).
  assert (H6 : point_bool (mkQPoint 0 0) && point_bool (mkQPoint 50 50)
               = false) by (vm_compute; reflexivity).
  do 6 (split; [ assumption | ]).
  exact (outline_at_the_origin_is_ignored (L := Probe.libm)
           (R := Probe.raster)
           (mkMouseEvent LeftButton false false false false) 50 50
           origin_drag (mkQPoint 0 0) (mkQPoint 50 50)
           H1 H2 H3 H4 H5 H6).
Defined.

(** ** The vertices of the polygon tool *)

Section Vertices.
Context {L : Libm} {R : Raster}.

(** A left click while the polygon tool accumulates vertices appends
    one. *)
Lemma polygon_click_appends px py w :
  is_polygon w = true -> is_floating (tool w) = false ->
  has_first_click (tool w) = true ->
  exists w',
    step (left_press px py) w = Ok w'
    /\ points (tool w') = points (tool w) ++ [mkQPoint px py]
    /\ is_polygon w' = true /\ is_floating (tool w') = false
    /\ has_first_click (tool w') = true
    /\ is_creating (tool w') = is_creating (tool w).
Proof.
  intros Hp Hf Hc. unfold step, left_press, mouse_press. rewrite Hp.
  unfold ImprovedPolygonSelectTool_mouse_press. cbv zeta.
  rewrite Hf, Hc. cbn [button negb].
  eexists. split; [ reflexivity | ].
  destruct (update_preview_shape
              (T (set_temp_point None)
                 (T (set_points (points (tool w) ++ [mkQPoint px py])) w)))
    as (p & ->).
  unfold is_polygon in *.
  destruct w as [c t]; destruct t; repeat split; assumption.
Qed.

Lemma polygon_clicks_append ps w :
  is_polygon w = true -> is_floating (tool w) = false ->
  has_first_click (tool w) = true ->
  exists w',
    run (map (fun p => left_press (pt_x p) (pt_y p)) ps) w = Ok w'
    /\ points (tool w') = points (tool w) ++ ps
    /\ is_floating (tool w') = false
    /\ is_creating (tool w') = is_creating (tool w).
Proof.
  revert w. induction ps as [|p ps IH]; intros w Hp Hf Hc.
  - exists w. rewrite app_nil_r. repeat split; assumption.
  - cbn [map]. rewrite run_cons.
    destruct (polygon_click_appends (pt_x p) (pt_y p) w Hp Hf Hc)
      as (w1 & Hs & Hpts & Hp1 & Hf1 & Hc1 & Hi1).
    rewrite Hs. cbn [bind].
    destruct (IH w1 Hp1 Hf1 Hc1) as (w2 & Hr & Hpts2 & Hf2 & Hi2).
    exists w2. split; [ exact Hr | ].
    split; [ | split; [ exact Hf2 | congruence ] ].
    rewrite Hpts2, Hpts, <- app_assoc. destruct p; reflexivity.
Qed.

(** The first left click of the polygon tool starts the list of
    vertices. *)
Lemma polygon_first_click px py w :
  is_polygon w = true -> is_floating (tool w) = false ->
  has_first_click (tool w) = false ->
  exists w',
    step (left_press px py) w = Ok w'
    /\ points (tool w') = [mkQPoint px py]
    /\ is_polygon w' = true /\ is_floating (tool w') = false
    /\ has_first_click (tool w') = true
    /\ is_creating (tool w') = true.
Proof.
  intros Hp Hf Hc. unfold step, left_press, mouse_press. rewrite Hp.
  unfold ImprovedPolygonSelectTool_mouse_press. cbv zeta.
  rewrite Hf, Hc. cbn [button negb].
  eexists. split; [ reflexivity | ].
  destruct (update_preview_shape
              (T (set_points [mkQPoint px py])
                 (T (set_is_creating true)
                    (T (set_has_first_click true) w))))
    as (p & ->).
  unfold is_polygon in *.
  destruct w as [c t]; destruct t; repeat split; assumption.
Qed.

End Vertices.

(** X8: left clicks on a new polygon tool become its vertices, in the
    order of the clicks: after the clicks at [p :: ps] the tool holds
    exactly these points, is creating a polygon and nothing floats. *)
Theorem polygon_clicks_become_the_vertices {L : Libm} {R : Raster}
    (c : Controller) (p : QPoint) (ps : list QPoint) :
  exists w',
    run (map (fun q => left_press (pt_x q) (pt_y q)) (p :: ps))
      (start_world ImprovedPolygonSelectTool c) = Ok w'
    /\ points (tool w') = p :: ps
    /\ is_creating (tool w') = true
    /\ is_floating (tool w') = false.
Proof.
  cbn [map]. rewrite run_cons.
  destruct (polygon_first_click (pt_x p) (pt_y p)
              (start_world ImprovedPolygonSelectTool c)
              eq_refl eq_refl eq_refl)
    as (w1 & Hs & Hpts & Hp1 & Hf1 & Hc1 & Hi1).
  rewrite Hs. cbn [bind].
  destruct (polygon_clicks_append ps w1 Hp1 Hf1 Hc1)
    as (w2 & Hr & Hpts2 & Hf2 & Hi2).
  exists w2. split; [ exact Hr | ].
  split; [ rewrite Hpts2, Hpts; destruct p; reflexivity | ].
  split; [ congruence | exact Hf2 ].
Qed.

(** ** The rectangle of a finished polygon *)

Lemma min_of_le (f : QPoint -> Z) (ps : list QPoint) (m : Z) :
  fold_left (fun m q => Z.min m (f q)) ps m <= m
  /\ forall q, In q ps -> fold_left (fun m q => Z.min m (f q)) ps m <= f q.
Proof.
  revert m. induction ps as [|a ps IH]; intro m; cbn [fold_left].
  - split; [ lia | intros q [] ].
  - destruct (IH (Z.min m (f a))) as [H1 H2]. split; [ lia | ].
    intros q [<- | Hq]; [ lia | apply H2; exact Hq ].
Qed.

Lemma max_of_ge (f : QPoint -> Z) (ps : list QPoint) (m : Z) :
  m <= fold_left (fun m q => Z.max m (f q)) ps m
  /\ forall q, In q ps -> f q <= fold_left (fun m q => Z.max m (f q)) ps m.
Proof.
  revert m. induction ps as [|a ps IH]; intro m; cbn [fold_left].
  - split; [ lia | intros q [] ].
  - destruct (IH (Z.max m (f a))) as [H1 H2]. split; [ lia | ].
    intros q [<- | Hq]; [ lia | apply H2; exact Hq ].
Qed.

Lemma min_of_bound f p ps q : In q (p :: ps) -> min_of f p ps <= f q.
Proof.
  unfold min_of. destruct (min_of_le f ps (f p)) as [H1 H2].
  intros [<- | Hq]; [ exact H1 | apply H2; exact Hq ].
Qed.

Lemma max_of_bound f p ps q : In q (p :: ps) -> f q <= max_of f p ps.
Proof.
  unfold max_of. destruct (max_of_ge f ps (f p)) as [H1 H2].
  intros [<- | Hq]; [ exact H1 | apply H2; exact Hq ].
Qed.

Section Polygon.
Context {L : Libm} {R : Raster}.

(** [_capture_selection] writes the content and the mask of the tool,
    and nothing else. *)
Lemma capture_writes w :
  exists c m,
    world_of (_capture_selection w)
    = T (set_selected_content c) (T (set_selection_mask m) w).
Proof.
  assert (Hk : exists c m,
             w = T (set_selected_content c) (T (set_selection_mask m) w)).
  { exists (selected_content (tool w)), (selection_mask (tool w)).
    destruct w as [c t]; destruct t; reflexivity. }
  unfold _capture_selection.
  destruct (selection_rect (tool w)) as [rect|]; [ | exact Hk ].
  destruct (negb (rect_bool rect)); [ exact Hk | ].
  destruct (layers (ctl w)); [ exact Hk | ].
  destruct (Py.getitem _ _) as [active_layer|]; [ | exact Hk ].
  cbv zeta. destruct (_create_selection_mask (tool w)) as [m|];
    cbn [world_of].
  - do 2 eexists. reflexivity.
  - exists (selected_content (tool w)), None.
    destruct w as [c t]; destruct t; reflexivity.
Qed.

End Polygon.

(** X9: the rectangle of a polygon finished with three or more
    vertices starts at the least x and y of the vertices and is as wide
    and high as they spread, so that every vertex lies between its left
    and top and its left plus width and top plus height; the vertices are
    kept relative to its top left corner, none of them negative; the
    vertices themselves are unchanged and the tool floats. *)
Theorem polygon_rectangle_bounds_the_vertices {L : Libm} {R : Raster}
    (w : World) (p : QPoint) (ps : list QPoint) :
  is_polygon w = true -> points (tool w) = p :: ps ->
  (2 <= List.length ps)%nat ->
  let t' := tool (world_of (_finalize_selection w)) in
  exists rect,
    selection_rect t' = Some rect
    /\ (forall q, In q (p :: ps) ->
        Qt.left rect <= pt_x q <= Qt.left rect + Qt.width rect
        /\ Qt.top rect <= pt_y q <= Qt.top rect + Qt.height rect)
    /\ original_points t'
       = map (fun q => mkQPoint (pt_x q - Qt.left rect)
                                (pt_y q - Qt.top rect)) (p :: ps)
    /\ (forall q, In q (original_points t') -> 0 <= pt_x q /\ 0 <= pt_y q)
    /\ points t' = p :: ps
    /\ is_floating t' = true.
Proof.
  intros Hp Hpts Hn. cbv zeta.
  unfold _finalize_selection. unfold is_polygon in Hp.
  destruct (variant (tool w)) eqn:Hv; try discriminate Hp.
  unfold ImprovedPolygonSelectTool_finalize_selection. rewrite Hpts.
  destruct ps as [|p2 [|p3 ps]]; cbn [List.length] in Hn; try lia.
  cbv zeta.
  set (qs := p2 :: p3 :: ps) in *.
  set (rect := QRect_xywh (min_of pt_x p qs) (min_of pt_y p qs)
                 (max_of pt_x p qs - min_of pt_x p qs)
                 (max_of pt_y p qs - min_of pt_y p qs)).
  match goal with
  | |- context [_capture_selection ?W] =>
      destruct (capture_writes W) as (c & m & Hc);
      destruct (_capture_selection W) as [w1|w1]; cbn [world_of bind] in *
  end.
  - destruct (update_selection_preview_shape w1)
      as (pv & a & b & c0 & d & e & ->).
    rewrite Hc. exists rect.
    assert (Hb : forall q, In q (p :: qs) ->
              Qt.left rect <= pt_x q <= Qt.left rect + Qt.width rect
              /\ Qt.top rect <= pt_y q <= Qt.top rect + Qt.height rect).
    { intros q Hq.
      pose proof (min_of_bound pt_x p qs q Hq).
      pose proof (max_of_bound pt_x p qs q Hq).
      pose proof (min_of_bound pt_y p qs q Hq).
      pose proof (max_of_bound pt_y p qs q Hq).
      unfold rect, Qt.left, Qt.top, Qt.width, Qt.height, QRect_xywh.
      cbn [x1 x2 y1 y2]. lia. }
    split; [ destruct w as [c1 t]; destruct t; reflexivity | ].
    split; [ exact Hb | ].
    assert (Ho : original_points
                   (tool (C (set_temp_pixmap pv)
                            (T (set_handles a b c0 d e)
                               (T (set_selected_content c)
                                  (T (set_selection_mask m)
                                     (T (set_rotation_angle 0)
                                        (T (set_scale_factor 1)
                                           (T (set_has_first_click false)
                                              (T (set_is_creating false)
                                                 (T (set_is_floating true)
                                                    (T (set_original_points
                                                          (map (fun q =>
                                                             mkQPoint
                                                               (pt_x q - Qt.x rect)
                                                               (pt_y q - Qt.y rect))
                                                             (p :: qs)))
                                                       (T (set_selection_rect
                                                             (Some rect)) w))))))))))))
                 = map (fun q => mkQPoint (pt_x q - Qt.left rect)
                                          (pt_y q - Qt.top rect)) (p :: qs))
      by (destruct w as [c1 t]; destruct t; reflexivity).
    split; [ exact Ho | ].
    split.
    { rewrite Ho. intros q Hq. apply in_map_iff in Hq.
      destruct Hq as (q0 & <- & Hq0). destruct (Hb q0 Hq0) as [Hx Hy].
      cbn [pt_x pt_y]. lia. }
    split; [ | destruct w as [c1 t]; destruct t; reflexivity ].
    destruct w as [c1 t]; destruct t; exact Hpts.
  - rewrite Hc. exists rect.
    assert (Hb : forall q, In q (p :: qs) ->
              Qt.left rect <= pt_x q <= Qt.left rect + Qt.width rect
              /\ Qt.top rect <= pt_y q <= Qt.top rect + Qt.height rect).
    { intros q Hq.
      pose proof (min_of_bound pt_x p qs q Hq).
      pose proof (max_of_bound pt_x p qs q Hq).
      pose proof (min_of_bound pt_y p qs q Hq).
      pose proof (max_of_bound pt_y p qs q Hq).
      unfold rect, Qt.left, Qt.top, Qt.width, Qt.height, QRect_xywh.
      cbn [x1 x2 y1 y2]. lia. }
    split; [ destruct w as [c1 t]; destruct t; reflexivity | ].
    split; [ exact Hb | ].
    assert (Ho : original_points
                   (tool (T (set_selected_content c)
                            (T (set_selection_mask m)
                               (T (set_rotation_angle 0)
                                  (T (set_scale_factor 1)
                                     (T (set_has_first_click false)
                                        (T (set_is_creating false)
                                           (T (set_is_floating true)
                                              (T (set_original_points
                                                    (map (fun q =>
                                                       mkQPoint
                                                         (pt_x q - Qt.x rect)
                                                         (pt_y q - Qt.y rect))
                                                       (p :: qs)))
                                                 (T (set_selection_rect
                                                       (Some rect)) w))))))))))
                 = map (fun q => mkQPoint (pt_x q - Qt.left rect)
                                          (pt_y q - Qt.top rect)) (p :: qs))
      by (destruct w as [c1 t]; destruct t; reflexivity).
    split; [ exact Ho | ].
    split.
    { rewrite Ho. intros q Hq. apply in_map_iff in Hq.
      destruct Hq as (q0 & <- & Hq0). destruct (Hb q0 Hq0) as [Hx Hy].
      cbn [pt_x pt_y]. lia. }
    split; [ | destruct w as [c1 t]; destruct t; reflexivity ].
    destruct w as [c1 t]; destruct t; exact Hpts.
Qed.

(** The polygon tool after clicks at (10,10), (50,20) and (30,60). *)
Definition three_vertices : World :=
  world_of (run (L := Probe.libm) (R := Probe.raster)
              [left_press 10 10; left_press 50 20; left_press 30 60]
              (start_world ImprovedPolygonSelectTool
                 (controller_of [red_layer false] []))).

Lemma polygon_rectangle_bounds_the_vertices_witness :
  is_polygon three_vertices = true
  /\ points (tool three_vertices)
     = mkQPoint 10 10 :: [mkQPoint 50 20; mkQPoint 30 60]
  /\ (2 <= List.length [mkQPoint 50 20; mkQPoint 30 60])%nat
  /\ (let t' :=
        tool (world_of (_finalize_selection (L := Probe.libm)
                          (R := Probe.raster) three_vertices)) in
      exists rect,
        selection_rect t' = Some rect
        /\ (forall q,
              In q (mkQPoint 10 10 :: [mkQPoint 50 20; mkQPoint 30 60]) ->
              Qt.left rect <= pt_x q <= Qt.left rect + Qt.width rect
              /\ Qt.top rect <= pt_y q <= Qt.top rect + Qt.height rect)
        /\ original_points t'
           = map (fun q => mkQPoint (pt_x q - Qt.left rect)
                                    (pt_y q - Qt.top rect))
               (mkQPoint 10 10 :: [mkQPoint 50 20; mkQPoint 30 60])
        /\ (forall q, In q (original_points t') ->
            0 <= pt_x q /\ 0 <= pt_y q)
        /\ points t' = mkQPoint 10 10 :: [mkQPoint 50 20; mkQPoint 30 60]
        /\ is_floating t' = true).
Proof.
  assert (H1 : is_polygon three_vertices = true) by (vm_compute; reflexivity).
  assert (H2 : points (tool three_vertices)
               = mkQPoint 10 10 :: [mkQPoint 50 20; mkQPoint 30 60])
    by (vm_compute; reflexivity).
  assert (H3 : (2 <= List.length [mkQPoint 50 20; mkQPoint 30 60])%nat)
    by (simpl; lia).
  do 3 (split; [ assumption | ]).
  exact (polygon_rectangle_bounds_the_vertices (L := Probe.libm)
           (R := Probe.raster) three_vertices (mkQPoint 10 10)
           [mkQPoint 50 20; mkQPoint 30 60] H1 H2 H3).
Defined.

(** * Further properties of the controller *)

(** ** Drawing on the active layer *)

Lemma length_list_set {A} (l : list A) (n : nat) (v : A) :
  length (list_set l n v) = length l.
Proof.
  revert n. induction l as [|a l IH]; intros [|n]; cbn; auto.
Qed.

Lemma nth_error_list_set_eq {A} (l : list A) (n : nat) (v : A) :
  (n < length l)%nat -> nth_error (list_set l n v) n = Some v.
Proof.
  revert n. induction l as [|a l IH]; intros [|n] H; cbn in *;
    try lia; auto. apply IH. lia.
Qed.

Lemma nth_error_list_set_neq {A} (l : list A) (n j : nat) (v : A) :
  j <> n -> nth_error (list_set l n v) j = nth_error l j.
Proof.
  revert n j. induction l as [|a l IH]; intros [|n] [|j] H; cbn;
    try congruence; auto.
Qed.

Lemma save_to_history_keeps (c : Controller) :
  layers (save_to_history c) = layers c
  /\ active_layer_index (save_to_history c) = active_layer_index c
  /\ adjustments (save_to_history c) = adjustments c
  /\ is_recording (save_to_history c) = is_recording c
  /\ status_log (save_to_history c) = status_log c
  /\ is_modified (save_to_history c) = is_modified c.
Proof.
  unfold save_to_history. destruct (_ || _); destruct c; repeat split.
Qed.

(** The three ways [draw_on_active_layer] ends. *)
Lemma draw_cases (f : QPainter -> QPainter) (b : bool) (c : Controller) :
  ((active_layer_index c < 0
    \/ Z.of_nat (length (layers c)) <= active_layer_index c)
   /\ draw_on_active_layer f b c = c)
  \/ (exists layer,
        0 <= active_layer_index c
        /\ nth_error (layers c) (Z.to_nat (active_layer_index c)) = Some layer
        /\ locked layer = true
        /\ draw_on_active_layer f b c = emit Status_layer_locked c)
  \/ (exists layer c2,
        0 <= active_layer_index c
        /\ nth_error (layers c) (Z.to_nat (active_layer_index c)) = Some layer
        /\ locked layer = false
        /\ (c2 = c \/ c2 = set_current_operation_saved true (save_to_history c))
        /\ (b = false -> c2 = c)
        /\ draw_on_active_layer f b c
           = set_is_modified true
               (set_pending_update true
                  (set_layers
                     (list_set (layers c2) (Z.to_nat (active_layer_index c))
                        (set_image (device (f (begin (image layer)))) layer))
                     c2))).
Proof.
  unfold draw_on_active_layer. cbv zeta.
  destruct ((active_layer_index c <? 0)
            || (Z.of_nat (length (layers c)) <=? active_layer_index c)) eqn:E.
  { left. split; [ | reflexivity ].
    apply orb_true_iff in E. destruct E as [E | E];
      [ left; apply Z.ltb_lt; exact E | right; apply Z.leb_le; exact E ]. }
  apply orb_false_iff in E. destruct E as [E1 E2]. apply Z.ltb_ge in E1.
  apply Z.leb_gt in E2.
  destruct (nth_error (layers c) (Z.to_nat (active_layer_index c)))
    as [layer|] eqn:En; [ | apply nth_error_None in En; lia ].
  destruct (locked layer) eqn:El.
  - right. left. exists layer. repeat split; assumption.
  - right. right. exists layer.
    destruct (b && negb (current_operation_saved c)) eqn:Eb.
    + exists (set_current_operation_saved true (save_to_history c)).
      repeat split; auto.
      intros ->. discriminate Eb.
    + exists c. repeat split; auto.
Qed.

(** X10: [draw_on_active_layer] changes no layer but the active one,
    and of that one only the image; it never changes a locked layer, nor
    the number of layers or the active index. *)
Theorem draw_changes_only_the_active_image (f : QPainter -> QPainter)
    (b : bool) (c : Controller) :
  let c' := draw_on_active_layer f b c in
  length (layers c') = length (layers c)
  /\ active_layer_index c' = active_layer_index c
  /\ (forall j, Z.of_nat j <> active_layer_index c ->
      nth_error (layers c') j = nth_error (layers c) j)
  /\ (forall j l, nth_error (layers c) j = Some l ->
      exists l',
        nth_error (layers c') j = Some l'
        /\ name l' = name l /\ visible l' = visible l
        /\ opacity l' = opacity l /\ locked l' = locked l
        /\ (locked l = true -> l' = l)).
Proof.
  cbv zeta.
  assert (Hsame : forall c0, layers c0 = layers c ->
            active_layer_index c0 = active_layer_index c ->
            length (layers c0) = length (layers c)
            /\ active_layer_index c0 = active_layer_index c
            /\ (forall j, Z.of_nat j <> active_layer_index c ->
                nth_error (layers c0) j = nth_error (layers c) j)
            /\ (forall j l, nth_error (layers c) j = Some l ->
                exists l',
                  nth_error (layers c0) j = Some l'
                  /\ name l' = name l /\ visible l' = visible l
                  /\ opacity l' = opacity l /\ locked l' = locked l
                  /\ (locked l = true -> l' = l))).
  { intros c0 Hl Ha. rewrite Hl. repeat split; auto.
    intros j l Hj. exists l. repeat split; auto. }
  destruct (draw_cases f b c)
    as [[_ ->] | [(layer & _ & _ & _ & ->)
                 | (layer & c2 & H0 & Hn & Hl & Hc2 & _ & ->)]].
  - apply Hsame; reflexivity.
  - apply Hsame; destruct c; reflexivity.
  - assert (Hl2 : layers c2 = layers c /\ active_layer_index c2
                                          = active_layer_index c).
    { destruct Hc2 as [-> | ->]; [ split; reflexivity | ].
      destruct (save_to_history_keeps c) as (Ha & Hb & _).
      destruct (save_to_history c); split; assumption. }
    destruct Hl2 as [Hl2 Ha2].
    assert (Hlay : forall ls,
              layers (set_is_modified true
                        (set_pending_update true (set_layers ls c2))) = ls)
      by (intro ls; destruct c2; reflexivity).
    assert (Hact : forall ls,
              active_layer_index
                (set_is_modified true
                   (set_pending_update true (set_layers ls c2)))
              = active_layer_index c2)
      by (intro ls; destruct c2; reflexivity).
    rewrite Hlay, Hact, Hl2, Ha2, length_list_set.
    split; [ reflexivity | ]. split; [ reflexivity | ].
    split.
    + intros j Hj. apply nth_error_list_set_neq. lia.
    + intros j l Hj.
      destruct (Nat.eq_dec j (Z.to_nat (active_layer_index c))) as [-> | Hne].
      * rewrite Hn in Hj. injection Hj as <-.
        eexists. split.
        { apply nth_error_list_set_eq. apply nth_error_Some.
          rewrite Hn. discriminate. }
        repeat split. intro H. congruence.
      * exists l. rewrite nth_error_list_set_neq by exact Hne.
        repeat split; auto.
Qed.

(** ** Commit on a layer that is not locked *)

(** What [_commit_selection] leaves on an unlocked active layer. *)
Lemma commit_on_unlocked_layer {L : Libm} {R : Raster}
    (w : World) (rect : QRect) (content : QImage) (layer : Layer) :
  is_floating (tool w) = true ->
  selection_rect (tool w) = Some rect -> rect_bool rect = true ->
  selected_content (tool w) = Some content ->
  0 <= active_layer_index (ctl w) ->
  nth_error (layers (ctl w)) (Z.to_nat (active_layer_index (ctl w)))
  = Some layer ->
  locked layer = false ->
  let w' := _commit_selection w in
  layers (ctl w')
  = list_set (layers (ctl w)) (Z.to_nat (active_layer_index (ctl w)))
      (set_image
         (device (draw_transformed_selection (tool w) rect content
                    (begin (image layer))))
         layer)
  /\ undo_stack (ctl w') = undo_stack (save_to_history (ctl w))
  /\ redo_stack (ctl w') = redo_stack (save_to_history (ctl w))
  /\ is_modified (ctl w') = true
  /\ status_log (ctl w') = status_log (ctl w) ++ [Status_selection_cancelled]
  /\ is_floating (tool w') = false
  /\ selection_rect (tool w') = None
  /\ selected_content (tool w') = None.
Proof.
  intros Hf Hr Hv Hc H0 Hn Hl. cbv zeta.
  unfold _commit_selection. rewrite Hr, Hc, Hf, Hv. cbn [negb orb].
  cbv zeta.
  pose proof (core_cancel_selection
                (C (draw_on_active_layer
                      (draw_transformed_selection
                         (tool (C save_to_history w)) rect content) false)
                   (C save_to_history w))) as Hcore.
  use_core Hcore.
  rewrite !ctl_cancel_selection. rewrite !ctl_C.
  change (tool (C save_to_history w)) with (tool w).
  destruct (save_to_history_keeps (ctl w)) as (Kl & Ka & _ & _ & Ks & _).
  destruct (draw_cases (draw_transformed_selection (tool w) rect content)
              false (save_to_history (ctl w)))
    as [[Hd _] | [(l1 & _ & Hn1 & Hl1 & _)
                 | (l1 & c2 & _ & Hn1 & _ & _ & Hc2 & Hd)]].
  - exfalso. rewrite Kl, Ka in Hd.
    assert (Hlen : (Z.to_nat (active_layer_index (ctl w))
                    < length (layers (ctl w)))%nat).
    { apply nth_error_Some. rewrite Hn. discriminate. }
    lia.
  - rewrite Kl, Ka, Hn in Hn1. injection Hn1 as <-. congruence.
  - rewrite Kl, Ka, Hn in Hn1. injection Hn1 as <-.
    specialize (Hc2 eq_refl). subst c2. rewrite Hd, Kl, Ka.
    split; [ | split; [ | split; [ | split; [ | split ] ] ] ];
      try assumption;
      try (destruct (save_to_history (ctl w)); reflexivity).
    + rewrite <- Ks. destruct (save_to_history (ctl w)); reflexivity.
    + split; [ exact Ef | split; [ exact Er | exact Ec ] ].
Qed.

(** ** The history the tools leave *)

(** The snapshot [save_to_history] would take of a controller. *)
Definition snapshot_of (c : Controller) : Snapshot :=
  mkSnapshot (layers c) (active_layer_index c) (adjustments c).

Lemma draw_keeps_history (f : QPainter -> QPainter) (c : Controller) :
  undo_stack (draw_on_active_layer f false c) = undo_stack c
  /\ redo_stack (draw_on_active_layer f false c) = redo_stack c
  /\ adjustments (draw_on_active_layer f false c) = adjustments c
  /\ is_recording (draw_on_active_layer f false c) = is_recording c
  /\ active_layer_index (draw_on_active_layer f false c)
     = active_layer_index c.
Proof.
  destruct (draw_cases f false c)
    as [[_ ->] | [(layer & _ & _ & _ & ->)
                 | (layer & c2 & _ & _ & _ & _ & Hc2 & ->)]].
  - repeat split.
  - destruct c; repeat split.
  - rewrite (Hc2 eq_refl). destruct c; repeat split.
Qed.

Lemma save_to_history_nil (c : Controller) :
  layers c = [] -> save_to_history c = c.
Proof.
  intro H. unfold save_to_history. rewrite H.
  rewrite orb_true_r. reflexivity.
Qed.

Lemma draw_without_layers (f : QPainter -> QPainter) (b : bool)
    (c : Controller) :
  layers c = [] -> draw_on_active_layer f b c = c.
Proof.
  intro H. unfold draw_on_active_layer. cbv zeta. rewrite H.
  cbn [length Z.of_nat].
  destruct (active_layer_index c <? 0) eqn:E; [ reflexivity | ].
  apply Z.ltb_ge in E.
  assert (E2 : (0 <=? active_layer_index c) = true)
    by (apply Z.leb_le; exact E).
  rewrite E2. reflexivity.
Qed.

Lemma deque_append_length {A} (n : nat) (l : list A) (x : A) :
  (length l <= n)%nat -> (length (Py.deque_append n l x) <= n)%nat.
Proof.
  intro H. unfold Py.deque_append. cbv zeta.
  destruct (Nat.ltb n (length (l ++ [x]))) eqn:E.
  - destruct l as [|a l]; cbn in *; [ lia | ].
    rewrite length_app. cbn. lia.
  - apply Nat.ltb_ge in E. exact E.
Qed.

Lemma save_to_history_length (c : Controller) :
  (length (undo_stack c) <= MAX_HISTORY)%nat ->
  (length (undo_stack (save_to_history c)) <= MAX_HISTORY)%nat.
Proof.
  intro H. unfold save_to_history.
  destruct (_ || _); [ exact H | ].
  cbv zeta.
  replace (undo_stack
             (set_redo_stack []
                (set_undo_stack
                   (Py.deque_append MAX_HISTORY (undo_stack c)
                      (mkSnapshot (layers c) (active_layer_index c)
                         (adjustments c))) c)))
    with (Py.deque_append MAX_HISTORY (undo_stack c)
            (mkSnapshot (layers c) (active_layer_index c) (adjustments c)))
    by (destruct c; reflexivity).
  apply deque_append_length. exact H.
Qed.

Section History.
Context {L : Libm} {R : Raster}.

(** What a commit leaves of the layers and of the undo stack: both as
    they were, or the undo stack as [save_to_history] leaves it. *)
Lemma commit_history w :
  (layers (ctl (_commit_selection w)) = layers (ctl w)
   /\ undo_stack (ctl (_commit_selection w)) = undo_stack (ctl w))
  \/ (layers (ctl w) <> []
      /\ committable (tool w) = true
      /\ undo_stack (ctl (_commit_selection w))
         = undo_stack (save_to_history (ctl w))).
Proof.
  unfold _commit_selection, committable, selection_rect_bool.
  destruct (selection_rect (tool w)) as [rect|]; [ | left; split; reflexivity ].
  destruct (selected_content (tool w)) as [content|];
    [ | left; split; reflexivity ].
  destruct (is_floating (tool w)); cbn [negb orb andb];
    [ | left; split; reflexivity ].
  destruct (rect_bool rect); cbn [negb andb];
    [ | left; split; reflexivity ].
  cbv zeta. rewrite !ctl_cancel_selection. rewrite !ctl_C.
  destruct (layers (ctl w)) as [|l ls] eqn:El.
  - left. rewrite (save_to_history_nil (ctl w) El).
    rewrite (draw_without_layers _ false (ctl w) El).
    destruct (ctl w); cbn in El |- *. split; [ exact El | reflexivity ].
  - right. split; [ discriminate | ]. split; [ reflexivity | ].
    match goal with
    | |- context [draw_on_active_layer ?F false ?X] =>
        destruct (draw_keeps_history F X) as (Hu & _);
        destruct (draw_on_active_layer F false X)
    end.
    exact Hu.
Qed.

(** An event that commits reaches [_commit_selection] with the controller
    as it is. *)
Lemma commit_reached e w :
  commits e w = true ->
  exists w0,
    step e w = Ok (_commit_selection w0) /\ ctl w0 = ctl w
    /\ committable (tool w0) = committable (tool w)
    /\ is_floating (tool w0) = is_floating (tool w).
Proof.
  destruct e as [ev px py| | |k| | | | |]; cbn [commits];
    try discriminate.
  - intro Hp. unfold press_commits in Hp.
    apply andb_true_iff in Hp. destruct Hp as [Hp H4].
    apply andb_true_iff in Hp. destruct Hp as [Hp H3].
    apply andb_true_iff in Hp. destruct Hp as [Hp H2].
    apply andb_true_iff in Hp. destruct Hp as [Hf H1].
    apply negb_true_iff in H1, H2, H4.
    unfold step, mouse_press, ImprovedPolygonSelectTool_mouse_press.
    cbv zeta.
    destruct (is_polygon w).
    + rewrite Hf, H1, H2, H4.
      destruct (_get_resize_handle_at (tool w) px py); [ discriminate H3 | ].
      cbn [orb negb]. exists w. repeat split. exact Hf.
    + unfold BaseSelectTool_mouse_press. cbv zeta.
      destruct (press_conds ev (tool w) px py) as (_ & Cf & Cs & Cr & Ch & Cp).
      rewrite (tool_T (BaseTool_mouse_press ev) w), Cf, Hf, Cs, Cr, H1, H2.
      rewrite (tool_T (set_resize_handle _)), resize_handle_set,
        (tool_T (BaseTool_mouse_press ev) w), Cp, Ch, H4.
      destruct (_get_resize_handle_at (tool w) px py); [ discriminate H3 | ].
      eexists. split; [ reflexivity | ]. split; [ reflexivity | ].
      destruct (press_keeps ev None w) as (K1 & K2 & _).
      split; [ exact K2 | congruence ].
  - intro Hk. unfold step, key_press, ImprovedPolygonSelectTool_key_press,
      BaseSelectTool_key_press.
    cbv zeta.
    destruct k; cbn [key_commits] in Hk; try discriminate Hk;
      rewrite Hk; exists w; destruct (is_polygon w); repeat split;
      exact Hk.
Qed.

(** Every event leaves the layers and the undo stack as they are, or
    commits a selection after [save_to_history]. *)
Lemma step_history e w :
  (layers (ctl (world_of (step e w))) = layers (ctl w)
   /\ undo_stack (ctl (world_of (step e w))) = undo_stack (ctl w))
  \/ (layers (ctl w) <> []
      /\ commits e w = true /\ committable (tool w) = true
      /\ undo_stack (ctl (world_of (step e w)))
         = undo_stack (save_to_history (ctl w))).
Proof.
  destruct (commits e w) eqn:Hc.
  - destruct (commit_reached e w Hc) as (w0 & Hs & Hw0 & Hcm & _).
    rewrite Hs. cbn [world_of].
    destruct (commit_history w0) as [[H1 H2] | (H1 & H2 & H3)].
    + left. rewrite H1, H2, Hw0. split; reflexivity.
    + right. rewrite H3, <- Hw0, <- Hcm. repeat split; assumption.
  - left. pose proof (proj2 (ok_step e w) Hc) as Hd.
    destruct (doc_fields _ _ Hd) as (H1 & H2 & _). split; assumption.
Qed.

End History.

(** X12: the undo stack never holds more than [MAX_HISTORY] snapshots:
    from a controller whose stack holds at most that many, it does so
    after every sequence of events of a selection tool. *)
Theorem history_stays_bounded {L : Libm} {R : Raster}
    (es : list Event) (w : World) :
  (length (undo_stack (ctl w)) <= MAX_HISTORY)%nat ->
  (length (undo_stack (ctl (world_of (run es w)))) <= MAX_HISTORY)%nat.
Proof.
  revert w. induction es as [|e es IH]; intros w H; [ exact H | ].
  rewrite run_cons.
  assert (H1 : (length (undo_stack (ctl (world_of (step e w))))
                <= MAX_HISTORY)%nat).
  { destruct (step_history e w) as [[_ ->] | (_ & _ & _ & ->)];
      [ exact H | apply save_to_history_length; exact H ]. }
  destruct (step e w) as [w1|w1]; cbn [bind world_of] in *;
    [ apply IH; exact H1 | exact H1 ].
Qed.

Lemma history_stays_bounded_witness :
  (length (undo_stack (ctl (selected [red_layer false] [])))
   <= MAX_HISTORY)%nat
  /\ (length
        (undo_stack
           (ctl (world_of (run (L := Probe.libm) (R := Probe.raster)
                             [key_press_event Key_Enter]
                             (selected [red_layer false] [])))))
      <= MAX_HISTORY)%nat.
Proof.
  assert (H1 : (length (undo_stack (ctl (selected [red_layer false] [])))
                <= MAX_HISTORY)%nat)
    by (vm_compute; lia).
  split; [ exact H1 | ].
  exact (history_stays_bounded (L := Probe.libm) (R := Probe.raster)
           [key_press_event Key_Enter] (selected [red_layer false] []) H1).
Defined.

(** * Undo and redo ([controller.py])

    [undo], [redo], [_restore_history], [clear_history] and
    [clear_selection] of [PaintController], on the controller of the
    selection tools.  Their messages are not among those of the tools;
    they are returned with the controller, in the order they are
    emitted.  The enabling of the toolbar buttons and the refresh of the
    layer panel are not modelled, nor are the four selection fields of the
    controller that [clear_selection] resets and no modelled function
    reads. *)

Definition set_is_recording (v : bool) (s : Controller) : Controller :=
  mkController (layers s) (active_layer_index s) (current_image s)
    (temp_pixmap s) (undo_stack s) (redo_stack s) v (is_modified s)
    (current_operation_saved s) (pending_update s) (adjustments s)
    (status_log s).
Definition set_adjustments (v : Adjustments) (s : Controller) : Controller :=
  mkController (layers s) (active_layer_index s) (current_image s)
    (temp_pixmap s) (undo_stack s) (redo_stack s) (is_recording s)
    (is_modified s) (current_operation_saved s) (pending_update s) v
    (status_log s).

(** The messages of the history and layer functions. *)
Inductive Notice :=
| Notice_nothing_to_undo              (* "没有可撤销的操作" *)
| Notice_nothing_to_redo              (* "没有可重做的操作" *)
| Notice_selection_cleared            (* "选区已清除" *)
| Notice_undo (remaining : nat)       (* "撤销 (剩余: {n})" *)
| Notice_redo (remaining : nat)       (* "重做 (剩余: {n})" *)
| Notice_last_layer                   (* "无法删除最后一个图层" *)
| Notice_background_layer             (* "无法删除背景图层" *)
| Notice_layer_selected (layer_name : String.string). (* "选中图层: {name}" *)

(** A controller and what has been emitted on the way to it. *)
Definition Reply : Type := Controller * list Notice.

(** [schedule_update]. *)
Definition schedule_update (c : Controller) : Controller :=
  set_pending_update true c.

Definition clear_selection (c : Controller) : Reply :=
  (set_temp_pixmap None c, [Notice_selection_cleared]).

(** [_restore_history(data)]: the layers are rebuilt from the snapshot. *)
Definition _restore_history (data : Snapshot) (c : Controller) : Reply :=
  let c := set_is_recording false c in
  let c := set_layers (snap_layers data) c in
  let c := set_active_layer_index (snap_active data) c in
  let c := set_adjustments (snap_adjustments data) c in
  let c := set_temp_pixmap None c in
  let '(c, said) := clear_selection c in
  let c := schedule_update c in
  (set_is_recording true c, said).

(** [undo]: the current state goes on the redo stack, the newest entry
    of the undo stack is popped and restored. *)
Definition undo (c : Controller) : Reply :=
  match undo_stack c with
  | [] => (c, [Notice_nothing_to_undo])
  | s :: st =>
      let current := snapshot_of c in
      let c := set_redo_stack
                 (Py.deque_append MAX_HISTORY (redo_stack c) current) c in
      let data := last st s in
      let c := set_undo_stack (removelast (s :: st)) c in
      let '(c, said) := _restore_history data c in
      let c := set_is_modified true c in
      (c, said ++ [Notice_undo (length (undo_stack c))])
  end.

(** [redo]: the current state goes on the undo stack, the newest entry
    of the redo stack is popped and restored. *)
Definition redo (c : Controller) : Reply :=
  match redo_stack c with
  | [] => (c, [Notice_nothing_to_redo])
  | s :: st =>
      let current := snapshot_of c in
      let c := set_undo_stack
                 (Py.deque_append MAX_HISTORY (undo_stack c) current) c in
      let data := last st s in
      let c := set_redo_stack (removelast (s :: st)) c in
      let '(c, said) := _restore_history data c in
      let c := set_is_modified true c in
      (c, said ++ [Notice_redo (length (redo_stack c))])
  end.

Definition clear_history (c : Controller) : Controller :=
  let c := set_undo_stack [] c in
  let c := set_redo_stack [] c in
  set_adjustments (mkAdjustments [] [] None) c.

(** ** The newest entry of a deque *)

Lemma last_cons {A} (l : list A) (a d : A) : last (a :: l) d = last l a.
Proof.
  revert a d. induction l as [|b l IH]; intros a d; [ reflexivity | ].
  change (last (a :: b :: l) d) with (last (b :: l) d).
  rewrite (IH b d), (IH b a). reflexivity.
Qed.

(** A list that ends in [x], seen as a stack: [x] is popped, the rest
    stays. *)
Lemma pop_snoc {A} (l : list A) (x : A) :
  exists s st,
    l ++ [x] = s :: st /\ last st s = x /\ removelast (s :: st) = l.
Proof.
  destruct (l ++ [x]) as [|s st] eqn:E.
  - destruct l; discriminate E.
  - exists s, st. split; [ reflexivity | ].
    rewrite <- (last_cons st s s), <- E.
    split; [ apply last_last | apply removelast_last ].
Qed.

(** [append] on a bounded deque: the new entry is the newest; the others
    stay, but for the oldest when the deque was full. *)
Lemma deque_append_snoc {A} (n : nat) (l : list A) (x : A) :
  (1 <= n)%nat ->
  Py.deque_append n l x
  = (if (length l <? n)%nat then l else tl l) ++ [x].
Proof.
  intro Hn. unfold Py.deque_append. cbv zeta.
  rewrite length_app. cbn [length].
  destruct (length l <? n)%nat eqn:E.
  - apply Nat.ltb_lt in E.
    assert (E2 : Nat.ltb n (length l + 1) = false)
      by (apply Nat.ltb_ge; lia).
    rewrite E2. reflexivity.
  - apply Nat.ltb_ge in E.
    assert (E2 : Nat.ltb n (length l + 1) = true)
      by (apply Nat.ltb_lt; lia).
    rewrite E2. destruct l as [|a l]; [ cbn in E; lia | reflexivity ].
Qed.

Lemma MAX_HISTORY_pos : (1 <= MAX_HISTORY)%nat.
Proof. unfold MAX_HISTORY. lia. Qed.

(** [undo] with an undo stack that ends in [data]. *)
Lemma undo_pops (c : Controller) (rest : list Snapshot) (data : Snapshot) :
  undo_stack c = rest ++ [data] ->
  undo c
  = (mkController (snap_layers data) (snap_active data) (current_image c)
       None rest
       (Py.deque_append MAX_HISTORY (redo_stack c) (snapshot_of c))
       true true (current_operation_saved c) true (snap_adjustments data)
       (status_log c),
     [Notice_selection_cleared; Notice_undo (length rest)]).
Proof.
  intro H. unfold undo. rewrite H.
  destruct (pop_snoc rest data) as (s & st & -> & Hl & Hr).
  cbv zeta. rewrite Hl, Hr. destruct c; reflexivity.
Qed.

(** [redo] with a redo stack that ends in [data]. *)
Lemma redo_pops (c : Controller) (rest : list Snapshot) (data : Snapshot) :
  redo_stack c = rest ++ [data] ->
  redo c
  = (mkController (snap_layers data) (snap_active data) (current_image c)
       None
       (Py.deque_append MAX_HISTORY (undo_stack c) (snapshot_of c))
       rest true true (current_operation_saved c) true
       (snap_adjustments data) (status_log c),
     [Notice_selection_cleared; Notice_redo (length rest)]).
Proof.
  intro H. unfold redo. rewrite H.
  destruct (pop_snoc rest data) as (s & st & -> & Hl & Hr).
  cbv zeta. rewrite Hl, Hr. destruct c; reflexivity.
Qed.

Lemma ends_in_newest {A} (l : list A) :
  l <> [] -> exists rest x, l = rest ++ [x].
Proof.
  intro H. destruct (exists_last H) as (rest & x & ->). eauto.
Qed.

Lemma snapshot_eta (data : Snapshot) :
  mkSnapshot (snap_layers data) (snap_active data) (snap_adjustments data)
  = data.
Proof. destruct data; reflexivity. Qed.

(** X13: redo after undo gives back the layers, the active index, the
    adjustments and the undo stack as they were before the undo; the
    redo stack too, but for its oldest entry when it was full. *)
Theorem redo_after_undo_restores (c : Controller) :
  undo_stack c <> [] ->
  (length (undo_stack c) <= MAX_HISTORY)%nat ->
  let c' := fst (redo (fst (undo c))) in
  layers c' = layers c
  /\ active_layer_index c' = active_layer_index c
  /\ adjustments c' = adjustments c
  /\ undo_stack c' = undo_stack c
  /\ redo_stack c'
     = (if (length (redo_stack c) <? MAX_HISTORY)%nat then redo_stack c
        else tl (redo_stack c)).
Proof.
  intros Hne Hlen. cbv zeta.
  destruct (ends_in_newest _ Hne) as (rest & data & Hu).
  rewrite (undo_pops c rest data Hu). cbn [fst].
  rewrite (deque_append_snoc MAX_HISTORY (redo_stack c) (snapshot_of c)
             MAX_HISTORY_pos).
  erewrite redo_pops by reflexivity.
  unfold snapshot_of.
  cbn [fst layers active_layer_index adjustments undo_stack redo_stack
       snap_layers snap_active snap_adjustments].
  rewrite snapshot_eta, Hu.
  rewrite (deque_append_snoc MAX_HISTORY rest data MAX_HISTORY_pos).
  rewrite Hu, length_app in Hlen. cbn [length] in Hlen.
  assert (E : (length rest <? MAX_HISTORY)%nat = true)
    by (apply Nat.ltb_lt; lia).
  rewrite E. repeat split.
Qed.

(** A controller with one layer and one snapshot on the undo stack. *)
Definition with_history : Controller :=
  mkController [red_layer false] 0 (Some red_image) None
    [mkSnapshot [red_layer true] 0 no_adjustments] [] true false false false
    no_adjustments [].

Lemma redo_after_undo_restores_witness :
  undo_stack with_history <> []
  /\ (length (undo_stack with_history) <= MAX_HISTORY)%nat
  /\ (let c' := fst (redo (fst (undo with_history))) in
      layers c' = layers with_history
      /\ active_layer_index c' = active_layer_index with_history
      /\ adjustments c' = adjustments with_history
      /\ undo_stack c' = undo_stack with_history
      /\ redo_stack c'
         = (if (length (redo_stack with_history) <? MAX_HISTORY)%nat
            then redo_stack with_history
            else tl (redo_stack with_history))).
Proof.
  assert (H1 : undo_stack with_history <> []) by (cbn; discriminate).
  assert (H2 : (length (undo_stack with_history) <= MAX_HISTORY)%nat)
    by (vm_compute; lia).
  split; [ exact H1 | split; [ exact H2 | ] ].
  exact (redo_after_undo_restores with_history H1 H2).
Defined.

(** X14: undo after redo gives back the layers, the active index, the
    adjustments and the redo stack as they were before the redo; the
    undo stack too, but for its oldest entry when it was full. *)
Theorem undo_after_redo_restores (c : Controller) :
  redo_stack c <> [] ->
  (length (redo_stack c) <= MAX_HISTORY)%nat ->
  let c' := fst (undo (fst (redo c))) in
  layers c' = layers c
  /\ active_layer_index c' = active_layer_index c
  /\ adjustments c' = adjustments c
  /\ redo_stack c' = redo_stack c
  /\ undo_stack c'
     = (if (length (undo_stack c) <? MAX_HISTORY)%nat then undo_stack c
        else tl (undo_stack c)).
Proof.
  intros Hne Hlen. cbv zeta.
  destruct (ends_in_newest _ Hne) as (rest & data & Hu).
  rewrite (redo_pops c rest data Hu). cbn [fst].
  rewrite (deque_append_snoc MAX_HISTORY (undo_stack c) (snapshot_of c)
             MAX_HISTORY_pos).
  erewrite undo_pops by reflexivity.
  unfold snapshot_of.
  cbn [fst layers active_layer_index adjustments undo_stack redo_stack
       snap_layers snap_active snap_adjustments].
  rewrite snapshot_eta, Hu.
  rewrite (deque_append_snoc MAX_HISTORY rest data MAX_HISTORY_pos).
  rewrite Hu, length_app in Hlen. cbn [length] in Hlen.
  assert (E : (length rest <? MAX_HISTORY)%nat = true)
    by (apply Nat.ltb_lt; lia).
  rewrite E. repeat split.
Qed.

(** A controller with one layer and one snapshot on the redo stack. *)
Definition with_redo : Controller :=
  mkController [red_layer false] 0 (Some red_image) None []
    [mkSnapshot [red_layer true] 0 no_adjustments] true false false false
    no_adjustments [].

Lemma undo_after_redo_restores_witness :
  redo_stack with_redo <> []
  /\ (length (redo_stack with_redo) <= MAX_HISTORY)%nat
  /\ (let c' := fst (undo (fst (redo with_redo))) in
      layers c' = layers with_redo
      /\ active_layer_index c' = active_layer_index with_redo
      /\ adjustments c' = adjustments with_redo
      /\ redo_stack c' = redo_stack with_redo
      /\ undo_stack c'
         = (if (length (undo_stack with_redo) <? MAX_HISTORY)%nat
            then undo_stack with_redo
            else tl (undo_stack with_redo))).
Proof.
  assert (H1 : redo_stack with_redo <> []) by (cbn; discriminate).
  assert (H2 : (length (redo_stack with_redo) <= MAX_HISTORY)%nat)
    by (vm_compute; lia).
  split; [ exact H1 | split; [ exact H2 | ] ].
  exact (undo_after_redo_restores with_redo H1 H2).
Defined.

(** ** Undo after a commit *)

Section Undoing.
Context {L : Libm} {R : Raster}.

Lemma commits_floating e w :
  commits e w = true -> is_floating (tool w) = true.
Proof.
  destruct e as [ev px py| | |k| | | | |]; cbn [commits];
    try discriminate.
  - unfold press_commits. intro H.
    destruct (is_floating (tool w)); [ reflexivity | discriminate H ].
  - destruct k; cbn [key_commits]; try discriminate; auto.
Qed.

(** A commit of a selection with content saves the history first. *)
Lemma commit_saves w :
  is_floating (tool w) = true -> committable (tool w) = true ->
  undo_stack (ctl (_commit_selection w))
  = undo_stack (save_to_history (ctl w))
  /\ active_layer_index (ctl (_commit_selection w))
     = active_layer_index (ctl w).
Proof.
  intros Hf Hc.
  unfold committable, selection_rect_bool in Hc.
  unfold _commit_selection.
  destruct (selection_rect (tool w)) as [rect|]; [ | discriminate Hc ].
  destruct (selected_content (tool w)) as [content|];
    [ | rewrite andb_false_r in Hc; discriminate Hc ].
  rewrite andb_true_r in Hc. rewrite Hf, Hc. cbn [negb orb].
  cbv zeta. rewrite !ctl_cancel_selection. rewrite !ctl_C.
  destruct (save_to_history_keeps (ctl w)) as (_ & Ka & _).
  match goal with
  | |- context [draw_on_active_layer ?F false ?X] =>
      destruct (draw_keeps_history F X) as (Hu & _ & _ & _ & Hi);
      destruct (draw_on_active_layer F false X)
  end.
  cbn in Hu, Hi |- *. split; [ exact Hu | ]. rewrite Hi. exact Ka.
Qed.

End Undoing.

(** X15: undo after an event that commits a selection with content
    gives back the layers, the active index and the adjustments as they
    were before the event, whether or not the active layer was locked;
    the undo stack too, but for its oldest entry when it was full. *)
Theorem undo_takes_back_a_commit {L : Libm} {R : Raster}
    (e : Event) (w : World) :
  commits e w = true -> committable (tool w) = true ->
  is_recording (ctl w) = true -> layers (ctl w) <> [] ->
  let c' := fst (undo (ctl (world_of (step e w)))) in
  layers c' = layers (ctl w)
  /\ active_layer_index c' = active_layer_index (ctl w)
  /\ adjustments c' = adjustments (ctl w)
  /\ undo_stack c'
     = (if (length (undo_stack (ctl w)) <? MAX_HISTORY)%nat
        then undo_stack (ctl w) else tl (undo_stack (ctl w))).
Proof.
  intros Hc Hcm Hrec Hl. cbv zeta.
  destruct (commit_reached e w Hc) as (w0 & Hs & Hw0 & Hcm0 & Hf0).
  rewrite Hs. cbn [world_of].
  rewrite (commits_floating e w Hc) in Hf0. rewrite Hcm in Hcm0.
  destruct (commit_saves w0 Hf0 Hcm0) as [Hu _].
  rewrite Hw0 in Hu.
  destruct (layers (ctl w)) as [|l ls] eqn:El; [ contradiction Hl; reflexivity | ].
  rewrite (save_to_history_pushes (ctl w) l ls Hrec El) in Hu.
  replace (undo_stack
             (set_redo_stack []
                (set_undo_stack
                   (Py.deque_append MAX_HISTORY (undo_stack (ctl w))
                      (mkSnapshot (layers (ctl w))
                         (active_layer_index (ctl w)) (adjustments (ctl w))))
                   (ctl w))))
    with (Py.deque_append MAX_HISTORY (undo_stack (ctl w))
            (mkSnapshot (layers (ctl w)) (active_layer_index (ctl w))
               (adjustments (ctl w))))
    in Hu by (destruct (ctl w); reflexivity).
  rewrite (deque_append_snoc MAX_HISTORY _ _ MAX_HISTORY_pos) in Hu.
  rewrite (undo_pops _ _ _ Hu). cbn [fst].
  cbn [layers active_layer_index adjustments undo_stack
       snap_layers snap_active snap_adjustments].
  rewrite El. repeat split.
Qed.

Lemma undo_takes_back_a_commit_witness :
  commits (L := Probe.libm) (key_press_event Key_Enter)
    (selected [red_layer false] []) = true
  /\ committable (tool (selected [red_layer false] [])) = true
  /\ is_recording (ctl (selected [red_layer false] [])) = true
  /\ layers (ctl (selected [red_layer false] [])) <> []
  /\ (let c' :=
        fst (undo (ctl (world_of (step (L := Probe.libm) (R := Probe.raster)
                                    (key_press_event Key_Enter)
                                    (selected [red_layer false] []))))) in
      layers c' = layers (ctl (selected [red_layer false] []))
      /\ active_layer_index c'
         = active_layer_index (ctl (selected [red_layer false] []))
      /\ adjustments c' = adjustments (ctl (selected [red_layer false] []))
      /\ undo_stack c'
         = (if (length (undo_stack (ctl (selected [red_layer false] [])))
                <? MAX_HISTORY)%nat
            then undo_stack (ctl (selected [red_layer false] []))
            else tl (undo_stack (ctl (selected [red_layer false] []))))).
Proof.
  assert (H1 : commits (L := Probe.libm) (key_press_event Key_Enter)
                 (selected [red_layer false] []) = true)
    by (vm_compute; reflexivity).
  assert (H2 : committable (tool (selected [red_layer false] [])) = true)
    by (vm_compute; reflexivity).
  assert (H3 : is_recording (ctl (selected [red_layer false] [])) = true)
    by (vm_compute; reflexivity).
  assert (H4 : layers (ctl (selected [red_layer false] [])) <> [])
    by (vm_compute; discriminate).
  do 4 (split; [ assumption | ]).
  exact (undo_takes_back_a_commit (L := Probe.libm) (R := Probe.raster)
           (key_press_event Key_Enter) (selected [red_layer false] [])
           H1 H2 H3 H4).
Defined.

(** * The layers ([controller.py])

    [remove_layer], [move_layer], [move_layer_up], [move_layer_down],
    [select_layer] and [toggle_layer_visibility] of [PaintController].
    The refresh of the layer panel is not modelled. *)

From Stdlib Require Import Permutation.

(** [l.pop(i)] and [l.insert(i, x)], for [i] within the list. *)
Definition list_pop {A} (l : list A) (i : nat) : list A :=
  firstn i l ++ skipn (S i) l.

Definition list_insert {A} (l : list A) (i : nat) (x : A) : list A :=
  firstn i l ++ x :: skipn i l.

Definition set_visible (v : bool) (l : Layer) : Layer :=
  mkLayer (name l) (image l) v (opacity l) (locked l).

(** [remove_layer(index)], with the flag it returns. *)
Definition remove_layer (index : Z) (c : Controller) : bool * Reply :=
  let n := Z.of_nat (length (layers c)) in
  if negb ((0 <=? index) && (index <? n)) then (false, (c, []))
  else if n <=? 1 then (false, (c, [Notice_last_layer]))
  else if index =? 0 then (false, (c, [Notice_background_layer]))
  else
    let c := save_to_history c in
    let c := set_layers (list_pop (layers c) (Z.to_nat index)) c in
    let n' := Z.of_nat (length (layers c)) in
    let c :=
      if n' <=? active_layer_index c then set_active_layer_index (n' - 1) c
      else if index <? active_layer_index c
      then set_active_layer_index (active_layer_index c - 1) c
      else c in
    let c := schedule_update c in
    (true, (c, [])).

Definition toggle_layer_visibility (index : Z) (v : bool) (c : Controller)
    : Controller :=
  if (0 <=? index) && (index <? Z.of_nat (length (layers c))) then
    match nth_error (layers c) (Z.to_nat index) with
    | Some l =>
        if negb (Bool.eqb (visible l) v) then
          let c := save_to_history c in
          let c := set_layers
                     (list_set (layers c) (Z.to_nat index) (set_visible v l))
                     c in
          schedule_update c
        else c
    | None => c
    end
  else c.

Definition select_layer (index : Z) (c : Controller) : Reply :=
  if (0 <=? index) && (index <? Z.of_nat (length (layers c))) then
    match nth_error (layers c) (Z.to_nat index) with
    | Some l =>
        (set_active_layer_index index c, [Notice_layer_selected (name l)])
    | None => (c, [])
    end
  else (c, []).

(** [move_layer(from_idx, to_idx)], with the flag it returns.  The layer
    popped is there: [from_idx] is within the list. *)
Definition move_layer (from_idx to_idx : Z) (c : Controller)
    : bool * Controller :=
  let n := Z.of_nat (length (layers c)) in
  if negb ((0 <=? from_idx) && (from_idx <? n)
           && ((0 <=? to_idx) && (to_idx <? n)))
  then (false, c)
  else if (from_idx =? to_idx) || (from_idx =? 0) || (to_idx =? 0)
  then (false, c)
  else
    let c := save_to_history c in
    match nth_error (layers c) (Z.to_nat from_idx) with
    | None => (false, c)
    | Some layer =>
        let c := set_layers
                   (list_insert (list_pop (layers c) (Z.to_nat from_idx))
                      (Z.to_nat to_idx) layer) c in
        let a := active_layer_index c in
        let c :=
          if a =? from_idx then set_active_layer_index to_idx c
          else if (from_idx <? a) && (a <=? to_idx)
          then set_active_layer_index (a - 1) c
          else if (to_idx <=? a) && (a <? from_idx)
          then set_active_layer_index (a + 1) c
          else c in
        let c := schedule_update c in
        (true, c)
    end.

Definition move_layer_up (index : Z) (c : Controller) : bool * Controller :=
  if 1 <? index then move_layer index (index - 1) c else (false, c).

Definition move_layer_down (index : Z) (c : Controller) : bool * Controller :=
  if index <? Z.of_nat (length (layers c)) - 1
  then move_layer index (index + 1) c else (false, c).

(** ** Lists with an element popped or inserted *)

Lemma nth_error_list_pop {A} (l : list A) (i j : nat) :
  (i < length l)%nat ->
  nth_error (list_pop l i) j
  = nth_error l (if (j <? i)%nat then j else S j).
Proof.
  intro Hi. unfold list_pop.
  assert (Hlen : length (firstn i l) = i)
    by (rewrite length_firstn; lia).
  destruct (j <? i)%nat eqn:E.
  - apply Nat.ltb_lt in E.
    rewrite nth_error_app1 by lia.
    rewrite nth_error_firstn.
    assert (E2 : (j <? i)%nat = true) by (apply Nat.ltb_lt; exact E).
    rewrite E2. reflexivity.
  - apply Nat.ltb_ge in E.
    rewrite nth_error_app2 by lia.
    rewrite Hlen, nth_error_skipn. f_equal. lia.
Qed.

Lemma length_list_pop {A} (l : list A) (i : nat) :
  (i < length l)%nat -> length l = S (length (list_pop l i)).
Proof.
  intro Hi. unfold list_pop.
  rewrite length_app, length_firstn, length_skipn. lia.
Qed.

Lemma nth_error_list_insert {A} (l : list A) (i j : nat) (x : A) :
  (i <= length l)%nat ->
  nth_error (list_insert l i x) j
  = (if (j <? i)%nat then nth_error l j
     else if (j =? i)%nat then Some x else nth_error l (j - 1)).
Proof.
  intro Hi. unfold list_insert.
  assert (Hlen : length (firstn i l) = i)
    by (rewrite length_firstn; lia).
  destruct (j <? i)%nat eqn:E.
  - apply Nat.ltb_lt in E.
    rewrite nth_error_app1 by lia.
    rewrite nth_error_firstn.
    assert (E2 : (j <? i)%nat = true) by (apply Nat.ltb_lt; exact E).
    rewrite E2. reflexivity.
  - apply Nat.ltb_ge in E.
    rewrite nth_error_app2 by lia. rewrite Hlen.
    destruct (j =? i)%nat eqn:E3.
    + apply Nat.eqb_eq in E3. subst j. rewrite Nat.sub_diag. reflexivity.
    + apply Nat.eqb_neq in E3.
      destruct (j - i)%nat as [|k] eqn:Ek; [ lia | ].
      cbn [nth_error]. rewrite nth_error_skipn. f_equal. lia.
Qed.

Lemma length_list_insert {A} (l : list A) (i : nat) (x : A) :
  length (list_insert l i x) = S (length l).
Proof.
  unfold list_insert.
  rewrite <- (firstn_skipn i l) at 3.
  rewrite !length_app. cbn [length]. lia.
Qed.

Lemma list_pop_permutation {A} (l : list A) (i : nat) (x : A) :
  nth_error l i = Some x -> Permutation (x :: list_pop l i) l.
Proof.
  intro H. destruct (nth_error_split l i H) as (l1 & l2 & -> & Hl).
  unfold list_pop. subst i.
  assert (Hs : firstn (length l1) (l1 ++ x :: l2) = l1
               /\ skipn (S (length l1)) (l1 ++ x :: l2) = l2).
  { clear H. induction l1 as [|a l1 IH]; cbn; [ split; reflexivity | ].
    destruct IH as [H1 H2]. split; [ f_equal; exact H1 | exact H2 ]. }
  destruct Hs as [-> ->]. apply Permutation_middle.
Qed.

Lemma list_insert_permutation {A} (l : list A) (i : nat) (x : A) :
  Permutation (list_insert l i x) (x :: l).
Proof.
  unfold list_insert. rewrite <- (firstn_skipn i l) at 3.
  symmetry. apply Permutation_middle.
Qed.

(** ** Removing a layer *)

Lemma in_range (index : Z) (n : nat) :
  (0 <=? index) && (index <? Z.of_nat n) = true
  <-> 0 <= index < Z.of_nat n.
Proof. rewrite andb_true_iff, Z.leb_le, Z.ltb_lt. tauto. Qed.

(** [remove_layer] refuses, or pops the layer at an index from 1 on. *)
Lemma remove_layer_cases (index : Z) (c : Controller) :
  (fst (remove_layer index c) = false
   /\ fst (snd (remove_layer index c)) = c)
  \/ (fst (remove_layer index c) = true
      /\ 1 <= index < Z.of_nat (length (layers c))
      /\ layers (fst (snd (remove_layer index c)))
         = list_pop (layers c) (Z.to_nat index)
      /\ undo_stack (fst (snd (remove_layer index c)))
         = undo_stack (save_to_history c)
      /\ active_layer_index (fst (snd (remove_layer index c)))
         = (let n' := Z.of_nat (length (layers c)) - 1 in
            let a := active_layer_index c in
            if n' <=? a then n' - 1
            else if index <? a then a - 1 else a)).
Proof.
  unfold remove_layer. cbv zeta.
  destruct ((0 <=? index) && (index <? Z.of_nat (length (layers c)))) eqn:E;
    cbn [negb]; [ | left; split; reflexivity ].
  apply in_range in E.
  destruct (Z.of_nat (length (layers c)) <=? 1) eqn:E1;
    [ left; split; reflexivity | ].
  apply Z.leb_gt in E1.
  destruct (index =? 0) eqn:E0; [ left; split; reflexivity | ].
  apply Z.eqb_neq in E0.
  right.
  destruct (save_to_history_keeps c) as (Kl & Ka & _).
  assert (Hi : (Z.to_nat index < length (layers c))%nat) by lia.
  pose proof (length_list_pop (layers c) (Z.to_nat index) Hi) as Hlen.
  assert (Hl : layers
                 (set_layers
                    (list_pop (layers (save_to_history c)) (Z.to_nat index))
                    (save_to_history c))
               = list_pop (layers c) (Z.to_nat index))
    by (rewrite Kl; destruct (save_to_history c); reflexivity).
  assert (Hact : active_layer_index
                   (set_layers
                      (list_pop (layers (save_to_history c))
                         (Z.to_nat index))
                      (save_to_history c))
                 = active_layer_index c)
    by (rewrite <- Ka; destruct (save_to_history c); reflexivity).
  rewrite Hl, Hact.
  assert (Hn' : Z.of_nat (length (list_pop (layers c) (Z.to_nat index)))
                = Z.of_nat (length (layers c)) - 1) by lia.
  rewrite Hn'.
  split; [ reflexivity | ]. split; [ lia | ].
  set (c1 := set_layers
               (list_pop (layers (save_to_history c)) (Z.to_nat index))
               (save_to_history c)) in *.
  assert (Hu : undo_stack c1 = undo_stack (save_to_history c))
    by (unfold c1; destruct (save_to_history c); reflexivity).
  destruct (Z.of_nat (length (layers c)) - 1 <=? active_layer_index c);
    [ | destruct (index <? active_layer_index c) ];
    cbn [fst snd]; rewrite <- Hl, <- Hu, <- ?Hact;
    destruct c1; repeat split; reflexivity.
Qed.

(** X16: [remove_layer] never removes the background layer (index 0)
    nor the last layer left; when it answers False nothing has changed,
    when it answers True exactly the layer at the index is gone, one
    layer less remains and the history was saved first. *)
Theorem remove_layer_spares_the_background (index : Z) (c : Controller) :
  let r := remove_layer index c in
  let c' := fst (snd r) in
  hd_error (layers c') = hd_error (layers c)
  /\ (layers c <> [] -> layers c' <> [])
  /\ (fst r = false -> c' = c)
  /\ (fst r = true ->
      layers c' = list_pop (layers c) (Z.to_nat index)
      /\ length (layers c) = S (length (layers c'))
      /\ (forall j, (j < Z.to_nat index)%nat ->
          nth_error (layers c') j = nth_error (layers c) j)
      /\ (forall j, (Z.to_nat index <= j)%nat ->
          nth_error (layers c') j = nth_error (layers c) (S j))
      /\ undo_stack c' = undo_stack (save_to_history c)).
Proof.
  cbv zeta.
  destruct (remove_layer_cases index c)
    as [[Hf Hc] | (Ht & Hi & Hl & Hu & _)].
  - rewrite Hf, Hc. split; [ reflexivity | ]. split; [ auto | ].
    split; [ auto | ]. intro H. discriminate H.
  - rewrite Ht, Hl.
    assert (Hn : (Z.to_nat index < length (layers c))%nat) by lia.
    pose proof (length_list_pop (layers c) (Z.to_nat index) Hn) as Hlen.
    assert (Hhd : hd_error (list_pop (layers c) (Z.to_nat index))
                  = hd_error (layers c)).
    { pose proof (nth_error_list_pop (layers c) (Z.to_nat index) 0 Hn) as H0.
      assert (E : (0 <? Z.to_nat index)%nat = true)
        by (apply Nat.ltb_lt; lia).
      rewrite E in H0.
      destruct (list_pop (layers c) (Z.to_nat index));
        destruct (layers c); cbn in H0 |- *; congruence. }
    split; [ exact Hhd | ].
    split.
    { intros _ Hnil. rewrite Hnil in Hlen. cbn in Hlen. lia. }
    split; [ discriminate | ].
    intros _. split; [ reflexivity | ]. split; [ exact Hlen | ].
    split; [ | split; [ | exact Hu ] ].
    + intros j Hj. rewrite nth_error_list_pop by exact Hn.
      assert (E : (j <? Z.to_nat index)%nat = true)
        by (apply Nat.ltb_lt; exact Hj).
      rewrite E. reflexivity.
    + intros j Hj. rewrite nth_error_list_pop by exact Hn.
      assert (E : (j <? Z.to_nat index)%nat = false)
        by (apply Nat.ltb_ge; exact Hj).
      rewrite E. reflexivity.
Qed.

(** X17: after [remove_layer] the active index lies within the layers
    if it did before, and it designates the layer it designated, unless
    that is the layer removed. *)
Theorem remove_layer_keeps_the_active_layer (index : Z) (c : Controller) :
  0 <= active_layer_index c < Z.of_nat (length (layers c)) ->
  let c' := fst (snd (remove_layer index c)) in
  0 <= active_layer_index c' < Z.of_nat (length (layers c'))
  /\ (fst (remove_layer index c) = false \/ active_layer_index c <> index ->
      nth_error (layers c') (Z.to_nat (active_layer_index c'))
      = nth_error (layers c) (Z.to_nat (active_layer_index c))).
Proof.
  intro Ha. cbv zeta.
  destruct (remove_layer_cases index c)
    as [[Hf Hc] | (Ht & Hi & Hl & _ & Hact)].
  - rewrite Hc. split; [ exact Ha | reflexivity ].
  - rewrite Hl, Hact, Ht. cbv zeta.
    assert (Hn : (Z.to_nat index < length (layers c))%nat) by lia.
    pose proof (length_list_pop (layers c) (Z.to_nat index) Hn) as Hlen.
    destruct (Z.of_nat (length (layers c)) - 1 <=? active_layer_index c)
      eqn:E1;
      [ apply Z.leb_le in E1
      | apply Z.leb_gt in E1;
        destruct (index <? active_layer_index c) eqn:E2;
        [ apply Z.ltb_lt in E2 | apply Z.ltb_ge in E2 ] ].
    + split; [ lia | ].
      intros [Hd | Hne]; [ discriminate Hd | ].
      rewrite nth_error_list_pop by exact Hn.
      assert (E : (Z.to_nat (Z.of_nat (length (layers c)) - 1 - 1)
                   <? Z.to_nat index)%nat = false)
        by (apply Nat.ltb_ge; lia).
      rewrite E. f_equal. lia.
    + split; [ lia | ].
      intros _. rewrite nth_error_list_pop by exact Hn.
      assert (E : (Z.to_nat (active_layer_index c - 1)
                   <? Z.to_nat index)%nat = false)
        by (apply Nat.ltb_ge; lia).
      rewrite E. f_equal. lia.
    + split; [ lia | ].
      intros [Hd | Hne]; [ discriminate Hd | ].
      rewrite nth_error_list_pop by exact Hn.
      assert (E : (Z.to_nat (active_layer_index c)
                   <? Z.to_nat index)%nat = true)
        by (apply Nat.ltb_lt; lia).
      rewrite E. reflexivity.
Qed.

(** Three layers, the topmost active. *)
Definition three_layers : Controller :=
  mkController [red_layer false; red_layer true; red_layer false] 2
    (Some red_image) None [] [] true false false false no_adjustments [].

Lemma remove_layer_keeps_the_active_layer_witness :
  0 <= active_layer_index three_layers
    < Z.of_nat (length (layers three_layers))
  /\ (let c' := fst (snd (remove_layer 1 three_layers)) in
      0 <= active_layer_index c' < Z.of_nat (length (layers c'))
      /\ (fst (remove_layer 1 three_layers) = false
          \/ active_layer_index three_layers <> 1 ->
          nth_error (layers c') (Z.to_nat (active_layer_index c'))
          = nth_error (layers three_layers)
              (Z.to_nat (active_layer_index three_layers)))).
Proof.
  assert (H1 : 0 <= active_layer_index three_layers
                 < Z.of_nat (length (layers three_layers)))
    by (cbn; lia).
  split; [ exact H1 | ].
  exact (remove_layer_keeps_the_active_layer 1 three_layers H1).
Defined.

(** ** Moving a layer *)

Ltac nat_cases :=
  repeat match goal with
         | |- context [(?a <? ?b)%nat] => destruct (Nat.ltb_spec a b)
         | |- context [(?a =? ?b)%nat] => destruct (Nat.eqb_spec a b)
         end.

Ltac no_if t :=
  lazymatch t with
  | context [if _ then _ else _] => fail
  | _ => idtac
  end.

(** The index that [move_layer] leaves active. *)
Definition moved_index (from_idx to_idx a : Z) : Z :=
  if a =? from_idx then to_idx
  else if (from_idx <? a) && (a <=? to_idx) then a - 1
  else if (to_idx <=? a) && (a <? from_idx) then a + 1
  else a.

(** [move_layer] refuses, or moves a layer between two indices from 1
    on. *)
Lemma move_layer_cases (from_idx to_idx : Z) (c : Controller) :
  (fst (move_layer from_idx to_idx c) = false
   /\ snd (move_layer from_idx to_idx c) = c)
  \/ (fst (move_layer from_idx to_idx c) = true
      /\ 1 <= from_idx < Z.of_nat (length (layers c))
      /\ 1 <= to_idx < Z.of_nat (length (layers c))
      /\ from_idx <> to_idx
      /\ exists layer,
           nth_error (layers c) (Z.to_nat from_idx) = Some layer
           /\ layers (snd (move_layer from_idx to_idx c))
              = list_insert (list_pop (layers c) (Z.to_nat from_idx))
                  (Z.to_nat to_idx) layer
           /\ active_layer_index (snd (move_layer from_idx to_idx c))
              = moved_index from_idx to_idx (active_layer_index c)
           /\ undo_stack (snd (move_layer from_idx to_idx c))
              = undo_stack (save_to_history c)).
Proof.
  unfold move_layer. cbv zeta.
  destruct ((0 <=? from_idx) && (from_idx <? Z.of_nat (length (layers c))))
    eqn:Ef; cbn [andb negb]; [ | left; split; reflexivity ].
  destruct ((0 <=? to_idx) && (to_idx <? Z.of_nat (length (layers c))))
    eqn:Et; cbn [andb negb]; [ | left; split; reflexivity ].
  apply in_range in Ef. apply in_range in Et.
  destruct ((from_idx =? to_idx) || (from_idx =? 0) || (to_idx =? 0)) eqn:E;
    [ left; split; reflexivity | ].
  apply orb_false_iff in E. destruct E as [E E3].
  apply orb_false_iff in E. destruct E as [E1 E2].
  apply Z.eqb_neq in E1, E2, E3.
  destruct (save_to_history_keeps c) as (Kl & Ka & _).
  rewrite Kl.
  destruct (nth_error (layers c) (Z.to_nat from_idx)) as [layer|] eqn:En;
    [ | apply nth_error_None in En; lia ].
  right. split; [ reflexivity | ].
  split; [ lia | ]. split; [ lia | ]. split; [ exact E1 | ].
  exists layer. split; [ reflexivity | ].
  set (ls := list_insert (list_pop (layers c) (Z.to_nat from_idx))
               (Z.to_nat to_idx) layer).
  assert (Hact : active_layer_index (set_layers ls (save_to_history c))
                 = active_layer_index c)
    by (rewrite <- Ka; destruct (save_to_history c); reflexivity).
  rewrite Hact. unfold moved_index.
  cbn [snd].
  destruct (active_layer_index c =? from_idx);
    [ | destruct ((from_idx <? active_layer_index c)
                  && (active_layer_index c <=? to_idx));
        [ | destruct ((to_idx <=? active_layer_index c)
                      && (active_layer_index c <? from_idx)) ] ];
    try rewrite <- Hact;
    destruct (save_to_history c); repeat split; reflexivity.
Qed.

(** The layers after a move, one by one. *)
Lemma nth_error_moved {A} (l : list A) (f t j : nat) (x : A) :
  (f < length l)%nat -> (t < length l)%nat -> nth_error l f = Some x ->
  nth_error (list_insert (list_pop l f) t x) j
  = (if (j =? t)%nat then nth_error l f
     else if (j <? t)%nat
          then nth_error l (if (j <? f)%nat then j else S j)
          else nth_error l (if (j - 1 <? f)%nat then j - 1 else j))%nat.
Proof.
  intros Hf Ht Hx.
  pose proof (length_list_pop l f Hf) as Hlen.
  rewrite nth_error_list_insert by lia.
  destruct (Nat.eqb_spec j t) as [-> | Hne].
  - destruct (Nat.ltb_spec t t); [ lia | ]. symmetry. exact Hx.
  - destruct (Nat.ltb_spec j t).
    + apply nth_error_list_pop. exact Hf.
    + rewrite nth_error_list_pop by exact Hf.
      destruct (Nat.ltb_spec (j - 1) f); [ reflexivity | ].
      f_equal. lia.
Qed.

(** X18: [move_layer] loses and duplicates no layer and leaves the
    background layer (index 0) where it is; when it answers False nothing
    has changed, when it answers True the layer that was at [from_idx] is
    at [to_idx], the layers outside the two indices are where they were,
    and the history was saved first. *)
Theorem move_layer_permutes_the_layers (from_idx to_idx : Z)
    (c : Controller) :
  let r := move_layer from_idx to_idx c in
  let c' := snd r in
  Permutation (layers c') (layers c)
  /\ hd_error (layers c') = hd_error (layers c)
  /\ (fst r = false -> c' = c)
  /\ (fst r = true ->
      nth_error (layers c') (Z.to_nat to_idx)
      = nth_error (layers c) (Z.to_nat from_idx)
      /\ (forall j, (j < Z.to_nat (Z.min from_idx to_idx)
                     \/ Z.to_nat (Z.max from_idx to_idx) < j)%nat ->
          nth_error (layers c') j = nth_error (layers c) j)
      /\ undo_stack c' = undo_stack (save_to_history c)).
Proof.
  cbv zeta.
  destruct (move_layer_cases from_idx to_idx c)
    as [[Hf Hc] | (Ht & Hi & Hj & Hne & layer & Hn & Hl & _ & Hu)].
  - rewrite Hf, Hc. split; [ reflexivity | ]. split; [ reflexivity | ].
    split; [ reflexivity | ]. intro H. discriminate H.
  - rewrite Ht, Hl.
    assert (Hfl : (Z.to_nat from_idx < length (layers c))%nat) by lia.
    assert (Htl : (Z.to_nat to_idx < length (layers c))%nat) by lia.
    pose proof (nth_error_moved (layers c) (Z.to_nat from_idx)
                  (Z.to_nat to_idx)) as Hm.
    split.
    { rewrite list_insert_permutation. apply list_pop_permutation.
      exact Hn. }
    split.
    { specialize (Hm 0%nat layer Hfl Htl Hn).
      destruct (Nat.eqb_spec 0 (Z.to_nat to_idx)); [ lia | ].
      destruct (Nat.ltb_spec 0 (Z.to_nat to_idx)); [ | lia ].
      destruct (Nat.ltb_spec 0 (Z.to_nat from_idx)); [ | lia ].
      destruct (list_insert (list_pop (layers c) (Z.to_nat from_idx))
                  (Z.to_nat to_idx) layer);
        destruct (layers c); cbn in Hm |- *; congruence. }
    split; [ intro H; discriminate H | ].
    intros _. split; [ | split; [ | exact Hu ] ].
    + rewrite (Hm _ layer Hfl Htl Hn). rewrite Nat.eqb_refl. reflexivity.
    + intros j Hjr. rewrite (Hm _ layer Hfl Htl Hn).
      nat_cases; try reflexivity; try lia; f_equal; lia.
Qed.

(** X19: after [move_layer] the active index designates the layer it
    designated before, and lies within the layers if it did. *)
Theorem move_layer_follows_the_active_layer (from_idx to_idx : Z)
    (c : Controller) :
  0 <= active_layer_index c ->
  let c' := snd (move_layer from_idx to_idx c) in
  nth_error (layers c') (Z.to_nat (active_layer_index c'))
  = nth_error (layers c) (Z.to_nat (active_layer_index c))
  /\ 0 <= active_layer_index c'
  /\ (active_layer_index c < Z.of_nat (length (layers c)) ->
      active_layer_index c' < Z.of_nat (length (layers c'))).
Proof.
  intro Ha. cbv zeta.
  destruct (move_layer_cases from_idx to_idx c)
    as [[Hf Hc] | (Ht & Hi & Hj & Hne & layer & Hn & Hl & Hact & _)].
  - rewrite Hc. repeat split; auto.
  - rewrite Hl, Hact.
    assert (Hfl : (Z.to_nat from_idx < length (layers c))%nat) by lia.
    assert (Htl : (Z.to_nat to_idx < length (layers c))%nat) by lia.
    rewrite (nth_error_moved _ _ _ _ layer Hfl Htl Hn).
    rewrite length_list_insert, <- (length_list_pop _ _ Hfl).
    unfold moved_index.
    destruct (Z.eqb_spec (active_layer_index c) from_idx) as [He | He].
    { rewrite Nat.eqb_refl. rewrite He.
      split; [ reflexivity | ]. split; lia. }
    destruct ((from_idx <? active_layer_index c)
              && (active_layer_index c <=? to_idx)) eqn:E1.
    { apply andb_true_iff in E1. destruct E1 as [E1 E2].
      apply Z.ltb_lt in E1. apply Z.leb_le in E2.
      split; [ | split; lia ].
      nat_cases; try lia; f_equal; lia. }
    destruct ((to_idx <=? active_layer_index c)
              && (active_layer_index c <? from_idx)) eqn:E2.
    { apply andb_true_iff in E2. destruct E2 as [E2 E3].
      apply Z.leb_le in E2. apply Z.ltb_lt in E3.
      split; [ | split; lia ].
      nat_cases; try lia; f_equal; lia. }
    apply andb_false_iff in E1. apply andb_false_iff in E2.
    rewrite !Z.ltb_ge, !Z.leb_gt in *.
    split; [ | split; lia ].
    nat_cases; try lia; f_equal; lia.
Qed.

Lemma move_layer_follows_the_active_layer_witness :
  0 <= active_layer_index three_layers
  /\ (let c' := snd (move_layer 2 1 three_layers) in
      nth_error (layers c') (Z.to_nat (active_layer_index c'))
      = nth_error (layers three_layers)
          (Z.to_nat (active_layer_index three_layers))
      /\ 0 <= active_layer_index c'
      /\ (active_layer_index three_layers
          < Z.of_nat (length (layers three_layers)) ->
          active_layer_index c' < Z.of_nat (length (layers c')))).
Proof.
  assert (H1 : 0 <= active_layer_index three_layers) by (cbn; lia).
  split; [ exact H1 | ].
  exact (move_layer_follows_the_active_layer 2 1 three_layers H1).
Defined.

(** X20: moving a layer up and then the layer below its old place down
    puts every layer back and leaves the active index as it was; both
    moves answer True. *)
Theorem move_up_then_down_restores (index : Z) (c : Controller) :
  1 < index < Z.of_nat (length (layers c)) ->
  let c1 := snd (move_layer_up index c) in
  let c2 := snd (move_layer_down (index - 1) c1) in
  fst (move_layer_up index c) = true
  /\ fst (move_layer_down (index - 1) c1) = true
  /\ layers c2 = layers c
  /\ active_layer_index c2 = active_layer_index c.
Proof.
  intro Hi. cbv zeta.
  unfold move_layer_up.
  assert (E : (1 <? index) = true) by (apply Z.ltb_lt; lia).
  rewrite E.
  destruct (move_layer_cases index (index - 1) c)
    as [[Hf Hc] | (Ht & _ & _ & _ & layer & Hn & Hl & Hact & _)].
  { exfalso. revert Hf. unfold move_layer. cbv zeta.
    assert (E1 : (0 <=? index) && (index <? Z.of_nat (length (layers c)))
                 = true) by (apply in_range; lia).
    assert (E2 : (0 <=? index - 1)
                 && (index - 1 <? Z.of_nat (length (layers c))) = true)
      by (apply in_range; lia).
    rewrite E1, E2. cbn [andb negb].
    assert (E3 : (index =? index - 1) = false) by (apply Z.eqb_neq; lia).
    assert (E4 : (index =? 0) = false) by (apply Z.eqb_neq; lia).
    assert (E5 : (index - 1 =? 0) = false) by (apply Z.eqb_neq; lia).
    rewrite E3, E4, E5. cbn [orb].
    destruct (save_to_history_keeps c) as (Kl & _). rewrite Kl.
    destruct (nth_error (layers c) (Z.to_nat index)) eqn:En;
      [ discriminate | ].
    apply nth_error_None in En. lia. }
  set (c1 := snd (move_layer index (index - 1) c)) in *.
  assert (Hfl : (Z.to_nat index < length (layers c))%nat) by lia.
  assert (Htl : (Z.to_nat (index - 1) < length (layers c))%nat) by lia.
  assert (Hlen1 : length (layers c1) = length (layers c)).
  { rewrite Hl, length_list_insert.
    symmetry. apply length_list_pop. exact Hfl. }
  unfold move_layer_down. rewrite Hlen1.
  assert (E' : (index - 1 <? Z.of_nat (length (layers c)) - 1) = true)
    by (apply Z.ltb_lt; lia).
  rewrite E'.
  replace (index - 1 + 1) with index by lia.
  destruct (move_layer_cases (index - 1) index c1)
    as [[Hf Hc] | (Ht2 & _ & _ & _ & layer2 & Hn2 & Hl2 & Hact2 & _)].
  { exfalso. revert Hf. unfold move_layer. cbv zeta. rewrite Hlen1.
    assert (E1 : (0 <=? index) && (index <? Z.of_nat (length (layers c)))
                 = true) by (apply in_range; lia).
    assert (E2 : (0 <=? index - 1)
                 && (index - 1 <? Z.of_nat (length (layers c))) = true)
      by (apply in_range; lia).
    rewrite E1, E2. cbn [andb negb].
    assert (E3 : (index - 1 =? index) = false) by (apply Z.eqb_neq; lia).
    assert (E4 : (index =? 0) = false) by (apply Z.eqb_neq; lia).
    assert (E5 : (index - 1 =? 0) = false) by (apply Z.eqb_neq; lia).
    rewrite E3, E4, E5. cbn [orb].
    destruct (save_to_history_keeps c1) as (Kl & _). rewrite Kl.
    destruct (nth_error (layers c1) (Z.to_nat (index - 1))) eqn:En;
      [ discriminate | ].
    apply nth_error_None in En. lia. }
  split; [ exact Ht | ]. split; [ exact Ht2 | ].
  split.
  - rewrite Hl2. apply nth_error_ext. intro j.
    assert (Hfl1 : (Z.to_nat (index - 1) < length (layers c1))%nat) by lia.
    assert (Htl1 : (Z.to_nat index < length (layers c1))%nat) by lia.
    rewrite (nth_error_moved _ _ _ _ layer2 Hfl1 Htl1 Hn2).
    rewrite !Hl.
    rewrite !(nth_error_moved _ _ _ _ layer Hfl Htl Hn).
    nat_cases; try lia; try reflexivity; f_equal; lia.
  - rewrite Hact2, Hact. unfold moved_index.
    repeat (match goal with
            | |- context [?a =? ?b] =>
                no_if a; no_if b; destruct (Z.eqb_spec a b)
            | |- context [?a <? ?b] =>
                no_if a; no_if b; destruct (Z.ltb_spec a b)
            | |- context [?a <=? ?b] =>
                no_if a; no_if b; destruct (Z.leb_spec a b)
            end; cbn [andb]); lia.
Qed.

Lemma move_up_then_down_restores_witness :
  1 < 2 < Z.of_nat (length (layers three_layers))
  /\ (let c1 := snd (move_layer_up 2 three_layers) in
      let c2 := snd (move_layer_down (2 - 1) c1) in
      fst (move_layer_up 2 three_layers) = true
      /\ fst (move_layer_down (2 - 1) c1) = true
      /\ layers c2 = layers three_layers
      /\ active_layer_index c2 = active_layer_index three_layers).
Proof.
  assert (H1 : 1 < 2 < Z.of_nat (length (layers three_layers)))
    by (cbn; lia).
  split; [ exact H1 | ].
  exact (move_up_then_down_restores 2 three_layers H1).
Defined.

(** * What the selection tools leave of the layers *)

(** [c'] has the active index, the recording flag, the adjustments and
    the composite of [c], and its layers but for the image of the active
    one, which is as it was if the layer is locked. *)
Definition calm (c c' : Controller) : Prop :=
  active_layer_index c' = active_layer_index c
  /\ is_recording c' = is_recording c
  /\ adjustments c' = adjustments c
  /\ current_image c' = current_image c
  /\ length (layers c') = length (layers c)
  /\ (forall j, Z.of_nat j <> active_layer_index c ->
      nth_error (layers c') j = nth_error (layers c) j)
  /\ (forall j l, nth_error (layers c) j = Some l ->
      exists l',
        nth_error (layers c') j = Some l'
        /\ name l' = name l /\ visible l' = visible l
        /\ opacity l' = opacity l /\ locked l' = locked l
        /\ (locked l = true -> l' = l)).

Definition wcalm (w w' : World) : Prop := calm (ctl w) (ctl w').

Lemma calm_layers (c c' : Controller) :
  layers c' = layers c -> active_layer_index c' = active_layer_index c ->
  is_recording c' = is_recording c -> adjustments c' = adjustments c ->
  current_image c' = current_image c -> calm c c'.
Proof.
  intros Hl Ha Hr Hj Hi. unfold calm. rewrite Hl.
  repeat split; auto.
  intros j l Hn. exists l. repeat split; auto.
Qed.

Lemma calm_refl (c : Controller) : calm c c.
Proof. apply calm_layers; reflexivity. Qed.

Lemma calm_trans (c c1 c2 : Controller) :
  calm c c1 -> calm c1 c2 -> calm c c2.
Proof.
  intros (A1 & A2 & A3 & A4 & A5 & A6 & A7) (B1 & B2 & B3 & B4 & B5 & B6 & B7).
  unfold calm.
  split; [ congruence | ]. split; [ congruence | ].
  split; [ congruence | ]. split; [ congruence | ].
  split; [ congruence | ].
  split.
  - intros j Hj. rewrite B6 by (rewrite A1; exact Hj). apply A6. exact Hj.
  - intros j l Hn.
    destruct (A7 j l Hn) as (l1 & H1 & N1 & V1 & O1 & L1 & K1).
    destruct (B7 j l1 H1) as (l2 & H2 & N2 & V2 & O2 & L2 & K2).
    exists l2. split; [ exact H2 | ].
    split; [ congruence | ]. split; [ congruence | ].
    split; [ congruence | ]. split; [ congruence | ].
    intro Hk. rewrite K2 by congruence. apply K1. exact Hk.
Qed.

Lemma calm_set_temp_pixmap p c : calm c (set_temp_pixmap p c).
Proof. apply calm_layers; destruct c; reflexivity. Qed.

Lemma calm_emit m c : calm c (emit m c).
Proof. apply calm_layers; destruct c; reflexivity. Qed.

Lemma calm_save_to_history c : calm c (save_to_history c).
Proof.
  unfold save_to_history. destruct (_ || _); [ apply calm_refl | ].
  apply calm_layers; destruct c; reflexivity.
Qed.

Lemma calm_draw f b c : calm c (draw_on_active_layer f b c).
Proof.
  destruct (draw_cases f b c)
    as [[_ ->] | [(layer & _ & _ & _ & ->)
                 | (layer & c2 & H0 & Hn & Hl & Hc2 & _ & ->)]].
  - apply calm_refl.
  - apply calm_emit.
  - assert (Hcalm : calm c c2).
    { destruct Hc2 as [-> | ->]; [ apply calm_refl | ].
      eapply calm_trans; [ apply calm_save_to_history | ].
      apply calm_layers; destruct (save_to_history c); reflexivity. }
    eapply calm_trans; [ exact Hcalm | ].
    destruct Hcalm as (A1 & _ & _ & _ & A5 & A6 & A7).
    assert (Hn2 : nth_error (layers c2) (Z.to_nat (active_layer_index c))
                  = Some layer).
    { destruct Hc2 as [-> | ->]; [ exact Hn | ].
      destruct (save_to_history_keeps c) as (Kl & _).
      replace (layers (set_current_operation_saved true (save_to_history c)))
        with (layers (save_to_history c))
        by (destruct (save_to_history c); reflexivity).
      rewrite Kl. exact Hn. }
    unfold calm.
    replace (layers
               (set_is_modified true
                  (set_pending_update true
                     (set_layers
                        (list_set (layers c2)
                           (Z.to_nat (active_layer_index c))
                           (set_image (device (f (begin (image layer))))
                              layer)) c2))))
      with (list_set (layers c2) (Z.to_nat (active_layer_index c))
              (set_image (device (f (begin (image layer)))) layer))
      by (destruct c2; reflexivity).
    split; [ destruct c2; reflexivity | ].
    split; [ destruct c2; reflexivity | ].
    split; [ destruct c2; reflexivity | ].
    split; [ destruct c2; reflexivity | ].
    split; [ apply length_list_set | ].
    split.
    + intros j Hj. apply nth_error_list_set_neq. lia.
    + intros j l Hj.
      destruct (Nat.eq_dec j (Z.to_nat (active_layer_index c))) as [-> | Hne].
      * rewrite Hn2 in Hj. injection Hj as <-.
        eexists. split.
        { apply nth_error_list_set_eq. apply nth_error_Some.
          rewrite Hn2. discriminate. }
        repeat split. intro H. congruence.
      * exists l. rewrite nth_error_list_set_neq by exact Hne.
        repeat split; auto.
Qed.

Lemma wcalm_refl w : wcalm w w.
Proof. apply calm_refl. Qed.

Lemma wcalm_trans w w1 w2 : wcalm w w1 -> wcalm w1 w2 -> wcalm w w2.
Proof. apply calm_trans. Qed.

Lemma wcalm_ctl w w' : ctl w' = ctl w -> wcalm w w'.
Proof. unfold wcalm. intros ->. apply calm_refl. Qed.

Lemma wcalm_T f w : wcalm w (T f w).
Proof. apply calm_refl. Qed.

Lemma wcalm_C f w : (forall c, calm c (f c)) -> wcalm w (C f w).
Proof. intro H. apply H. Qed.

Section Calm.
Context {L : Libm} {R : Raster}.

Lemma wcalm_update_preview w : wcalm w (_update_preview w).
Proof.
  destruct (update_preview_shape w) as (p & ->).
  apply wcalm_C, calm_set_temp_pixmap.
Qed.

Lemma wcalm_update_selection_preview w :
  wcalm w (_update_selection_preview w).
Proof.
  destruct (update_selection_preview_shape w) as (p & a & b & c & d & e & ->).
  eapply wcalm_trans; [ apply wcalm_T | ].
  apply wcalm_C, calm_set_temp_pixmap.
Qed.

Lemma wcalm_cancel_selection w : wcalm w (_cancel_selection w).
Proof.
  unfold wcalm. rewrite ctl_cancel_selection.
  eapply calm_trans; [ apply calm_set_temp_pixmap | apply calm_emit ].
Qed.

Lemma wcalm_capture w : wcalm w (world_of (_capture_selection w)).
Proof.
  destruct (capture_writes w) as (c & m & ->). apply wcalm_ctl. reflexivity.
Qed.

End Calm.

(** Peeling what the handlers do off a world. *)
Ltac calm_step :=
  lazymatch goal with
  | |- wcalm ?w ?w => apply wcalm_refl
  | |- wcalm _ (world_of (Ok _)) => cbn [world_of]
  | |- wcalm _ (world_of (bind (_capture_selection ?X) _)) =>
      let H := fresh "Hcap" in
      pose proof (wcalm_capture X) as H;
      destruct (_capture_selection X); cbn [bind world_of] in *
  | |- wcalm _ (world_of (if ?b then _ else _)) => destruct b
  | |- wcalm _ (world_of (match ?x with _ => _ end)) => destruct x
  | |- wcalm _ (if ?b then _ else _) => destruct b
  | |- wcalm _ (match ?x with _ => _ end) => destruct x
  | |- wcalm _ (_update_selection_preview _) =>
      eapply wcalm_trans; [ | apply wcalm_update_selection_preview ]
  | |- wcalm _ (_update_preview _) =>
      eapply wcalm_trans; [ | apply wcalm_update_preview ]
  | |- wcalm _ (_cancel_selection _) =>
      eapply wcalm_trans; [ | apply wcalm_cancel_selection ]
  | |- wcalm _ (T _ _) => eapply wcalm_trans; [ | apply wcalm_T ]
  | |- wcalm _ (C (set_temp_pixmap _) _) =>
      eapply wcalm_trans; [ | apply wcalm_C, calm_set_temp_pixmap ]
  | |- wcalm _ (C (emit _) _) =>
      eapply wcalm_trans; [ | apply wcalm_C, calm_emit ]
  | |- wcalm _ (C save_to_history _) =>
      eapply wcalm_trans; [ | apply wcalm_C, calm_save_to_history ]
  | |- wcalm _ (C (draw_on_active_layer _ _) _) =>
      eapply wcalm_trans; [ | apply wcalm_C, calm_draw ]
  | Hcap : wcalm ?X ?w1 |- wcalm _ ?w1 =>
      eapply wcalm_trans; [ | exact Hcap ]; clear Hcap
  end.

Ltac calms := cbv zeta; repeat calm_step.

Section CalmHandlers.
Context {L : Libm} {R : Raster}.

Lemma wcalm_cancel w : wcalm w (cancel w).
Proof.
  unfold cancel, ImprovedPolygonSelectTool_cancel, BaseSelectTool_cancel,
    BaseTool_cancel.
  calms.
Qed.

Lemma wcalm_finalize w : wcalm w (world_of (_finalize_selection w)).
Proof.
  unfold _finalize_selection, BaseSelectTool_finalize_selection,
    ImprovedPolygonSelectTool_finalize_selection.
  cbv zeta.
  repeat first
    [ calm_step
    | match goal with
      | |- wcalm _ (cancel _) =>
          eapply wcalm_trans; [ | apply wcalm_cancel ]
      end ].
Qed.

Lemma wcalm_commit w : wcalm w (_commit_selection w).
Proof. unfold _commit_selection. calms. Qed.

Lemma wcalm_BaseSelectTool_mouse_press ev px py w :
  wcalm w (BaseSelectTool_mouse_press ev px py w).
Proof.
  unfold BaseSelectTool_mouse_press, _start_new_selection. cbv zeta.
  repeat first
    [ calm_step
    | match goal with
      | |- wcalm _ (_commit_selection _) =>
          eapply wcalm_trans; [ | apply wcalm_commit ]
      end ].
Qed.

Lemma wcalm_BaseSelectTool_mouse_move ev px py w :
  wcalm w (BaseSelectTool_mouse_move ev px py w).
Proof.
  unfold BaseSelectTool_mouse_move, _handle_scaling, _handle_rotation.
  calms.
Qed.

Lemma wcalm_BaseSelectTool_mouse_release ev px py w :
  wcalm w (world_of (BaseSelectTool_mouse_release ev px py w)).
Proof.
  unfold BaseSelectTool_mouse_release. cbv zeta.
  repeat first
    [ calm_step
    | match goal with
      | |- wcalm _ (world_of (_finalize_selection _)) =>
          eapply wcalm_trans; [ | apply wcalm_finalize ]
      end ].
Qed.

Lemma wcalm_BaseSelectTool_key_press k w :
  wcalm w (BaseSelectTool_key_press k w).
Proof.
  unfold BaseSelectTool_key_press.
  destruct k;
    repeat first
      [ calm_step
      | match goal with
        | |- wcalm _ (_commit_selection _) =>
            eapply wcalm_trans; [ | apply wcalm_commit ]
        | |- wcalm _ (cancel _) =>
            eapply wcalm_trans; [ | apply wcalm_cancel ]
        end ].
Qed.

Lemma wcalm_on_other_operation w : wcalm w (on_other_operation w).
Proof.
  unfold on_other_operation, ImprovedPolygonSelectTool_on_other_operation,
    destroy_if_floating.
  repeat first
    [ calm_step
    | match goal with
      | |- wcalm _ (cancel _) =>
          eapply wcalm_trans; [ | apply wcalm_cancel ]
      end ].
Qed.

Lemma wcalm_step e w : wcalm w (world_of (step e w)).
Proof.
  destruct e; unfold step; cbn [world_of];
    try apply wcalm_on_other_operation.
  - unfold mouse_press, ImprovedPolygonSelectTool_mouse_press. cbv zeta.
    repeat first
      [ calm_step
      | match goal with
        | |- wcalm _ (_commit_selection _) =>
            eapply wcalm_trans; [ | apply wcalm_commit ]
        | |- wcalm _ (cancel _) =>
            eapply wcalm_trans; [ | apply wcalm_cancel ]
        | |- wcalm _ (BaseSelectTool_mouse_press _ _ _ _) =>
            eapply wcalm_trans; [ | apply wcalm_BaseSelectTool_mouse_press ]
        | |- wcalm _ (world_of (_finalize_selection _)) =>
            eapply wcalm_trans; [ | apply wcalm_finalize ]
        end ].
  - unfold mouse_move, ImprovedPolygonSelectTool_mouse_move. cbv zeta.
    repeat first
      [ calm_step
      | match goal with
        | |- wcalm _ (BaseSelectTool_mouse_move _ _ _ _) =>
            eapply wcalm_trans; [ | apply wcalm_BaseSelectTool_mouse_move ]
        end ].
  - unfold mouse_release, ImprovedPolygonSelectTool_mouse_release.
    repeat first
      [ calm_step
      | match goal with
        | |- wcalm _ (world_of (BaseSelectTool_mouse_release _ _ _ _)) =>
            eapply wcalm_trans;
              [ | apply wcalm_BaseSelectTool_mouse_release ]
        end ].
  - unfold key_press, ImprovedPolygonSelectTool_key_press. cbv zeta.
    destruct k;
      repeat first
        [ calm_step
        | match goal with
          | |- wcalm _ (_commit_selection _) =>
              eapply wcalm_trans; [ | apply wcalm_commit ]
          | |- wcalm _ (cancel _) =>
              eapply wcalm_trans; [ | apply wcalm_cancel ]
          | |- wcalm _ (BaseSelectTool_key_press _ _) =>
              eapply wcalm_trans; [ | apply wcalm_BaseSelectTool_key_press ]
          | |- wcalm _ (world_of (_finalize_selection _)) =>
              eapply wcalm_trans; [ | apply wcalm_finalize ]
          end ].
  - unfold set_auto_destroy. apply wcalm_T.
Qed.

Lemma wcalm_run es w : wcalm w (world_of (run es w)).
Proof.
  revert w. induction es as [|e es IH]; intro w; [ apply wcalm_refl | ].
  rewrite run_cons.
  pose proof (wcalm_step e w) as Hs.
  destruct (step e w) as [w1|w1]; cbn [bind world_of] in *;
    [ eapply wcalm_trans; [ exact Hs | apply IH ] | exact Hs ].
Qed.

End CalmHandlers.

(** X21: whatever the events, a selection tool changes no layer but the
    active one, of that one only the image, and no locked layer at all;
    the number of layers, the active index, the adjustments and the
    recording flag stay as they are. *)
Theorem tools_paint_only_the_active_layer {L : Libm} {R : Raster}
    (es : list Event) (w : World) :
  let c := ctl w in
  let c' := ctl (world_of (run es w)) in
  length (layers c') = length (layers c)
  /\ active_layer_index c' = active_layer_index c
  /\ adjustments c' = adjustments c
  /\ is_recording c' = is_recording c
  /\ (forall j, Z.of_nat j <> active_layer_index c ->
      nth_error (layers c') j = nth_error (layers c) j)
  /\ (forall j l, nth_error (layers c) j = Some l ->
      exists l',
        nth_error (layers c') j = Some l'
        /\ name l' = name l /\ visible l' = visible l
        /\ opacity l' = opacity l /\ locked l' = locked l
        /\ (locked l = true -> l' = l)).
Proof.
  cbv zeta.
  destruct (wcalm_run es w) as (A1 & A2 & A3 & _ & A5 & A6 & A7).
  split; [ exact A5 | ]. split; [ exact A1 | ]. split; [ exact A3 | ].
  split; [ exact A2 | ]. split; [ exact A6 | exact A7 ].
Qed.

(** ** Showing and hiding a layer *)

Lemma set_visible_same (l : Layer) : set_visible (visible l) l = l.
Proof. destruct l; reflexivity. Qed.

Lemma toggle_same (index : Z) (v : bool) (c : Controller) (l : Layer) :
  nth_error (layers c) (Z.to_nat index) = Some l -> visible l = v ->
  toggle_layer_visibility index v c = c.
Proof.
  intros Hn Hv. unfold toggle_layer_visibility.
  destruct ((0 <=? index) && (index <? Z.of_nat (length (layers c))));
    [ | reflexivity ].
  rewrite Hn, Hv, Bool.eqb_reflx. reflexivity.
Qed.

Lemma toggle_cases (index : Z) (v : bool) (c : Controller) :
  (toggle_layer_visibility index v c = c
   /\ (forall l, 0 <= index ->
       nth_error (layers c) (Z.to_nat index) = Some l -> visible l = v))
  \/ (exists l,
        0 <= index < Z.of_nat (length (layers c))
        /\ nth_error (layers c) (Z.to_nat index) = Some l
        /\ visible l <> v
        /\ toggle_layer_visibility index v c
           = schedule_update
               (set_layers
                  (list_set (layers (save_to_history c)) (Z.to_nat index)
                     (set_visible v l))
                  (save_to_history c))).
Proof.
  unfold toggle_layer_visibility.
  destruct ((0 <=? index) && (index <? Z.of_nat (length (layers c)))) eqn:E.
  - apply in_range in E.
    destruct (nth_error (layers c) (Z.to_nat index)) as [l|] eqn:En;
      [ | apply nth_error_None in En; lia ].
    destruct (Bool.eqb (visible l) v) eqn:Ev; cbn [negb].
    + left. split; [ reflexivity | ].
      intros l0 _ Hl0. injection Hl0 as <-. apply Bool.eqb_prop. exact Ev.
    + right. exists l. split; [ exact E | ]. split; [ reflexivity | ].
      split; [ | reflexivity ].
      intro H. rewrite H, Bool.eqb_reflx in Ev. discriminate Ev.
  - left. split; [ reflexivity | ].
    intros l H0 Hn. exfalso.
    assert (Hlen : (Z.to_nat index < length (layers c))%nat)
      by (apply nth_error_Some; rewrite Hn; discriminate).
    assert (E' : (0 <=? index)
                 && (index <? Z.of_nat (length (layers c))) = true)
      by (apply in_range; lia).
    congruence.
Qed.

(** X22: [toggle_layer_visibility] sets the flag of the layer at the
    index and changes nothing else of the layers; asked again with the
    same value, or asked for the value the layer has, it changes nothing
    at all, the history included. *)
Theorem toggle_layer_visibility_settles (index : Z) (v : bool)
    (c : Controller) :
  let c' := toggle_layer_visibility index v c in
  toggle_layer_visibility index v c' = c'
  /\ length (layers c') = length (layers c)
  /\ (forall l, 0 <= index ->
      nth_error (layers c) (Z.to_nat index) = Some l ->
      nth_error (layers c') (Z.to_nat index) = Some (set_visible v l)
      /\ (visible l = v -> c' = c)
      /\ (visible l <> v ->
          undo_stack c' = undo_stack (save_to_history c)))
  /\ (forall j, j <> Z.to_nat index ->
      nth_error (layers c') j = nth_error (layers c) j).
Proof.
  cbv zeta.
  destruct (toggle_cases index v c) as [[Hc Hv] | (l & E & En & Hne & Hc)].
  - rewrite Hc. split; [ exact Hc | ]. split; [ reflexivity | ].
    split; [ | reflexivity ].
    intros l H0 Hn. pose proof (Hv l H0 Hn) as Hvl. subst v.
    rewrite set_visible_same.
    split; [ exact Hn | ]. split; [ reflexivity | ].
    intro H. contradiction H. reflexivity.
  - destruct (save_to_history_keeps c) as (Kl & _).
    set (c1 := toggle_layer_visibility index v c) in *.
    assert (Hl1 : layers c1
                  = list_set (layers c) (Z.to_nat index) (set_visible v l))
      by (rewrite Hc, Kl; destruct (save_to_history c); reflexivity).
    assert (Hu1 : undo_stack c1 = undo_stack (save_to_history c))
      by (rewrite Hc; destruct (save_to_history c); reflexivity).
    assert (Hlen : (Z.to_nat index < length (layers c))%nat) by lia.
    assert (Hn1 : nth_error (layers c1) (Z.to_nat index)
                  = Some (set_visible v l))
      by (rewrite Hl1; apply nth_error_list_set_eq; exact Hlen).
    split; [ apply (toggle_same index v c1 _ Hn1); reflexivity | ].
    split; [ rewrite Hl1; apply length_list_set | ].
    split.
    + intros l0 _ Hl0. rewrite En in Hl0. injection Hl0 as <-.
      split; [ exact Hn1 | ].
      split; [ intro H; contradiction | intros _; exact Hu1 ].
    + intros j Hj. rewrite Hl1. apply nth_error_list_set_neq. exact Hj.
Qed.

(** ** Switching the automatic destruction off *)

(** The events that end a floating selection only when
    [destroy_on_other_action] is set: the keys other than Escape, Enter
    and Return, and the four notifications. *)
Definition passive (e : Event) : bool :=
  match e with
  | key_press_event k =>
      match k with
      | Key_Escape | Key_Enter | Key_Return => false
      | _ => true
      end
  | tool_changed_event | other_operation_event
  | menu_action_event | toolbar_button_click_event => true
  | _ => false
  end.

(** X23: after [set_auto_destroy(False)] no key other than Escape, Enter
    and Return, no change of tool, menu action, toolbar click or other
    operation changes anything, unless a polygon is being created: the
    floating selection stays as it is. *)
Theorem auto_destroy_off_protects {L : Libm} {R : Raster}
    (e : Event) (w : World) :
  passive e = true -> is_creating (tool w) = false ->
  step e (set_auto_destroy false w) = Ok (set_auto_destroy false w).
Proof.
  intros Hp Hc.
  assert (Hd : destroy_on_other_action (tool (set_auto_destroy false w))
               = false)
    by (destruct w as [c t]; destruct t; reflexivity).
  assert (Hc' : is_creating (tool (set_auto_destroy false w)) = false)
    by (destruct w as [c t]; destruct t; exact Hc).
  set (w1 := set_auto_destroy false w) in *.
  assert (Hother : on_other_operation w1 = w1).
  { unfold on_other_operation, ImprovedPolygonSelectTool_on_other_operation,
      destroy_if_floating.
    rewrite Hc', Hd, andb_false_r. destruct (is_polygon w1); reflexivity. }
  destruct e as [ev px py| | |k| | | | |]; try discriminate Hp;
    unfold step; try (rewrite Hother; reflexivity).
  unfold key_press, ImprovedPolygonSelectTool_key_press,
    BaseSelectTool_key_press.
  cbv zeta. rewrite Hd, andb_false_r. cbn [andb].
  destruct k; try discriminate Hp; destruct (is_polygon w1); reflexivity.
Qed.

Lemma auto_destroy_off_protects_witness :
  passive (key_press_event (Key_other 65)) = true
  /\ is_creating (tool (selected [red_layer false] [])) = false
  /\ step (L := Probe.libm) (R := Probe.raster)
       (key_press_event (Key_other 65))
       (set_auto_destroy false (selected [red_layer false] []))
     = Ok (set_auto_destroy false (selected [red_layer false] [])).
Proof.
  assert (H1 : passive (key_press_event (Key_other 65)) = true)
    by reflexivity.
  assert (H2 : is_creating (tool (selected [red_layer false] [])) = false)
    by (vm_compute; reflexivity).
  split; [ exact H1 | split; [ exact H2 | ] ].
  exact (auto_destroy_off_protects (L := Probe.libm) (R := Probe.raster)
           (key_press_event (Key_other 65)) (selected [red_layer false] [])
           H1 H2).
Defined.

(** * The pixels of a captured selection *)

(** A colour with no coverage is the transparent colour. *)
Definition canonical (p : QColor) : QColor :=
  if alpha p =? 0 then transparent else p.

Lemma div255_0 : div255 0 = 0.
Proof. reflexivity. Qed.

Lemma div255_full (a : Z) : div255 (a * 255) = a.
Proof.
  unfold div255. rewrite Z.div_add_l by lia.
  change (127 / 255) with 0. lia.
Qed.

(** A source laid over a transparent pixel. *)
Lemma compose_over_transparent (src : QColor) :
  0 <= alpha src ->
  compose CompositionMode_SourceOver src transparent = canonical src.
Proof.
  intro Ha. unfold compose, canonical. cbn [alpha red green blue transparent].
  rewrite Z.mul_0_l, div255_0, Z.add_0_r.
  destruct (alpha src =? 0) eqn:E; [ reflexivity | ].
  apply Z.eqb_neq in E.
  rewrite !Z.mul_0_l, !Z.add_0_r.
  rewrite !Z.div_mul by exact E.
  destruct src; reflexivity.
Qed.

(** A pixel kept where the mask is white, dropped where it is
    transparent. *)
Lemma compose_in_white (dst : QColor) :
  compose CompositionMode_DestinationIn white dst = canonical dst.
Proof.
  unfold compose, canonical, with_alpha. cbn [alpha white].
  rewrite div255_full.
  destruct (alpha dst =? 0); [ reflexivity | destruct dst; reflexivity ].
Qed.

Lemma compose_out_white (dst : QColor) :
  compose CompositionMode_DestinationOut white dst = transparent.
Proof. unfold compose, with_alpha. cbn [alpha white]. rewrite Z.mul_0_r. reflexivity. Qed.

Lemma canonical_idem (p : QColor) : canonical (canonical p) = canonical p.
Proof.
  unfold canonical. destruct (alpha p =? 0) eqn:E; [ reflexivity | ].
  rewrite E. reflexivity.
Qed.

Lemma contains_valid (r : QRect) (px py : Z) :
  rect_bool r = true ->
  Qt.contains r px py
  = (x1 r <=? px) && (px <=? x2 r) && ((y1 r <=? py) && (py <=? y2 r)).
Proof.
  unfold rect_bool, isValid, Qt.contains. intro H.
  apply andb_true_iff in H. destruct H as [Hx Hy].
  apply Z.leb_le in Hx. apply Z.leb_le in Hy.
  assert (E1 : (x2 r <? x1 r - 1) = false) by (apply Z.ltb_ge; lia).
  assert (E2 : (y2 r <? y1 r - 1) = false) by (apply Z.ltb_ge; lia).
  rewrite E1, E2.
  destruct (Z.ltb_spec px (x1 r)), (Z.ltb_spec (x2 r) px),
    (Z.ltb_spec py (y1 r)), (Z.ltb_spec (y2 r) py),
    (Z.leb_spec (x1 r) px), (Z.leb_spec px (x2 r)),
    (Z.leb_spec (y1 r) py), (Z.leb_spec py (y2 r));
    try reflexivity; lia.
Qed.

Section Pixels.
Context {R : Raster}.

(** The content captured under a mask, pixel by pixel: within the
    rectangle, the pixel of the layer where the mask is white and the
    layer reaches, transparent elsewhere. *)
Lemma captured_pixel (layer : QImage) (covered : Z -> Z -> bool)
    (rect : QRect) (px py : Z) :
  rect_bool rect = true ->
  (forall qx qy, 0 <= alpha (pixel layer qx qy)) ->
  0 <= px < Qt.width rect -> 0 <= py < Qt.height rect ->
  pixel (captured layer (mask_of (Qt.size rect) covered) rect) px py
  = (if in_image layer (px + Qt.left rect) (py + Qt.top rect)
        && covered px py
     then canonical (pixel layer (px + Qt.left rect) (py + Qt.top rect))
     else transparent).
Proof.
  intros Hv Ha Hx Hy.
  unfold captured, drawImage, drawImage_rect, source_at, setCompositionMode,
    begin, filled, mask_of, in_image.
  cbn [device pixel mode world saved img_w img_h sz_w sz_h Qt.size pt_x pt_y].
  change (tr_isIdentity QTransform_id) with true. cbv iota.
  rewrite !Z.sub_0_r.
  assert (Hrv : rect_bool (QRect_xywh 0 0 (Qt.width rect) (Qt.height rect))
                = true).
  { unfold rect_bool, isValid, QRect_xywh. cbn [x1 x2 y1 y2].
    apply andb_true_iff. split; apply Z.leb_le; lia. }
  rewrite (contains_valid _ px py Hrv), (contains_valid rect _ _ Hv).
  unfold QRect_xywh, Qt.width, Qt.height, Qt.left, Qt.top in *.
  cbn [x1 x2 y1 y2] in *.
  replace (px - 0 + x1 rect) with (px + x1 rect) by lia.
  replace (py - 0 + y1 rect) with (py + y1 rect) by lia.
  assert (E1 : (0 <=? px) = true) by (apply Z.leb_le; lia).
  assert (E2 : (px <=? 0 + (x2 rect - x1 rect + 1) - 1) = true)
    by (apply Z.leb_le; lia).
  assert (E3 : (0 <=? py) = true) by (apply Z.leb_le; lia).
  assert (E4 : (py <=? 0 + (y2 rect - y1 rect + 1) - 1) = true)
    by (apply Z.leb_le; lia).
  assert (E5 : (x1 rect <=? px + x1 rect) = true) by (apply Z.leb_le; lia).
  assert (E6 : (px + x1 rect <=? x2 rect) = true) by (apply Z.leb_le; lia).
  assert (E7 : (y1 rect <=? py + y1 rect) = true) by (apply Z.leb_le; lia).
  assert (E8 : (py + y1 rect <=? y2 rect) = true) by (apply Z.leb_le; lia).
  assert (E9 : (px <? x2 rect - x1 rect + 1) = true)
    by (apply Z.ltb_lt; lia).
  assert (E10 : (py <? y2 rect - y1 rect + 1) = true)
    by (apply Z.ltb_lt; lia).
  rewrite E1, E2, E3, E4, E5, E6, E7, E8, E9, E10. cbn [andb].
  destruct ((0 <=? px + x1 rect) && (px + x1 rect <? img_w layer)
            && (0 <=? py + y1 rect) && (py + y1 rect <? img_h layer)).
  - cbn [andb]. rewrite compose_over_transparent by apply Ha.
    destruct (covered px py).
    + rewrite compose_in_white. apply canonical_idem.
    + unfold compose, with_alpha. cbn [alpha transparent].
      rewrite Z.mul_0_r. reflexivity.
  - cbn [andb].
    destruct (covered px py); unfold compose, with_alpha;
      cbn [alpha transparent white]; reflexivity.
Qed.

End Pixels.



(** A rectangle tool with the rectangle (20,20)-(60,60) on the red
    layer, before the capture. *)
Definition outlined : World :=
  T (set_selection_rect (Some (QRect_xywh 20 20 40 40)))
    (start_world RectSelectTool (controller_of [red_layer false] [])).


(** * Selecting and committing at once *)

Lemma QSize_eqb_refl (s : QSize) : QSize_eqb s s = true.
Proof. unfold QSize_eqb. rewrite !Z.eqb_refl. reflexivity. Qed.

Lemma scaled_same {R : Raster} (i : QImage) (s : QSize) :
  img_size i = s -> scaled resample i s = i.
Proof. intros <-. unfold scaled. rewrite QSize_eqb_refl. reflexivity. Qed.

(** About any centre, a rotation by 0 and a scale of 1 make the
    identity. *)
Lemma about_center_identity {L : Libm} (c : QPoint) :
  tr_isIdentity
    (tr_translate (- inject_Z (pt_x c)) (- inject_Z (pt_y c))
       (tr_scale 1 1
          (tr_rotate 0
             (tr_translate (inject_Z (pt_x c)) (inject_Z (pt_y c))
                QTransform_id))))
  = true.
Proof.
  unfold tr_rotate. change (Qeq_bool 0 0) with true. cbv iota.
  unfold tr_isIdentity, tr_translate, tr_scale, QTransform_id.
  cbn [m11 m12 m21 m22 m31 m32].
  repeat (apply andb_true_intro; split); apply Qeq_bool_iff; ring.
Qed.

Lemma in_image_mask (rect : QRect) (covered : Z -> Z -> bool) (px py : Z) :
  rect_bool rect = true ->
  in_image (mask_of (Qt.size rect) covered) (px - Qt.left rect)
    (py - Qt.top rect)
  = Qt.contains rect px py.
Proof.
  intro Hv. rewrite (contains_valid rect px py Hv).
  unfold in_image, mask_of, Qt.size, Qt.width, Qt.height, Qt.left, Qt.top.
  cbn [img_w img_h sz_w sz_h].
  destruct (Z.leb_spec 0 (px - x1 rect)), (Z.ltb_spec (px - x1 rect)
                                             (x2 rect - x1 rect + 1)),
    (Z.leb_spec 0 (py - y1 rect)), (Z.ltb_spec (py - y1 rect)
                                     (y2 rect - y1 rect + 1)),
    (Z.leb_spec (x1 rect) px), (Z.leb_spec px (x2 rect)),
    (Z.leb_spec (y1 rect) py), (Z.leb_spec py (y2 rect));
    try reflexivity; lia.
Qed.

Section Committed.
Context {L : Libm} {R : Raster}.

(** The pixel a [drawImage] leaves, once the painter is restored. *)
Lemma pixel_drawn (pos : QPoint) (i : QImage) (p : QPainter) (px py : Z) :
  pixel (device (restore (drawImage pos i p))) px py
  = match source_at (world p) pos i px py with
    | Some s => compose (mode p) s (pixel (device p) px py)
    | None => pixel (device p) px py
    end.
Proof.
  unfold restore, drawImage. cbn [saved device].
  destruct (saved p) as [|[m t] r]; reflexivity.
Qed.

Lemma about_center_painter (c : QPoint) (a s : Q) (p : QPainter) :
  world (p_about_center c a s p)
  = tr_translate (- inject_Z (pt_x c)) (- inject_Z (pt_y c))
      (tr_scale s s
         (tr_rotate a
            (tr_translate (inject_Z (pt_x c)) (inject_Z (pt_y c))
               (world p))))
  /\ mode (p_about_center c a s p) = mode p
  /\ device (p_about_center c a s p) = device p.
Proof. repeat split. Qed.

(** Under the identity, [drawImage] reaches the pixels the image
    covers. *)
Lemma source_at_identity (W : QTransform) (pos : QPoint) (i : QImage)
    (px py : Z) :
  tr_isIdentity W = true ->
  source_at W pos i px py
  = (if in_image i (px - pt_x pos) (py - pt_y pos)
     then Some (pixel i (px - pt_x pos) (py - pt_y pos)) else None).
Proof. intro H. unfold source_at. rewrite H. reflexivity. Qed.

(** What the closure of [_commit_selection] paints for a selection of
    the rectangle tool that is neither scaled nor rotated: within the
    rectangle the content replaces the pixels, elsewhere they stay. *)
Lemma committed_pixel (t : Tool) (rect : QRect) (content img : QImage)
    (px py : Z) :
  rect_bool rect = true ->
  selection_mask t = Some (mask_of (Qt.size rect) (fun _ _ => true)) ->
  scale_factor t = 1%Q -> rotation_angle t = 0%Q ->
  img_size content = Qt.size rect ->
  (Qt.contains rect px py = true ->
   0 <= alpha (pixel content (px - Qt.left rect) (py - Qt.top rect))) ->
  pixel (device (draw_transformed_selection t rect content (begin img)))
    px py
  = (if Qt.contains rect px py
     then canonical (pixel content (px - Qt.left rect) (py - Qt.top rect))
     else pixel img px py).
Proof.
  intros Hv Hm Hs Ha Hc Hal.
  unfold draw_transformed_selection. rewrite Hm, Hs, Ha.
  rewrite (scaled_same content (Qt.size rect) Hc).
  rewrite (scaled_same (mask_of (Qt.size rect) (fun _ _ => true))
             (Qt.size rect) eq_refl).
  set (mask := mask_of (Qt.size rect) (fun _ _ => true)).
  set (pA := restore
               (drawImage (topLeft rect) mask
                  (p_about_center (Qt.center rect) 0 1
                     (setCompositionMode CompositionMode_DestinationOut
                        (save (begin img)))))).
  assert (HwA : world pA = QTransform_id) by reflexivity.
  assert (HpA : pixel (device pA) px py
                = if Qt.contains rect px py then transparent
                  else pixel img px py).
  { unfold pA. rewrite pixel_drawn.
    destruct (about_center_painter (Qt.center rect) 0 1
                (setCompositionMode CompositionMode_DestinationOut
                   (save (begin img)))) as (-> & -> & ->).
    change (world (setCompositionMode CompositionMode_DestinationOut
                     (save (begin img)))) with QTransform_id.
    rewrite source_at_identity by apply about_center_identity.
    change (pt_x (topLeft rect)) with (Qt.left rect).
    change (pt_y (topLeft rect)) with (Qt.top rect).
    unfold mask at 1. rewrite (in_image_mask rect _ px py Hv).
    destruct (Qt.contains rect px py); [ | reflexivity ].
    change (mode (setCompositionMode CompositionMode_DestinationOut
                    (save (begin img))))
      with CompositionMode_DestinationOut.
    unfold mask, mask_of. cbn [pixel].
    apply compose_out_white. }
  rewrite pixel_drawn.
  destruct (about_center_painter (Qt.center rect) 0 1
              (save (setCompositionMode CompositionMode_SourceOver pA)))
    as (-> & -> & ->).
  change (world (save (setCompositionMode CompositionMode_SourceOver pA)))
    with (world pA).
  rewrite HwA.
  rewrite source_at_identity by apply about_center_identity.
  change (pt_x (topLeft rect)) with (Qt.left rect).
  change (pt_y (topLeft rect)) with (Qt.top rect).
  assert (Hin : in_image content (px - Qt.left rect) (py - Qt.top rect)
                = Qt.contains rect px py).
  { rewrite <- (in_image_mask rect (fun _ _ => true) px py Hv).
    unfold in_image, mask_of. cbn [img_w img_h].
    unfold img_size in Hc. injection Hc as -> ->. reflexivity. }
  rewrite Hin.
  change (device (save (setCompositionMode CompositionMode_SourceOver pA)))
    with (device pA).
  change (mode (save (setCompositionMode CompositionMode_SourceOver pA)))
    with CompositionMode_SourceOver.
  rewrite HpA.
  destruct (Qt.contains rect px py); [ | reflexivity ].
  apply compose_over_transparent. apply Hal. reflexivity.
Qed.

End Committed.


(** An outline of the rectangle tool from (20,20) to (60,60) on the red
    layer, about to be finished. *)
Definition outline_on_red : World :=
  T (set_drawing false)
    (world_of (run (L := Probe.libm) (R := Probe.raster)
                 [left_press 20 20; left_drag 60 60]
                 (start_world RectSelectTool
                    (controller_of [red_layer false] [])))).


(** ** The pixels a commit leaves *)

(** X11: committing a floating selection of the rectangle tool that is
    neither scaled nor rotated, on an unlocked active layer, wherever the
    rectangle has been moved: under the rectangle every pixel of the
    layer is replaced by the pixel of the content, and by the transparent
    colour where the content has no coverage, the layer's own pixel
    having been erased; every pixel outside the rectangle and every other
    layer stay as they are.  The history is saved first, the modified
    flag is set and nothing floats afterwards. *)
Theorem commit_replaces_the_pixels_under_the_rectangle
    {L : Libm} {R : Raster}
    (w : World) (rect : QRect) (content : QImage) (layer : Layer) :
  is_floating (tool w) = true ->
  selection_rect (tool w) = Some rect -> rect_bool rect = true ->
  selected_content (tool w) = Some content ->
  selection_mask (tool w)
  = Some (mask_of (Qt.size rect) (fun _ _ => true)) ->
  scale_factor (tool w) = 1%Q -> rotation_angle (tool w) = 0%Q ->
  img_size content = Qt.size rect ->
  (forall qx qy,
     0 <= qx < Qt.width rect -> 0 <= qy < Qt.height rect ->
     0 <= alpha (pixel content qx qy)) ->
  0 <= active_layer_index (ctl w) ->
  nth_error (layers (ctl w)) (Z.to_nat (active_layer_index (ctl w)))
  = Some layer ->
  locked layer = false ->
  let w' := _commit_selection w in
  (exists layer',
     nth_error (layers (ctl w')) (Z.to_nat (active_layer_index (ctl w)))
     = Some layer'
     /\ forall px py,
          in_image (image layer) px py = true ->
          pixel (image layer') px py
          = (if Qt.contains rect px py
             then canonical
                    (pixel content (px - Qt.left rect) (py - Qt.top rect))
             else pixel (image layer) px py))
  /\ (forall j, j <> Z.to_nat (active_layer_index (ctl w)) ->
      nth_error (layers (ctl w')) j = nth_error (layers (ctl w)) j)
  /\ undo_stack (ctl w') = undo_stack (save_to_history (ctl w))
  /\ is_modified (ctl w') = true
  /\ is_floating (tool w') = false.
Proof.
  intros Hf Hr Hv Hc Hm Hs Ha Hsz Hal H0 Hn Hl. cbv zeta.
  assert (Hlen : (Z.to_nat (active_layer_index (ctl w))
                  < length (layers (ctl w)))%nat)
    by (apply nth_error_Some; rewrite Hn; discriminate).
  destruct (commit_on_unlocked_layer w rect content layer
              Hf Hr Hv Hc H0 Hn Hl)
    as (Kl & Ku & _ & Km & _ & Kf & _).
  rewrite Kl.
  split; [ | split; [ | split; [ exact Ku | split; [ exact Km | exact Kf ] ] ] ].
  - eexists. split; [ apply nth_error_list_set_eq; exact Hlen | ].
    intros px py Hin. cbn [image set_image].
    apply committed_pixel; try assumption.
    intro Hct. rewrite (contains_valid rect px py Hv) in Hct.
    apply andb_true_iff in Hct. destruct Hct as [Hx Hy].
    apply andb_true_iff in Hx. destruct Hx as [Hx1 Hx2].
    apply andb_true_iff in Hy. destruct Hy as [Hy1 Hy2].
    apply Z.leb_le in Hx1, Hx2, Hy1, Hy2.
    apply Hal; unfold Qt.width, Qt.height, Qt.left, Qt.top; lia.
  - intros j Hj. apply nth_error_list_set_neq. congruence.
Qed.

Lemma commit_replaces_the_pixels_under_the_rectangle_witness :
  is_floating (tool moved) = true
  /\ selection_rect (tool moved) = Some (QRect_xywh 50 30 40 40)
  /\ rect_bool (QRect_xywh 50 30 40 40) = true
  /\ selected_content (tool moved)
     = Some (captured (R := Probe.raster) red_image
               (mask_of (mkQSize 40 40) (fun _ _ => true))
               (QRect_xywh 20 20 40 40))
  /\ selection_mask (tool moved)
     = Some (mask_of (Qt.size (QRect_xywh 50 30 40 40)) (fun _ _ => true))
  /\ scale_factor (tool moved) = 1%Q
  /\ rotation_angle (tool moved) = 0%Q
  /\ img_size (captured (R := Probe.raster) red_image
                 (mask_of (mkQSize 40 40) (fun _ _ => true))
                 (QRect_xywh 20 20 40 40))
     = Qt.size (QRect_xywh 50 30 40 40)
  /\ (forall qx qy,
        0 <= qx < Qt.width (QRect_xywh 50 30 40 40) ->
        0 <= qy < Qt.height (QRect_xywh 50 30 40 40) ->
        0 <= alpha (pixel (captured (R := Probe.raster) red_image
                             (mask_of (mkQSize 40 40) (fun _ _ => true))
                             (QRect_xywh 20 20 40 40)) qx qy))
  /\ 0 <= active_layer_index (ctl moved)
  /\ nth_error (layers (ctl moved))
       (Z.to_nat (active_layer_index (ctl moved)))
     = Some (red_layer false)
  /\ locked (red_layer false) = false
  /\ (let w' :=
        _commit_selection (L := Probe.libm) (R := Probe.raster) moved in
      (exists layer',
         nth_error (layers (ctl w'))
           (Z.to_nat (active_layer_index (ctl moved)))
         = Some layer'
         /\ forall px py,
              in_image (image (red_layer false)) px py = true ->
              pixel (image layer') px py
              = (if Qt.contains (QRect_xywh 50 30 40 40) px py
                 then canonical
                        (pixel (captured (R := Probe.raster) red_image
                                  (mask_of (mkQSize 40 40) (fun _ _ => true))
                                  (QRect_xywh 20 20 40 40))
                           (px - Qt.left (QRect_xywh 50 30 40 40))
                           (py - Qt.top (QRect_xywh 50 30 40 40)))
                 else pixel (image (red_layer false)) px py))
      /\ (forall j, j <> Z.to_nat (active_layer_index (ctl moved)) ->
          nth_error (layers (ctl w')) j = nth_error (layers (ctl moved)) j)
      /\ undo_stack (ctl w') = undo_stack (save_to_history (ctl moved))
      /\ is_modified (ctl w') = true
      /\ is_floating (tool w') = false).
Proof.
  assert (H1 : is_floating (tool moved) = true) by (vm_compute; reflexivity).
  assert (H2 : selection_rect (tool moved) = Some (QRect_xywh 50 30 40 40))
    by (vm_compute; reflexivity).
  assert (H3 : rect_bool (QRect_xywh 50 30 40 40) = true)
    by (vm_compute; reflexivity).
  assert (H4 : selected_content (tool moved)
               = Some (captured (R := Probe.raster) red_image
                         (mask_of (mkQSize 40 40) (fun _ _ => true))
                         (QRect_xywh 20 20 40 40))) by reflexivity.
  assert (H5 : selection_mask (tool moved)
               = Some (mask_of (Qt.size (QRect_xywh 50 30 40 40))
                         (fun _ _ => true))) by reflexivity.
  assert (H6 : scale_factor (tool moved) = 1%Q) by (vm_compute; reflexivity).
  assert (H7 : rotation_angle (tool moved) = 0%Q)
    by (vm_compute; reflexivity).
  assert (H8 : img_size (captured (R := Probe.raster) red_image
                           (mask_of (mkQSize 40 40) (fun _ _ => true))
                           (QRect_xywh 20 20 40 40))
               = Qt.size (QRect_xywh 50 30 40 40)) by reflexivity.
  assert (H9 : forall qx qy,
            0 <= qx < Qt.width (QRect_xywh 50 30 40 40) ->
            0 <= qy < Qt.height (QRect_xywh 50 30 40 40) ->
            0 <= alpha (pixel (captured (R := Probe.raster) red_image
                                 (mask_of (mkQSize 40 40) (fun _ _ => true))
                                 (QRect_xywh 20 20 40 40)) qx qy)).
  { intros qx qy Hx Hy.
    change (mkQSize 40 40) with (Qt.size (QRect_xywh 20 20 40 40)).
    rewrite (captured_pixel (R := Probe.raster) red_image (fun _ _ => true)
               (QRect_xywh 20 20 40 40) qx qy);
      [ | vm_compute; reflexivity | intros; cbn; lia | exact Hx | exact Hy ].
    destruct (in_image _ _ _ && true); cbn; lia. }
  assert (H10 : 0 <= active_layer_index (ctl moved))
    by (vm_compute; discriminate).
  assert (H11 : nth_error (layers (ctl moved))
                  (Z.to_nat (active_layer_index (ctl moved)))
                = Some (red_layer false)) by (vm_compute; reflexivity).
  assert (H12 : locked (red_layer false) = false) by reflexivity.
  do 12 (split; [ assumption | ]).
  exact (commit_replaces_the_pixels_under_the_rectangle
           (L := Probe.libm) (R := Probe.raster) moved
           (QRect_xywh 50 30 40 40)
           (captured (R := Probe.raster) red_image
              (mask_of (mkQSize 40 40) (fun _ _ => true))
              (QRect_xywh 20 20 40 40))
           (red_layer false) H1 H2 H3 H4 H5 H6 H7 H8 H9 H10 H11 H12).
Defined.

(** * The resize handle under the pointer *)

Lemma first_handle_at_first (hs : list (Handle * QRect)) (px py : Z) :
  match first_handle_at hs px py with
  | Some h =>
      exists before rect after,
        hs = before ++ (h, rect) :: after
        /\ Qt.contains (adjusted (-10) (-10) 10 10 rect) px py = true
        /\ forall x, In x before ->
             Qt.contains (adjusted (-10) (-10) 10 10 (snd x)) px py = false
  | None =>
      forall x, In x hs ->
        Qt.contains (adjusted (-10) (-10) 10 10 (snd x)) px py = false
  end.
Proof.
  induction hs as [|[h rect] hs IH]; cbn [first_handle_at].
  - intros x [].
  - destruct (Qt.contains (adjusted (-10) (-10) 10 10 rect) px py) eqn:E.
    + exists [], rect, hs. split; [ reflexivity | ].
      split; [ exact E | intros x [] ].
    + destruct (first_handle_at hs px py) as [h'|].
      * destruct IH as (before & rect' & after & -> & Hc & Hb).
        exists ((h, rect) :: before), rect', after.
        split; [ reflexivity | ]. split; [ exact Hc | ].
        intros x [<- | Hx]; [ exact E | apply Hb; exact Hx ].
      * intros x [<- | Hx]; [ exact E | apply IH; exact Hx ].
Qed.

(** X26: the resize handle a press grabs is the first of the tool's
    handles, in their order, whose rectangle widened by 10 pixels on each
    side holds the pointer; no handle is grabbed exactly when none
    does. *)
Theorem resize_handle_under_the_pointer (t : Tool) (px py : Z) :
  match _get_resize_handle_at t px py with
  | Some h =>
      exists before rect after,
        resize_handles t = before ++ (h, rect) :: after
        /\ Qt.contains (adjusted (-10) (-10) 10 10 rect) px py = true
        /\ forall x, In x before ->
             Qt.contains (adjusted (-10) (-10) 10 10 (snd x)) px py = false
  | None =>
      forall x, In x (resize_handles t) ->
        Qt.contains (adjusted (-10) (-10) 10 10 (snd x)) px py = false
  end.
Proof. exact (first_handle_at_first (resize_handles t) px py). Qed.

(** * A negative active index *)

(** X27: with a negative active index [_capture_selection] reads the
    layer counted from the end of the list, but [_commit_selection]
    paints on no layer: it saves the history, leaves the layers and the
    modified flag as they are and drops the selection. *)
Theorem negative_index_is_read_but_not_painted {L : Libm} {R : Raster}
    (w : World) (rect : QRect) (layer : Layer) :
  selection_rect (tool w) = Some rect -> rect_bool rect = true ->
  - Z.of_nat (length (layers (ctl w))) <= active_layer_index (ctl w) < 0 ->
  nth_error (layers (ctl w))
    (Z.to_nat (Z.of_nat (length (layers (ctl w)))
               + active_layer_index (ctl w)))
  = Some layer ->
  (forall m, _create_selection_mask (tool w) = Some m ->
   _capture_selection w
   = Ok (T (set_selected_content (Some (captured (image layer) m rect)))
           (T (set_selection_mask (Some m)) w)))
  /\ (forall content,
        is_floating (tool w) = true ->
        selected_content (tool w) = Some content ->
        let w' := _commit_selection w in
        layers (ctl w') = layers (ctl w)
        /\ is_modified (ctl w') = is_modified (ctl w)
        /\ undo_stack (ctl w') = undo_stack (save_to_history (ctl w))
        /\ status_log (ctl w')
           = status_log (ctl w) ++ [Status_selection_cancelled]
        /\ is_floating (tool w') = false
        /\ selected_content (tool w') = None).
Proof.
  intros Hr Hv Hi Hn. split.
  - intros m Hm. unfold _capture_selection. rewrite Hr, Hv. cbn [negb].
    assert (Hg : Py.getitem (layers (ctl w)) (active_layer_index (ctl w))
                 = Some layer).
    { unfold Py.getitem. cbv zeta.
      assert (E1 : (0 <=? active_layer_index (ctl w))
                   && (active_layer_index (ctl w)
                       <? Z.of_nat (length (layers (ctl w)))) = false).
      { apply andb_false_iff. left. apply Z.leb_gt. lia. }
      assert (E2 : (- Z.of_nat (length (layers (ctl w)))
                    <=? active_layer_index (ctl w))
                   && (active_layer_index (ctl w) <? 0) = true).
      { apply andb_true_iff. split; [ apply Z.leb_le | apply Z.ltb_lt ]; lia. }
      rewrite E1, E2. exact Hn. }
    rewrite Hg, Hm.
    destruct (layers (ctl w)) as [|l0 ls] eqn:El; [ cbn in Hi; lia | ].
    reflexivity.
  - intros content Hf Hc. cbv zeta.
    unfold _commit_selection. rewrite Hr, Hc, Hf, Hv. cbn [negb orb].
    cbv zeta.
    pose proof (core_cancel_selection
                  (C (draw_on_active_layer
                        (draw_transformed_selection
                           (tool (C save_to_history w)) rect content) false)
                     (C save_to_history w))) as Hcore.
    use_core Hcore.
    rewrite !ctl_cancel_selection. rewrite !ctl_C.
    destruct (save_to_history_keeps (ctl w)) as (Kl & Ka & _ & _ & Ks & Km).
    destruct (draw_cases
                (draw_transformed_selection (tool (C save_to_history w))
                   rect content)
                false (save_to_history (ctl w)))
      as [[_ Hd] | [(l1 & H0 & _) | (l1 & c2 & H0 & _)]].
    + rewrite Hd.
      split; [ exact Kl | ]. split; [ exact Km | ].
      split; [ destruct (save_to_history (ctl w)); reflexivity | ].
      split; [ rewrite <- Ks; destruct (save_to_history (ctl w)); reflexivity
             | ].
      split; [ exact Ef | exact Ec ].
    + rewrite Ka in H0. lia.
    + rewrite Ka in H0. lia.
Qed.

(** One red layer with the active index -1, and the rectangle
    (20,20)-(60,60). *)
Definition outlined_from_the_end : World :=
  C (set_active_layer_index (-1)) outlined.

Lemma negative_index_is_read_but_not_painted_witness :
  selection_rect (tool outlined_from_the_end)
  = Some (QRect_xywh 20 20 40 40)
  /\ rect_bool (QRect_xywh 20 20 40 40) = true
  /\ - Z.of_nat (length (layers (ctl outlined_from_the_end)))
     <= active_layer_index (ctl outlined_from_the_end) < 0
  /\ nth_error (layers (ctl outlined_from_the_end))
       (Z.to_nat (Z.of_nat (length (layers (ctl outlined_from_the_end)))
                  + active_layer_index (ctl outlined_from_the_end)))
     = Some (red_layer false)
  /\ ((forall m,
         _create_selection_mask (R := Probe.raster)
           (tool outlined_from_the_end) = Some m ->
         _capture_selection (R := Probe.raster) outlined_from_the_end
         = Ok (T (set_selected_content
                    (Some (captured (R := Probe.raster)
                             (image (red_layer false)) m
                             (QRect_xywh 20 20 40 40))))
                 (T (set_selection_mask (Some m)) outlined_from_the_end)))
      /\ (forall content,
            is_floating (tool outlined_from_the_end) = true ->
            selected_content (tool outlined_from_the_end) = Some content ->
            let w' :=
              _commit_selection (L := Probe.libm) (R := Probe.raster)
                outlined_from_the_end in
            layers (ctl w') = layers (ctl outlined_from_the_end)
            /\ is_modified (ctl w') = is_modified (ctl outlined_from_the_end)
            /\ undo_stack (ctl w')
               = undo_stack (save_to_history (ctl outlined_from_the_end))
            /\ status_log (ctl w')
               = status_log (ctl outlined_from_the_end)
                 ++ [Status_selection_cancelled]
            /\ is_floating (tool w') = false
            /\ selected_content (tool w') = None)).
Proof.
  assert (H1 : selection_rect (tool outlined_from_the_end)
               = Some (QRect_xywh 20 20 40 40)) by reflexivity.
  assert (H2 : rect_bool (QRect_xywh 20 20 40 40) = true)
    by (vm_compute; reflexivity).
  assert (H3 : - Z.of_nat (length (layers (ctl outlined_from_the_end)))
               <= active_layer_index (ctl outlined_from_the_end) < 0)
    by (cbn; lia).
  assert (H4 : nth_error (layers (ctl outlined_from_the_end))
                 (Z.to_nat
                    (Z.of_nat (length (layers (ctl outlined_from_the_end)))
                     + active_layer_index (ctl outlined_from_the_end)))
               = Some (red_layer false)) by reflexivity.
  do 4 (split; [ assumption | ]).
  exact (negative_index_is_read_but_not_painted (L := Probe.libm)
           (R := Probe.raster) outlined_from_the_end
           (QRect_xywh 20 20 40 40) (red_layer false) H1 H2 H3 H4).
Defined.

(** * Undo after a drawing *)

(** [draw_on_active_layer] with [save_history] on an unlocked layer
    within the list, for an operation that has not saved yet. *)
Lemma draw_saves_once (f : QPainter -> QPainter) (c : Controller)
    (layer : Layer) :
  0 <= active_layer_index c ->
  nth_error (layers c) (Z.to_nat (active_layer_index c)) = Some layer ->
  locked layer = false ->
  let c' := draw_on_active_layer f true c in
  undo_stack c'
  = (if current_operation_saved c then undo_stack c
     else undo_stack (save_to_history c))
  /\ current_operation_saved c' = true
  /\ active_layer_index c' = active_layer_index c
  /\ is_recording c' = is_recording c
  /\ adjustments c' = adjustments c
  /\ (exists layer',
        nth_error (layers c') (Z.to_nat (active_layer_index c))
        = Some layer' /\ locked layer' = false)
  /\ layers c' <> [].
Proof.
  intros H0 Hn Hl. cbv zeta. unfold draw_on_active_layer. cbv zeta.
  assert (Hlen : (Z.to_nat (active_layer_index c) < length (layers c))%nat)
    by (apply nth_error_Some; rewrite Hn; discriminate).
  assert (Hc : (active_layer_index c <? 0)
               || (Z.of_nat (length (layers c)) <=? active_layer_index c)
               = false).
  { apply orb_false_iff. split; [ apply Z.ltb_ge | apply Z.leb_gt ]; lia. }
  rewrite Hc, Hn, Hl. cbn [andb].
  destruct (save_to_history_keeps c) as (Kl & Ka & Kj & Kr & _).
  assert (Hset : forall c2 : Controller,
            layers c2 = layers c ->
            let c' := set_is_modified true
                        (set_pending_update true
                           (set_layers
                              (list_set (layers c2)
                                 (Z.to_nat (active_layer_index c))
                                 (set_image (device (f (begin (image layer))))
                                    layer)) c2)) in
            undo_stack c' = undo_stack c2
            /\ current_operation_saved c' = current_operation_saved c2
            /\ active_layer_index c' = active_layer_index c2
            /\ is_recording c' = is_recording c2
            /\ adjustments c' = adjustments c2
            /\ (exists layer',
                  nth_error (layers c') (Z.to_nat (active_layer_index c))
                  = Some layer' /\ locked layer' = false)
            /\ layers c' <> []).
  { intros c2 Hl2. cbv zeta.
    replace (layers
               (set_is_modified true
                  (set_pending_update true
                     (set_layers
                        (list_set (layers c2)
                           (Z.to_nat (active_layer_index c))
                           (set_image (device (f (begin (image layer))))
                              layer)) c2))))
      with (list_set (layers c2) (Z.to_nat (active_layer_index c))
              (set_image (device (f (begin (image layer)))) layer))
      by (destruct c2; reflexivity).
    rewrite Hl2.
    split; [ destruct c2; reflexivity | ].
    split; [ destruct c2; reflexivity | ].
    split; [ destruct c2; reflexivity | ].
    split; [ destruct c2; reflexivity | ].
    split; [ destruct c2; reflexivity | ].
    split.
    - eexists. split; [ apply nth_error_list_set_eq; exact Hlen | exact Hl ].
    - intro Hnil. apply (f_equal (@length Layer)) in Hnil.
      rewrite length_list_set in Hnil. cbn in Hnil. lia. }
  destruct (current_operation_saved c) eqn:Es; cbn [negb].
  - destruct (Hset c eq_refl) as (A1 & A2 & A3 & A4 & A5 & A6 & A7).
    rewrite A1, A2, A3, A4, A5. repeat split; auto.
  - assert (Hl2 : layers (set_current_operation_saved true
                            (save_to_history c)) = layers c)
      by (rewrite <- Kl; destruct (save_to_history c); reflexivity).
    destruct (Hset _ Hl2) as (A1 & A2 & A3 & A4 & A5 & A6 & A7).
    rewrite A1, A2, A3, A4, A5.
    split; [ destruct (save_to_history c); reflexivity | ].
    split; [ destruct (save_to_history c); reflexivity | ].
    split; [ rewrite <- Ka; destruct (save_to_history c); reflexivity | ].
    split; [ rewrite <- Kr; destruct (save_to_history c); reflexivity | ].
    split; [ rewrite <- Kj; destruct (save_to_history c); reflexivity | ].
    split; assumption.
Qed.

(** X28: a drawing operation is undone as a whole: after one or two
    calls of [draw_on_active_layer] with [save_history] within one
    operation, on an unlocked active layer, a single undo gives back the
    layers, the active index and the adjustments as they were before the
    first call. *)
Theorem undo_takes_back_a_drawing (f g : QPainter -> QPainter)
    (c : Controller) (layer : Layer) :
  is_recording c = true -> current_operation_saved c = false ->
  0 <= active_layer_index c ->
  nth_error (layers c) (Z.to_nat (active_layer_index c)) = Some layer ->
  locked layer = false ->
  let c1 := draw_on_active_layer f true c in
  let c2 := draw_on_active_layer g true c1 in
  (layers (fst (undo c1)) = layers c
   /\ active_layer_index (fst (undo c1)) = active_layer_index c
   /\ adjustments (fst (undo c1)) = adjustments c)
  /\ (layers (fst (undo c2)) = layers c
      /\ active_layer_index (fst (undo c2)) = active_layer_index c
      /\ adjustments (fst (undo c2)) = adjustments c).
Proof.
  intros Hrec Hs H0 Hn Hl. cbv zeta.
  destruct (draw_saves_once f c layer H0 Hn Hl)
    as (U1 & S1 & A1 & R1 & J1 & (layer1 & N1 & L1) & _).
  rewrite Hs in U1.
  assert (Hne : exists l ls, layers c = l :: ls).
  { destruct (layers c) as [|l ls]; [ | eauto ].
    destruct (Z.to_nat (active_layer_index c)); discriminate Hn. }
  destruct Hne as (l & ls & El).
  rewrite (save_to_history_pushes c l ls Hrec El) in U1.
  replace (undo_stack
             (set_redo_stack []
                (set_undo_stack
                   (Py.deque_append MAX_HISTORY (undo_stack c)
                      (mkSnapshot (layers c) (active_layer_index c)
                         (adjustments c))) c)))
    with (Py.deque_append MAX_HISTORY (undo_stack c)
            (mkSnapshot (layers c) (active_layer_index c) (adjustments c)))
    in U1 by (destruct c; reflexivity).
  rewrite (deque_append_snoc MAX_HISTORY _ _ MAX_HISTORY_pos) in U1.
  split.
  - rewrite (undo_pops _ _ _ U1). cbn [fst].
    cbn [layers active_layer_index adjustments
         snap_layers snap_active snap_adjustments].
    repeat split.
  - assert (H01 : 0 <= active_layer_index (draw_on_active_layer f true c))
      by (rewrite A1; exact H0).
    assert (N1' : nth_error (layers (draw_on_active_layer f true c))
                    (Z.to_nat
                       (active_layer_index (draw_on_active_layer f true c)))
                  = Some layer1)
      by (rewrite A1; exact N1).
    destruct (draw_saves_once g (draw_on_active_layer f true c) layer1
                H01 N1' L1) as (U2 & _).
    rewrite S1, U1 in U2.
    rewrite (undo_pops _ _ _ U2). cbn [fst].
    cbn [layers active_layer_index adjustments
         snap_layers snap_active snap_adjustments].
    repeat split.
Qed.

Lemma undo_takes_back_a_drawing_witness :
  is_recording (controller_of [red_layer false] []) = true
  /\ current_operation_saved (controller_of [red_layer false] []) = false
  /\ 0 <= active_layer_index (controller_of [red_layer false] [])
  /\ nth_error (layers (controller_of [red_layer false] []))
       (Z.to_nat (active_layer_index (controller_of [red_layer false] [])))
     = Some (red_layer false)
  /\ locked (red_layer false) = false
  /\ (let c1 :=
        draw_on_active_layer (fun p => p) true
          (controller_of [red_layer false] []) in
      let c2 := draw_on_active_layer (fun p => p) true c1 in
      (layers (fst (undo c1)) = layers (controller_of [red_layer false] [])
       /\ active_layer_index (fst (undo c1))
          = active_layer_index (controller_of [red_layer false] [])
       /\ adjustments (fst (undo c1))
          = adjustments (controller_of [red_layer false] []))
      /\ (layers (fst (undo c2)) = layers (controller_of [red_layer false] [])
          /\ active_layer_index (fst (undo c2))
             = active_layer_index (controller_of [red_layer false] [])
          /\ adjustments (fst (undo c2))
             = adjustments (controller_of [red_layer false] []))).
Proof.
  assert (H1 : is_recording (controller_of [red_layer false] []) = true)
    by reflexivity.
  assert (H2 : current_operation_saved (controller_of [red_layer false] [])
               = false) by reflexivity.
  assert (H3 : 0 <= active_layer_index (controller_of [red_layer false] []))
    by (cbn; lia).
  assert (H4 : nth_error (layers (controller_of [red_layer false] []))
                 (Z.to_nat
                    (active_layer_index (controller_of [red_layer false] [])))
               = Some (red_layer false)) by reflexivity.
  assert (H5 : locked (red_layer false) = false) by reflexivity.
  do 5 (split; [ assumption | ]).
  exact (undo_takes_back_a_drawing (fun p => p) (fun p => p)
           (controller_of [red_layer false] []) (red_layer false)
           H1 H2 H3 H4 H5).
Defined.

(** * The scale of a floating selection *)

(** Finishing an outline of the rectangle or ellipse tool starts the
    floating state with the scale 1 and the angle 0, whatever they were,
    whether or not the capture that follows raises. *)
Lemma finalize_starts_unscaled {L : Libm} {R : Raster} (w : World)
    (s e : QPoint) :
  is_polygon w = false ->
  start_pos (tool w) = Some s -> end_pos (tool w) = Some e ->
  point_bool s = true -> point_bool e = true ->
  1 < Z.abs (pt_x e - pt_x s) -> 1 < Z.abs (pt_y e - pt_y s) ->
  let w' := world_of (_finalize_selection w) in
  is_floating (tool w') = true
  /\ scale_factor (tool w') = 1%Q /\ rotation_angle (tool w') = 0%Q.
Proof.
  intros Hp Hs He Hps Hpe Hx Hy. cbv zeta.
  unfold _finalize_selection. rewrite (base_variant w _ _ _ Hp).
  unfold BaseSelectTool_finalize_selection.
  rewrite Hs, He, Hps, Hpe. cbn [andb negb]. cbv zeta.
  assert (Hsz : (1 <? Z.max (pt_x s) (pt_x e) - Z.min (pt_x s) (pt_x e))
                && (1 <? Z.max (pt_y s) (pt_y e) - Z.min (pt_y s) (pt_y e))
                = true)
    by (apply andb_true_iff; split; apply Z.ltb_lt; lia).
  rewrite Hsz.
  match goal with
  | |- context [_capture_selection ?X] =>
      destruct (capture_transform X) as (Hf5 & Hs5 & Ha5);
      assert (HfX : is_floating (tool X) = true)
        by (destruct w as [c t]; destruct t; reflexivity);
      assert (HsX : scale_factor (tool X) = 1%Q)
        by (destruct w as [c t]; destruct t; reflexivity);
      assert (HaX : rotation_angle (tool X) = 0%Q)
        by (destruct w as [c t]; destruct t; reflexivity);
      rewrite HfX in Hf5; rewrite HsX in Hs5; rewrite HaX in Ha5;
      destruct (_capture_selection X) as [w5|w5];
      cbn [bind world_of] in *
  end.
  - match goal with
    | |- is_floating (tool ?W) = true /\ _ =>
        assert (Hsame : same w5 W) by sames
    end.
    destruct (same_transform _ _ Hsame) as (Ef & Es & Ea).
    rewrite Ef, Es, Ea. repeat split; assumption.
  - repeat split; assumption.
Qed.

(** X30: from a new tool, after every sequence of events, the scale of
    the selection lies between 0.1 and 10, the bounds of the clamp of
    [_handle_scaling]; and an outline of the rectangle or ellipse tool,
    more than one pixel wide and high and with neither end at the point
    (0,0), starts floating with the scale 1 and the angle 0, whatever
    they were before. *)
Theorem scale_stays_clamped {L : Libm} {R : Raster}
    (v : Variant) (c : Controller) (es : list Event)
    (w : World) (s e : QPoint) :
  is_polygon w = false ->
  start_pos (tool w) = Some s -> end_pos (tool w) = Some e ->
  point_bool s = true -> point_bool e = true ->
  1 < Z.abs (pt_x e - pt_x s) -> 1 < Z.abs (pt_y e - pt_y s) ->
  let t := tool (world_of (run es (start_world v c))) in
  let w' := world_of (_finalize_selection w) in
  ((1 # 10 <= scale_factor t)%Q /\ (scale_factor t <= 10)%Q)
  /\ (is_floating (tool w') = true
      /\ scale_factor (tool w') = 1%Q /\ rotation_angle (tool w') = 0%Q).
Proof.
  intros Hp Hs He Hps Hpe Hx Hy. cbv zeta. split.
  - destruct (run_inv es (start_world v c) (new_tool_inv v)) as [Ht _].
    destruct Ht as [Hsc _]. exact Hsc.
  - apply (finalize_starts_unscaled w s e); assumption.
Qed.

Lemma scale_stays_clamped_witness :
  is_polygon outline_on_red = false
  /\ start_pos (tool outline_on_red) = Some (mkQPoint 20 20)
  /\ end_pos (tool outline_on_red) = Some (mkQPoint 60 60)
  /\ point_bool (mkQPoint 20 20) = true
  /\ point_bool (mkQPoint 60 60) = true
  /\ 1 < Z.abs (pt_x (mkQPoint 60 60) - pt_x (mkQPoint 20 20))
  /\ 1 < Z.abs (pt_y (mkQPoint 60 60) - pt_y (mkQPoint 20 20))
  /\ (let t :=
        tool (world_of (run (L := Probe.libm) (R := Probe.raster)
                          move_and_scale
                          (start_world RectSelectTool
                             (controller_of [red_layer false] [])))) in
      let w' :=
        world_of (_finalize_selection (L := Probe.libm) (R := Probe.raster)
                    outline_on_red) in
      ((1 # 10 <= scale_factor t)%Q /\ (scale_factor t <= 10)%Q)
      /\ (is_floating (tool w') = true
          /\ scale_factor (tool w') = 1%Q
          /\ rotation_angle (tool w') = 0%Q)).
Proof.
  assert (H1 : is_polygon outline_on_red = false)
    by (vm_compute; reflexivity).
  assert (H2 : start_pos (tool outline_on_red) = Some (mkQPoint 20 20))
    by (vm_compute; reflexivity).
  assert (H3 : end_pos (tool outline_on_red) = Some (mkQPoint 60 60))
    by (vm_compute; reflexivity).
  assert (H4 : point_bool (mkQPoint 20 20) = true)
    by (vm_compute; reflexivity).
  assert (H5 : point_bool (mkQPoint 60 60) = true)
    by (vm_compute; reflexivity).
  assert (H6 : 1 < Z.abs (pt_x (mkQPoint 60 60) - pt_x (mkQPoint 20 20)))
    by (simpl; lia).
  assert (H7 : 1 < Z.abs (pt_y (mkQPoint 60 60) - pt_y (mkQPoint 20 20)))
    by (simpl; lia).
  do 7 (split; [ assumption | ]).
  exact (scale_stays_clamped (L := Probe.libm) (R := Probe.raster)
           RectSelectTool (controller_of [red_layer false] []) move_and_scale
           outline_on_red (mkQPoint 20 20) (mkQPoint 60 60)
           H1 H2 H3 H4 H5 H6 H7).
Defined.
